(** * The task scheduling core: task queues, the time domain and timers

    A shallow embedding of
    - [base/task/sequence_manager/task_queue_impl.cc],
    - [base/task/sequence_manager/time_domain.cc] and
    - [base/timer/timer.cc],
    followed by the properties of the scheduling core proved about it.

    Conventions.
    - [TimeTicks] and [TimeDelta] are integers (microseconds); the null
      [TimeTicks()] is [0].
    - An [EnqueueOrder] is an unsigned number; [none] is [0] and
      [blocking_fence] is [1].
    - A function that can hit a [CHECK] or dereference a null pointer
      runs in the monad [M]: [None] is the crash.
    - Debug-only code ([DCHECK_IS_ON()] blocks, [DCHECK]s) and tracing are left
      out: they do not change the state the properties speak about. *)

From Stdlib Require Import ZArith NArith List Bool Lia Sorted Permutation.
Import ListNotations.

Set Implicit Arguments.

(** ** Time, enqueue orders and tasks *)

Definition TimeTicks := Z.
Definition TimeDelta := Z.

(** Modelled from the spec: [base/time] is not among the sources; a
    [TimeTicks] plus a [TimeDelta] is the sum of the two tick counts. *)
Definition TimeTicks_plus (t : TimeTicks) (d : TimeDelta) : TimeTicks :=
  (t + d)%Z.

Definition TimeTicks_Max : TimeTicks := 9223372036854775807%Z.

Module EnqueueOrder.
Definition t := N.
Definition none : t := 0%N.
Definition blocking_fence : t := 1%N.
Definition max : t := 18446744073709551615%N.
(** [operator bool]: an enqueue order is set when it is not [none]. *)
Definition is_set (o : t) : bool := negb (o =? none)%N.
End EnqueueOrder.

Inductive Nestable := kNonNestable | kNestable.
Inductive WakeUpResolution := kLow | kHigh.
Inductive CurrentThread := kMainThread | kNotMainThread.
Inductive InsertFencePosition := kNow | kBeginningOfTime.

(** A pointer of which the code only tests whether it is null. *)
Inductive Ptr := nullptr | bound.

Definition is_bound (p : Ptr) : bool :=
  match p with nullptr => false | bound => true end.

(** A task, over the type of its callback. *)
Record TaskOf (Closure : Type) := mkTask {
  task : Closure;
  queue_time : TimeTicks;
  delayed_run_time : TimeTicks;
  sequence_num : EnqueueOrder.t;
  enqueue_order : EnqueueOrder.t;
  nestable : Nestable;
  task_type : nat;
  is_high_res : bool
}.

#[local] Set Warnings "-register-all".

(** [OnceClosure]: a null callback, a user callback (which is cancelled when
    its weak receiver is gone), or the helper bound by
    [PushOntoDelayedIncomingQueue], which carries the delayed task. *)
Inductive OnceClosure :=
| null_closure
| user_closure (id : nat) (cancelled : bool)
| ScheduleDelayedWorkTask_closure (pending_task : TaskOf OnceClosure).

Definition Task := TaskOf OnceClosure.

Definition closure_is_null (c : OnceClosure) : bool :=
  match c with null_closure => true | _ => false end.

Definition IsCancelled (c : OnceClosure) : bool :=
  match c with user_closure _ cancelled => cancelled | _ => false end.

Definition enqueue_order_set (t : Task) : bool :=
  EnqueueOrder.is_set (enqueue_order t).

Definition set_enqueue_order (o : EnqueueOrder.t) (t : Task) : Task :=
  mkTask (task t) (queue_time t) (delayed_run_time t) (sequence_num t) o
         (nestable t) (task_type t) (is_high_res t).

Definition set_delayed_run_time (r : TimeTicks) (t : Task) : Task :=
  mkTask (task t) (queue_time t) r (sequence_num t) (enqueue_order t)
         (nestable t) (task_type t) (is_high_res t).

Record PostedTask := mkPostedTask {
  callback : OnceClosure;
  delay : TimeDelta;
  posted_nestable : Nestable;
  posted_task_type : nat;
  posted_queue_time : TimeTicks
}.

Definition set_posted_queue_time (qt : TimeTicks) (p : PostedTask) : PostedTask :=
  mkPostedTask (callback p) (delay p) (posted_nestable p) (posted_task_type p) qt.

(** Modelled from the spec: the [Task] constructor is declared in a header
    that is not among the sources.  The task takes the callback, queue time,
    nestability and task type of the posted task; it is high resolution when
    the wake-up resolution is [kHigh]. *)
Definition make_Task (p : PostedTask) (run_time : TimeTicks)
           (sequence_order enqueue : EnqueueOrder.t)
           (resolution : WakeUpResolution) : Task :=
  mkTask (callback p) (posted_queue_time p) run_time sequence_order enqueue
         (posted_nestable p) (posted_task_type p)
         (match resolution with kHigh => true | kLow => false end).

(** ** The heap of delayed tasks *)

Module PQueue.

(** Modelled from the spec: the comparison of tasks is declared outside the
    sources.  The heap is a min-heap on (delayed run time, sequence
    number): [before a b] says that [a] is not after [b]. *)
Definition before (a b : Task) : bool :=
  (delayed_run_time a <? delayed_run_time b)%Z
  || ((delayed_run_time a =? delayed_run_time b)%Z
      && (sequence_num a <=? sequence_num b)%N).

(** [std::priority_queue] keeps its vector [c] in a heap layout that the
    language leaves open.  The model keeps [c] ordered by [before], which is
    a heap layout: every element precedes its children. *)
Fixpoint push_heap (t : Task) (c : list Task) : list Task :=
  match c with
  | [] => [t]
  | x :: c' => if before t x then t :: c else x :: push_heap t c'
  end.

Definition make_heap (c : list Task) : list Task :=
  fold_right push_heap [] c.

Definition push (t : Task) (c : list Task) : list Task := push_heap t c.
Definition top (c : list Task) : option Task := hd_error c.
Definition pop (c : list Task) : list Task := tl c.

(** The predicate of [SweepCancelledTasks]; it counts the high resolution
    tasks it rejects in [num_high_res_tasks_swept]. *)
Definition keep_task (t : Task) (num_high_res_tasks_swept : N) : bool * N :=
  if negb (IsCancelled (task t)) then (true, num_high_res_tasks_swept)
  else if is_high_res t then (false, (num_high_res_tasks_swept + 1)%N)
  else (false, num_high_res_tasks_swept).

(** [std::stable_partition] with a predicate that threads a counter: the
    kept elements and the rejected ones, each in their original order. *)
Fixpoint stable_partition (pred : Task -> N -> bool * N) (c : list Task)
         (n : N) : list Task * list Task * N :=
  match c with
  | [] => ([], [], n)
  | x :: c' =>
      let '(keep, n1) := pred x n in
      let '(kept, deleted, n2) := stable_partition pred c' n1 in
      if keep then (x :: kept, deleted, n2) else (kept, x :: deleted, n2)
  end.

Definition SweepCancelledTasks (c : list Task) : list Task * N :=
  let '(kept, tasks_to_delete, num_high_res_tasks_swept) :=
    stable_partition keep_task c 0%N in
  match tasks_to_delete with
  | [] => (kept, num_high_res_tasks_swept)
  | _ :: _ => (make_heap kept, num_high_res_tasks_swept)
  end.

End PQueue.

Record DelayedIncomingQueue := mkDelayedIncomingQueue {
  queue_ : list Task;
  pending_high_res_tasks_ : Z
}.

Module DelayedIncomingQueue.

Definition empty_queue : DelayedIncomingQueue := mkDelayedIncomingQueue [] 0.

Definition empty (q : DelayedIncomingQueue) : bool :=
  match queue_ q with [] => true | _ => false end.

Definition size (q : DelayedIncomingQueue) : nat := length (queue_ q).

Definition top (q : DelayedIncomingQueue) : option Task := PQueue.top (queue_ q).

Definition has_pending_high_resolution_tasks (q : DelayedIncomingQueue) : bool :=
  negb (pending_high_res_tasks_ q =? 0)%Z.

Definition push (t : Task) (q : DelayedIncomingQueue) : DelayedIncomingQueue :=
  mkDelayedIncomingQueue
    (PQueue.push t (queue_ q))
    (if is_high_res t then pending_high_res_tasks_ q + 1
     else pending_high_res_tasks_ q)%Z.

(** [pop] needs a top: on an empty queue there is none. *)
Definition pop (q : DelayedIncomingQueue) : option DelayedIncomingQueue :=
  match top q with
  | None => None
  | Some t =>
      Some (mkDelayedIncomingQueue
              (PQueue.pop (queue_ q))
              (if is_high_res t then pending_high_res_tasks_ q - 1
               else pending_high_res_tasks_ q)%Z)
  end.

Definition swap (q rhs : DelayedIncomingQueue)
  : DelayedIncomingQueue * DelayedIncomingQueue := (rhs, q).

Definition SweepCancelledTasks (q : DelayedIncomingQueue) : DelayedIncomingQueue :=
  let '(c, swept) := PQueue.SweepCancelledTasks (queue_ q) in
  mkDelayedIncomingQueue c (pending_high_res_tasks_ q - Z.of_N swept)%Z.

End DelayedIncomingQueue.


(** ** Work queues *)

(** Modelled from the spec: [work_queue.cc] is not among the sources.  A work
    queue is a sequence of tasks consumed from the front, with a fence: tasks
    whose enqueue order is at or above the fence are blocked. *)
Record WorkQueue := mkWorkQueue {
  tasks_ : list Task;
  fence_ : EnqueueOrder.t;
  work_queue_set_index : nat
}.

Module WorkQueue.

Definition Empty (wq : WorkQueue) : bool :=
  match tasks_ wq with [] => true | _ => false end.

Definition Size (wq : WorkQueue) : nat := length (tasks_ wq).

(** Modelled from the spec: a queue with a fence is blocked when it has no
    task or its front task is at or above the fence. *)
Definition BlockedByFence (wq : WorkQueue) : bool :=
  if negb (EnqueueOrder.is_set (fence_ wq)) then false
  else match tasks_ wq with
       | [] => true
       | t :: _ => (fence_ wq <=? enqueue_order t)%N
       end.

Definition set_fence (f : EnqueueOrder.t) (wq : WorkQueue) : WorkQueue :=
  mkWorkQueue (tasks_ wq) f (work_queue_set_index wq).

(** Modelled from the spec: [InsertFence] installs the fence and tells
    whether the front task went from blocked to unblocked. *)
Definition InsertFence (f : EnqueueOrder.t) (wq : WorkQueue) : bool * WorkQueue :=
  let was_blocked_by_fence := BlockedByFence wq in
  let wq' := set_fence f wq in
  (negb (Empty wq') && was_blocked_by_fence && negb (BlockedByFence wq'), wq').

Definition InsertFenceSilently (f : EnqueueOrder.t) (wq : WorkQueue) : WorkQueue :=
  set_fence f wq.

(** Modelled from the spec: [RemoveFence] clears the fence and tells whether
    a blocked front task was unblocked. *)
Definition RemoveFence (wq : WorkQueue) : bool * WorkQueue :=
  let was_blocked_by_fence := BlockedByFence wq in
  let wq' := set_fence EnqueueOrder.none wq in
  (negb (Empty wq') && was_blocked_by_fence, wq').

(** Modelled from the spec: [TaskPusher::Push] appends the task at the back. *)
Definition Push (t : Task) (wq : WorkQueue) : WorkQueue :=
  mkWorkQueue (tasks_ wq ++ [t]) (fence_ wq) (work_queue_set_index wq).

Definition set_tasks (ts : list Task) (wq : WorkQueue) : WorkQueue :=
  mkWorkQueue ts (fence_ wq) (work_queue_set_index wq).

End WorkQueue.

(** ** The time domain *)

Record DelayedWakeUp := mkDelayedWakeUp {
  wake_up_time : TimeTicks;
  wake_up_sequence_num : EnqueueOrder.t;
  resolution : WakeUpResolution
}.

Definition QueueId := nat.

Record ScheduledDelayedWakeUp := mkScheduledDelayedWakeUp {
  wake_up : DelayedWakeUp;
  queue : QueueId
}.

Definition WakeUpResolution_eqb (a b : WakeUpResolution) : bool :=
  match a, b with kLow, kLow | kHigh, kHigh => true | _, _ => false end.

Definition DelayedWakeUp_eqb (a b : DelayedWakeUp) : bool :=
  (wake_up_time a =? wake_up_time b)%Z
  && (wake_up_sequence_num a =? wake_up_sequence_num b)%N
  && WakeUpResolution_eqb (resolution a) (resolution b).

Definition option_eqb {A} (eqb : A -> A -> bool) (a b : option A) : bool :=
  match a, b with
  | None, None => true
  | Some x, Some y => eqb x y
  | _, _ => false
  end.

(** Modelled from the spec: the intrusive heap is not among the sources.  It is
    a min-heap keyed on the wake-up (time, then sequence number) that supports
    key change and erasure through the handle of an entry.  The model is the
    sequence of entries; the handle of a queue is the position of its entry,
    and is valid exactly when the heap has such an entry. *)
Module IntrusiveHeap.

Definition t := list ScheduledDelayedWakeUp.

Definition le (a b : ScheduledDelayedWakeUp) : bool :=
  if (wake_up_time (wake_up a) =? wake_up_time (wake_up b))%Z
  then (wake_up_sequence_num (wake_up a) <=? wake_up_sequence_num (wake_up b))%N
  else (wake_up_time (wake_up a) <? wake_up_time (wake_up b))%Z.

Definition empty (h : t) : bool := match h with [] => true | _ => false end.

Fixpoint Min (h : t) : option ScheduledDelayedWakeUp :=
  match h with
  | [] => None
  | e :: h' =>
      match Min h' with
      | None => Some e
      | Some m => if le e m then Some e else Some m
      end
  end.

(** [queue->heap_handle()]. *)
Fixpoint heap_handle (q : QueueId) (h : t) : option nat :=
  match h with
  | [] => None
  | e :: h' =>
      if Nat.eqb (queue e) q then Some O
      else option_map S (heap_handle q h')
  end.

Definition at_ (handle : nat) (h : t) : option ScheduledDelayedWakeUp :=
  nth_error h handle.

Definition insert (e : ScheduledDelayedWakeUp) (h : t) : t := h ++ [e].

Fixpoint ChangeKey (handle : nat) (e : ScheduledDelayedWakeUp) (h : t) : t :=
  match h, handle with
  | [], _ => []
  | _ :: h', O => e :: h'
  | x :: h', S n => x :: ChangeKey n e h'
  end.

Fixpoint erase (handle : nat) (h : t) : t :=
  match h, handle with
  | [], _ => []
  | _ :: h', O => h'
  | x :: h', S n => x :: erase n h'
  end.

End IntrusiveHeap.

Record TimeDomain := mkTimeDomain {
  delayed_wake_up_queue_ : IntrusiveHeap.t;
  pending_high_res_wake_up_count_ : Z;
  (** what the virtual [Now()] of the domain reads *)
  clock_now : TimeTicks
}.

(** What the scheduling core calls on its collaborators, in call order. *)
Inductive Event :=
| EvLock
| EvUnlock
| EvGetNextSequenceNumber (allocated : EnqueueOrder.t)
| EvScheduleWork
| EvSetNextDelayedDoWork (lazy_now run_time : TimeTicks)
| EvWillQueueTask (sequence : EnqueueOrder.t)
| EvOnTaskPosted (sequence : EnqueueOrder.t)
| EvSetActive (active : bool)
| EvOnQueueNextWakeUpChanged (wake_up_time : TimeTicks).

Module TimeDomain.

(** [Now()] is virtual; the model reads the clock of the domain. *)
Definition Now (td : TimeDomain) : TimeTicks := clock_now td.

(** A [LazyNow] is modelled by the time it yields. *)
Definition CreateLazyNow (td : TimeDomain) : TimeTicks := clock_now td.

(** [sequence_manager_->SetNextDelayedDoWork(lazy_now, run_time)]. *)
Definition SetNextDelayedDoWork (lazy_now run_time : TimeTicks) : list Event :=
  [EvSetNextDelayedDoWork lazy_now run_time].

(** [sequence_manager_->ScheduleWork()]. *)
Definition RequestDoWork : list Event := [EvScheduleWork].

Definition min_wake_up_time (h : IntrusiveHeap.t) : option TimeTicks :=
  option_map (fun e => wake_up_time (wake_up e)) (IntrusiveHeap.Min h).

Definition SetNextWakeUpForQueue (q : QueueId) (wake : option DelayedWakeUp)
           (lazy_now : TimeTicks) (td : TimeDomain) : TimeDomain * list Event :=
  let heap := delayed_wake_up_queue_ td in
  let previous_wake_up := min_wake_up_time heap in
  let previous_queue_resolution :=
    match IntrusiveHeap.heap_handle q heap with
    | Some handle =>
        option_map (fun e => resolution (wake_up e)) (IntrusiveHeap.at_ handle heap)
    | None => None
    end in
  let heap' :=
    match wake with
    | Some w =>
        match IntrusiveHeap.heap_handle q heap with
        | Some handle =>
            IntrusiveHeap.ChangeKey handle (mkScheduledDelayedWakeUp w q) heap
        | None => IntrusiveHeap.insert (mkScheduledDelayedWakeUp w q) heap
        end
    | None =>
        match IntrusiveHeap.heap_handle q heap with
        | Some handle => IntrusiveHeap.erase handle heap
        | None => heap
        end
    end in
  let new_wake_up := min_wake_up_time heap' in
  let count1 :=
    match previous_queue_resolution with
    | Some kHigh => (pending_high_res_wake_up_count_ td - 1)%Z
    | _ => pending_high_res_wake_up_count_ td
    end in
  let count2 :=
    match wake with
    | Some w => match resolution w with
                | kHigh => (count1 + 1)%Z
                | kLow => count1
                end
    | None => count1
    end in
  let td' := mkTimeDomain heap' count2 (clock_now td) in
  if option_eqb Z.eqb new_wake_up previous_wake_up then (td', [])
  else
    let new_wake_up' :=
      match new_wake_up with Some t => t | None => TimeTicks_Max end in
    if (new_wake_up' <=? lazy_now)%Z then (td', RequestDoWork)
    else (td', SetNextDelayedDoWork lazy_now new_wake_up').

Definition UnregisterQueue (q : QueueId) (td : TimeDomain) : TimeDomain * list Event :=
  let lazy_now := CreateLazyNow td in
  SetNextWakeUpForQueue q None lazy_now td.

Definition NextScheduledRunTime (td : TimeDomain) : option TimeTicks :=
  min_wake_up_time (delayed_wake_up_queue_ td).

End TimeDomain.


(** ** The state of a task queue *)

(** Modelled from the spec: the operations controller is not among the
    sources.  The gate accepts posts only after [StartAcceptingOperations];
    after [ShutdownAndWaitForZeroOperations] every new post is rejected. *)
Inductive OperationsController :=
| kRejectingBeforeStart
| kAccepting
| kShuttingDown.

Module OperationsController.

Definition TryBeginOperation (c : OperationsController) : bool :=
  match c with kAccepting => true | _ => false end.

Definition StartAcceptingOperations (c : OperationsController) : OperationsController :=
  match c with kRejectingBeforeStart => kAccepting | _ => c end.

Definition ShutdownAndWaitForZeroOperations (c : OperationsController)
  : OperationsController := kShuttingDown.

End OperationsController.

Record MainThreadOnly := mkMainThreadOnly {
  time_domain : Ptr;
  delayed_work_queue : option WorkQueue;
  immediate_work_queue : option WorkQueue;
  delayed_incoming_queue : DelayedIncomingQueue;
  current_fence : EnqueueOrder.t;
  delayed_fence : option TimeTicks;
  is_enabled : bool;
  task_queue_observer : Ptr;
  on_task_completed_handler : Ptr;
  scheduled_wake_up : option DelayedWakeUp;
  enqueue_order_at_which_we_became_unblocked : EnqueueOrder.t;
  enqueue_order_at_which_we_became_unblocked_with_normal_priority : EnqueueOrder.t
}.

Record AnyThread := mkAnyThread {
  any_time_domain : Ptr;
  immediate_incoming_queue : list Task;
  unregistered : bool;
  immediate_work_queue_empty : bool;
  post_immediate_task_should_schedule_work : bool;
  any_task_queue_observer : Ptr;
  on_task_posted_handler : Ptr
}.

Record TaskQueueImpl := mkTaskQueueImpl {
  main_thread_only : MainThreadOnly;
  any_thread_ : AnyThread;
  (** the operations controller of [task_poster_] *)
  operations_controller_ : OperationsController;
  (** the atomic flag of the handle, [None] once it is released *)
  empty_queues_to_reload_handle_ : option bool;
  delayed_fence_allowed_ : bool;
  (** the identity of the queue in the heap of the time domain *)
  this_queue : QueueId
}.

(** Modelled from the spec: the sequence manager is not among the sources.  It
    allocates enqueue orders from a monotonic counter. *)
Record SequenceManagerImpl := mkSequenceManagerImpl {
  next_sequence_number : EnqueueOrder.t;
  add_queue_time_to_tasks : bool
}.

(** The queue with the objects it points to, and the calls made so far. *)
Record World := mkWorld {
  sequence_manager_ : SequenceManagerImpl;
  the_time_domain : TimeDomain;
  this : TaskQueueImpl;
  calls : list Event;
  (** whether the build defines [OS_WIN] *)
  OS_WIN : bool
}.

(** Field updates. *)

Definition set_main (m : MainThreadOnly) (q : TaskQueueImpl) : TaskQueueImpl :=
  mkTaskQueueImpl m (any_thread_ q) (operations_controller_ q)
    (empty_queues_to_reload_handle_ q) (delayed_fence_allowed_ q) (this_queue q).

Definition set_any (a : AnyThread) (q : TaskQueueImpl) : TaskQueueImpl :=
  mkTaskQueueImpl (main_thread_only q) a (operations_controller_ q)
    (empty_queues_to_reload_handle_ q) (delayed_fence_allowed_ q) (this_queue q).

Definition set_operations_controller (c : OperationsController) (q : TaskQueueImpl)
  : TaskQueueImpl :=
  mkTaskQueueImpl (main_thread_only q) (any_thread_ q) c
    (empty_queues_to_reload_handle_ q) (delayed_fence_allowed_ q) (this_queue q).

Definition set_reload_handle (h : option bool) (q : TaskQueueImpl) : TaskQueueImpl :=
  mkTaskQueueImpl (main_thread_only q) (any_thread_ q) (operations_controller_ q)
    h (delayed_fence_allowed_ q) (this_queue q).

Definition set_time_domain (p : Ptr) (m : MainThreadOnly) : MainThreadOnly :=
  mkMainThreadOnly p (delayed_work_queue m) (immediate_work_queue m)
    (delayed_incoming_queue m) (current_fence m) (delayed_fence m) (is_enabled m)
    (task_queue_observer m) (on_task_completed_handler m) (scheduled_wake_up m)
    (enqueue_order_at_which_we_became_unblocked m)
    (enqueue_order_at_which_we_became_unblocked_with_normal_priority m).

Definition set_delayed_work_queue (w : option WorkQueue) (m : MainThreadOnly)
  : MainThreadOnly :=
  mkMainThreadOnly (time_domain m) w (immediate_work_queue m)
    (delayed_incoming_queue m) (current_fence m) (delayed_fence m) (is_enabled m)
    (task_queue_observer m) (on_task_completed_handler m) (scheduled_wake_up m)
    (enqueue_order_at_which_we_became_unblocked m)
    (enqueue_order_at_which_we_became_unblocked_with_normal_priority m).

Definition set_immediate_work_queue (w : option WorkQueue) (m : MainThreadOnly)
  : MainThreadOnly :=
  mkMainThreadOnly (time_domain m) (delayed_work_queue m) w
    (delayed_incoming_queue m) (current_fence m) (delayed_fence m) (is_enabled m)
    (task_queue_observer m) (on_task_completed_handler m) (scheduled_wake_up m)
    (enqueue_order_at_which_we_became_unblocked m)
    (enqueue_order_at_which_we_became_unblocked_with_normal_priority m).

Definition set_delayed_incoming_queue (d : DelayedIncomingQueue) (m : MainThreadOnly)
  : MainThreadOnly :=
  mkMainThreadOnly (time_domain m) (delayed_work_queue m) (immediate_work_queue m)
    d (current_fence m) (delayed_fence m) (is_enabled m)
    (task_queue_observer m) (on_task_completed_handler m) (scheduled_wake_up m)
    (enqueue_order_at_which_we_became_unblocked m)
    (enqueue_order_at_which_we_became_unblocked_with_normal_priority m).

Definition set_current_fence (f : EnqueueOrder.t) (m : MainThreadOnly)
  : MainThreadOnly :=
  mkMainThreadOnly (time_domain m) (delayed_work_queue m) (immediate_work_queue m)
    (delayed_incoming_queue m) f (delayed_fence m) (is_enabled m)
    (task_queue_observer m) (on_task_completed_handler m) (scheduled_wake_up m)
    (enqueue_order_at_which_we_became_unblocked m)
    (enqueue_order_at_which_we_became_unblocked_with_normal_priority m).

Definition set_delayed_fence (f : option TimeTicks) (m : MainThreadOnly)
  : MainThreadOnly :=
  mkMainThreadOnly (time_domain m) (delayed_work_queue m) (immediate_work_queue m)
    (delayed_incoming_queue m) (current_fence m) f (is_enabled m)
    (task_queue_observer m) (on_task_completed_handler m) (scheduled_wake_up m)
    (enqueue_order_at_which_we_became_unblocked m)
    (enqueue_order_at_which_we_became_unblocked_with_normal_priority m).

Definition set_task_queue_observer (p : Ptr) (m : MainThreadOnly) : MainThreadOnly :=
  mkMainThreadOnly (time_domain m) (delayed_work_queue m) (immediate_work_queue m)
    (delayed_incoming_queue m) (current_fence m) (delayed_fence m) (is_enabled m)
    p (on_task_completed_handler m) (scheduled_wake_up m)
    (enqueue_order_at_which_we_became_unblocked m)
    (enqueue_order_at_which_we_became_unblocked_with_normal_priority m).

Definition set_on_task_completed_handler (p : Ptr) (m : MainThreadOnly)
  : MainThreadOnly :=
  mkMainThreadOnly (time_domain m) (delayed_work_queue m) (immediate_work_queue m)
    (delayed_incoming_queue m) (current_fence m) (delayed_fence m) (is_enabled m)
    (task_queue_observer m) p (scheduled_wake_up m)
    (enqueue_order_at_which_we_became_unblocked m)
    (enqueue_order_at_which_we_became_unblocked_with_normal_priority m).

Definition set_scheduled_wake_up (s : option DelayedWakeUp) (m : MainThreadOnly)
  : MainThreadOnly :=
  mkMainThreadOnly (time_domain m) (delayed_work_queue m) (immediate_work_queue m)
    (delayed_incoming_queue m) (current_fence m) (delayed_fence m) (is_enabled m)
    (task_queue_observer m) (on_task_completed_handler m) s
    (enqueue_order_at_which_we_became_unblocked m)
    (enqueue_order_at_which_we_became_unblocked_with_normal_priority m).

Definition set_became_unblocked (o : EnqueueOrder.t) (m : MainThreadOnly)
  : MainThreadOnly :=
  mkMainThreadOnly (time_domain m) (delayed_work_queue m) (immediate_work_queue m)
    (delayed_incoming_queue m) (current_fence m) (delayed_fence m) (is_enabled m)
    (task_queue_observer m) (on_task_completed_handler m) (scheduled_wake_up m)
    o (enqueue_order_at_which_we_became_unblocked_with_normal_priority m).

Definition set_became_unblocked_with_normal_priority (o : EnqueueOrder.t)
           (m : MainThreadOnly) : MainThreadOnly :=
  mkMainThreadOnly (time_domain m) (delayed_work_queue m) (immediate_work_queue m)
    (delayed_incoming_queue m) (current_fence m) (delayed_fence m) (is_enabled m)
    (task_queue_observer m) (on_task_completed_handler m) (scheduled_wake_up m)
    (enqueue_order_at_which_we_became_unblocked m) o.

Definition set_any_time_domain (p : Ptr) (a : AnyThread) : AnyThread :=
  mkAnyThread p (immediate_incoming_queue a) (unregistered a)
    (immediate_work_queue_empty a) (post_immediate_task_should_schedule_work a)
    (any_task_queue_observer a) (on_task_posted_handler a).

Definition set_immediate_incoming_queue (l : list Task) (a : AnyThread) : AnyThread :=
  mkAnyThread (any_time_domain a) l (unregistered a)
    (immediate_work_queue_empty a) (post_immediate_task_should_schedule_work a)
    (any_task_queue_observer a) (on_task_posted_handler a).

Definition set_unregistered (b : bool) (a : AnyThread) : AnyThread :=
  mkAnyThread (any_time_domain a) (immediate_incoming_queue a) b
    (immediate_work_queue_empty a) (post_immediate_task_should_schedule_work a)
    (any_task_queue_observer a) (on_task_posted_handler a).

Definition set_cross_thread_state (work_queue_empty should_schedule : bool)
           (a : AnyThread) : AnyThread :=
  mkAnyThread (any_time_domain a) (immediate_incoming_queue a) (unregistered a)
    work_queue_empty should_schedule
    (any_task_queue_observer a) (on_task_posted_handler a).

Definition set_any_task_queue_observer (p : Ptr) (a : AnyThread) : AnyThread :=
  mkAnyThread (any_time_domain a) (immediate_incoming_queue a) (unregistered a)
    (immediate_work_queue_empty a) (post_immediate_task_should_schedule_work a)
    p (on_task_posted_handler a).


Definition set_is_enabled (b : bool) (m : MainThreadOnly) : MainThreadOnly :=
  mkMainThreadOnly (time_domain m) (delayed_work_queue m) (immediate_work_queue m)
    (delayed_incoming_queue m) (current_fence m) (delayed_fence m) b
    (task_queue_observer m) (on_task_completed_handler m) (scheduled_wake_up m)
    (enqueue_order_at_which_we_became_unblocked m)
    (enqueue_order_at_which_we_became_unblocked_with_normal_priority m).

(** The calls of a task queue on the selector of the sequence manager. *)
Inductive SelectorCall := EnableQueue | DisableQueue.


(** ** The monad of the queue operations

    A computation reads and writes the [World]; [None] is a crash (a failed
    [CHECK] or a null pointer dereference). *)

Definition M (A : Type) : Type := World -> option (A * World).

Definition ret {A} (a : A) : M A := fun w => Some (a, w).

Definition bind {A B} (m : M A) (k : A -> M B) : M B :=
  fun w => match m w with
           | None => None
           | Some (a, w') => k a w'
           end.

Definition crash {A} : M A := fun _ => None.

Notation "x <- m ;; k" := (bind m (fun x => k))
  (at level 61, m at next level, right associativity).
Notation "m ;; k" := (bind m (fun _ => k))
  (at level 61, right associativity).

Definition set_this (q : TaskQueueImpl) (w : World) : World :=
  mkWorld (sequence_manager_ w) (the_time_domain w) q (calls w) (OS_WIN w).

Definition add_calls (es : list Event) (w : World) : World :=
  mkWorld (sequence_manager_ w) (the_time_domain w) (this w) (calls w ++ es)
          (OS_WIN w).

Definition get_queue : M TaskQueueImpl := fun w => Some (this w, w).
Definition put_queue (q : TaskQueueImpl) : M unit := fun w => Some (tt, set_this q w).

Definition main : M MainThreadOnly :=
  q <- get_queue ;; ret (main_thread_only q).
Definition any : M AnyThread :=
  q <- get_queue ;; ret (any_thread_ q).
Definition update_main (f : MainThreadOnly -> MainThreadOnly) : M unit :=
  q <- get_queue ;; put_queue (set_main (f (main_thread_only q)) q).
Definition update_any (f : AnyThread -> AnyThread) : M unit :=
  q <- get_queue ;; put_queue (set_any (f (any_thread_ q)) q).

Definition call (e : Event) : M unit := fun w => Some (tt, add_calls [e] w).

Definition deref {A} (o : option A) : M A :=
  match o with Some a => ret a | None => crash end.

Definition deref_ptr (p : Ptr) : M unit :=
  match p with bound => ret tt | nullptr => crash end.

Definition read {A} (f : TaskQueueImpl -> option A) : M A :=
  q <- get_queue ;; deref (f q).

(** [sequence_manager_->GetNextSequenceNumber()]: the next number of the
    counter (a 64-bit counter in the code; the model does not run it out). *)
Definition GetNextSequenceNumber : M EnqueueOrder.t :=
  fun w =>
    let n := next_sequence_number (sequence_manager_ w) in
    Some (n, mkWorld (mkSequenceManagerImpl
                        (n + 1)%N (add_queue_time_to_tasks (sequence_manager_ w)))
                     (the_time_domain w) (this w)
                     (calls w ++ [EvGetNextSequenceNumber n]) (OS_WIN w)).

Definition GetAddQueueTimeToTasks : M bool :=
  fun w => Some (add_queue_time_to_tasks (sequence_manager_ w), w).

Definition defined_OS_WIN : M bool := fun w => Some (OS_WIN w, w).

(** [p->Now()] and [p->CreateLazyNow()] on a time domain pointer. *)
Definition time_domain_Now (p : Ptr) : M TimeTicks :=
  deref_ptr p ;; fun w => Some (TimeDomain.Now (the_time_domain w), w).

Definition time_domain_CreateLazyNow (p : Ptr) : M TimeTicks :=
  deref_ptr p ;; fun w => Some (TimeDomain.CreateLazyNow (the_time_domain w), w).

(** A call of the time domain that changes its heap and calls out. *)
Definition time_domain_call (p : Ptr)
           (f : QueueId -> TimeDomain -> TimeDomain * list Event) : M unit :=
  deref_ptr p ;;
  fun w =>
    let '(td, es) := f (this_queue (this w)) (the_time_domain w) in
    Some (tt, mkWorld (sequence_manager_ w) td (this w) (calls w ++ es) (OS_WIN w)).

(** Modelled from the spec: the priorities are declared outside the sources;
    in the order control, highest, very high, high, normal, low, best effort
    the index of normal is 4. *)
Definition kNormalPriority : nat := 4.

(** [Time::kMinLowResolutionThresholdMs] is declared outside the sources; the
    comment in [PostDelayedTaskImpl] gives 32ms for twice its value. *)
Definition kMinLowResolutionThresholdMs : Z := 16.

(** [TimeDelta::InMilliseconds()]: integer division, rounding to zero. *)
Definition InMilliseconds (d : TimeDelta) : Z := Z.quot d 1000.


(** ** [TaskQueueImpl] *)

Module TaskQueueImpl.

Definition IsQueueEnabled (q : TaskQueueImpl) : bool :=
  is_enabled (main_thread_only q).

Definition GetQueuePriority (q : TaskQueueImpl) : option nat :=
  option_map work_queue_set_index (immediate_work_queue (main_thread_only q)).

(** What [BlockedByFence()] returns. *)
Definition BlockedByFence (q : TaskQueueImpl) : option bool :=
  let m := main_thread_only q in
  if negb (EnqueueOrder.is_set (current_fence m)) then Some false
  else
    match immediate_work_queue m with
    | None => None
    | Some iwq =>
        if negb (WorkQueue.BlockedByFence iwq) then Some false
        else
          match delayed_work_queue m with
          | None => None
          | Some dwq =>
              if negb (WorkQueue.BlockedByFence dwq) then Some false
              else
                match immediate_incoming_queue (any_thread_ q) with
                | [] => Some true
                | front :: _ => Some (current_fence m <? enqueue_order front)%N
                end
          end
    end.

Definition HasActiveFence (q : TaskQueueImpl) (td : TimeDomain) : option bool :=
  let m := main_thread_only q in
  match delayed_fence m with
  | Some fence_time =>
      match time_domain m with
      | nullptr => None
      | bound =>
          if (fence_time <? TimeDomain.Now td)%Z then Some true
          else Some (EnqueueOrder.is_set (current_fence m))
      end
  | None => Some (EnqueueOrder.is_set (current_fence m))
  end.

Definition CouldTaskRun (q : TaskQueueImpl) (order : EnqueueOrder.t) : bool :=
  if negb (IsQueueEnabled q) then false
  else if negb (EnqueueOrder.is_set (current_fence (main_thread_only q))) then true
  else (order <? current_fence (main_thread_only q))%N.

(** What [HasPendingImmediateWork()] returns. *)
Definition HasPendingImmediateWork (q : TaskQueueImpl) : option bool :=
  let m := main_thread_only q in
  match delayed_work_queue m with
  | None => None
  | Some dwq =>
      if negb (WorkQueue.Empty dwq) then Some true
      else
        match immediate_work_queue m with
        | None => None
        | Some iwq =>
            if negb (WorkQueue.Empty iwq) then Some true
            else Some (match immediate_incoming_queue (any_thread_ q) with
                       | [] => false
                       | _ :: _ => true
                       end)
        end
  end.

(** The call of [HasPendingImmediateWork()]: with both work queues empty it
    takes the lock of the queue to read the immediate incoming queue. *)
Definition HasPendingImmediateWork_ : M bool :=
  m <- main ;;
  dwq <- deref (delayed_work_queue m) ;;
  if negb (WorkQueue.Empty dwq) then ret true
  else
    iwq <- deref (immediate_work_queue m) ;;
    if negb (WorkQueue.Empty iwq) then ret true
    else
      call EvLock ;;
      a <- any ;;
      call EvUnlock ;;
      ret (match immediate_incoming_queue a with
           | [] => false
           | _ :: _ => true
           end).

Definition GetNextScheduledWakeUpImpl (q : TaskQueueImpl)
  : option (option DelayedWakeUp) :=
  let m := main_thread_only q in
  match DelayedIncomingQueue.top (delayed_incoming_queue m) with
  | None => Some None
  | Some top_task =>
      if negb (IsQueueEnabled q) then Some None
      else if DelayedIncomingQueue.has_pending_high_resolution_tasks
                (delayed_incoming_queue m)
      then
        match GetQueuePriority q with
        | None => None
        | Some priority =>
            Some (Some (mkDelayedWakeUp
                          (delayed_run_time top_task) (sequence_num top_task)
                          (if (priority <=? kNormalPriority)%nat then kHigh else kLow)))
        end
      else Some (Some (mkDelayedWakeUp
                         (delayed_run_time top_task) (sequence_num top_task) kLow))
  end.

Definition UpdateCrossThreadQueueStateLocked (q : TaskQueueImpl)
  : option TaskQueueImpl :=
  let m := main_thread_only q in
  match immediate_work_queue m with
  | None => None
  | Some iwq =>
      let should_schedule :=
        if is_bound (task_queue_observer m) then IsQueueEnabled q
        else IsQueueEnabled q && negb (EnqueueOrder.is_set (current_fence m)) in
      Some (set_any (set_cross_thread_state (WorkQueue.Empty iwq) should_schedule
                                            (any_thread_ q)) q)
  end.

Definition UpdateCrossThreadQueueStateLocked_ : M unit :=
  q <- read UpdateCrossThreadQueueStateLocked ;; put_queue q.

Definition SetActive (active : bool) : M unit :=
  q <- get_queue ;;
  _ <- deref (empty_queues_to_reload_handle_ q) ;;
  put_queue (set_reload_handle (Some active) q) ;;
  call (EvSetActive active).

Definition PostImmediateTaskImpl (posted : PostedTask) (current_thread : CurrentThread)
  : M unit :=
  if closure_is_null (callback posted) then crash
  else
    call EvLock ;;
    a <- any ;;
    lazy_now <- time_domain_CreateLazyNow (any_time_domain a) ;;
    add_queue_time <- GetAddQueueTimeToTasks ;;
    q <- get_queue ;;
    let posted :=
      if add_queue_time || delayed_fence_allowed_ q
      then set_posted_queue_time lazy_now posted else posted in
    sequence_number <- GetNextSequenceNumber ;;
    let was_immediate_incoming_queue_empty :=
      match immediate_incoming_queue a with [] => true | _ => false end in
    let delayed_run_time := 0%Z in
    update_any (fun a =>
      set_immediate_incoming_queue
        (immediate_incoming_queue a ++
           [make_Task posted delayed_run_time sequence_number sequence_number kLow])
        a) ;;
    call (EvWillQueueTask sequence_number) ;;
    (if is_bound (on_task_posted_handler a)
     then call (EvOnTaskPosted sequence_number) else ret tt) ;;
    should_schedule_work <-
      (if was_immediate_incoming_queue_empty && immediate_work_queue_empty a
       then SetActive true ;;
            ret (post_immediate_task_should_schedule_work a)
       else ret false) ;;
    call EvUnlock ;;
    (if should_schedule_work then call EvScheduleWork else ret tt).

Definition UpdateDelayedWakeUpImpl (lazy_now : TimeTicks)
           (wake : option DelayedWakeUp) : M unit :=
  m <- main ;;
  if option_eqb DelayedWakeUp_eqb (scheduled_wake_up m) wake then ret tt
  else
    update_main (set_scheduled_wake_up wake) ;;
    (match wake with
     | Some w =>
         if is_bound (task_queue_observer m)
         then pending <- HasPendingImmediateWork_ ;;
              if negb pending
              then call (EvOnQueueNextWakeUpChanged (wake_up_time w))
              else ret tt
         else ret tt
     | None => ret tt
     end) ;;
    time_domain_call (time_domain m)
      (fun q => TimeDomain.SetNextWakeUpForQueue q wake lazy_now).

Definition UpdateDelayedWakeUp (lazy_now : TimeTicks) : M unit :=
  wake <- read GetNextScheduledWakeUpImpl ;;
  UpdateDelayedWakeUpImpl lazy_now wake.

Definition OnQueueUnblocked : M unit :=
  order <- GetNextSequenceNumber ;;
  update_main (set_became_unblocked order) ;;
  priority <- read GetQueuePriority ;;
  if (priority <=? kNormalPriority)%nat
  then update_main (set_became_unblocked_with_normal_priority order)
  else ret tt.

Definition front_between (lo hi : EnqueueOrder.t) (incoming : list Task) : bool :=
  match incoming with
  | [] => false
  | front :: _ => (lo <? enqueue_order front)%N && (enqueue_order front <? hi)%N
  end.

Definition InsertFence (position : InsertFencePosition) : M unit :=
  update_main (set_delayed_fence None) ;;
  m <- main ;;
  let previous_fence := current_fence m in
  fence <- (match position with
            | kNow => GetNextSequenceNumber
            | kBeginningOfTime => ret EnqueueOrder.blocking_fence
            end) ;;
  update_main (set_current_fence fence) ;;
  iwq <- deref (immediate_work_queue m) ;;
  let '(unblocked1, iwq') := WorkQueue.InsertFence fence iwq in
  update_main (set_immediate_work_queue (Some iwq')) ;;
  dwq <- deref (delayed_work_queue m) ;;
  let '(unblocked2, dwq') := WorkQueue.InsertFence fence dwq in
  update_main (set_delayed_work_queue (Some dwq')) ;;
  call EvLock ;;
  a <- any ;;
  let front_task_unblocked :=
    if negb (unblocked1 || unblocked2)
       && EnqueueOrder.is_set previous_fence
       && (previous_fence <? fence)%N
    then front_between previous_fence fence (immediate_incoming_queue a)
    else unblocked1 || unblocked2 in
  UpdateCrossThreadQueueStateLocked_ ;;
  call EvUnlock ;;
  q <- get_queue ;;
  if IsQueueEnabled q && front_task_unblocked
  then OnQueueUnblocked ;; call EvScheduleWork
  else ret tt.

Definition front_above (lo : EnqueueOrder.t) (incoming : list Task) : bool :=
  match incoming with
  | [] => false
  | front :: _ => (lo <? enqueue_order front)%N
  end.

Definition RemoveFence : M unit :=
  m <- main ;;
  let previous_fence := current_fence m in
  update_main (set_current_fence EnqueueOrder.none) ;;
  update_main (set_delayed_fence None) ;;
  iwq <- deref (immediate_work_queue m) ;;
  let '(unblocked1, iwq') := WorkQueue.RemoveFence iwq in
  update_main (set_immediate_work_queue (Some iwq')) ;;
  dwq <- deref (delayed_work_queue m) ;;
  let '(unblocked2, dwq') := WorkQueue.RemoveFence dwq in
  update_main (set_delayed_work_queue (Some dwq')) ;;
  call EvLock ;;
  a <- any ;;
  let front_task_unblocked :=
    if negb (unblocked1 || unblocked2) && EnqueueOrder.is_set previous_fence
    then front_above previous_fence (immediate_incoming_queue a)
    else unblocked1 || unblocked2 in
  UpdateCrossThreadQueueStateLocked_ ;;
  call EvUnlock ;;
  q <- get_queue ;;
  if IsQueueEnabled q && front_task_unblocked
  then OnQueueUnblocked ;; call EvScheduleWork
  else ret tt.

Definition InsertFenceAt (time : TimeTicks) : M unit :=
  RemoveFence ;;
  update_main (set_delayed_fence (Some time)).

Definition ActivateDelayedFenceIfNeeded (now : TimeTicks) : M unit :=
  m <- main ;;
  match delayed_fence m with
  | None => ret tt
  | Some fence_time =>
      if (now <? fence_time)%Z then ret tt
      else InsertFence kNow ;; update_main (set_delayed_fence None)
  end.

Definition pop_delayed_incoming_queue : M unit :=
  m <- main ;;
  d <- deref (DelayedIncomingQueue.pop (delayed_incoming_queue m)) ;;
  update_main (set_delayed_incoming_queue d).

Definition push_delayed_incoming_queue (t : Task) : M unit :=
  update_main (fun m =>
    set_delayed_incoming_queue
      (DelayedIncomingQueue.push t (delayed_incoming_queue m)) m).

Definition delayed_work_queue_Push (t : Task) : M unit :=
  m <- main ;;
  dwq <- deref (delayed_work_queue m) ;;
  update_main (set_delayed_work_queue (Some (WorkQueue.Push t dwq))).

(** The [while] loop of [MoveReadyDelayedTasksToWorkQueue].  Every turn that
    does not leave the loop pops one task, so the size of the incoming queue
    is enough [fuel]; running out of it is a crash. *)
Fixpoint MoveReadyDelayedTasksToWorkQueue_loop (fuel : nat) (lazy_now : TimeTicks)
  : M unit :=
  m <- main ;;
  match DelayedIncomingQueue.top (delayed_incoming_queue m) with
  | None => ret tt
  | Some t =>
      match fuel with
      | O => crash
      | S fuel' =>
          if closure_is_null (task t) || IsCancelled (task t)
          then pop_delayed_incoming_queue ;;
               MoveReadyDelayedTasksToWorkQueue_loop fuel' lazy_now
          else if (lazy_now <? delayed_run_time t)%Z then ret tt
          else
            ActivateDelayedFenceIfNeeded (delayed_run_time t) ;;
            order <- GetNextSequenceNumber ;;
            delayed_work_queue_Push (set_enqueue_order order t) ;;
            pop_delayed_incoming_queue ;;
            MoveReadyDelayedTasksToWorkQueue_loop fuel' lazy_now
      end
  end.

Definition MoveReadyDelayedTasksToWorkQueue (lazy_now : TimeTicks) : M unit :=
  m <- main ;;
  _ <- deref (delayed_work_queue m) ;;
  MoveReadyDelayedTasksToWorkQueue_loop
    (DelayedIncomingQueue.size (delayed_incoming_queue m)) lazy_now ;;
  UpdateDelayedWakeUp lazy_now.

Definition PushOntoDelayedIncomingQueueFromMainThread (pending_task : Task)
           (now : TimeTicks) (notify_task_annotator : bool) : M unit :=
  (if notify_task_annotator
   then call (EvWillQueueTask (sequence_num pending_task)) else ret tt) ;;
  push_delayed_incoming_queue pending_task ;;
  UpdateDelayedWakeUp now.

Definition PushOntoDelayedIncomingQueue (pending_task : Task) : M unit :=
  call (EvWillQueueTask (sequence_num pending_task)) ;;
  PostImmediateTaskImpl
    (mkPostedTask (ScheduleDelayedWorkTask_closure pending_task) 0%Z
                  kNonNestable (task_type pending_task) 0%Z)
    kNotMainThread.

Definition PostDelayedTaskImpl (posted : PostedTask) (current_thread : CurrentThread)
  : M unit :=
  if closure_is_null (callback posted) then crash
  else
    os_win <- defined_OS_WIN ;;
    let resolution :=
      if os_win && (InMilliseconds (delay posted) <? 2 * kMinLowResolutionThresholdMs)%Z
      then kHigh else kLow in
    match current_thread with
    | kMainThread =>
        sequence_number <- GetNextSequenceNumber ;;
        m <- main ;;
        time_domain_now <- time_domain_Now (time_domain m) ;;
        let time_domain_delayed_run_time :=
          TimeTicks_plus time_domain_now (delay posted) in
        add_queue_time <- GetAddQueueTimeToTasks ;;
        let posted :=
          if add_queue_time then set_posted_queue_time time_domain_now posted
          else posted in
        PushOntoDelayedIncomingQueueFromMainThread
          (make_Task posted time_domain_delayed_run_time sequence_number
                     EnqueueOrder.none resolution)
          time_domain_now true
    | kNotMainThread =>
        sequence_number <- GetNextSequenceNumber ;;
        call EvLock ;;
        a <- any ;;
        time_domain_now <- time_domain_Now (any_time_domain a) ;;
        call EvUnlock ;;
        let time_domain_delayed_run_time :=
          TimeTicks_plus time_domain_now (delay posted) in
        add_queue_time <- GetAddQueueTimeToTasks ;;
        let posted :=
          if add_queue_time then set_posted_queue_time time_domain_now posted
          else posted in
        PushOntoDelayedIncomingQueue
          (make_Task posted time_domain_delayed_run_time sequence_number
                     EnqueueOrder.none resolution)
    end.

Definition PostTask (posted : PostedTask) (current_thread : CurrentThread) : M unit :=
  if (delay posted =? 0)%Z then PostImmediateTaskImpl posted current_thread
  else PostDelayedTaskImpl posted current_thread.

Definition ScheduleDelayedWorkTask (pending_task : Task) : M unit :=
  m <- main ;;
  time_domain_now <- time_domain_Now (time_domain m) ;;
  if (delayed_run_time pending_task <=? time_domain_now)%Z
  then push_delayed_incoming_queue (set_delayed_run_time time_domain_now pending_task) ;;
       MoveReadyDelayedTasksToWorkQueue time_domain_now
  else PushOntoDelayedIncomingQueueFromMainThread pending_task time_domain_now false.

(** The first task of [queue] whose queue time has reached the delayed fence. *)
Fixpoint first_task_at_or_after (fence_time : TimeTicks) (queue : list Task)
  : option Task :=
  match queue with
  | [] => None
  | t :: queue' =>
      if (fence_time <=? queue_time t)%Z then Some t
      else first_task_at_or_after fence_time queue'
  end.

(** [TakeImmediateIncomingQueueTasks(queue)].  The caller is the immediate work
    queue, which passes its own (empty) deque: [queue] is the task list of
    [immediate_work_queue], and the writes through it are seen by
    [UpdateCrossThreadQueueStateLocked]. *)
Definition TakeImmediateIncomingQueueTasks : M unit :=
  call EvLock ;;
  m <- main ;;
  a <- any ;;
  iwq <- deref (immediate_work_queue m) ;;
  let queue := immediate_incoming_queue a in
  update_any (set_immediate_incoming_queue (tasks_ iwq)) ;;
  update_main (set_immediate_work_queue (Some (WorkQueue.set_tasks queue iwq))) ;;
  (match delayed_fence m with
   | None => ret tt
   | Some fence_time =>
       match first_task_at_or_after fence_time queue with
       | None => ret tt
       | Some t =>
           update_main (set_delayed_fence None) ;;
           update_main (set_current_fence (enqueue_order t)) ;;
           m1 <- main ;;
           iwq1 <- deref (immediate_work_queue m1) ;;
           update_main (set_immediate_work_queue
                          (Some (WorkQueue.InsertFenceSilently (enqueue_order t) iwq1))) ;;
           dwq1 <- deref (delayed_work_queue m1) ;;
           update_main (set_delayed_work_queue
                          (Some (WorkQueue.InsertFenceSilently (enqueue_order t) dwq1)))
       end
   end) ;;
  UpdateCrossThreadQueueStateLocked_ ;;
  call EvUnlock.

Definition ReloadEmptyImmediateWorkQueue : M unit :=
  TakeImmediateIncomingQueueTasks ;;
  q <- get_queue ;;
  if is_bound (task_queue_observer (main_thread_only q)) && IsQueueEnabled q
  then call (EvOnQueueNextWakeUpChanged 0%Z)
  else ret tt.

Definition PushImmediateIncomingTaskForTest (t : Task) : M unit :=
  call EvLock ;;
  update_any (fun a =>
    set_immediate_incoming_queue (immediate_incoming_queue a ++ [t]) a) ;;
  call EvUnlock.

Definition ReclaimMemory (now : TimeTicks) : M unit :=
  m <- main ;;
  if DelayedIncomingQueue.empty (delayed_incoming_queue m) then ret tt
  else
    update_main (fun m =>
      set_delayed_incoming_queue
        (DelayedIncomingQueue.SweepCancelledTasks (delayed_incoming_queue m)) m) ;;
    _ <- deref (delayed_work_queue m) ;;
    _ <- deref (immediate_work_queue m) ;;
    call EvLock ;;
    call EvUnlock ;;
    UpdateDelayedWakeUp now.

Definition UnregisterTaskQueue : M unit :=
  q <- get_queue ;;
  put_queue (set_operations_controller
               (OperationsController.ShutdownAndWaitForZeroOperations
                  (operations_controller_ q)) q) ;;
  call EvLock ;;
  update_any (set_unregistered true) ;;
  update_any (set_any_time_domain nullptr) ;;
  update_any (set_immediate_incoming_queue []) ;;
  update_any (set_any_task_queue_observer nullptr) ;;
  call EvUnlock ;;
  m <- main ;;
  (if is_bound (time_domain m)
   then time_domain_call (time_domain m) TimeDomain.UnregisterQueue
   else ret tt) ;;
  update_main (set_on_task_completed_handler nullptr) ;;
  update_main (set_time_domain nullptr) ;;
  update_main (set_task_queue_observer nullptr) ;;
  q1 <- get_queue ;;
  put_queue (set_reload_handle None q1) ;;
  update_main (set_delayed_incoming_queue DelayedIncomingQueue.empty_queue) ;;
  update_main (set_immediate_work_queue None) ;;
  update_main (set_delayed_work_queue None).

(** The queries [IsEmpty], [GetNumberOfPendingTasks] and
    [HasTaskToRunImmediately] are given by what they return on a state; they
    hold the lock of the queue while they read the immediate incoming queue
    and write nothing, and no operation of the model calls them.

    [IsEmpty]: the tests are made in the order of the code, so the immediate
    work queue is only read when the delayed queues are empty. *)
Definition IsEmpty (q : TaskQueueImpl) : option bool :=
  let m := main_thread_only q in
  match delayed_work_queue m with
  | None => None
  | Some dwq =>
      if negb (WorkQueue.Empty dwq) then Some false
      else if negb (DelayedIncomingQueue.empty (delayed_incoming_queue m))
      then Some false
      else
        match immediate_work_queue m with
        | None => None
        | Some iwq =>
            if negb (WorkQueue.Empty iwq) then Some false
            else Some (match immediate_incoming_queue (any_thread_ q) with
                       | [] => true
                       | _ :: _ => false
                       end)
        end
  end.

Definition GetNumberOfPendingTasks (q : TaskQueueImpl) : option nat :=
  let m := main_thread_only q in
  match delayed_work_queue m with
  | None => None
  | Some dwq =>
      match immediate_work_queue m with
      | None => None
      | Some iwq =>
          Some (WorkQueue.Size dwq
                + DelayedIncomingQueue.size (delayed_incoming_queue m)
                + WorkQueue.Size iwq
                + length (immediate_incoming_queue (any_thread_ q)))%nat
      end
  end.

(** [HasTaskToRunImmediately]: the time domain is only asked for the time
    when the delayed incoming queue has a task. *)
Definition HasTaskToRunImmediately (q : TaskQueueImpl) (td : TimeDomain)
  : option bool :=
  let m := main_thread_only q in
  match delayed_work_queue m with
  | None => None
  | Some dwq =>
      if negb (WorkQueue.Empty dwq) then Some true
      else
        match immediate_work_queue m with
        | None => None
        | Some iwq =>
            if negb (WorkQueue.Empty iwq) then Some true
            else
              let incoming :=
                match immediate_incoming_queue (any_thread_ q) with
                | [] => false
                | _ :: _ => true
                end in
              match DelayedIncomingQueue.top (delayed_incoming_queue m) with
              | None => Some incoming
              | Some top_task =>
                  match time_domain m with
                  | nullptr => None
                  | bound =>
                      if (delayed_run_time top_task <=? TimeDomain.CreateLazyNow td)%Z
                      then Some true
                      else Some incoming
                  end
              end
        end
  end.

Definition GetNextScheduledWakeUp (q : TaskQueueImpl) : option (option TimeTicks) :=
  option_map (option_map wake_up_time) (GetNextScheduledWakeUpImpl q).

Definition HasPendingImmediateWorkLocked (q : TaskQueueImpl) : option bool :=
  let m := main_thread_only q in
  match delayed_work_queue m with
  | None => None
  | Some dwq =>
      if negb (WorkQueue.Empty dwq) then Some true
      else
        match immediate_work_queue m with
        | None => None
        | Some iwq =>
            if negb (WorkQueue.Empty iwq) then Some true
            else Some (match immediate_incoming_queue (any_thread_ q) with
                       | [] => false
                       | _ :: _ => true
                       end)
        end
  end.

Definition WasBlockedOrLowPriority (q : TaskQueueImpl) (order : EnqueueOrder.t) : bool :=
  (order <?
   enqueue_order_at_which_we_became_unblocked_with_normal_priority
     (main_thread_only q))%N.

Definition IsUnregistered (q : TaskQueueImpl) : bool := unregistered (any_thread_ q).

Definition SetObserver (observer : Ptr) : M unit :=
  update_main (set_task_queue_observer observer) ;;
  call EvLock ;;
  update_any (set_any_task_queue_observer observer) ;;
  call EvUnlock.

Definition SetDelayedWakeUpForTesting (wake : option DelayedWakeUp) : M unit :=
  m <- main ;;
  lazy_now <- time_domain_CreateLazyNow (time_domain m) ;;
  UpdateDelayedWakeUpImpl lazy_now wake.

(** The call of [BlockedByFence()]: with both work queues blocked it takes
    the lock of the queue to read the front of the immediate incoming
    queue. *)
Definition BlockedByFence_ : M bool :=
  m <- main ;;
  if negb (EnqueueOrder.is_set (current_fence m)) then ret false
  else
    iwq <- deref (immediate_work_queue m) ;;
    if negb (WorkQueue.BlockedByFence iwq) then ret false
    else
      dwq <- deref (delayed_work_queue m) ;;
      if negb (WorkQueue.BlockedByFence dwq) then ret false
      else
        call EvLock ;;
        a <- any ;;
        call EvUnlock ;;
        ret (match immediate_incoming_queue a with
             | [] => true
             | front :: _ => (current_fence m <? enqueue_order front)%N
             end).

(** [SetQueueEnabled].  The sequence manager of the model is never null.  The
    calls on the selector of the sequence manager are what the function
    returns; the time at which the queue was disabled is read from the time
    domain and then only used for tracing. *)
Definition SetQueueEnabled (enabled : bool) : M (list SelectorCall) :=
  m <- main ;;
  if Bool.eqb (is_enabled m) enabled then ret []
  else
    update_main (set_is_enabled enabled) ;;
    (if enabled then ret tt
     else _ <- time_domain_Now (time_domain m) ;; ret tt) ;;
    lazy_now <- time_domain_CreateLazyNow (time_domain m) ;;
    UpdateDelayedWakeUp lazy_now ;;
    call EvLock ;;
    UpdateCrossThreadQueueStateLocked_ ;;
    has_pending_immediate_work <- read HasPendingImmediateWorkLocked ;;
    call EvUnlock ;;
    if enabled then
      m1 <- main ;;
      (if has_pending_immediate_work && is_bound (task_queue_observer m1)
       then call (EvOnQueueNextWakeUpChanged 0%Z) else ret tt) ;;
      blocked <- BlockedByFence_ ;;
      (if negb blocked then OnQueueUnblocked else ret tt) ;;
      ret [EnableQueue]
    else ret [DisableQueue].


End TaskQueueImpl.

(** ** Task runners *)

Module GuardedTaskPoster.

(** The scoped deferral of nested posts only delays posts made by tracing
    while this one runs; the post itself goes through the gate. *)
Definition PostTask (posted : PostedTask) (current_thread : CurrentThread) : M bool :=
  q <- get_queue ;;
  let token := OperationsController.TryBeginOperation (operations_controller_ q) in
  if negb token then ret false
  else TaskQueueImpl.PostTask posted current_thread ;; ret true.

End GuardedTaskPoster.

Module TaskRunner.

(** A runner posts with its fixed task type; [current_thread] is the thread
    of the caller. *)
Definition PostDelayedTask (runner_task_type : nat) (callback : OnceClosure)
           (delay : TimeDelta) (current_thread : CurrentThread) : M bool :=
  GuardedTaskPoster.PostTask
    (mkPostedTask callback delay kNestable runner_task_type 0%Z) current_thread.

Definition PostNonNestableDelayedTask (runner_task_type : nat) (callback : OnceClosure)
           (delay : TimeDelta) (current_thread : CurrentThread) : M bool :=
  GuardedTaskPoster.PostTask
    (mkPostedTask callback delay kNonNestable runner_task_type 0%Z) current_thread.

End TaskRunner.



(** ** Timers *)

(** The task that a timer hands to its task runner: the weak pointer to the
    timer (by the generation of the factory that made it), the task
    destruction detector it owns, and the delay it was posted with. *)
Record ScheduledTask := mkScheduledTask {
  weak_ptr_generation : nat;
  detector : nat;
  post_delay : TimeDelta
}.

Record TimerBase := mkTimerBase {
  (** the raw pointer to the detector of the pending task, if any *)
  task_destruction_detector_ : option nat;
  delay_ : TimeDelta;
  scheduled_run_time_ : TimeTicks;
  desired_run_time_ : TimeTicks;
  is_running_ : bool;
  (** the generation of [weak_ptr_factory_]: older weak pointers are invalid *)
  weak_ptr_factory_ : nat;
  (** the detectors ever made; [true] while a detector still points to the timer *)
  detectors : list bool;
  (** what the task runner was given, oldest first *)
  posted_tasks : list ScheduledTask;
  (** what the tick clock reads *)
  tick_clock_now : TimeTicks
}.

Module TimerBase.

Definition Now (t : TimerBase) : TimeTicks := tick_clock_now t.

Fixpoint Disable (id : nat) (ds : list bool) : list bool :=
  match ds, id with
  | [], _ => []
  | _ :: ds', O => false :: ds'
  | d :: ds', S n => d :: Disable n ds'
  end.

(** The task runner takes the task (the code ignores what the post returns). *)
Definition ScheduleNewTask (delay : TimeDelta) (t : TimerBase) : TimerBase :=
  let id := length (detectors t) in
  let run_time :=
    if (0 <? delay)%Z then TimeTicks_plus (Now t) delay else 0%Z in
  mkTimerBase (Some id) (delay_ t) run_time run_time true (weak_ptr_factory_ t)
    (detectors t ++ [true])
    (posted_tasks t ++
       [mkScheduledTask (weak_ptr_factory_ t) id (if (0 <? delay)%Z then delay else 0%Z)])
    (tick_clock_now t).

Definition AbandonScheduledTask (t : TimerBase) : TimerBase :=
  match task_destruction_detector_ t with
  | Some id =>
      mkTimerBase None (delay_ t) (scheduled_run_time_ t) (desired_run_time_ t)
        (is_running_ t) (S (weak_ptr_factory_ t)) (Disable id (detectors t))
        (posted_tasks t) (tick_clock_now t)
  | None => t
  end.

Definition set_desired_run_time (r : TimeTicks) (t : TimerBase) : TimerBase :=
  mkTimerBase (task_destruction_detector_ t) (delay_ t) (scheduled_run_time_ t) r
    (is_running_ t) (weak_ptr_factory_ t) (detectors t) (posted_tasks t)
    (tick_clock_now t).

Definition set_is_running (b : bool) (t : TimerBase) : TimerBase :=
  mkTimerBase (task_destruction_detector_ t) (delay_ t) (scheduled_run_time_ t)
    (desired_run_time_ t) b (weak_ptr_factory_ t) (detectors t) (posted_tasks t)
    (tick_clock_now t).

Definition set_delay (d : TimeDelta) (t : TimerBase) : TimerBase :=
  mkTimerBase (task_destruction_detector_ t) d (scheduled_run_time_ t)
    (desired_run_time_ t) (is_running_ t) (weak_ptr_factory_ t) (detectors t)
    (posted_tasks t) (tick_clock_now t).

Definition Reset (t : TimerBase) : TimerBase :=
  match task_destruction_detector_ t with
  | None => ScheduleNewTask (delay_ t) t
  | Some _ =>
      let t1 :=
        if (0 <? delay_ t)%Z
        then set_desired_run_time (TimeTicks_plus (Now t) (delay_ t)) t
        else set_desired_run_time 0%Z t in
      if (scheduled_run_time_ t1 <=? desired_run_time_ t1)%Z
      then set_is_running true t1
      else ScheduleNewTask (delay_ t1) (AbandonScheduledTask t1)
  end.

Definition StartInternal (delay : TimeDelta) (t : TimerBase) : TimerBase :=
  Reset (set_delay delay t).

End TimerBase.


(** ** The properties *)

Definition not_cancelled (t : Task) : bool := negb (IsCancelled (task t)).

Definition count_high_res (c : list Task) : nat :=
  length (filter (fun t => is_high_res t) c).

(** The counter of a delayed incoming queue agrees with its content. *)
Definition counter_ok (q : DelayedIncomingQueue) : Prop :=
  pending_high_res_tasks_ q = Z.of_nat (count_high_res (queue_ q)).


(** A live queue: its pointers are set.  The constructor establishes this and
    only [UnregisterTaskQueue] ends it. *)
Definition registered (q : TaskQueueImpl) : Prop :=
  time_domain (main_thread_only q) = bound
  /\ any_time_domain (any_thread_ q) = bound
  /\ (exists iwq, immediate_work_queue (main_thread_only q) = Some iwq)
  /\ (exists dwq, delayed_work_queue (main_thread_only q) = Some dwq)
  /\ (exists active, empty_queues_to_reload_handle_ q = Some active).

(** No task of [ts] has an enqueue order strictly below [f]. *)
Definition none_below (f : EnqueueOrder.t) (ts : list Task) : Prop :=
  forall t, In t ts -> ~ (enqueue_order t < f)%N.

(** Every task of [ts] has an enqueue order strictly above [f]. *)
Definition all_above (f : EnqueueOrder.t) (ts : list Task) : Prop :=
  forall t, In t ts -> (f < enqueue_order t)%N.

(** The front of a queue, as a list of at most one task. *)
Definition front_of (ts : list Task) : list Task := firstn 1 ts.

Definition in_enqueue_order (ts : list Task) : Prop :=
  StronglySorted (fun a b => (enqueue_order a < enqueue_order b)%N) ts.

(** A work queue carries the fence of its task queue, and its tasks are in
    strictly increasing enqueue order. *)
Definition work_queue_ok (f : EnqueueOrder.t) (wq : WorkQueue) : Prop :=
  fence_ wq = f /\ in_enqueue_order (tasks_ wq).

Definition work_queues_ok (q : TaskQueueImpl) (iwq dwq : WorkQueue) : Prop :=
  immediate_work_queue (main_thread_only q) = Some iwq
  /\ delayed_work_queue (main_thread_only q) = Some dwq
  /\ work_queue_ok (current_fence (main_thread_only q)) iwq
  /\ work_queue_ok (current_fence (main_thread_only q)) dwq.

(** The claim on [BlockedByFence] as the specification words it, for one
    queue. *)
Definition blocked_iff_none_below (q : TaskQueueImpl) : Prop :=
  forall iwq dwq,
    work_queues_ok q iwq dwq ->
    EnqueueOrder.is_set (current_fence (main_thread_only q)) = true ->
    exists b,
      TaskQueueImpl.BlockedByFence q = Some b
      /\ (b = true <->
          none_below (current_fence (main_thread_only q)) (tasks_ iwq)
          /\ none_below (current_fence (main_thread_only q)) (tasks_ dwq)
          /\ none_below (current_fence (main_thread_only q))
                        (front_of (immediate_incoming_queue (any_thread_ q)))).

(** At most one fence: a current fence and a delayed fence are not both set. *)
Definition at_most_one_fence (q : TaskQueueImpl) : Prop :=
  current_fence (main_thread_only q) = EnqueueOrder.none
  \/ delayed_fence (main_thread_only q) = None.


(** The operations that write the fences of a queue.  No other function of
    [TaskQueueImpl] assigns [current_fence] or [delayed_fence]; what else
    happens to the queue is a step that leaves both as they are. *)
Inductive fence_step : World -> World -> Prop :=
| step_InsertFence pos w w' :
    TaskQueueImpl.InsertFence pos w = Some (tt, w') -> fence_step w w'
| step_InsertFenceAt time w w' :
    TaskQueueImpl.InsertFenceAt time w = Some (tt, w') -> fence_step w w'
| step_RemoveFence w w' :
    TaskQueueImpl.RemoveFence w = Some (tt, w') -> fence_step w w'
| step_ActivateDelayedFenceIfNeeded now w w' :
    TaskQueueImpl.ActivateDelayedFenceIfNeeded now w = Some (tt, w') ->
    fence_step w w'
| step_TakeImmediateIncomingQueueTasks w w' :
    TaskQueueImpl.TakeImmediateIncomingQueueTasks w = Some (tt, w') ->
    fence_step w w'
| step_other w w' :
    current_fence (main_thread_only (this w'))
    = current_fence (main_thread_only (this w)) ->
    delayed_fence (main_thread_only (this w'))
    = delayed_fence (main_thread_only (this w)) ->
    fence_step w w'.

(** A queue is constructed with no fence of either kind. *)
Definition constructed (w : World) : Prop :=
  current_fence (main_thread_only (this w)) = EnqueueOrder.none
  /\ delayed_fence (main_thread_only (this w)) = None.

Inductive reachable : World -> Prop :=
| reachable_constructed w : constructed w -> reachable w
| reachable_step w w' : reachable w -> fence_step w w' -> reachable w'.

(** Sample data for the examples. *)
Definition sample_task (order : EnqueueOrder.t) : Task :=
  mkTask (user_closure 0 false) 0%Z 0%Z order order kNestable 0 false.

Definition sample_work_queue (f : EnqueueOrder.t) (ts : list Task) : WorkQueue :=
  mkWorkQueue ts f kNormalPriority.

Definition sample_queue (f : EnqueueOrder.t) (df : option TimeTicks)
           (iwq dwq : WorkQueue) (delayed incoming : list Task) : TaskQueueImpl :=
  mkTaskQueueImpl
    (mkMainThreadOnly bound (Some dwq) (Some iwq)
       (mkDelayedIncomingQueue delayed (Z.of_nat (count_high_res delayed)))
       f df true nullptr nullptr None EnqueueOrder.none EnqueueOrder.none)
    (mkAnyThread bound incoming false (WorkQueue.Empty iwq)
       (negb (EnqueueOrder.is_set f)) nullptr nullptr)
    kAccepting (Some false) true 7.

Definition sample_world (q : TaskQueueImpl) (now : TimeTicks) : World :=
  mkWorld (mkSequenceManagerImpl 10%N false) (mkTimeDomain [] 0%Z now) q [] false.


(** A queue with a pending delayed fence at time 50 and two incoming tasks,
    the second queued at time 60. *)
Definition delayed_fence_world : World :=
  sample_world
    (sample_queue 0%N (Some 50%Z)
       (sample_work_queue 0%N []) (sample_work_queue 0%N []) []
       [mkTask (user_closure 1 false) 40%Z 0%Z 3%N 3%N kNestable 0 false;
        mkTask (user_closure 2 false) 60%Z 0%Z 4%N 4%N kNestable 0 false])
    70%Z.

Definition world_after (op : M unit) (w : World) : World :=
  match op w with
  | Some (_, w') => w'
  | None => w
  end.


(** What [UpdateDelayedWakeUp] does to the world: the scheduled wake-up of the
    queue becomes the one that [GetNextScheduledWakeUpImpl] computes; the rest
    of the queue and the sequence manager stay as they are. *)
Definition wake_up_updated (w w' : World) : Prop :=
  sequence_manager_ w' = sequence_manager_ w
  /\ OS_WIN w' = OS_WIN w
  /\ clock_now (the_time_domain w') = clock_now (the_time_domain w)
  /\ exists s,
       TaskQueueImpl.GetNextScheduledWakeUpImpl (this w) = Some s
       /\ this w' = set_main (set_scheduled_wake_up s (main_thread_only (this w)))
                             (this w).


(** The task [t] carries the callback of the posted task: it is the callback
    of [t], or [t] is the helper task that holds the delayed task. *)
Definition carries (t : Task) (posted : PostedTask) : Prop :=
  task t = callback posted
  \/ exists pending,
       task t = ScheduleDelayedWorkTask_closure pending
       /\ task pending = callback posted.

(** The posted task was queued.  Either one task that carries its callback
    was appended to the immediate incoming queue and the delayed incoming
    queue is as before; or the task, due [delay] after the current time of the
    time domain and with no enqueue order yet, was pushed onto the delayed
    incoming queue and the immediate incoming queue is as before. *)
Definition enqueued (posted : PostedTask) (w w' : World) : Prop :=
  let incoming w := immediate_incoming_queue (any_thread_ (this w)) in
  let delayed w := delayed_incoming_queue (main_thread_only (this w)) in
  exists t,
    (carries t posted
     /\ incoming w' = incoming w ++ [t]
     /\ delayed w' = delayed w)
    \/ (task t = callback posted
        /\ delayed_run_time t
           = TimeTicks_plus (TimeDomain.Now (the_time_domain w)) (delay posted)
        /\ enqueue_order t = EnqueueOrder.none
        /\ delayed w' = DelayedIncomingQueue.push t (delayed w)
        /\ incoming w' = incoming w).

(** A post through a task runner of the queue. *)
Inductive PostCall :=
| CallPostDelayedTask (runner_task_type : nat) (callback : OnceClosure)
                      (delay : TimeDelta) (current_thread : CurrentThread)
| CallPostNonNestableDelayedTask (runner_task_type : nat) (callback : OnceClosure)
                                 (delay : TimeDelta) (current_thread : CurrentThread).

Definition run_post (p : PostCall) : M bool :=
  match p with
  | CallPostDelayedTask ty cb d th => TaskRunner.PostDelayedTask ty cb d th
  | CallPostNonNestableDelayedTask ty cb d th =>
      TaskRunner.PostNonNestableDelayedTask ty cb d th
  end.

(** Posts made one after the other, with what each returned. *)
Fixpoint run_posts (ps : list PostCall) : M (list bool) :=
  match ps with
  | [] => ret []
  | p :: ps' =>
      b <- run_post p ;;
      bs <- run_posts ps' ;;
      ret (b :: bs)
  end.


(** What [MoveReadyDelayedTasksToWorkQueue] does with the task at the top of
    the delayed incoming queue: a task without callback or cancelled is
    dropped, a live task that is due is moved, and a live task that is not
    due stops the loop. *)
Definition dropped_at_top (t : Task) : bool :=
  closure_is_null (task t) || IsCancelled (task t).

Definition due (now : TimeTicks) (t : Task) : bool :=
  (delayed_run_time t <=? now)%Z.

Definition ready (now : TimeTicks) (t : Task) : bool :=
  negb (dropped_at_top t) && due now t.

Definition leaves_top (now : TimeTicks) (t : Task) : bool :=
  dropped_at_top t || due now t.

Fixpoint drop_while (f : Task -> bool) (c : list Task) : list Task :=
  match c with
  | [] => []
  | t :: c' => if f t then drop_while f c' else c
  end.

(** The storage of the delayed incoming queue is a heap. *)
Definition is_heap (c : list Task) : Prop :=
  StronglySorted (fun a b => PQueue.before a b = true) c.

(** [m] is the task [t] with an enqueue order set. *)
Definition moved_from (m t : Task) : Prop :=
  exists order, m = set_enqueue_order order t.

Definition next_order (w : World) : EnqueueOrder.t :=
  next_sequence_number (sequence_manager_ w).

Definition delayed_work_queue_tasks (w : World) : list Task :=
  match delayed_work_queue (main_thread_only (this w)) with
  | Some dwq => tasks_ dwq
  | None => []
  end.

(** The fences after ready tasks were moved, given the delayed fence [df]
    that was pending before: when a moved task is due at or after the time of
    the fence, a current fence was installed, below the enqueue order of
    every such task and above that of the tasks due before; otherwise both
    fences are as they were. *)
Definition fences_after_move (w w' : World) (moved : list Task) : Prop :=
  match delayed_fence (main_thread_only (this w)) with
  | Some fence_time =>
      if existsb (fun m => (fence_time <=? delayed_run_time m)%Z) moved
      then
        delayed_fence (main_thread_only (this w')) = None
        /\ (next_order w <= current_fence (main_thread_only (this w')))%N
        /\ (current_fence (main_thread_only (this w')) < next_order w')%N
        /\ forall m,
             In m moved ->
             ((fence_time <= delayed_run_time m)%Z ->
              (current_fence (main_thread_only (this w')) < enqueue_order m)%N)
             /\ ((delayed_run_time m < fence_time)%Z ->
                 (enqueue_order m < current_fence (main_thread_only (this w')))%N)
      else
        delayed_fence (main_thread_only (this w')) = Some fence_time
        /\ current_fence (main_thread_only (this w'))
           = current_fence (main_thread_only (this w))
  | None =>
      delayed_fence (main_thread_only (this w')) = None
      /\ current_fence (main_thread_only (this w'))
         = current_fence (main_thread_only (this w))
  end.

(** The effect of moving the ready tasks at time [now]. *)
Definition ready_tasks_moved (now : TimeTicks) (w w' : World) : Prop :=
  let c := queue_ (delayed_incoming_queue (main_thread_only (this w))) in
  registered (this w')
  /\ queue_ (delayed_incoming_queue (main_thread_only (this w')))
     = drop_while (leaves_top now) c
  /\ (next_order w <= next_order w')%N
  /\ exists moved,
       delayed_work_queue_tasks w' = delayed_work_queue_tasks w ++ moved
       /\ Forall2 moved_from moved (filter (ready now) c)
       /\ Forall (fun m => (next_order w <= enqueue_order m < next_order w')%N) moved
       /\ in_enqueue_order moved
       /\ fences_after_move w w' moved.

(** Short names for the parts of the world the move of ready tasks reads. *)
Definition queue_of (v : World) : list Task :=
  queue_ (delayed_incoming_queue (main_thread_only (this v))).
Definition delayed_fence_of (v : World) : option TimeTicks :=
  delayed_fence (main_thread_only (this v)).
Definition current_fence_of (v : World) : EnqueueOrder.t :=
  current_fence (main_thread_only (this v)).

(** The delayed incoming queue is a heap of tasks that have a callback. *)
Definition delayed_queue_ok (w : World) : Prop :=
  is_heap (queue_of w)
  /\ Forall (fun t : Task => closure_is_null (task t) = false) (queue_of w).


(** A live queue whose delayed incoming queue holds a cancelled high
    resolution task (due at 10) and two live tasks (due at 20 and 30). *)
Definition delayed_tasks_world (now : TimeTicks) : World :=
  sample_world
    (sample_queue 0%N None
       (sample_work_queue 0%N []) (sample_work_queue 0%N [])
       [mkTask (user_closure 1 true) 0%Z 10%Z 2%N 0%N kNestable 0 true;
        mkTask (user_closure 2 false) 0%Z 20%Z 3%N 0%N kNestable 0 false;
        mkTask (user_closure 3 false) 0%Z 30%Z 4%N 0%N kNestable 0 false]
       [])
    now.

Definition blocked_sample_queue : TaskQueueImpl :=
  sample_queue 5%N None
    (sample_work_queue 5%N [sample_task 6%N]) (sample_work_queue 5%N [])
    [] [sample_task 8%N].

(** A state that only the test hook reaches.  On a fresh queue
    [InsertFence(kNow)] installs the fence 10, and
    [PushImmediateIncomingTaskForTest] then puts a task with enqueue order 10
    at the front of the incoming queue. *)
Definition fence_equal_front_world : World :=
  world_after
    (TaskQueueImpl.InsertFence kNow ;;
     TaskQueueImpl.PushImmediateIncomingTaskForTest (sample_task 10%N))
    (sample_world
       (sample_queue 0%N None (sample_work_queue 0%N []) (sample_work_queue 0%N [])
                     [] [])
       0%Z).

Definition fence_equal_front_queue : TaskQueueImpl := this fence_equal_front_world.

(** ** What the operations leave alone *)

(** The four queues of [q'] hold the tasks of those of [q], in the same
    order. *)
Definition same_tasks (q q' : TaskQueueImpl) : Prop :=
  delayed_incoming_queue (main_thread_only q')
  = delayed_incoming_queue (main_thread_only q)
  /\ immediate_incoming_queue (any_thread_ q')
     = immediate_incoming_queue (any_thread_ q)
  /\ option_map tasks_ (immediate_work_queue (main_thread_only q'))
     = option_map tasks_ (immediate_work_queue (main_thread_only q))
  /\ option_map tasks_ (delayed_work_queue (main_thread_only q'))
     = option_map tasks_ (delayed_work_queue (main_thread_only q)).

(** The settings of the queue other than its fences are those of [q]. *)
Definition same_settings (q q' : TaskQueueImpl) : Prop :=
  is_enabled (main_thread_only q') = is_enabled (main_thread_only q)
  /\ task_queue_observer (main_thread_only q')
     = task_queue_observer (main_thread_only q)
  /\ scheduled_wake_up (main_thread_only q') = scheduled_wake_up (main_thread_only q)
  /\ option_map work_queue_set_index (immediate_work_queue (main_thread_only q'))
     = option_map work_queue_set_index (immediate_work_queue (main_thread_only q))
  /\ this_queue q' = this_queue q
  /\ operations_controller_ q' = operations_controller_ q
  /\ empty_queues_to_reload_handle_ q' = empty_queues_to_reload_handle_ q
  /\ delayed_fence_allowed_ q' = delayed_fence_allowed_ q
  /\ on_task_posted_handler (any_thread_ q') = on_task_posted_handler (any_thread_ q).

(** The flags that [UpdateCrossThreadQueueStateLocked] caches for the posting
    threads are up to date. *)
Definition cross_thread_state_ok (q : TaskQueueImpl) : Prop :=
  let m := main_thread_only q in
  post_immediate_task_should_schedule_work (any_thread_ q)
  = is_enabled m
    && (is_bound (task_queue_observer m) || negb (EnqueueOrder.is_set (current_fence m)))
  /\ exists iwq,
       immediate_work_queue m = Some iwq
       /\ immediate_work_queue_empty (any_thread_ q) = WorkQueue.Empty iwq.

(** The fences of the two work queues are the current fence of the queue. *)
Definition fences_in_sync (q : TaskQueueImpl) : Prop :=
  option_map fence_ (immediate_work_queue (main_thread_only q))
  = Some (current_fence (main_thread_only q))
  /\ option_map fence_ (delayed_work_queue (main_thread_only q))
     = Some (current_fence (main_thread_only q)).

(** The calls made between the states [w] and [w']. *)
Definition new_calls (w w' : World) : list Event :=
  skipn (length (calls w)) (calls w').

(** Both work queues are empty. *)
Definition work_queues_empty (q : TaskQueueImpl) : bool :=
  match delayed_work_queue (main_thread_only q),
        immediate_work_queue (main_thread_only q) with
  | Some dwq, Some iwq => WorkQueue.Empty dwq && WorkQueue.Empty iwq
  | _, _ => false
  end.

(** What [UpdateDelayedWakeUp] does, in full: when the wake-up that
    [GetNextScheduledWakeUpImpl] computes is the scheduled one nothing
    happens; otherwise it is recorded, the observer is told its time when the
    queue has no immediate work, and it is handed to the time domain. *)
Definition wake_up_rescheduled (lazy_now : TimeTicks) (w w' : World) : Prop :=
  let m := main_thread_only (this w) in
  exists s,
    TaskQueueImpl.GetNextScheduledWakeUpImpl (this w) = Some s
    /\ this w' = set_main (set_scheduled_wake_up s m) (this w)
    /\ sequence_manager_ w' = sequence_manager_ w
    /\ OS_WIN w' = OS_WIN w
    /\ if option_eqb DelayedWakeUp_eqb (scheduled_wake_up m) s
       then the_time_domain w' = the_time_domain w /\ calls w' = calls w
       else
         the_time_domain w'
         = fst (TimeDomain.SetNextWakeUpForQueue
                  (this_queue (this w)) s lazy_now (the_time_domain w))
         /\ calls w'
            = calls w
              ++ match s with
                 | Some wake =>
                     if is_bound (task_queue_observer m)
                     then
                       (if work_queues_empty (this w) then [EvLock; EvUnlock] else [])
                       ++ (if negb (match TaskQueueImpl.HasPendingImmediateWork (this w) with
                                    | Some pending => pending
                                    | None => true
                                    end)
                           then [EvOnQueueNextWakeUpChanged (wake_up_time wake)]
                           else [])
                     else []
                 | None => []
                 end
              ++ snd (TimeDomain.SetNextWakeUpForQueue
                        (this_queue (this w)) s lazy_now (the_time_domain w)).

(** ** The time domain *)

Definition is_high_resolution (e : ScheduledDelayedWakeUp) : bool :=
  match resolution (wake_up e) with kHigh => true | kLow => false end.

(** The number of wake-ups in the heap that ask for high resolution. *)
Definition high_res_wake_ups (h : IntrusiveHeap.t) : nat :=
  length (filter is_high_resolution h).

(** The counter of the time domain agrees with its heap. *)
Definition wake_up_count_ok (td : TimeDomain) : Prop :=
  pending_high_res_wake_up_count_ td
  = Z.of_nat (high_res_wake_ups (delayed_wake_up_queue_ td)).

(** The wake-up of queue [q] in the heap, if it has one. *)
Definition wake_up_of (q : QueueId) (h : IntrusiveHeap.t) : option DelayedWakeUp :=
  match IntrusiveHeap.heap_handle q h with
  | Some handle => option_map wake_up (IntrusiveHeap.at_ handle h)
  | None => None
  end.

(** A step of the queue that stays away from the time domain, the settings
    of the queue and its immediate queues. *)
Definition steady (w w' : World) : Prop :=
  (registered (this w) -> registered (this w'))
  /\ the_time_domain w' = the_time_domain w
  /\ same_settings (this w) (this w')
  /\ immediate_incoming_queue (any_thread_ (this w'))
     = immediate_incoming_queue (any_thread_ (this w))
  /\ option_map tasks_ (immediate_work_queue (main_thread_only (this w')))
     = option_map tasks_ (immediate_work_queue (main_thread_only (this w)))
  /\ OS_WIN w' = OS_WIN w
  /\ add_queue_time_to_tasks (sequence_manager_ w')
     = add_queue_time_to_tasks (sequence_manager_ w).

(** The queue and the time domain agree on the wake-up of the queue: the
    heap of the time domain holds at most one wake-up per queue, the one of
    this queue is the scheduled wake-up that the queue records, and that is
    the wake-up [GetNextScheduledWakeUpImpl] computes. *)
Definition heap_agrees (w : World) : Prop :=
  NoDup (map queue (delayed_wake_up_queue_ (the_time_domain w)))
  /\ wake_up_of (this_queue (this w)) (delayed_wake_up_queue_ (the_time_domain w))
     = scheduled_wake_up (main_thread_only (this w)).

Definition wake_up_consistent (w : World) : Prop :=
  heap_agrees w
  /\ TaskQueueImpl.GetNextScheduledWakeUpImpl (this w)
     = Some (scheduled_wake_up (main_thread_only (this w))).

(** The work queues and the fences of [q'] are those of [q]. *)
Definition work_queues_untouched (q q' : TaskQueueImpl) : Prop :=
  immediate_work_queue (main_thread_only q') = immediate_work_queue (main_thread_only q)
  /\ delayed_work_queue (main_thread_only q') = delayed_work_queue (main_thread_only q)
  /\ current_fence (main_thread_only q') = current_fence (main_thread_only q)
  /\ delayed_fence (main_thread_only q') = delayed_fence (main_thread_only q).

(** ** Enqueue orders and the fence *)

(** The enqueue orders of the immediate incoming queue come from the
    sequence manager: they increase along the queue, lie above
    [blocking_fence] and below the next sequence number; the current fence
    was allocated as well (or is [none] or [blocking_fence]) and is the
    enqueue order of no task in the incoming queue. *)
Definition orders_ok (w : World) : Prop :=
  let incoming := immediate_incoming_queue (any_thread_ (this w)) in
  let fence := current_fence (main_thread_only (this w)) in
  in_enqueue_order incoming
  /\ Forall (fun t => (EnqueueOrder.blocking_fence < enqueue_order t < next_order w)%N)
            incoming
  /\ (fence < next_order w)%N
  /\ (EnqueueOrder.blocking_fence < next_order w)%N
  /\ Forall (fun t => enqueue_order t <> fence) incoming.

(** ** The three timers *)

(** Modelled from the spec: [base/time] is not among the sources; the
    difference of two [TimeTicks] is the difference of the tick counts. *)
Definition TimeTicks_minus (a b : TimeTicks) : TimeDelta := (a - b)%Z.

(** [OneShotTimer], [RepeatingTimer] and [RetainingOneShotTimer] share
    [TimerBase] and differ in [OnStop] and [RunUserTask]. *)
Inductive TimerKind := OneShotTimer | RepeatingTimer | RetainingOneShotTimer.

(** A run of the user task, with the state of the timer that the task finds. *)
Record UserTaskRun := mkUserTaskRun {
  run_task : nat;
  run_timer : TimerBase
}.

Record Timer := mkTimer {
  timer_kind : TimerKind;
  timer_base : TimerBase;
  (** the closure of the user, [None] when it is null *)
  user_task_ : option nat;
  (** the user tasks run so far, oldest first *)
  user_task_runs : list UserTaskRun
}.

Module Timer.

Definition update_base (f : TimerBase -> TimerBase) (t : Timer) : Timer :=
  mkTimer (timer_kind t) (f (timer_base t)) (user_task_ t) (user_task_runs t).

Definition set_user_task (task : option nat) (t : Timer) : Timer :=
  mkTimer (timer_kind t) (timer_base t) task (user_task_runs t).

(** The tick clock reads [now]. *)
Definition set_tick_clock_now (now : TimeTicks) (t : TimerBase) : TimerBase :=
  mkTimerBase (task_destruction_detector_ t) (delay_ t) (scheduled_run_time_ t)
    (desired_run_time_ t) (is_running_ t) (weak_ptr_factory_ t) (detectors t)
    (posted_tasks t) now.

Definition at_time (now : TimeTicks) (t : Timer) : Timer :=
  update_base (set_tick_clock_now now) t.

Definition IsRunning (t : Timer) : bool := is_running_ (timer_base t).

Definition GetCurrentDelay (t : Timer) : TimeDelta := delay_ (timer_base t).

Definition OnStop (t : Timer) : Timer :=
  match timer_kind t with
  | OneShotTimer => set_user_task None t
  | RepeatingTimer => t
  | RetainingOneShotTimer => t
  end.

Definition Stop (t : Timer) : Timer :=
  OnStop (update_base (TimerBase.set_is_running false) t).

Definition Reset (t : Timer) : Timer := update_base TimerBase.Reset t.

Definition Start (delay : TimeDelta) (user_task : option nat) (t : Timer) : Timer :=
  update_base (TimerBase.StartInternal delay) (set_user_task user_task t).

(** Running a null callback crashes. *)
Definition Run (task : option nat) (t : Timer) : option Timer :=
  match task with
  | None => None
  | Some c =>
      Some (mkTimer (timer_kind t) (timer_base t) (user_task_ t)
              (user_task_runs t ++ [mkUserTaskRun c (timer_base t)]))
  end.

Definition RunUserTask (t : Timer) : option Timer :=
  match timer_kind t with
  | OneShotTimer =>
      let task := user_task_ t in
      Run task (Stop (set_user_task None t))
  | RepeatingTimer =>
      let task := user_task_ t in
      Run task (update_base (TimerBase.ScheduleNewTask (GetCurrentDelay t)) t)
  | RetainingOneShotTimer =>
      let task := user_task_ t in
      Run task (Stop t)
  end.

(** [OneShotTimer::FireNow]. *)
Definition FireNow (t : Timer) : option Timer := RunUserTask t.

(** The scheduled task disables the detector it carries and clears the
    pointer of the timer to it. *)
Definition release_detector (d : nat) (t : TimerBase) : TimerBase :=
  mkTimerBase None (delay_ t) (scheduled_run_time_ t) (desired_run_time_ t)
    (is_running_ t) (weak_ptr_factory_ t) (TimerBase.Disable d (detectors t))
    (posted_tasks t) (tick_clock_now t).

Definition OnScheduledTaskInvoked (task_destruction_detector : nat) (t : Timer)
  : option Timer :=
  let t1 := update_base (release_detector task_destruction_detector) t in
  if negb (is_running_ (timer_base t1)) then Some t1
  else
    let desired := desired_run_time_ (timer_base t1) in
    if (scheduled_run_time_ (timer_base t1) <? desired)%Z
       && (TimerBase.Now (timer_base t1) <? desired)%Z
    then
      Some (update_base
              (TimerBase.ScheduleNewTask
                 (TimeTicks_minus desired (TimerBase.Now (timer_base t1)))) t1)
    else RunUserTask t1.

(** Modelled from the spec: [AbandonAndStop] is declared in the header, which
    is not among the sources; it abandons the scheduled task and stops the
    timer. *)
Definition AbandonAndStop (t : Timer) : Timer :=
  Stop (update_base TimerBase.AbandonScheduledTask t).

(** The destructor of the detector [d]: it notifies the timer unless it was
    disabled. *)
Definition destroy_detector (d : nat) (t : Timer) : Timer :=
  match nth_error (detectors (timer_base t)) d with
  | Some true => AbandonAndStop t
  | _ => t
  end.

End Timer.

(** What happens to a timer: the calls of its user, the tick clock moving,
    and the two ends of a scheduled task, which the task runner invokes or
    destroys without running.  The task runner invokes a task through the weak
    pointer it was bound to and at most once, so the task that can still be
    invoked is the pending one. *)
Inductive TimerCall :=
| CallStart (delay : TimeDelta) (user_task : nat)
| CallTimerReset
| CallStop
| CallInvokeScheduledTask
| CallDestroyTask (d : nat)
| CallTick (now : TimeTicks).

Definition timer_step (c : TimerCall) (t : Timer) : option Timer :=
  match c with
  | CallStart delay user_task => Some (Timer.Start delay (Some user_task) t)
  | CallTimerReset => Some (Timer.Reset t)
  | CallStop => Some (Timer.Stop t)
  | CallInvokeScheduledTask =>
      match task_destruction_detector_ (timer_base t) with
      | Some d => Timer.OnScheduledTaskInvoked d t
      | None => Some t
      end
  | CallDestroyTask d => Some (Timer.destroy_detector d t)
  | CallTick now => Some (Timer.at_time now t)
  end.

Fixpoint timer_run (cs : list TimerCall) (t : Timer) : option Timer :=
  match cs with
  | [] => Some t
  | c :: cs' =>
      match timer_step c t with
      | Some t' => timer_run cs' t'
      | None => None
      end
  end.

(** One firing: the clock reads [now] and the pending scheduled task is
    invoked. *)
Definition fire (now : TimeTicks) : list TimerCall :=
  [CallTick now; CallInvokeScheduledTask].

(** The detector that still points to the timer is the one of the pending
    scheduled task, and no other does. *)
Definition detectors_ok (t : TimerBase) : Prop :=
  forall d, nth_error (detectors t) d = Some true <->
            task_destruction_detector_ t = Some d.

(** A timer as its constructor leaves it. *)
Definition new_timer (kind : TimerKind) (now : TimeTicks) : Timer :=
  mkTimer kind (mkTimerBase None 0%Z 0%Z 0%Z false 0 [] [] now) None [].

(** ** Sample states for the examples *)

Definition empty_sample_world : World :=
  sample_world
    (sample_queue 0%N None (sample_work_queue 0%N []) (sample_work_queue 0%N []) [] [])
    0%Z.

Definition blocked_sample_world : World := sample_world blocked_sample_queue 0%Z.

(** A live queue after the post of one task with delay 20 at time 0: the
    task waits in the delayed incoming queue and the queue has its wake-up in
    the heap of the time domain. *)
Definition scheduled_world : World :=
  world_after
    (TaskQueueImpl.PostTask
       (mkPostedTask (user_closure 1 false) 20%Z kNestable 0 0%Z) kMainThread)
    empty_sample_world.

(** A one-shot timer started at time 0 with delay 10. *)
Definition started_timer : Timer :=
  Timer.Start 10%Z (Some 1) (new_timer OneShotTimer 0%Z).

(** ** The cached flag of the posting threads *)



(** ** The states that posting reaches *)

(** A live queue whose delayed incoming queue is a heap of tasks that have a
    callback. *)
Definition live (w : World) : Prop :=
  registered (this w) /\ delayed_queue_ok w.

(** The world after [t] is pushed onto the delayed incoming queue. *)
Definition pushed_world (t : Task) (w : World) : World :=
  set_this
    (set_main (set_delayed_incoming_queue
                 (DelayedIncomingQueue.push
                    t (delayed_incoming_queue (main_thread_only (this w))))
                 (main_thread_only (this w)))
              (this w)) w.

(** The two work queues carry the fence of the queue and hold their tasks in
    enqueue order, and the delayed work queue holds no enqueue order that the
    sequence manager has yet to give out. *)
Definition work_queues_in_order (w : World) : Prop :=
  exists iwq dwq,
    work_queues_ok (this w) iwq dwq
    /\ Forall (fun t => (enqueue_order t < next_order w)%N) (tasks_ dwq).

(** A queue as constructed: live, with nothing posted, no fence, empty work
    queues, and a sequence manager whose numbers lie above
    [blocking_fence]. *)
Definition fresh_queue (w : World) : Prop :=
  live w
  /\ immediate_incoming_queue (any_thread_ (this w)) = []
  /\ current_fence (main_thread_only (this w)) = EnqueueOrder.none
  /\ (EnqueueOrder.blocking_fence < next_order w)%N
  /\ option_map tasks_ (immediate_work_queue (main_thread_only (this w))) = Some []
  /\ option_map tasks_ (delayed_work_queue (main_thread_only (this w))) = Some []
  /\ fences_in_sync (this w).

(** Modelled from the spec: a work queue is a FIFO that the selector
    consumes; the task at its front leaves it when it is run. *)
Definition front_task_taken (wq : WorkQueue) : WorkQueue :=
  WorkQueue.set_tasks (tl (tasks_ wq)) wq.

Definition immediate_task_taken (w : World) : World :=
  set_this
    (set_main (set_immediate_work_queue
                 (option_map front_task_taken
                             (immediate_work_queue (main_thread_only (this w))))
                 (main_thread_only (this w)))
              (this w)) w.

Definition delayed_task_taken (w : World) : World :=
  set_this
    (set_main (set_delayed_work_queue
                 (option_map front_task_taken
                             (delayed_work_queue (main_thread_only (this w))))
                 (main_thread_only (this w)))
              (this w)) w.

(** What happens to a live queue.  The posts, the fence operations, the
    reload of the empty immediate work queue, the move of the ready delayed
    tasks and the helper task of a delayed post from another thread (which
    moves the ready tasks too) are the functions that write the immediate
    incoming queue or the current fence; whatever else happens to the queue
    (its tasks are run, it is enabled or disabled, an observer is set) leaves
    both as they are, keeps the work queues in order and does not turn back
    the counter of the sequence manager.  [PushImmediateIncomingTaskForTest]
    is not among the steps. *)
Inductive queue_step : World -> World -> Prop :=
| qstep_PostTask posted current_thread w w' :
    closure_is_null (callback posted) = false ->
    TaskQueueImpl.PostTask posted current_thread w = Some (tt, w') ->
    queue_step w w'
| qstep_InsertFence pos w w' :
    TaskQueueImpl.InsertFence pos w = Some (tt, w') -> queue_step w w'
| qstep_InsertFenceAt time w w' :
    TaskQueueImpl.InsertFenceAt time w = Some (tt, w') -> queue_step w w'
| qstep_RemoveFence w w' :
    TaskQueueImpl.RemoveFence w = Some (tt, w') -> queue_step w w'
| qstep_ReloadEmptyImmediateWorkQueue iwq w w' :
    immediate_work_queue (main_thread_only (this w)) = Some iwq ->
    WorkQueue.Empty iwq = true ->
    TaskQueueImpl.ReloadEmptyImmediateWorkQueue w = Some (tt, w') ->
    queue_step w w'
| qstep_MoveReadyDelayedTasksToWorkQueue now w w' :
    TaskQueueImpl.MoveReadyDelayedTasksToWorkQueue now w = Some (tt, w') ->
    queue_step w w'
| qstep_ScheduleDelayedWorkTask pending w w' :
    closure_is_null (task pending) = false ->
    TaskQueueImpl.ScheduleDelayedWorkTask pending w = Some (tt, w') ->
    queue_step w w'
| qstep_ReclaimMemory now w w' :
    TaskQueueImpl.ReclaimMemory now w = Some (tt, w') -> queue_step w w'
| qstep_other w w' :
    live w' ->
    work_queues_in_order w' ->
    immediate_incoming_queue (any_thread_ (this w'))
    = immediate_incoming_queue (any_thread_ (this w)) ->
    current_fence (main_thread_only (this w'))
    = current_fence (main_thread_only (this w)) ->
    (next_order w <= next_order w')%N ->
    queue_step w w'.

Inductive posting_reachable : World -> Prop :=
| reachable_fresh w : fresh_queue w -> posting_reachable w
| reachable_queue_step w w' :
    posting_reachable w -> queue_step w w' -> posting_reachable w'.

(** A fresh queue after [InsertFence(kNow)] and the post of an immediate
    task. *)
Definition fenced_world : World :=
  world_after (TaskQueueImpl.InsertFence kNow) empty_sample_world.

Definition posted_after_fence_world : World :=
  world_after
    (TaskQueueImpl.PostTask
       (mkPostedTask (user_closure 9 false) 0%Z kNestable 0 0%Z) kNotMainThread)
    fenced_world.

(** * The properties, proved *)

(** * Proof automation *)

Ltac mrun :=
  cbv [bind ret crash main any update_main update_any get_queue put_queue call
       deref deref_ptr read GetNextSequenceNumber GetAddQueueTimeToTasks
       defined_OS_WIN time_domain_Now time_domain_CreateLazyNow time_domain_call
       set_this add_calls];
  cbn.

Ltac mrun_in H :=
  cbv [bind ret crash main any update_main update_any get_queue put_queue call
       deref deref_ptr read GetNextSequenceNumber GetAddQueueTimeToTasks
       defined_OS_WIN time_domain_Now time_domain_CreateLazyNow time_domain_call
       set_this add_calls] in H;
  cbn in H.

Ltac destruct_world w :=
  let sm := fresh "sm" in let td := fresh "td" in let q := fresh "q" in
  let cs := fresh "cs" in let os := fresh "os" in
  let m := fresh "m" in let a := fresh "a" in
  destruct w as [sm td q cs os];
  destruct q as [m a ? ? ? ?];
  destruct m; destruct a; destruct sm.

Ltac use_registered H :=
  let iwq := fresh "iwq" in let dwq := fresh "dwq" in let act := fresh "act" in
  destruct H as (? & ? & (iwq & ?) & (dwq & ?) & (act & ?)).

(** Run to the end: split on the tests that are met until the result shows. *)
Ltac mfinish_step :=
  match goal with
  | |- exists w', Some (_, _) = Some (_, w') /\ _ => fail 1
  | |- context [match ?x with Some _ => _ | None => _ end] =>
      is_var x; destruct x eqn:?
  | |- context [if ?b then _ else _] => destruct b eqn:?
  | |- context [match ?x with Some _ => _ | None => _ end] =>
      lazymatch x with
      | context [@None] => fail
      | _ => destruct x eqn:?
      end
  end;
  mrun.

Ltac mfinish :=
  mrun; repeat mfinish_step; eexists; (split; [reflexivity|]).

(** Keep the tests of the postcondition out of the way of the run. *)
Ltac hide_post Q HQ :=
  lazymatch goal with
  | |- exists w', ?lhs = Some (tt, w') /\ @?P w' => remember P as Q eqn:HQ
  end.

Ltac mfinish_hidden :=
  let Q := fresh "Q" in let HQ := fresh "HQ" in
  hide_post Q HQ; mfinish; subst Q; cbn beta.

(** The same on a hypothesis that an operation returned. *)
Ltac minvert_step H :=
  match type of H with
  | None = Some _ => discriminate H
  | Some _ = Some _ => fail 1
  | context [match ?x with Some _ => _ | None => _ end] =>
      is_var x; destruct x eqn:?
  | context [match ?x with nullptr => _ | bound => _ end] =>
      is_var x; destruct x eqn:?
  | context [if ?b then _ else _] => destruct b eqn:?
  | context [match ?x with Some _ => _ | None => _ end] =>
      lazymatch x with
      | context [@None] => fail
      | _ => destruct x eqn:?
      end
  end;
  mrun_in H.

Ltac minvert H :=
  mrun_in H; repeat (minvert_step H); try discriminate H; injection H as <-.

Ltac start_registered w Hreg :=
  destruct_world w; use_registered Hreg; simpl in *; subst.

Lemma sample_queue_registered f df iwq dwq delayed incoming :
  registered (sample_queue f df iwq dwq delayed incoming).
Proof. unfold registered; cbn; eauto 10. Qed.



(** * Properties of the delayed incoming queue *)

Section HeapFacts.

Lemma push_heap_perm (t : Task) (c : list Task) :
  Permutation (PQueue.push_heap t c) (t :: c).
Proof.
  induction c as [|x c IH]; simpl.
  - apply Permutation_refl.
  - destruct (PQueue.before t x).
    + apply Permutation_refl.
    + eapply perm_trans; [apply perm_skip, IH | apply perm_swap].
Qed.

Lemma make_heap_perm (c : list Task) : Permutation (PQueue.make_heap c) c.
Proof.
  induction c as [|x c IH]; simpl.
  - constructor.
  - eapply perm_trans; [apply push_heap_perm | apply perm_skip, IH].
Qed.

Lemma count_high_res_perm (c c' : list Task) :
  Permutation c c' -> count_high_res c = count_high_res c'.
Proof.
  intro H. unfold count_high_res.
  induction H; simpl; try congruence.
  - destruct (is_high_res x); simpl; congruence.
  - destruct (is_high_res x), (is_high_res y); reflexivity.
Qed.

Lemma count_high_res_cons (t : Task) (c : list Task) :
  count_high_res (t :: c)
  = ((if is_high_res t then 1 else 0) + count_high_res c)%nat.
Proof. unfold count_high_res; simpl. destruct (is_high_res t); reflexivity. Qed.

(** What the partition of the sweep computes. *)
Lemma stable_partition_keep_task (c : list Task) (n : N) :
  PQueue.stable_partition PQueue.keep_task c n
  = (filter not_cancelled c,
     filter (fun t => negb (not_cancelled t)) c,
     (n + N.of_nat (count_high_res (filter (fun t => negb (not_cancelled t)) c)))%N).
Proof.
  revert n. induction c as [|x c IH]; intro n.
  - simpl. f_equal. unfold count_high_res. simpl. lia.
  - assert (Hn : not_cancelled x = negb (IsCancelled (task x))) by reflexivity.
    cbn [PQueue.stable_partition filter]. unfold PQueue.keep_task at 1.
    destruct (IsCancelled (task x)); cbn [negb] in *; rewrite Hn; cbn [negb].
    + destruct (is_high_res x) eqn:Hh; rewrite IH; f_equal;
        rewrite count_high_res_cons, Hh; lia.
    + rewrite IH. reflexivity.
Qed.

Lemma filter_all (A : Type) (f : A -> bool) (l : list A) :
  forallb f l = true -> filter f l = l.
Proof.
  induction l as [|x l IH]; simpl; intro H; [reflexivity|].
  apply andb_true_iff in H. destruct H as [Hx Hl].
  rewrite Hx, IH; auto.
Qed.

Lemma filter_none (A : Type) (f : A -> bool) (l : list A) :
  forallb f l = true -> filter (fun x => negb (f x)) l = [].
Proof.
  induction l as [|x l IH]; simpl; intro H; [reflexivity|].
  apply andb_true_iff in H. destruct H as [Hx Hl].
  rewrite Hx; simpl. auto.
Qed.

Lemma filter_some (A : Type) (f : A -> bool) (l : list A) :
  forallb f l = false -> filter (fun x => negb (f x)) l <> [].
Proof.
  induction l as [|x l IH]; simpl; intro H; [discriminate|].
  destruct (f x); simpl in *; [auto | discriminate].
Qed.

(** The sweep: the storage is left alone when nothing is cancelled, and is
    the re-made heap of the kept tasks otherwise. *)
Lemma SweepCancelledTasks_storage (c : list Task) :
  fst (PQueue.SweepCancelledTasks c)
  = if forallb not_cancelled c then c
    else PQueue.make_heap (filter not_cancelled c).
Proof.
  unfold PQueue.SweepCancelledTasks.
  rewrite stable_partition_keep_task.
  destruct (forallb not_cancelled c) eqn:Hall.
  - rewrite (filter_none _ _ Hall), (filter_all _ _ Hall). reflexivity.
  - pose proof (filter_some _ _ Hall) as Hne.
    destruct (filter (fun t => negb (not_cancelled t)) c); [congruence|reflexivity].
Qed.

Lemma SweepCancelledTasks_count (c : list Task) :
  snd (PQueue.SweepCancelledTasks c)
  = N.of_nat (count_high_res (filter (fun t => negb (not_cancelled t)) c)).
Proof.
  unfold PQueue.SweepCancelledTasks.
  rewrite stable_partition_keep_task.
  destruct (filter (fun t => negb (not_cancelled t)) c); reflexivity.
Qed.

Lemma SweepCancelledTasks_perm (c : list Task) :
  Permutation (fst (PQueue.SweepCancelledTasks c)) (filter not_cancelled c).
Proof.
  rewrite SweepCancelledTasks_storage.
  destruct (forallb not_cancelled c) eqn:Hall.
  - rewrite (filter_all _ _ Hall). apply Permutation_refl.
  - apply make_heap_perm.
Qed.

Lemma count_high_res_split (f : Task -> bool) (c : list Task) :
  count_high_res c
  = (count_high_res (filter f c)
     + count_high_res (filter (fun t => negb (f t)) c))%nat.
Proof.
  induction c as [|x c IH]; [reflexivity|].
  simpl. destruct (f x); simpl; rewrite !count_high_res_cons, IH; lia.
Qed.

Lemma SweepCancelledTasks_no_cancelled (c : list Task) :
  Forall (fun t => IsCancelled (task t) = false) (fst (PQueue.SweepCancelledTasks c)).
Proof.
  apply Forall_forall. intros t Hin.
  apply (Permutation_in _ (SweepCancelledTasks_perm c)) in Hin.
  apply filter_In in Hin. destruct Hin as [_ H].
  unfold not_cancelled in H. now apply negb_true_iff in H.
Qed.

End HeapFacts.

Lemma counter_ok_initial : counter_ok DelayedIncomingQueue.empty_queue.
Proof. reflexivity. Qed.

(** C5: the counter [pending_high_res_tasks_] of a delayed incoming queue is
    the number of high resolution tasks in the queue, and [push], [pop],
    [swap] and [SweepCancelledTasks] keep it so. *)
Theorem pending_high_res_counter_preserved (q : DelayedIncomingQueue)
        (Hq : counter_ok q) :
  (forall t, counter_ok (DelayedIncomingQueue.push t q))
  /\ (DelayedIncomingQueue.empty q = false ->
      exists q', DelayedIncomingQueue.pop q = Some q' /\ counter_ok q')
  /\ (forall rhs, counter_ok rhs ->
        counter_ok (fst (DelayedIncomingQueue.swap q rhs))
        /\ counter_ok (snd (DelayedIncomingQueue.swap q rhs)))
  /\ counter_ok (DelayedIncomingQueue.SweepCancelledTasks q).
Proof.
  unfold counter_ok in *. repeat split.
  - intro t. simpl. unfold PQueue.push.
    rewrite (count_high_res_perm (push_heap_perm t (queue_ q))).
    rewrite count_high_res_cons, Hq. destruct (is_high_res t); lia.
  - unfold DelayedIncomingQueue.empty, DelayedIncomingQueue.pop,
      DelayedIncomingQueue.top, PQueue.top.
    destruct (queue_ q) as [|t c] eqn:Hc; [discriminate|]. intros _.
    eexists; split; [reflexivity|]. simpl.
    rewrite Hq, count_high_res_cons. destruct (is_high_res t); lia.
  - simpl. assumption.
  - simpl. assumption.
  - unfold DelayedIncomingQueue.SweepCancelledTasks.
    pose proof (SweepCancelledTasks_count (queue_ q)) as Hn.
    pose proof (SweepCancelledTasks_perm (queue_ q)) as Hp.
    destruct (PQueue.SweepCancelledTasks (queue_ q)) as [c n]. simpl in *.
    rewrite (count_high_res_perm Hp), Hq, Hn.
    rewrite (count_high_res_split not_cancelled (queue_ q)). lia.
Qed.


(** * The fence of a task queue *)


Lemma is_set_false (o : EnqueueOrder.t) :
  EnqueueOrder.is_set o = false <-> o = EnqueueOrder.none.
Proof.
  unfold EnqueueOrder.is_set, EnqueueOrder.none.
  rewrite negb_false_iff, N.eqb_eq. tauto.
Qed.

(** A work queue in enqueue order is blocked by a set fence exactly when
    none of its tasks is below the fence. *)
Lemma WorkQueue_BlockedByFence_iff (f : EnqueueOrder.t) (wq : WorkQueue) :
  work_queue_ok f wq -> EnqueueOrder.is_set f = true ->
  (WorkQueue.BlockedByFence wq = true <-> none_below f (tasks_ wq)).
Proof.
  intros [Hf Hs] Hset. unfold WorkQueue.BlockedByFence, none_below.
  rewrite Hf, Hset. simpl.
  destruct (tasks_ wq) as [|t ts].
  - split; [intros _ t [] | reflexivity].
  - rewrite N.leb_le. split.
    + intros Hle t' [<- |Hin]; [lia|].
      apply StronglySorted_inv in Hs. destruct Hs as [_ Hall].
      rewrite Forall_forall in Hall. specialize (Hall _ Hin). lia.
    + intro H. specialize (H t (or_introl eq_refl)). lia.
Qed.

(** The test of [BlockedByFence] as the code writes it: for a queue whose
    current fence is set it is true exactly when no task of the immediate work
    queue and none of the delayed work queue is strictly below the fence, and
    the immediate incoming queue is empty or its front task is strictly above
    the fence. *)
Lemma BlockedByFence_front_above (q : TaskQueueImpl) (iwq dwq : WorkQueue)
        (Hwq : work_queues_ok q iwq dwq)
        (Hset : EnqueueOrder.is_set (current_fence (main_thread_only q)) = true) :
  exists b,
    TaskQueueImpl.BlockedByFence q = Some b
    /\ (b = true <->
        none_below (current_fence (main_thread_only q)) (tasks_ iwq)
        /\ none_below (current_fence (main_thread_only q)) (tasks_ dwq)
        /\ all_above (current_fence (main_thread_only q))
                     (front_of (immediate_incoming_queue (any_thread_ q)))).
Proof.
  destruct Hwq as (Hi & Hd & Hiok & Hdok).
  pose proof (WorkQueue_BlockedByFence_iff Hiok Hset) as Bi.
  pose proof (WorkQueue_BlockedByFence_iff Hdok Hset) as Bd.
  unfold TaskQueueImpl.BlockedByFence. rewrite Hset, Hi, Hd. cbn [negb].
  destruct (WorkQueue.BlockedByFence iwq); cbn [negb].
  2:{ exists false. split; [reflexivity|]. split; [discriminate|].
      intros (H & _). apply Bi in H. discriminate. }
  destruct (WorkQueue.BlockedByFence dwq); cbn [negb].
  2:{ exists false. split; [reflexivity|]. split; [discriminate|].
      intros (_ & H & _). apply Bd in H. discriminate. }
  assert (Ti : none_below (current_fence (main_thread_only q)) (tasks_ iwq))
    by now apply Bi.
  assert (Td : none_below (current_fence (main_thread_only q)) (tasks_ dwq))
    by now apply Bd.
  unfold all_above, front_of.
  destruct (immediate_incoming_queue (any_thread_ q)) as [|t ts]; simpl.
  - exists true. split; [reflexivity|]. split; [|reflexivity].
    intros _. repeat split; auto. intros ? [].
  - eexists. split; [reflexivity|]. rewrite N.ltb_lt. split.
    + intro H. repeat split; auto. intros t' [<- |[]]. exact H.
    + intros (_ & _ & H). apply H. now left.
Qed.

Lemma fence_equal_front_queue_state :
  current_fence (main_thread_only fence_equal_front_queue) = 10%N
  /\ immediate_work_queue (main_thread_only fence_equal_front_queue)
     = Some (sample_work_queue 10%N [])
  /\ delayed_work_queue (main_thread_only fence_equal_front_queue)
     = Some (sample_work_queue 10%N [])
  /\ immediate_incoming_queue (any_thread_ fence_equal_front_queue)
     = [sample_task 10%N]
  /\ TaskQueueImpl.BlockedByFence fence_equal_front_queue = Some false.
Proof. vm_compute. repeat split. Qed.

(** Outside the states that posting reaches the two tests differ: with the
    task that the test hook pushed at the enqueue order of the fence, no task
    is strictly below the fence, yet [BlockedByFence] answers false. *)
Lemma pushed_task_at_fence_not_blocked :
  ~ blocked_iff_none_below fence_equal_front_queue.
Proof.
  destruct fence_equal_front_queue_state as (Hf & Hi & Hd & Hin & Hb).
  intro H.
  destruct (H (sample_work_queue 10%N []) (sample_work_queue 10%N []))
    as (b & Hb' & Hiff).
  - unfold work_queues_ok, work_queue_ok. rewrite Hf, Hi, Hd.
    repeat split; constructor.
  - rewrite Hf. reflexivity.
  - rewrite Hb in Hb'. injection Hb' as <-.
    assert (Habs : false = true).
    { apply Hiff. rewrite Hf, Hin. repeat split.
      - intros t [].
      - intros t [].
      - intros t [<-|[]]. vm_compute. discriminate. }
    discriminate.
Qed.

(** C10: [HasActiveFence] is true exactly when a current fence is set or a
    delayed fence is pending whose time is strictly before the current time of
    the time domain.  A delayed fence whose time has passed so counts as
    active although nothing blocks yet: while no current fence is set,
    [BlockedByFence] is false and every task of an enabled queue could run. *)
Theorem HasActiveFence_iff (q : TaskQueueImpl) (td : TimeDomain)
        (Htd : time_domain (main_thread_only q) = bound) :
  exists b,
    TaskQueueImpl.HasActiveFence q td = Some b
    /\ (b = true <->
        EnqueueOrder.is_set (current_fence (main_thread_only q)) = true
        \/ exists fence_time,
             delayed_fence (main_thread_only q) = Some fence_time
             /\ (fence_time < TimeDomain.Now td)%Z)
    /\ (EnqueueOrder.is_set (current_fence (main_thread_only q)) = false ->
        TaskQueueImpl.BlockedByFence q = Some false
        /\ forall order,
             TaskQueueImpl.CouldTaskRun q order = TaskQueueImpl.IsQueueEnabled q).
Proof.
  assert (Hnot_blocked :
            EnqueueOrder.is_set (current_fence (main_thread_only q)) = false ->
            TaskQueueImpl.BlockedByFence q = Some false
            /\ forall order,
                 TaskQueueImpl.CouldTaskRun q order = TaskQueueImpl.IsQueueEnabled q).
  { intro Hunset. unfold TaskQueueImpl.BlockedByFence, TaskQueueImpl.CouldTaskRun.
    rewrite Hunset. cbn [negb]. split; [reflexivity|].
    intro order. destruct (TaskQueueImpl.IsQueueEnabled q); reflexivity. }
  unfold TaskQueueImpl.HasActiveFence. rewrite Htd.
  destruct (delayed_fence (main_thread_only q)) as [ft|].
  - destruct (ft <? TimeDomain.Now td)%Z eqn:Hlt.
    + exists true. split; [reflexivity|]. split; [|exact Hnot_blocked].
      split; [|reflexivity].
      intros _. right. exists ft. split; [reflexivity|]. now apply Z.ltb_lt.
    + eexists. split; [reflexivity|]. split; [|exact Hnot_blocked].
      split; [now left|].
      intros [H|(ft' & Heq & Hlt')]; [exact H|].
      injection Heq as <-. apply Z.ltb_ge in Hlt. lia.
  - eexists. split; [reflexivity|]. split; [|exact Hnot_blocked].
    split; [now left|].
    intros [H|(ft' & Heq & _)]; [exact H | discriminate].
Qed.

Lemma HasActiveFence_iff_witness :
  exists b,
    TaskQueueImpl.HasActiveFence
      (sample_queue 0%N (Some 100%Z) (sample_work_queue 0%N [])
                    (sample_work_queue 0%N []) [] [])
      (mkTimeDomain [] 0%Z 101%Z) = Some b
    /\ (b = true <->
        EnqueueOrder.is_set 0%N = true
        \/ exists fence_time, Some 100%Z = Some fence_time /\ (fence_time < 101)%Z).
Proof.
  destruct (@HasActiveFence_iff
              (sample_queue 0%N (Some 100%Z) (sample_work_queue 0%N [])
                            (sample_work_queue 0%N []) [] [])
              (mkTimeDomain [] 0%Z 101%Z) eq_refl) as (b & Hb & Hiff & _).
  exists b. split; [exact Hb | exact Hiff].
Defined.

Section FenceOperations.

Variables w w' : World.

Lemma InsertFence_one_fence pos :
  TaskQueueImpl.InsertFence pos w = Some (tt, w') -> at_most_one_fence (this w').
Proof.
  intro H. destruct_world w.
  unfold TaskQueueImpl.InsertFence, TaskQueueImpl.UpdateCrossThreadQueueStateLocked_,
    TaskQueueImpl.UpdateCrossThreadQueueStateLocked, TaskQueueImpl.OnQueueUnblocked in H.
  destruct pos; minvert H; right; reflexivity.
Qed.

Lemma RemoveFence_one_fence :
  TaskQueueImpl.RemoveFence w = Some (tt, w') -> at_most_one_fence (this w').
Proof.
  intro H. destruct_world w.
  unfold TaskQueueImpl.RemoveFence, TaskQueueImpl.UpdateCrossThreadQueueStateLocked_,
    TaskQueueImpl.UpdateCrossThreadQueueStateLocked, TaskQueueImpl.OnQueueUnblocked in H.
  minvert H; right; reflexivity.
Qed.

Lemma InsertFenceAt_one_fence time :
  TaskQueueImpl.InsertFenceAt time w = Some (tt, w') -> at_most_one_fence (this w').
Proof.
  intro H. destruct_world w.
  unfold TaskQueueImpl.InsertFenceAt, TaskQueueImpl.RemoveFence,
    TaskQueueImpl.UpdateCrossThreadQueueStateLocked_,
    TaskQueueImpl.UpdateCrossThreadQueueStateLocked, TaskQueueImpl.OnQueueUnblocked in H.
  minvert H; left; reflexivity.
Qed.

Lemma ActivateDelayedFenceIfNeeded_one_fence now :
  at_most_one_fence (this w) ->
  TaskQueueImpl.ActivateDelayedFenceIfNeeded now w = Some (tt, w') ->
  at_most_one_fence (this w').
Proof.
  intros Hinv H. destruct_world w.
  unfold TaskQueueImpl.ActivateDelayedFenceIfNeeded, TaskQueueImpl.InsertFence,
    TaskQueueImpl.UpdateCrossThreadQueueStateLocked_,
    TaskQueueImpl.UpdateCrossThreadQueueStateLocked, TaskQueueImpl.OnQueueUnblocked in H.
  minvert H; try (right; reflexivity); exact Hinv.
Qed.

Lemma TakeImmediateIncomingQueueTasks_one_fence :
  at_most_one_fence (this w) ->
  TaskQueueImpl.TakeImmediateIncomingQueueTasks w = Some (tt, w') ->
  at_most_one_fence (this w').
Proof.
  intros Hinv H. destruct_world w.
  unfold TaskQueueImpl.TakeImmediateIncomingQueueTasks,
    TaskQueueImpl.UpdateCrossThreadQueueStateLocked_,
    TaskQueueImpl.UpdateCrossThreadQueueStateLocked in H.
  minvert H; try (right; reflexivity); exact Hinv.
Qed.

End FenceOperations.

Lemma InsertFence_returns (w : World) (Hreg : registered (this w)) pos :
  exists w', TaskQueueImpl.InsertFence pos w = Some (tt, w') /\ registered (this w').
Proof.
  start_registered w Hreg.
  unfold TaskQueueImpl.InsertFence, TaskQueueImpl.UpdateCrossThreadQueueStateLocked_,
    TaskQueueImpl.UpdateCrossThreadQueueStateLocked, TaskQueueImpl.OnQueueUnblocked.
  destruct pos; mfinish; unfold registered; cbn; eauto 10.
Qed.

Lemma RemoveFence_returns (w : World) (Hreg : registered (this w)) :
  exists w', TaskQueueImpl.RemoveFence w = Some (tt, w') /\ registered (this w').
Proof.
  start_registered w Hreg.
  unfold TaskQueueImpl.RemoveFence, TaskQueueImpl.UpdateCrossThreadQueueStateLocked_,
    TaskQueueImpl.UpdateCrossThreadQueueStateLocked, TaskQueueImpl.OnQueueUnblocked.
  mfinish; unfold registered; cbn; eauto 10.
Qed.

Lemma InsertFenceAt_returns (w : World) (Hreg : registered (this w)) time :
  exists w', TaskQueueImpl.InsertFenceAt time w = Some (tt, w') /\ registered (this w').
Proof.
  start_registered w Hreg.
  unfold TaskQueueImpl.InsertFenceAt, TaskQueueImpl.RemoveFence,
    TaskQueueImpl.UpdateCrossThreadQueueStateLocked_,
    TaskQueueImpl.UpdateCrossThreadQueueStateLocked, TaskQueueImpl.OnQueueUnblocked.
  mfinish; unfold registered; cbn; eauto 10.
Qed.

Lemma ActivateDelayedFenceIfNeeded_returns (w : World) (Hreg : registered (this w)) now :
  exists w',
    TaskQueueImpl.ActivateDelayedFenceIfNeeded now w = Some (tt, w')
    /\ registered (this w').
Proof.
  start_registered w Hreg.
  unfold TaskQueueImpl.ActivateDelayedFenceIfNeeded, TaskQueueImpl.InsertFence,
    TaskQueueImpl.UpdateCrossThreadQueueStateLocked_,
    TaskQueueImpl.UpdateCrossThreadQueueStateLocked, TaskQueueImpl.OnQueueUnblocked.
  mfinish; unfold registered; cbn; eauto 10.
Qed.

Lemma TakeImmediateIncomingQueueTasks_returns (w : World) (Hreg : registered (this w)) :
  exists w',
    TaskQueueImpl.TakeImmediateIncomingQueueTasks w = Some (tt, w')
    /\ registered (this w').
Proof.
  start_registered w Hreg.
  unfold TaskQueueImpl.TakeImmediateIncomingQueueTasks,
    TaskQueueImpl.UpdateCrossThreadQueueStateLocked_,
    TaskQueueImpl.UpdateCrossThreadQueueStateLocked.
  mfinish; unfold registered; cbn; eauto 10.
Qed.


Lemma fence_step_one_fence (w w' : World) :
  at_most_one_fence (this w) -> fence_step w w' -> at_most_one_fence (this w').
Proof.
  intros Hinv Hstep. destruct Hstep as
      [pos w w' H | time w w' H | w w' H | now w w' H | w w' H | w w' Hc Hd].
  - eapply InsertFence_one_fence; eassumption.
  - eapply InsertFenceAt_one_fence; eassumption.
  - eapply RemoveFence_one_fence; eassumption.
  - eapply ActivateDelayedFenceIfNeeded_one_fence; eassumption.
  - eapply TakeImmediateIncomingQueueTasks_one_fence; eassumption.
  - unfold at_most_one_fence in *. rewrite Hc, Hd. exact Hinv.
Qed.

(** C9: in every reachable state of a task queue at most one fence is set: the
    current fence and the delayed fence are never both set.  [InsertFence],
    [InsertFenceAt], [RemoveFence], [ActivateDelayedFenceIfNeeded] and
    [TakeImmediateIncomingQueueTasks] each keep it so, and each returns on a
    live queue. *)
Theorem at_most_one_fence_invariant :
  (forall w, reachable w -> at_most_one_fence (this w))
  /\ (forall w w',
        at_most_one_fence (this w) -> fence_step w w' ->
        at_most_one_fence (this w'))
  /\ (forall w,
        registered (this w) ->
        (forall pos, exists w', TaskQueueImpl.InsertFence pos w = Some (tt, w'))
        /\ (forall time, exists w', TaskQueueImpl.InsertFenceAt time w = Some (tt, w'))
        /\ (exists w', TaskQueueImpl.RemoveFence w = Some (tt, w'))
        /\ (forall now,
              exists w', TaskQueueImpl.ActivateDelayedFenceIfNeeded now w = Some (tt, w'))
        /\ (exists w', TaskQueueImpl.TakeImmediateIncomingQueueTasks w = Some (tt, w'))).
Proof.
  split; [|split].
  - intros w H. induction H as [w [Hc Hd] | w w' _ IH Hstep].
    + left. exact Hc.
    + exact (fence_step_one_fence IH Hstep).
  - exact fence_step_one_fence.
  - intros w Hreg. repeat split.
    + intro pos. destruct (InsertFence_returns _ Hreg pos) as (w' & H & _). eauto.
    + intro time. destruct (InsertFenceAt_returns _ Hreg time) as (w' & H & _). eauto.
    + destruct (RemoveFence_returns _ Hreg) as (w' & H & _). eauto.
    + intro now. destruct (ActivateDelayedFenceIfNeeded_returns _ Hreg now) as (w' & H & _).
      eauto.
    + destruct (TakeImmediateIncomingQueueTasks_returns _ Hreg) as (w' & H & _). eauto.
Qed.

Lemma at_most_one_fence_invariant_witness :
  at_most_one_fence
    (this (world_after TaskQueueImpl.TakeImmediateIncomingQueueTasks delayed_fence_world))
  /\ current_fence
       (main_thread_only
          (this (world_after TaskQueueImpl.TakeImmediateIncomingQueueTasks
                             delayed_fence_world))) = 4%N.
Proof.
  split; [|vm_compute; reflexivity].
  apply (proj1 (proj2 at_most_one_fence_invariant) delayed_fence_world).
  - left. reflexivity.
  - apply step_TakeImmediateIncomingQueueTasks. vm_compute. reflexivity.
Defined.

Lemma pending_high_res_counter_preserved_witness :
  counter_ok
    (DelayedIncomingQueue.SweepCancelledTasks
       (mkDelayedIncomingQueue
          [mkTask (user_closure 1 true) 0%Z 10%Z 2%N 0%N kNestable 0 true;
           mkTask (user_closure 2 false) 0%Z 20%Z 3%N 0%N kNestable 0 true]
          2%Z)).
Proof.
  apply (@pending_high_res_counter_preserved
           (mkDelayedIncomingQueue
              [mkTask (user_closure 1 true) 0%Z 10%Z 2%N 0%N kNestable 0 true;
               mkTask (user_closure 2 false) 0%Z 20%Z 3%N 0%N kNestable 0 true]
              2%Z)).
  reflexivity.
Defined.


(** * Updating the wake-up of a queue *)

Lemma WakeUpResolution_eqb_eq (a b : WakeUpResolution) :
  WakeUpResolution_eqb a b = true -> a = b.
Proof. destruct a, b; simpl; congruence. Qed.

Lemma DelayedWakeUp_eqb_eq (a b : DelayedWakeUp) :
  DelayedWakeUp_eqb a b = true -> a = b.
Proof.
  destruct a, b. unfold DelayedWakeUp_eqb. simpl.
  rewrite !andb_true_iff, Z.eqb_eq, N.eqb_eq.
  intros [[-> ->] H]. apply WakeUpResolution_eqb_eq in H. now subst.
Qed.

Lemma option_DelayedWakeUp_eqb_eq (a b : option DelayedWakeUp) :
  option_eqb DelayedWakeUp_eqb a b = true -> a = b.
Proof.
  destruct a, b; simpl; try congruence.
  intro H. apply DelayedWakeUp_eqb_eq in H. now subst.
Qed.

Lemma SetNextWakeUpForQueue_clock q wake lazy_now td :
  clock_now (fst (TimeDomain.SetNextWakeUpForQueue q wake lazy_now td))
  = clock_now td.
Proof.
  unfold TimeDomain.SetNextWakeUpForQueue.
  repeat match goal with
         | |- context [if ?b then _ else _] => destruct b
         end; reflexivity.
Qed.

Lemma UpdateDelayedWakeUp_returns (lazy_now : TimeTicks) (w : World)
      (Hreg : registered (this w)) :
  exists w',
    TaskQueueImpl.UpdateDelayedWakeUp lazy_now w = Some (tt, w')
    /\ wake_up_updated w w'.
Proof.
  start_registered w Hreg.
  unfold TaskQueueImpl.UpdateDelayedWakeUp, TaskQueueImpl.UpdateDelayedWakeUpImpl,
    TaskQueueImpl.HasPendingImmediateWork.
  hide_post Q HQ. mrun.
  destruct (TaskQueueImpl.GetNextScheduledWakeUpImpl _) as [s|] eqn:Hs.
  2:{ exfalso. revert Hs. unfold TaskQueueImpl.GetNextScheduledWakeUpImpl,
        TaskQueueImpl.GetQueuePriority. cbn.
      repeat match goal with
             | |- context [match ?x with _ => _ end] => destruct x
             end; discriminate. }
  mrun.
  destruct (option_eqb DelayedWakeUp_eqb scheduled_wake_up0 s) eqn:Heq.
  - apply option_DelayedWakeUp_eqb_eq in Heq. subst s.
    eexists. split; [reflexivity|]. subst Q. cbn.
    unfold wake_up_updated. cbn. repeat split. eexists. split; [exact Hs|reflexivity].
  - repeat mfinish_step.
    all: subst;
      match goal with
      | |- context [TimeDomain.SetNextWakeUpForQueue ?a ?b ?c ?d] =>
          pose proof (SetNextWakeUpForQueue_clock a b c d) as Hclock;
          destruct (TimeDomain.SetNextWakeUpForQueue a b c d) as [td' es]
      end;
      eexists; (split; [reflexivity|]); unfold wake_up_updated; cbn;
      repeat split; try assumption; eexists; (split; [eassumption | reflexivity]).
Qed.

Arguments TaskQueueImpl.UpdateDelayedWakeUp : simpl never.
(** * Reclaiming memory *)

Lemma DelayedIncomingQueue_SweepCancelledTasks_queue (d : DelayedIncomingQueue) :
  queue_ (DelayedIncomingQueue.SweepCancelledTasks d)
  = fst (PQueue.SweepCancelledTasks (queue_ d)).
Proof.
  unfold DelayedIncomingQueue.SweepCancelledTasks.
  destruct (PQueue.SweepCancelledTasks (queue_ d)); reflexivity.
Qed.

Lemma ReclaimMemory_returns (w : World) (now : TimeTicks)
      (Hreg : registered (this w)) :
  exists w',
    TaskQueueImpl.ReclaimMemory now w = Some (tt, w')
    /\ registered (this w')
    /\ queue_ (delayed_incoming_queue (main_thread_only (this w')))
       = fst (PQueue.SweepCancelledTasks
                (queue_ (delayed_incoming_queue (main_thread_only (this w))))).
Proof.
  pose proof Hreg as Hreg0.
  start_registered w Hreg.
  unfold TaskQueueImpl.ReclaimMemory.
  hide_post Q HQ. mrun.
  destruct (DelayedIncomingQueue.empty delayed_incoming_queue0) eqn:Hempty.
  - eexists. split; [reflexivity|]. subst Q. cbn.
    unfold DelayedIncomingQueue.empty in Hempty.
    destruct (queue_ delayed_incoming_queue0); [|discriminate].
    split; [exact Hreg0 | reflexivity].
  - mrun.
    match goal with
    | |- context [TaskQueueImpl.UpdateDelayedWakeUp ?n ?W] =>
        destruct (@UpdateDelayedWakeUp_returns n W) as (w' & E & U);
        [unfold registered; cbn; eauto 10 | rewrite E]
    end.
    eexists. split; [reflexivity|]. subst Q. cbn.
    destruct U as (_ & _ & _ & s & _ & Hthis). rewrite Hthis. cbn.
    split; [unfold registered; cbn; eauto 10|].
    apply DelayedIncomingQueue_SweepCancelledTasks_queue.
Qed.

(** C6: after [ReclaimMemory] no cancelled task is left in the delayed
    incoming queue; the storage of the heap is left as it was when no task is
    removed, and is made into a heap again only when one was removed. *)
Theorem ReclaimMemory_sweeps (w : World) (now : TimeTicks)
        (Hreg : registered (this w)) :
  exists w',
    TaskQueueImpl.ReclaimMemory now w = Some (tt, w')
    /\ Forall (fun t => IsCancelled (task t) = false)
              (queue_ (delayed_incoming_queue (main_thread_only (this w'))))
    /\ queue_ (delayed_incoming_queue (main_thread_only (this w')))
       = (let c := queue_ (delayed_incoming_queue (main_thread_only (this w))) in
          if forallb not_cancelled c then c
          else PQueue.make_heap (filter not_cancelled c))
    /\ (forall c,
          fst (PQueue.SweepCancelledTasks c)
          = if forallb not_cancelled c then c
            else PQueue.make_heap (filter not_cancelled c)).
Proof.
  destruct (@ReclaimMemory_returns w now Hreg) as (w' & E & _ & Hq).
  exists w'. split; [exact E|]. rewrite Hq. split; [|split].
  - apply SweepCancelledTasks_no_cancelled.
  - apply SweepCancelledTasks_storage.
  - apply SweepCancelledTasks_storage.
Qed.

Lemma ReclaimMemory_sweeps_witness :
  exists w',
    TaskQueueImpl.ReclaimMemory 5%Z (delayed_tasks_world 5%Z) = Some (tt, w')
    /\ map (fun t : Task => sequence_num t)
           (queue_ (delayed_incoming_queue (main_thread_only (this w'))))
       = [3%N; 4%N].
Proof.
  destruct (@ReclaimMemory_sweeps (delayed_tasks_world 5%Z) 5%Z
              (sample_queue_registered _ _ _ _ _ _)) as (w' & E & _ & Hq & _).
  exists w'. split; [exact E|]. rewrite Hq. reflexivity.
Defined.

(** * Posting an immediate task *)

Lemma UpdateCrossThreadQueueStateLocked_flags (q q' : TaskQueueImpl) :
  TaskQueueImpl.UpdateCrossThreadQueueStateLocked q = Some q' ->
  post_immediate_task_should_schedule_work (any_thread_ q')
  = TaskQueueImpl.IsQueueEnabled q
    && (is_bound (task_queue_observer (main_thread_only q))
        || negb (EnqueueOrder.is_set (current_fence (main_thread_only q))))
  /\ exists iwq,
       immediate_work_queue (main_thread_only q) = Some iwq
       /\ immediate_work_queue_empty (any_thread_ q') = WorkQueue.Empty iwq.
Proof.
  unfold TaskQueueImpl.UpdateCrossThreadQueueStateLocked.
  destruct (immediate_work_queue (main_thread_only q)) as [iwq|]; [|discriminate].
  intro H. injection H as <-. cbn. split.
  - destruct (is_bound _), (TaskQueueImpl.IsQueueEnabled q); reflexivity.
  - eauto.
Qed.


(** * The heap of wake-ups of the time domain *)

Section IntrusiveHeapFacts.

Variable q : QueueId.

Lemma heap_handle_None (h : IntrusiveHeap.t) :
  IntrusiveHeap.heap_handle q h = None <-> ~ In q (map queue h).
Proof.
  induction h as [|e h IH]; simpl.
  - tauto.
  - destruct (Nat.eqb (queue e) q) eqn:He.
    + apply Nat.eqb_eq in He. split; [discriminate | tauto].
    + apply Nat.eqb_neq in He.
      destruct (IntrusiveHeap.heap_handle q h); simpl.
      * split; [discriminate|]. intro H. exfalso. apply H. right.
        destruct IH as [_ IH]. destruct (in_dec Nat.eq_dec q (map queue h)); [assumption|].
        specialize (IH n0). discriminate.
      * split; [|reflexivity]. intros _ [H|H]; [congruence | now apply IH].
Qed.

Lemma ChangeKey_In (h : IntrusiveHeap.t) (i : nat) (e' : ScheduledDelayedWakeUp) :
  IntrusiveHeap.heap_handle q h = Some i ->
  NoDup (map queue h) ->
  queue e' = q ->
  NoDup (map queue (IntrusiveHeap.ChangeKey i e' h))
  /\ forall e, In e (IntrusiveHeap.ChangeKey i e' h)
               <-> (In e h /\ queue e <> q) \/ e = e'.
Proof.
  revert i. induction h as [|x h IH]; intros i Hh Hnd Hq; simpl in *; [discriminate|].
  apply NoDup_cons_iff in Hnd. destruct Hnd as [Hx Hnd].
  destruct (Nat.eqb (queue x) q) eqn:He.
  - apply Nat.eqb_eq in He. injection Hh as <-. simpl. split.
    + constructor; [congruence | assumption].
    + intro e. split.
      * intros [<- |H]; [now right|]. left. split; [now right|].
        intro Hc. apply Hx. rewrite He, <- Hc. now apply in_map.
      * intros [[[<- |H] Hne]| ->]; [congruence | now right | now left].
  - apply Nat.eqb_neq in He.
    destruct (IntrusiveHeap.heap_handle q h) as [j|] eqn:Hj; [|discriminate].
    injection Hh as <-. simpl.
    destruct (IH j eq_refl Hnd Hq) as [IH1 IH2]. split.
    + constructor; [|assumption].
      intro Hin. apply in_map_iff in Hin. destruct Hin as (e & Heq & Hin).
      apply IH2 in Hin. destruct Hin as [[Hin _]| ->].
      * apply Hx. rewrite <- Heq. now apply in_map.
      * congruence.
    + intro e. rewrite IH2. split.
      * intros [<- |[[H Hne]| ->]]; [left; split; [now left | assumption] | | now right].
        left. split; [now right | assumption].
      * intros [[[<- |H] Hne]| ->]; [now left | right; left; tauto | right; now right].
Qed.

Lemma erase_In (h : IntrusiveHeap.t) (i : nat) :
  IntrusiveHeap.heap_handle q h = Some i ->
  NoDup (map queue h) ->
  NoDup (map queue (IntrusiveHeap.erase i h))
  /\ forall e, In e (IntrusiveHeap.erase i h) <-> In e h /\ queue e <> q.
Proof.
  revert i. induction h as [|x h IH]; intros i Hh Hnd; simpl in *; [discriminate|].
  apply NoDup_cons_iff in Hnd. destruct Hnd as [Hx Hnd].
  destruct (Nat.eqb (queue x) q) eqn:He.
  - apply Nat.eqb_eq in He. injection Hh as <-. simpl. split; [assumption|].
    intro e. split.
    + intro H. split; [now right|]. intro Hc. apply Hx.
      rewrite He, <- Hc. now apply in_map.
    + intros [[<- |H] Hne]; [congruence | assumption].
  - apply Nat.eqb_neq in He.
    destruct (IntrusiveHeap.heap_handle q h) as [j|] eqn:Hj; [|discriminate].
    injection Hh as <-. simpl.
    destruct (IH j eq_refl Hnd) as [IH1 IH2]. split.
    + constructor; [|assumption].
      intro Hin. apply in_map_iff in Hin. destruct Hin as (e & Heq & Hin).
      apply IH2 in Hin. destruct Hin as [Hin _].
      apply Hx. rewrite <- Heq. now apply in_map.
    + intro e. rewrite IH2. split.
      * intros [<- |[H Hne]]; [split; [now left | assumption] | split; [now right | assumption]].
      * intros [[<- |H] Hne]; [now left | right; tauto].
Qed.

Lemma insert_In (h : IntrusiveHeap.t) (e' : ScheduledDelayedWakeUp) :
  IntrusiveHeap.heap_handle q h = None ->
  NoDup (map queue h) ->
  queue e' = q ->
  NoDup (map queue (IntrusiveHeap.insert e' h))
  /\ forall e, In e (IntrusiveHeap.insert e' h)
               <-> (In e h /\ queue e <> q) \/ e = e'.
Proof.
  intros Hh Hnd Hq. apply heap_handle_None in Hh.
  unfold IntrusiveHeap.insert. split.
  - rewrite map_app. simpl. apply NoDup_app; [assumption | repeat constructor; simpl; tauto |].
    intros x Hin [<- |[]]. congruence.
  - intro e. rewrite in_app_iff. simpl. split.
    + intros [H|[<- |[]]]; [|now right]. left. split; [assumption|].
      intro Hc. apply Hh. rewrite <- Hc. now apply in_map.
    + intros [[H _]| ->]; [now left | right; now left].
Qed.

End IntrusiveHeapFacts.

Lemma Min_least (h : IntrusiveHeap.t) (m : ScheduledDelayedWakeUp) :
  IntrusiveHeap.Min h = Some m ->
  In m h
  /\ forall e, In e h ->
               (wake_up_time (wake_up m) <= wake_up_time (wake_up e))%Z.
Proof.
  revert m. induction h as [|x h IH]; intros m; simpl; [discriminate|].
  destruct (IntrusiveHeap.Min h) as [m'|] eqn:Hm.
  - destruct (IH m' eq_refl) as [Hin Hle].
    unfold IntrusiveHeap.le.
    destruct (wake_up_time (wake_up x) =? wake_up_time (wake_up m'))%Z eqn:Heq.
    + apply Z.eqb_eq in Heq.
      destruct (wake_up_sequence_num (wake_up x) <=? wake_up_sequence_num (wake_up m'))%N;
        intro H; injection H as <-.
      * split; [now left|]. intros e [<- |He]; [lia|].
        specialize (Hle e He). lia.
      * split; [now right|]. intros e [<- |He]; [lia | auto].
    + apply Z.eqb_neq in Heq.
      destruct (wake_up_time (wake_up x) <? wake_up_time (wake_up m'))%Z eqn:Hlt;
        intro H; injection H as <-.
      * apply Z.ltb_lt in Hlt. split; [now left|]. intros e [<- |He]; [lia|].
        specialize (Hle e He). lia.
      * apply Z.ltb_ge in Hlt. split; [now right|]. intros e [<- |He]; [lia | auto].
  - intro H. injection H as <-. split; [now left|].
    intros e [<- |He]; [lia|]. destruct h; [destruct He|].
    simpl in Hm. destruct (IntrusiveHeap.Min h); [destruct (IntrusiveHeap.le s s0)|];
      discriminate.
Qed.

Lemma option_Z_eqb_eq (a b : option Z) :
  option_eqb Z.eqb a b = true <-> a = b.
Proof.
  destruct a, b; simpl; try (split; congruence).
  rewrite Z.eqb_eq. split; congruence.
Qed.

(** C7: [SetNextWakeUpForQueue] inserts, changes or erases the entry of the
    queue, so that every queue keeps at most one entry.  When the minimum of
    the heap is the same afterwards nothing is called; otherwise
    [RequestDoWork] is called when the new minimum is at or before the time of
    [lazy_now], and [SetNextDelayedDoWork] with the new minimum
    ([TimeTicks::Max()] for an empty heap) when it is later. *)
Theorem SetNextWakeUpForQueue_spec (td : TimeDomain) (q : QueueId)
        (wake : option DelayedWakeUp) (lazy_now : TimeTicks)
        (Hunique : NoDup (map queue (delayed_wake_up_queue_ td))) :
  let heap := delayed_wake_up_queue_ td in
  let heap' :=
    delayed_wake_up_queue_ (fst (TimeDomain.SetNextWakeUpForQueue q wake lazy_now td)) in
  let called := snd (TimeDomain.SetNextWakeUpForQueue q wake lazy_now td) in
  let new_minimum :=
    match TimeDomain.min_wake_up_time heap' with
    | Some t => t
    | None => TimeTicks_Max
    end in
  NoDup (map queue heap')
  /\ (forall e,
        In e heap'
        <-> (In e heap /\ queue e <> q)
            \/ e = mkScheduledDelayedWakeUp (wake_up e) q /\ wake = Some (wake_up e))
  /\ (TimeDomain.min_wake_up_time heap' = TimeDomain.min_wake_up_time heap ->
      called = [])
  /\ (TimeDomain.min_wake_up_time heap' <> TimeDomain.min_wake_up_time heap ->
      ((new_minimum <= lazy_now)%Z -> called = TimeDomain.RequestDoWork)
      /\ ((lazy_now < new_minimum)%Z ->
          called = TimeDomain.SetNextDelayedDoWork lazy_now new_minimum))
  /\ (forall m,
        IntrusiveHeap.Min heap' = Some m ->
        In m heap'
        /\ forall e, In e heap' ->
                     (wake_up_time (wake_up m) <= wake_up_time (wake_up e))%Z).
Proof.
  cbv zeta.
  set (heap := delayed_wake_up_queue_ td) in *.
  set (heap' :=
         match wake with
         | Some w =>
             match IntrusiveHeap.heap_handle q heap with
             | Some handle =>
                 IntrusiveHeap.ChangeKey handle (mkScheduledDelayedWakeUp w q) heap
             | None => IntrusiveHeap.insert (mkScheduledDelayedWakeUp w q) heap
             end
         | None =>
             match IntrusiveHeap.heap_handle q heap with
             | Some handle => IntrusiveHeap.erase handle heap
             | None => heap
             end
         end).
  assert (Hheap : delayed_wake_up_queue_
                    (fst (TimeDomain.SetNextWakeUpForQueue q wake lazy_now td)) = heap').
  { unfold TimeDomain.SetNextWakeUpForQueue. fold heap. fold heap'.
    destruct (option_eqb Z.eqb _ _); [reflexivity|].
    destruct (_ <=? _)%Z; reflexivity. }
  rewrite Hheap.
  assert (Hentries :
            NoDup (map queue heap')
            /\ forall e,
                 In e heap'
                 <-> (In e heap /\ queue e <> q)
                     \/ e = mkScheduledDelayedWakeUp (wake_up e) q
                        /\ wake = Some (wake_up e)).
  { subst heap'. destruct wake as [w|];
      destruct (IntrusiveHeap.heap_handle q heap) as [i|] eqn:Hh.
    - destruct (@ChangeKey_In q heap i (mkScheduledDelayedWakeUp w q) Hh Hunique eq_refl)
        as [H1 H2].
      split; [assumption|]. intro e. rewrite H2. split.
      + intros [H| ->]; [now left | right; split; reflexivity].
      + intros [H|[H1' H2']]; [now left|]. right. injection H2' as ->. exact H1'.
    - destruct (@insert_In q heap (mkScheduledDelayedWakeUp w q) Hh Hunique eq_refl)
        as [H1 H2].
      split; [assumption|]. intro e. rewrite H2. split.
      + intros [H| ->]; [now left | right; split; reflexivity].
      + intros [H|[H1' H2']]; [now left|]. right. injection H2' as ->. exact H1'.
    - destruct (@erase_In q heap i Hh Hunique) as [H1 H2].
      split; [assumption|]. intro e. rewrite H2. split.
      + intro H. now left.
      + intros [H|[_ H]]; [assumption | discriminate].
    - split; [assumption|]. apply heap_handle_None in Hh. intro e. split.
      + intro H. left. split; [assumption|]. intro Hc. apply Hh.
        rewrite <- Hc. now apply in_map.
      + intros [[H _]|[_ H]]; [assumption | discriminate]. }
  destruct Hentries as [Hnd Hin].
  split; [exact Hnd|]. split; [exact Hin|].
  assert (Hcalled :
            snd (TimeDomain.SetNextWakeUpForQueue q wake lazy_now td)
            = if option_eqb Z.eqb (TimeDomain.min_wake_up_time heap')
                                  (TimeDomain.min_wake_up_time heap)
              then []
              else
                let m := match TimeDomain.min_wake_up_time heap' with
                         | Some t => t
                         | None => TimeTicks_Max
                         end in
                if (m <=? lazy_now)%Z then TimeDomain.RequestDoWork
                else TimeDomain.SetNextDelayedDoWork lazy_now m).
  { unfold TimeDomain.SetNextWakeUpForQueue. fold heap. fold heap'.
    destruct (option_eqb Z.eqb _ _); [reflexivity|]. cbv zeta.
    destruct (_ <=? _)%Z; reflexivity. }
  rewrite Hcalled. split; [|split].
  - intro H. apply option_Z_eqb_eq in H. rewrite H. reflexivity.
  - intro H.
    destruct (option_eqb Z.eqb (TimeDomain.min_wake_up_time heap')
                         (TimeDomain.min_wake_up_time heap)) eqn:Heq.
    + apply option_Z_eqb_eq in Heq. contradiction.
    + cbv zeta. split; intro Hcmp.
      * apply Z.leb_le in Hcmp. rewrite Hcmp. reflexivity.
      * apply Z.leb_gt in Hcmp. rewrite Hcmp. reflexivity.
  - apply Min_least.
Qed.

Lemma SetNextWakeUpForQueue_spec_witness :
  snd (TimeDomain.SetNextWakeUpForQueue
         7 (Some (mkDelayedWakeUp 50%Z 3%N kLow)) 10%Z
         (mkTimeDomain [mkScheduledDelayedWakeUp (mkDelayedWakeUp 80%Z 2%N kLow) 5;
                        mkScheduledDelayedWakeUp (mkDelayedWakeUp 90%Z 1%N kLow) 7]
                       0%Z 10%Z))
  = TimeDomain.SetNextDelayedDoWork 10%Z 50%Z.
Proof.
  refine (proj2 (proj1 (proj2 (proj2 (proj2 (@SetNextWakeUpForQueue_spec
           (mkTimeDomain [mkScheduledDelayedWakeUp (mkDelayedWakeUp 80%Z 2%N kLow) 5;
                          mkScheduledDelayedWakeUp (mkDelayedWakeUp 90%Z 1%N kLow) 7]
                         0%Z 10%Z)
           7 (Some (mkDelayedWakeUp 50%Z 3%N kLow)) 10%Z _)))) _) _).
  - repeat constructor; simpl; intuition discriminate.
  - vm_compute. discriminate.
  - vm_compute. reflexivity.
Defined.

(** * Timers *)

Lemma Disable_nth (ds : list bool) (id : nat) :
  id < length ds -> nth_error (TimerBase.Disable id ds) id = Some false.
Proof.
  revert id. induction ds as [|d ds IH]; intros [|id] H; simpl in *; try lia.
  - reflexivity.
  - apply IH. lia.
Qed.

Lemma Disable_length (ds : list bool) (id : nat) :
  length (TimerBase.Disable id ds) = length ds.
Proof.
  revert id. induction ds as [|d ds IH]; intros [|id]; simpl; auto.
Qed.

(** C8: [Reset] posts a new task with the current delay when no scheduled task
    is pending.  Otherwise it computes the desired run time ([Now() + delay]
    for a positive delay); when that is not earlier than the scheduled run
    time it only records it and sets [is_running], without posting; when it is
    earlier it abandons the scheduled task and posts a new one with the
    current delay. *)
Theorem Reset_spec (t : TimerBase) :
  let desired :=
    if (0 <? delay_ t)%Z then TimeTicks_plus (TimerBase.Now t) (delay_ t) else 0%Z in
  let posted_delay := if (0 <? delay_ t)%Z then delay_ t else 0%Z in
  (task_destruction_detector_ t = None ->
   TimerBase.Reset t = TimerBase.ScheduleNewTask (delay_ t) t
   /\ posted_tasks (TimerBase.Reset t)
      = posted_tasks t
        ++ [mkScheduledTask (weak_ptr_factory_ t) (length (detectors t)) posted_delay]
   /\ is_running_ (TimerBase.Reset t) = true
   /\ scheduled_run_time_ (TimerBase.Reset t) = desired
   /\ desired_run_time_ (TimerBase.Reset t) = desired)
  /\ (forall d,
        task_destruction_detector_ t = Some d ->
        ((scheduled_run_time_ t <= desired)%Z ->
         TimerBase.Reset t
         = TimerBase.set_is_running true (TimerBase.set_desired_run_time desired t)
         /\ posted_tasks (TimerBase.Reset t) = posted_tasks t
         /\ desired_run_time_ (TimerBase.Reset t) = desired
         /\ scheduled_run_time_ (TimerBase.Reset t) = scheduled_run_time_ t
         /\ is_running_ (TimerBase.Reset t) = true
         /\ task_destruction_detector_ (TimerBase.Reset t) = Some d
         /\ detectors (TimerBase.Reset t) = detectors t
         /\ weak_ptr_factory_ (TimerBase.Reset t) = weak_ptr_factory_ t)
        /\ ((desired < scheduled_run_time_ t)%Z ->
            TimerBase.Reset t
            = TimerBase.ScheduleNewTask (delay_ t) (TimerBase.AbandonScheduledTask
                 (TimerBase.set_desired_run_time desired t))
            /\ posted_tasks (TimerBase.Reset t)
               = posted_tasks t
                 ++ [mkScheduledTask (S (weak_ptr_factory_ t)) (length (detectors t))
                                     posted_delay]
            /\ weak_ptr_factory_ (TimerBase.Reset t) = S (weak_ptr_factory_ t)
            /\ (d < length (detectors t) ->
                nth_error (detectors (TimerBase.Reset t)) d = Some false)
            /\ task_destruction_detector_ (TimerBase.Reset t)
               = Some (length (detectors t))
            /\ is_running_ (TimerBase.Reset t) = true)).
Proof.
  cbv zeta. split.
  - intro Hnone. unfold TimerBase.Reset. rewrite Hnone.
    unfold TimerBase.ScheduleNewTask. cbn.
    destruct (0 <? delay_ t)%Z; repeat split; reflexivity.
  - intros d Hd. unfold TimerBase.Reset. rewrite Hd. split; intro Hcmp.
    + destruct (0 <? delay_ t)%Z; cbn;
        (destruct (scheduled_run_time_ t <=? _)%Z eqn:Hle;
         [repeat split; (reflexivity || assumption) | apply Z.leb_gt in Hle; lia]).
    + destruct (0 <? delay_ t)%Z eqn:Hpos; cbn;
        (destruct (scheduled_run_time_ t <=? _)%Z eqn:Hle;
         [apply Z.leb_le in Hle; lia|]);
        unfold TimerBase.AbandonScheduledTask, TimerBase.ScheduleNewTask; cbn;
        rewrite Hd; cbn; rewrite ?Hpos, ?Disable_length;
        repeat split; try reflexivity;
        intro Hlen; (rewrite nth_error_app1 by (rewrite Disable_length; exact Hlen));
        apply Disable_nth; exact Hlen.
Qed.

(** * Posting through a task runner *)

Lemma PostTask_enqueues (w : World) (posted : PostedTask)
      (current_thread : CurrentThread)
      (Hcallback : closure_is_null (callback posted) = false)
      (Hreg : registered (this w)) :
  exists w',
    TaskQueueImpl.PostTask posted current_thread w = Some (tt, w')
    /\ (registered (this w') /\ enqueued posted w w').
Proof.
  unfold TaskQueueImpl.PostTask.
  destruct (delay posted =? 0)%Z.
  - start_registered w Hreg.
    unfold TaskQueueImpl.PostImmediateTaskImpl, TaskQueueImpl.SetActive.
    rewrite Hcallback. mfinish_hidden.
    all: (split; [unfold registered; cbn; eauto 10|]);
      eexists; left; (split; [|split; reflexivity]); left; cbn;
      destruct (add_queue_time_to_tasks0 || delayed_fence_allowed_0); reflexivity.
  - unfold TaskQueueImpl.PostDelayedTaskImpl. rewrite Hcallback.
    destruct current_thread.
    + start_registered w Hreg.
      unfold TaskQueueImpl.PushOntoDelayedIncomingQueueFromMainThread,
        TaskQueueImpl.push_delayed_incoming_queue.
      hide_post Q HQ. mrun.
      match goal with
      | |- context [TaskQueueImpl.UpdateDelayedWakeUp ?n ?W] =>
          destruct (@UpdateDelayedWakeUp_returns n W) as (w' & E & U);
          [unfold registered; cbn; eauto 10 | rewrite E]
      end.
      eexists. split; [reflexivity|]. subst Q. cbn.
      destruct U as (_ & _ & _ & s & _ & Hthis).
      unfold enqueued. rewrite Hthis. cbn.
      split; [unfold registered; cbn; eauto 10|].
      eexists. right. repeat split; try reflexivity.
      cbn. destruct add_queue_time_to_tasks0; reflexivity.
    + start_registered w Hreg.
      unfold TaskQueueImpl.PushOntoDelayedIncomingQueue,
        TaskQueueImpl.PostImmediateTaskImpl, TaskQueueImpl.SetActive.
      cbn [closure_is_null callback].
      mfinish_hidden.
      all: (split; [unfold registered; cbn; eauto 10|]);
        destruct add_queue_time_to_tasks0, delayed_fence_allowed_0; cbn;
        eexists; left; (split; [|split; reflexivity]); right; cbn;
        eexists; split; reflexivity.
Qed.

Lemma not_enqueued_same (posted : PostedTask) (w : World) : ~ enqueued posted w w.
Proof.
  intros (t & [(_ & H & _)|(_ & _ & _ & H & _)]).
  - apply (f_equal (@length Task)) in H. rewrite length_app in H. simpl in H. lia.
  - apply (f_equal (fun d => length (queue_ d))) in H. cbn in H.
    unfold PQueue.push in H.
    rewrite (Permutation_length (push_heap_perm t _)) in H. simpl in H. lia.
Qed.

Lemma rejected_post (w : World) (p : PostCall) :
  OperationsController.TryBeginOperation (operations_controller_ (this w)) = false ->
  run_post p w = Some (false, w).
Proof.
  intro H. destruct p; cbn;
    unfold TaskRunner.PostDelayedTask, TaskRunner.PostNonNestableDelayedTask,
      GuardedTaskPoster.PostTask, bind, get_queue; rewrite H; reflexivity.
Qed.

Lemma rejected_posts (w : World) (ps : list PostCall) :
  OperationsController.TryBeginOperation (operations_controller_ (this w)) = false ->
  run_posts ps w = Some (map (fun _ => false) ps, w).
Proof.
  intro H. induction ps as [|p ps IH]; [reflexivity|].
  cbn [run_posts map]. unfold bind at 1. rewrite (@rejected_post w p H).
  unfold bind at 1. rewrite IH. reflexivity.
Qed.

Lemma UnregisterTaskQueue_returns (w : World) :
  exists w',
    TaskQueueImpl.UnregisterTaskQueue w = Some (tt, w')
    /\ operations_controller_ (this w') = kShuttingDown
    /\ immediate_incoming_queue (any_thread_ (this w')) = []
    /\ delayed_incoming_queue (main_thread_only (this w'))
       = DelayedIncomingQueue.empty_queue.
Proof.
  destruct_world w.
  unfold TaskQueueImpl.UnregisterTaskQueue, TimeDomain.UnregisterQueue.
  hide_post Q HQ. mrun.
  destruct time_domain0; mrun.
  - eexists. split; [reflexivity|]. subst Q. cbn. auto.
  - match goal with
    | |- context [TimeDomain.SetNextWakeUpForQueue ?a ?b ?c ?d] =>
        destruct (TimeDomain.SetNextWakeUpForQueue a b c d) as [td' es]
    end.
    eexists. split; [reflexivity|]. subst Q. cbn. auto.
Qed.

(** C4: [GuardedTaskPoster::PostTask] returns true exactly when the task was
    accepted and queued, and a rejected post leaves the queue as it was.
    After [UnregisterTaskQueue] every later [PostDelayedTask] or
    [PostNonNestableDelayedTask] through a runner of the queue returns false
    and changes nothing: the callback is dropped. *)
Theorem PostTask_true_iff_enqueued :
  (forall w posted current_thread,
      closure_is_null (callback posted) = false ->
      registered (this w) ->
      exists b w',
        GuardedTaskPoster.PostTask posted current_thread w = Some (b, w')
        /\ (b = true <-> enqueued posted w w')
        /\ (b = true <->
            OperationsController.TryBeginOperation
              (operations_controller_ (this w)) = true)
        /\ (b = false -> w' = w))
  /\ (forall w,
        exists w1,
          TaskQueueImpl.UnregisterTaskQueue w = Some (tt, w1)
          /\ forall ps, run_posts ps w1 = Some (map (fun _ => false) ps, w1)).
Proof.
  split.
  - intros w posted current_thread Hcallback Hreg.
    unfold GuardedTaskPoster.PostTask, bind, get_queue, ret.
    destruct (OperationsController.TryBeginOperation _) eqn:Hgate; cbn [negb].
    + destruct (@PostTask_enqueues w posted current_thread Hcallback Hreg)
        as (w' & E & _ & Henq).
      rewrite E. exists true, w'. repeat split; auto. discriminate.
    + exists false, w. repeat split; auto; try discriminate.
      intro H. exfalso. exact (not_enqueued_same H).
  - intro w. destruct (UnregisterTaskQueue_returns w) as (w1 & E & Hgate & _).
    exists w1. split; [exact E|]. intro ps. apply rejected_posts.
    rewrite Hgate. reflexivity.
Qed.

Lemma PostTask_true_iff_enqueued_witness :
  exists w1,
    TaskQueueImpl.UnregisterTaskQueue (delayed_tasks_world 5%Z) = Some (tt, w1)
    /\ run_posts [CallPostDelayedTask 0 (user_closure 1 false) 0%Z kMainThread;
                  CallPostNonNestableDelayedTask 0 (user_closure 2 false) 100%Z
                                                 kNotMainThread] w1
       = Some ([false; false], w1).
Proof.
  destruct (proj2 PostTask_true_iff_enqueued (delayed_tasks_world 5%Z))
    as (w1 & E & H).
  exists w1. split; [exact E | apply H].
Defined.

(** * Moving the ready delayed tasks *)

Lemma ActivateDelayedFenceIfNeeded_spec (now : TimeTicks) (w : World)
      (Hreg : registered (this w)) :
  exists w',
    TaskQueueImpl.ActivateDelayedFenceIfNeeded now w = Some (tt, w')
    /\ (registered (this w')
        /\ delayed_incoming_queue (main_thread_only (this w'))
           = delayed_incoming_queue (main_thread_only (this w))
        /\ delayed_work_queue_tasks w' = delayed_work_queue_tasks w
        /\ (next_order w <= next_order w')%N
        /\ match delayed_fence (main_thread_only (this w)) with
           | Some fence_time =>
               if (fence_time <=? now)%Z
               then delayed_fence (main_thread_only (this w')) = None
                    /\ current_fence (main_thread_only (this w')) = next_order w
                    /\ (next_order w < next_order w')%N
               else delayed_fence (main_thread_only (this w')) = Some fence_time
                    /\ current_fence (main_thread_only (this w'))
                       = current_fence (main_thread_only (this w))
                    /\ next_order w' = next_order w
           | None =>
               delayed_fence (main_thread_only (this w')) = None
               /\ current_fence (main_thread_only (this w'))
                  = current_fence (main_thread_only (this w))
               /\ next_order w' = next_order w
           end).
Proof.
  start_registered w Hreg.
  unfold TaskQueueImpl.ActivateDelayedFenceIfNeeded, TaskQueueImpl.InsertFence,
    TaskQueueImpl.UpdateCrossThreadQueueStateLocked_,
    TaskQueueImpl.UpdateCrossThreadQueueStateLocked, TaskQueueImpl.OnQueueUnblocked.
  hide_post Q HQ. mrun.
  destruct delayed_fence0 as [ft|]; mrun.
  - destruct (now <? ft)%Z eqn:Hlt; mrun.
    + eexists. split; [reflexivity|]. subst Q. cbn.
      unfold registered, delayed_work_queue_tasks, next_order. cbn.
      assert ((ft <=? now)%Z = false) as -> by (apply Z.ltb_lt in Hlt; lia).
      repeat split; eauto; lia.
    + repeat mfinish_step.
      all: eexists; (split; [reflexivity|]); subst Q; cbn;
        unfold registered, delayed_work_queue_tasks, next_order; cbn;
        assert ((ft <=? now)%Z = true) as -> by (apply Z.ltb_ge in Hlt; lia);
        repeat split; eauto; lia.
  - eexists. split; [reflexivity|]. subst Q. cbn.
    unfold registered, delayed_work_queue_tasks, next_order. cbn.
    repeat split; eauto; lia.
Qed.

Arguments TaskQueueImpl.ActivateDelayedFenceIfNeeded : simpl never.

Lemma before_run_time (a b : Task) :
  PQueue.before a b = true -> (delayed_run_time a <= delayed_run_time b)%Z.
Proof.
  unfold PQueue.before. rewrite orb_true_iff, andb_true_iff, Z.ltb_lt, Z.eqb_eq. lia.
Qed.

Lemma is_heap_top_first (x : Task) (c : list Task) :
  is_heap (x :: c) ->
  is_heap c
  /\ forall t, In t c -> (delayed_run_time x <= delayed_run_time t)%Z.
Proof.
  intro H. apply StronglySorted_inv in H. destruct H as [Hs Hall]. split; [exact Hs|].
  intros t Hin. rewrite Forall_forall in Hall. apply before_run_time. now apply Hall.
Qed.

Lemma moved_from_run_time (m t : Task) :
  moved_from m t -> delayed_run_time m = delayed_run_time t.
Proof. intros [o ->]. reflexivity. Qed.

Lemma moved_from_filter_In (f : Task -> bool) (moved c : list Task) (m : Task) :
  Forall2 moved_from moved (filter f c) -> In m moved ->
  exists t, In t c /\ moved_from m t.
Proof.
  intros H Hin. remember (filter f c) as l eqn:Hl.
  assert (Hsub : forall t, In t l -> In t c).
  { intros t Ht. subst l. apply filter_In in Ht. tauto. }
  clear Hl. induction H as [|m' t' ms ts Hmt _ IH]; [destruct Hin|].
  destruct Hin as [<-|Hin].
  - exists t'. split; [apply Hsub; now left | exact Hmt].
  - apply IH; [exact Hin|]. intros t Ht. apply Hsub. now right.
Qed.

Lemma not_due_nothing_ready (now : TimeTicks) (x : Task) (c : list Task) :
  is_heap (x :: c) -> due now x = false -> filter (ready now) (x :: c) = [].
Proof.
  intros Hheap Hdue. destruct (is_heap_top_first Hheap) as [_ Hle].
  unfold due in Hdue. apply Z.leb_gt in Hdue.
  assert (Hall : forall t, In t (x :: c) -> ready now t = false).
  { intros t [<-|Hin]; unfold ready, due; apply andb_false_iff; right; apply Z.leb_gt.
    - exact Hdue.
    - specialize (Hle t Hin). lia. }
  clear Hheap Hle Hdue. revert Hall. generalize (x :: c). intro l.
  induction l as [|y l IH]; intro Hall; [reflexivity|].
  simpl. rewrite (Hall y (or_introl eq_refl)). apply IH.
  intros t Ht. apply Hall. now right.
Qed.

Section MoveSteps.

Variable now : TimeTicks.
Variables (x : Task) (c1 : list Task).
Variables w w' : World.

Hypothesis Hqueue : queue_of w = x :: c1.

(** The loop has nothing to do: the top is a live task that is not due. *)
Lemma moved_stop :
  is_heap (x :: c1) -> dropped_at_top x = false -> due now x = false ->
  registered (this w) -> ready_tasks_moved now w w.
Proof.
  intros Hheap Hlive Hdue Hreg. unfold ready_tasks_moved. fold (queue_of w).
  rewrite Hqueue, (@not_due_nothing_ready now x c1 Hheap Hdue).
  cbn [drop_while]. unfold leaves_top. rewrite Hlive, Hdue. cbn [orb].
  split; [exact Hreg|]. split; [reflexivity|]. split; [lia|].
  exists []. rewrite app_nil_r. repeat split; try constructor.
  unfold fences_after_move. destruct (delayed_fence _); cbn; auto.
Qed.

(** The top was dropped. *)
Lemma moved_skip (w1 : World) :
  dropped_at_top x = true ->
  queue_of w1 = c1 ->
  next_order w1 = next_order w ->
  delayed_work_queue_tasks w1 = delayed_work_queue_tasks w ->
  delayed_fence_of w1 = delayed_fence_of w ->
  current_fence_of w1 = current_fence_of w ->
  ready_tasks_moved now w1 w' -> ready_tasks_moved now w w'.
Proof.
  intros Hdrop Hq Hn Hd Hdf Hcf.
  unfold ready_tasks_moved, fences_after_move.
  fold (queue_of w) (queue_of w1) (delayed_fence_of w) (delayed_fence_of w1)
       (current_fence_of w) (current_fence_of w1).
  assert (Hleaves : leaves_top now x = true)
    by (unfold leaves_top; rewrite Hdrop; reflexivity).
  assert (Hready : ready now x = false)
    by (unfold ready; rewrite Hdrop; reflexivity).
  rewrite Hqueue, Hq, Hn, Hd, Hdf, Hcf.
  cbn [drop_while filter]. rewrite Hleaves, Hready. auto.
Qed.

(** The top was moved with enqueue order [order]. *)
Lemma moved_step (w2 : World) (order : EnqueueOrder.t) :
  is_heap (x :: c1) ->
  dropped_at_top x = false -> due now x = true ->
  queue_of w2 = c1 ->
  (next_order w <= order)%N -> (order < next_order w2)%N ->
  delayed_work_queue_tasks w2
  = delayed_work_queue_tasks w ++ [set_enqueue_order order x] ->
  match delayed_fence_of w with
  | Some fence_time =>
      if (fence_time <=? delayed_run_time x)%Z
      then delayed_fence_of w2 = None
           /\ (next_order w <= current_fence_of w2 < order)%N
      else delayed_fence_of w2 = Some fence_time
           /\ current_fence_of w2 = current_fence_of w
  | None => delayed_fence_of w2 = None /\ current_fence_of w2 = current_fence_of w
  end ->
  ready_tasks_moved now w2 w' -> ready_tasks_moved now w w'.
Proof.
  intros Hheap Hlive Hdue Hq Hlo Hhi Hd Hfence.
  destruct (is_heap_top_first Hheap) as [_ Hle].
  unfold ready_tasks_moved.
  fold (queue_of w) (queue_of w2).
  assert (Hleaves : leaves_top now x = true)
    by (unfold leaves_top; rewrite Hdue; apply orb_true_r).
  assert (Hready : ready now x = true)
    by (unfold ready; rewrite Hlive, Hdue; reflexivity).
  rewrite Hqueue, Hq, Hd.
  cbn [drop_while filter]. rewrite Hleaves, Hready.
  intros (Hreg & Hrest & Hnext & moved & Htasks & Hfrom & Hrange & Hsorted & Hf).
  split; [exact Hreg|]. split; [exact Hrest|]. split; [lia|].
  exists (set_enqueue_order order x :: moved).
  split; [rewrite Htasks, <- app_assoc; reflexivity|].
  split; [constructor; [now exists order | exact Hfrom]|].
  split.
  { constructor; [cbn; lia|]. eapply Forall_impl; [|exact Hrange].
    cbn. intros m Hm. lia. }
  split.
  { constructor; [exact Hsorted|]. eapply Forall_impl; [|exact Hrange].
    cbn. intros m Hm. lia. }
  assert (Hlater : forall m, In m moved ->
                             (delayed_run_time x <= delayed_run_time m)%Z).
  { intros m Hm. destruct (@moved_from_filter_In _ _ _ m Hfrom Hm) as (t & Ht & Hmt).
    rewrite (moved_from_run_time Hmt). now apply Hle. }
  rewrite Forall_forall in Hrange.
  revert Hf. unfold fences_after_move.
  fold (delayed_fence_of w) (delayed_fence_of w2) (delayed_fence_of w')
       (current_fence_of w) (current_fence_of w2) (current_fence_of w').
  destruct (delayed_fence_of w) as [ft|].
  - cbn [existsb set_enqueue_order delayed_run_time].
    destruct (ft <=? delayed_run_time x)%Z eqn:Hft.
    + apply Z.leb_le in Hft. destruct Hfence as [Hdf2 Hcf2]. rewrite Hdf2.
      cbn [orb]. intros [Hdf' Hcf']. rewrite Hcf'.
      split; [exact Hdf'|]. split; [lia|]. split; [lia|].
      intros m [<-|Hm]; cbn.
      * split; intros; lia.
      * specialize (Hrange m Hm). specialize (Hlater m Hm). cbn in Hrange.
        split; intros; lia.
    + apply Z.leb_gt in Hft. destruct Hfence as [Hdf2 Hcf2]. rewrite Hdf2, Hcf2.
      cbn [orb].
      destruct (existsb (fun m => (ft <=? delayed_run_time m)%Z) moved).
      * intros (Hdf' & Hlo' & Hhi' & Hall).
        split; [exact Hdf'|]. split; [lia|]. split; [exact Hhi'|].
        intros m [<-|Hm]; cbn; [split; intros; lia | now apply Hall].
      * auto.
  - destruct Hfence as [Hdf2 Hcf2]. rewrite Hdf2, Hcf2. auto.
Qed.

End MoveSteps.

Arguments TaskQueueImpl.MoveReadyDelayedTasksToWorkQueue_loop : simpl nomatch.

Lemma MoveReadyDelayedTasksToWorkQueue_loop_spec (now : TimeTicks) (c : list Task) :
  forall w,
    registered (this w) ->
    queue_ (delayed_incoming_queue (main_thread_only (this w))) = c ->
    is_heap c ->
    exists w',
      TaskQueueImpl.MoveReadyDelayedTasksToWorkQueue_loop (length c) now w
      = Some (tt, w')
      /\ ready_tasks_moved now w w'.
Proof.
  induction c as [|x c1 IH]; intros w Hreg Hc Hheap.
  - pose proof Hreg as Hreg0.
    start_registered w Hreg. destruct delayed_incoming_queue0 as [cq cnt].
    simpl in Hc. subst cq.
    cbn [length TaskQueueImpl.MoveReadyDelayedTasksToWorkQueue_loop].
    hide_post Q HQ. mrun. eexists. split; [reflexivity|]. subst Q. cbn beta.
    unfold ready_tasks_moved. cbn. split; [exact Hreg0|]. split; [reflexivity|].
    split; [lia|]. exists []. rewrite app_nil_r.
    repeat split; try constructor.
    unfold fences_after_move. cbn. destruct delayed_fence0; cbn; auto.
  - pose proof Hreg as Hreg0.
    start_registered w Hreg. destruct delayed_incoming_queue0 as [cq cnt].
    simpl in Hc. subst cq.
    match goal with
    | |- exists w', _ ?W = _ /\ _ => set (w0 := W) in *
    end.
    cbn [length TaskQueueImpl.MoveReadyDelayedTasksToWorkQueue_loop].
    hide_post Q HQ. subst w0. mrun.
    destruct (closure_is_null (task x) || IsCancelled (task x)) eqn:Hdrop; mrun.
    + match goal with
      | |- exists w', _ ?W = _ /\ _ =>
          destruct (IH W) as (w' & E & P);
          [unfold registered; cbn; eauto 10 | reflexivity
          | apply (is_heap_top_first Hheap) |]
      end.
      exists w'. split; [exact E|]. subst Q. cbn beta.
      eapply moved_skip; [reflexivity | exact Hdrop | | | | | | exact P];
        reflexivity.
    + destruct (now <? delayed_run_time x)%Z eqn:Hnow; mrun.
      * eexists. split; [reflexivity|]. subst Q. cbn beta.
        eapply moved_stop; [reflexivity | exact Hheap | exact Hdrop | | exact Hreg0].
        unfold due. apply Z.ltb_lt in Hnow. apply Z.leb_gt. exact Hnow.
      * match goal with
        | |- context [TaskQueueImpl.ActivateDelayedFenceIfNeeded ?n ?W] =>
            destruct (@ActivateDelayedFenceIfNeeded_spec n W Hreg0)
              as (w1 & E1 & R1 & Hdiq & Hdwq & Hn1 & Hf1);
            rewrite E1
        end.
        unfold delayed_work_queue_tasks, next_order in Hdwq, Hn1, Hf1.
        cbn in Hdiq, Hdwq, Hn1, Hf1.
        destruct_world w1. use_registered R1. cbn in * |-. subst.
        mrun.
        match goal with
        | |- exists w', _ ?W = _ /\ _ => set (w2 := W)
        end.
        destruct (IH w2) as (w' & E & P);
          [unfold registered; cbn; eauto 10 | reflexivity
          | apply (is_heap_top_first Hheap) |].
        exists w'. split; [exact E|]. cbn beta.
        eapply moved_step with (order := next_sequence_number1) (w2 := w2);
          [reflexivity | exact Hheap | exact Hdrop | | reflexivity | | | | | exact P].
        -- unfold due. apply Z.ltb_ge in Hnow. apply Z.leb_le. exact Hnow.
        -- exact Hn1.
        -- unfold next_order. cbn. lia.
        -- unfold delayed_work_queue_tasks. cbn. rewrite Hdwq. reflexivity.
        -- cbn. destruct delayed_fence0 as [ft|]; [|tauto].
           destruct (ft <=? delayed_run_time x)%Z; [|tauto].
           destruct Hf1 as (-> & -> & Hlt). split; [reflexivity|].
           unfold next_order. cbn. lia.
Qed.

Lemma drop_while_ext_in (f g : Task -> bool) (c : list Task) :
  (forall t, In t c -> f t = g t) -> drop_while f c = drop_while g c.
Proof.
  induction c as [|x c IH]; intro H; [reflexivity|].
  simpl. rewrite <- (H x (or_introl eq_refl)).
  destruct (f x); [|reflexivity]. apply IH. intros t Ht. apply H. now right.
Qed.

Lemma drop_while_head (f : Task -> bool) (c : list Task) (t : Task) (rest : list Task) :
  drop_while f c = t :: rest -> f t = false.
Proof.
  induction c as [|x c IH]; simpl; [discriminate|].
  destruct (f x) eqn:Hx; [exact IH|]. intro H. injection H as <- _. exact Hx.
Qed.

Lemma is_heap_filter (f : Task -> bool) (c : list Task) :
  is_heap c -> is_heap (filter f c).
Proof.
  unfold is_heap. induction 1 as [|x c Hs IH Hall]; simpl; [constructor|].
  destruct (f x); [|exact IH]. constructor; [exact IH|].
  rewrite Forall_forall in *. intros t Ht. apply filter_In in Ht. apply Hall. tauto.
Qed.

Lemma before_moved_from (m1 m2 t1 t2 : Task) :
  moved_from m1 t1 -> moved_from m2 t2 ->
  PQueue.before t1 t2 = true -> PQueue.before m1 m2 = true.
Proof. intros [o1 ->] [o2 ->] H. exact H. Qed.

Lemma is_heap_moved_from (moved c : list Task) :
  Forall2 moved_from moved c -> is_heap c -> is_heap moved.
Proof.
  unfold is_heap. induction 1 as [|m t ms ts Hmt Hrest IH]; intro Hs; [constructor|].
  apply StronglySorted_inv in Hs. destruct Hs as [Hs Hall].
  constructor; [now apply IH|].
  clear IH Hs. induction Hrest as [|m' t' ms ts Hmt' _ IH']; [constructor|].
  apply Forall_cons_iff in Hall. destruct Hall as [Ht' Hall].
  constructor; [exact (before_moved_from Hmt Hmt' Ht') | now apply IH'].
Qed.

Lemma moved_from_task (m t : Task) : moved_from m t -> task m = task t.
Proof. intros [o ->]. reflexivity. Qed.

Lemma GetNextScheduledWakeUpImpl_frame (q : TaskQueueImpl) (s : option DelayedWakeUp) :
  TaskQueueImpl.GetNextScheduledWakeUpImpl
    (set_main (set_scheduled_wake_up s (main_thread_only q)) q)
  = TaskQueueImpl.GetNextScheduledWakeUpImpl q.
Proof. reflexivity. Qed.

Lemma MoveReadyDelayedTasksToWorkQueue_returns (w : World) (now : TimeTicks)
      (Hreg : registered (this w))
      (Hheap : is_heap (queue_of w)) :
  exists w1 w',
    TaskQueueImpl.MoveReadyDelayedTasksToWorkQueue now w = Some (tt, w')
    /\ ready_tasks_moved now w w1
    /\ wake_up_updated w1 w'.
Proof.
  destruct (@MoveReadyDelayedTasksToWorkQueue_loop_spec now _ w Hreg eq_refl Hheap)
    as (w1 & E1 & Hmoved).
  destruct (@UpdateDelayedWakeUp_returns now w1 (proj1 Hmoved)) as (w' & E & Hwake).
  exists w1, w'. split; [|split; assumption].
  unfold TaskQueueImpl.MoveReadyDelayedTasksToWorkQueue.
  cbv [bind main get_queue ret deref]. cbv beta iota.
  destruct Hreg as (_ & _ & _ & (dwq & ->) & _). cbv beta iota.
  unfold DelayedIncomingQueue.size. rewrite E1. exact E.
Qed.

(** What [UpdateDelayedWakeUp] leaves alone. *)
Lemma wake_up_updated_frame (w w' : World) :
  wake_up_updated w w' ->
  queue_of w' = queue_of w
  /\ delayed_work_queue_tasks w' = delayed_work_queue_tasks w
  /\ next_order w' = next_order w
  /\ delayed_fence_of w' = delayed_fence_of w
  /\ current_fence_of w' = current_fence_of w
  /\ (registered (this w) -> registered (this w'))
  /\ TaskQueueImpl.GetNextScheduledWakeUpImpl (this w')
     = Some (scheduled_wake_up (main_thread_only (this w'))).
Proof.
  intros (Hsm & _ & _ & s & Hs & Hthis).
  unfold queue_of, delayed_work_queue_tasks, next_order, delayed_fence_of,
    current_fence_of, registered.
  rewrite Hthis, Hsm, GetNextScheduledWakeUpImpl_frame. cbn.
  repeat split; solve [tauto | exact Hs].
Qed.

(** C3: [MoveReadyDelayedTasksToWorkQueue(now)] pops the cancelled tasks it
    meets at the top of the delayed incoming queue without moving them, and
    moves every live task that is due, in heap order, to the back of the
    delayed work queue with a freshly allocated enqueue order.  A pending
    delayed fence whose time is at or before the run time of a moved task is
    installed before that task is moved: its enqueue order is below the
    task's.  On return the delayed incoming queue is empty or its top is a
    live task that is not due, and the scheduled wake-up is the recomputed
    one. *)
Theorem MoveReadyDelayedTasksToWorkQueue_spec (w : World) (now : TimeTicks)
        (Hreg : registered (this w))
        (Hheap : is_heap (queue_ (delayed_incoming_queue (main_thread_only (this w)))))
        (Hcallbacks :
           Forall (fun t : Task => closure_is_null (task t) = false)
                  (queue_ (delayed_incoming_queue (main_thread_only (this w))))) :
  let c := queue_ (delayed_incoming_queue (main_thread_only (this w))) in
  let cancelled (t : Task) := IsCancelled (task t) in
  exists w',
    TaskQueueImpl.MoveReadyDelayedTasksToWorkQueue now w = Some (tt, w')
    /\ queue_ (delayed_incoming_queue (main_thread_only (this w')))
       = drop_while (fun t => cancelled t || due now t) c
    /\ match queue_ (delayed_incoming_queue (main_thread_only (this w'))) with
       | [] => True
       | top :: _ => cancelled top = false /\ (now < delayed_run_time top)%Z
       end
    /\ (exists moved,
          delayed_work_queue_tasks w' = delayed_work_queue_tasks w ++ moved
          /\ Forall2 moved_from moved
                     (filter (fun t => negb (cancelled t) && due now t) c)
          /\ is_heap moved
          /\ Forall (fun m => (next_order w <= enqueue_order m < next_order w')%N)
                    moved
          /\ in_enqueue_order moved
          /\ forall fence_time m,
               delayed_fence (main_thread_only (this w)) = Some fence_time ->
               In m moved ->
               (fence_time <= delayed_run_time m)%Z ->
               delayed_fence (main_thread_only (this w')) = None
               /\ (next_order w <= current_fence (main_thread_only (this w')))%N
               /\ (current_fence (main_thread_only (this w')) < enqueue_order m)%N)
    /\ TaskQueueImpl.GetNextScheduledWakeUpImpl (this w')
       = Some (scheduled_wake_up (main_thread_only (this w'))).
Proof.
  cbv zeta.
  destruct (@MoveReadyDelayedTasksToWorkQueue_returns w now Hreg Hheap)
    as (w1 & w' & E & Hmoved & Hwake).
  destruct Hmoved
    as (R1 & Hrest & Hnext & moved & Htasks & Hfrom & Hrange & Hsorted & Hf).
  destruct (wake_up_updated_frame Hwake)
    as (Hq' & Hd' & Hn' & Hdf' & Hcf' & _ & Hscheduled).
  unfold queue_of, delayed_fence_of, current_fence_of in Hq', Hdf', Hcf'.
  exists w'. split; [exact E|].
  assert (Hsame : forall t,
             In t (queue_ (delayed_incoming_queue (main_thread_only (this w)))) ->
             dropped_at_top t = IsCancelled (task t)).
  { rewrite Forall_forall in Hcallbacks. intros t Ht. unfold dropped_at_top.
    rewrite (Hcallbacks t Ht). reflexivity. }
  split.
  { rewrite Hq', Hrest. apply drop_while_ext_in. intros t Ht.
    unfold leaves_top. rewrite (Hsame t Ht). reflexivity. }
  split.
  { rewrite Hq', Hrest.
    destruct (drop_while (leaves_top now) _) as [|top rest] eqn:Hdw; [exact I|].
    apply drop_while_head in Hdw. unfold leaves_top, dropped_at_top, due in Hdw.
    rewrite !orb_false_iff in Hdw. destruct Hdw as [[_ Hc] Hd].
    split; [exact Hc | now apply Z.leb_gt]. }
  split; [|exact Hscheduled].
  exists moved.
  assert (Hfilter : filter (ready now)
                      (queue_ (delayed_incoming_queue (main_thread_only (this w))))
                    = filter (fun t => negb (IsCancelled (task t)) && due now t)
                        (queue_ (delayed_incoming_queue (main_thread_only (this w))))).
  { apply filter_ext_in. intros t Ht. unfold ready. rewrite (Hsame t Ht). reflexivity. }
  rewrite Hfilter in Hfrom.
  rewrite Hd', Hn', Hdf', Hcf'.
  split; [exact Htasks|]. split; [exact Hfrom|].
  split; [exact (is_heap_moved_from Hfrom (is_heap_filter _ Hheap))|].
  split; [exact Hrange|]. split; [exact Hsorted|].
  intros ft m Hdf Hm Hle.
  unfold fences_after_move in Hf. rewrite Hdf in Hf.
  assert (Hex : existsb (fun m => (ft <=? delayed_run_time m)%Z) moved = true).
  { apply existsb_exists. exists m. split; [exact Hm | now apply Z.leb_le]. }
  rewrite Hex in Hf. destruct Hf as (Hnone & Hlo & _ & Hall).
  split; [exact Hnone|]. split; [exact Hlo|]. now apply (Hall m Hm).
Qed.

Lemma MoveReadyDelayedTasksToWorkQueue_spec_witness :
  exists w',
    TaskQueueImpl.MoveReadyDelayedTasksToWorkQueue 25%Z (delayed_tasks_world 25%Z)
    = Some (tt, w')
    /\ map (fun t : Task => sequence_num t)
           (queue_ (delayed_incoming_queue (main_thread_only (this w'))))
       = [4%N].
Proof.
  assert (Hheap : is_heap
                    (queue_ (delayed_incoming_queue
                               (main_thread_only (this (delayed_tasks_world 25%Z)))))).
  { repeat constructor. }
  assert (Hcallbacks :
            Forall (fun t : Task => closure_is_null (task t) = false)
                   (queue_ (delayed_incoming_queue
                              (main_thread_only (this (delayed_tasks_world 25%Z)))))).
  { repeat constructor. }
  destruct (@MoveReadyDelayedTasksToWorkQueue_spec
              (delayed_tasks_world 25%Z) 25%Z
              (sample_queue_registered _ _ _ _ _ _) Hheap Hcallbacks)
    as (w' & E & Hq & _).
  exists w'. split; [exact E|]. rewrite Hq. reflexivity.
Defined.

(** * The delayed incoming queue stays a heap of tasks with callbacks *)

Lemma before_iff (a b : Task) :
  PQueue.before a b = true
  <-> (delayed_run_time a < delayed_run_time b)%Z
      \/ (delayed_run_time a = delayed_run_time b
          /\ (sequence_num a <= sequence_num b)%N).
Proof.
  unfold PQueue.before.
  rewrite orb_true_iff, andb_true_iff, Z.ltb_lt, Z.eqb_eq, N.leb_le. tauto.
Qed.

Lemma before_total (a b : Task) :
  PQueue.before a b = false -> PQueue.before b a = true.
Proof.
  intro H. apply before_iff.
  destruct (PQueue.before a b) eqn:Hab; [discriminate|].
  assert (Hn : ~ ((delayed_run_time a < delayed_run_time b)%Z
                  \/ (delayed_run_time a = delayed_run_time b
                      /\ (sequence_num a <= sequence_num b)%N))).
  { intro Hc. apply before_iff in Hc. congruence. }
  lia.
Qed.

Lemma before_trans (a b c : Task) :
  PQueue.before a b = true -> PQueue.before b c = true -> PQueue.before a c = true.
Proof. rewrite !before_iff. lia. Qed.

Lemma push_heap_is_heap (t : Task) (c : list Task) :
  is_heap c -> is_heap (PQueue.push_heap t c).
Proof.
  unfold is_heap. induction 1 as [|x c Hs IH Hall]; simpl.
  - repeat constructor.
  - destruct (PQueue.before t x) eqn:Htx.
    + constructor; [now constructor|].
      constructor; [exact Htx|].
      eapply Forall_impl; [|exact Hall]. intros y Hy. eapply before_trans; eassumption.
    + constructor; [exact IH|].
      apply (Permutation_Forall (Permutation_sym (push_heap_perm t c))).
      constructor; [now apply before_total | exact Hall].
Qed.

Lemma make_heap_is_heap (c : list Task) : is_heap (PQueue.make_heap c).
Proof.
  induction c as [|x c IH]; simpl; [constructor | now apply push_heap_is_heap].
Qed.

Lemma SweepCancelledTasks_is_heap (c : list Task) :
  is_heap c -> is_heap (fst (PQueue.SweepCancelledTasks c)).
Proof.
  intro H. rewrite SweepCancelledTasks_storage.
  destruct (forallb not_cancelled c); [exact H | apply make_heap_is_heap].
Qed.

Lemma drop_while_suffix (f : Task -> bool) (c : list Task) :
  exists prefix, c = prefix ++ drop_while f c.
Proof.
  induction c as [|x c [prefix IH]]; [now exists []|].
  simpl. destruct (f x).
  - exists (x :: prefix). simpl. now rewrite <- IH.
  - now exists [].
Qed.

Lemma is_heap_suffix (prefix c : list Task) : is_heap (prefix ++ c) -> is_heap c.
Proof.
  induction prefix as [|x prefix IH]; simpl; intro H; [exact H|].
  apply IH. apply StronglySorted_inv in H. tauto.
Qed.

(** Posting, moving the ready tasks and reclaiming memory keep the delayed
    incoming queue of a live queue a heap of tasks that have a callback, which
    is what the move of the ready tasks relies on. *)
Lemma delayed_queue_ok_preserved (w : World)
      (Hreg : registered (this w)) (Hok : delayed_queue_ok w) :
  (forall posted current_thread,
      closure_is_null (callback posted) = false ->
      exists w',
        TaskQueueImpl.PostTask posted current_thread w = Some (tt, w')
        /\ registered (this w') /\ delayed_queue_ok w')
  /\ (forall now,
        exists w',
          TaskQueueImpl.MoveReadyDelayedTasksToWorkQueue now w = Some (tt, w')
          /\ registered (this w') /\ delayed_queue_ok w')
  /\ (forall now,
        exists w',
          TaskQueueImpl.ReclaimMemory now w = Some (tt, w')
          /\ registered (this w') /\ delayed_queue_ok w').
Proof.
  destruct Hok as [Hheap Hcb]. split; [|split].
  - intros posted current_thread Hcallback.
    destruct (@PostTask_enqueues w posted current_thread Hcallback Hreg)
      as (w' & E & Hreg' & t & Henq).
    exists w'. split; [exact E|]. split; [exact Hreg'|].
    unfold delayed_queue_ok, queue_of.
    destruct Henq as [(_ & _ & ->)|(Ht & _ & _ & -> & _)]; [split; assumption|].
    cbn. unfold PQueue.push. split; [now apply push_heap_is_heap|].
    apply (Permutation_Forall (Permutation_sym (push_heap_perm t _))).
    constructor; [congruence | exact Hcb].
  - intro now.
    destruct (@MoveReadyDelayedTasksToWorkQueue_returns w now Hreg Hheap)
      as (w1 & w' & E & (R1 & Hrest & _) & Hwake).
    destruct (wake_up_updated_frame Hwake) as (Hq' & _ & _ & _ & _ & Hreg' & _).
    exists w'. split; [exact E|]. split; [exact (Hreg' R1)|].
    unfold delayed_queue_ok. rewrite Hq'. unfold queue_of in *. rewrite Hrest.
    destruct (drop_while_suffix (leaves_top now)
                (queue_ (delayed_incoming_queue (main_thread_only (this w)))))
      as [prefix Hsplit].
    rewrite Hsplit in Hheap, Hcb. split.
    + exact (is_heap_suffix _ _ Hheap).
    + apply Forall_app in Hcb. tauto.
  - intro now.
    destruct (@ReclaimMemory_returns w now Hreg) as (w' & E & Hreg' & Hq).
    exists w'. split; [exact E|]. split; [exact Hreg'|].
    unfold delayed_queue_ok, queue_of. rewrite Hq. split.
    + now apply SweepCancelledTasks_is_heap.
    + apply (Permutation_Forall (Permutation_sym (SweepCancelledTasks_perm _))).
      rewrite Forall_forall in *. intros t Ht. apply filter_In in Ht. apply Hcb. tauto.
Qed.

(** Close the conjuncts that a run of an operation leaves. *)
Ltac frame_solve :=
  repeat match goal with
         | |- _ /\ _ => split
         | |- exists _, Some _ = Some _ => eexists; reflexivity
         | |- exists _, Some _ = Some _ /\ _ => eexists; split; [reflexivity|]
         | |- _ = _ => reflexivity
         | |- _ -> _ /\ _ => intros _
         | |- (_ <= _)%N => lia
         | |- (_ < _)%N => lia
         | |- _ -> (_ < _)%N => intros _; lia
         | |- _ -> (_ < _)%N => discriminate
         | |- (if is_bound ?o then ?e else _) = _ => destruct o, e; reflexivity
         end.

(** Rewrite the tests whose outcome is known. *)
Ltac bool_rewrite :=
  repeat match goal with
         | H : ?x = true |- context [?x] =>
             lazymatch x with true => fail | false => fail | _ => rewrite H end
         | H : ?x = false |- context [?x] =>
             lazymatch x with true => fail | false => fail | _ => rewrite H end
         end.

(** Run an operation that returns a value to its end. *)
Ltac mvalue_step :=
  match goal with
  | |- exists rw, Some _ = Some rw /\ _ => fail 1
  | |- context [match ?x with Some _ => _ | None => _ end] =>
      is_var x; destruct x eqn:?
  | |- context [if ?b then _ else _] => destruct b eqn:?
  | |- context [match ?l with [] => _ | _ :: _ => _ end] =>
      is_var l; destruct l eqn:?
  | |- context [match ?x with Some _ => _ | None => _ end] =>
      lazymatch x with
      | context [@None] => fail
      | _ => destruct x eqn:?
      end
  end;
  mrun.

Ltac hide_value_post Q HQ :=
  lazymatch goal with
  | |- exists r w', ?lhs = Some (r, w') /\ @?P r w' =>
      cut (exists rw, lhs = Some rw /\ P (fst rw) (snd rw));
      [intros ([? ?] & ? & ?); eauto |];
      remember (fun rw => P (fst rw) (snd rw)) as Q eqn:HQ
  end.

Ltac unfold_frames :=
  unfold steady, registered, same_tasks, same_settings, cross_thread_state_ok,
    fences_in_sync, new_calls, next_order; cbn.

(** X1: on a live queue the queries agree: [IsEmpty] is true exactly when
    [GetNumberOfPendingTasks] is zero, [HasPendingImmediateWork] and
    [HasPendingImmediateWorkLocked] give the same answer, an empty queue has
    no task to run immediately, and a queue with pending immediate work has
    one. *)
Lemma observers_agree (q : TaskQueueImpl) (td : TimeDomain)
        (Hreg : registered q) :
  exists empty n pending,
    TaskQueueImpl.IsEmpty q = Some empty
    /\ TaskQueueImpl.GetNumberOfPendingTasks q = Some n
    /\ TaskQueueImpl.HasPendingImmediateWork q = Some pending
    /\ TaskQueueImpl.HasPendingImmediateWorkLocked q = Some pending
    /\ (empty = true <-> n = 0)
    /\ (empty = true -> TaskQueueImpl.HasTaskToRunImmediately q td = Some false)
    /\ (pending = true -> TaskQueueImpl.HasTaskToRunImmediately q td = Some true).
Proof.
  destruct q as [[? ? ? diq ? ? ? ? ? ? ? ?] [? inc ? ? ? ? ?] ? ? ? ?].
  use_registered Hreg. simpl in *. subst.
  unfold TaskQueueImpl.IsEmpty, TaskQueueImpl.GetNumberOfPendingTasks,
    TaskQueueImpl.HasPendingImmediateWork, TaskQueueImpl.HasPendingImmediateWorkLocked,
    TaskQueueImpl.HasTaskToRunImmediately, WorkQueue.Empty, WorkQueue.Size,
    DelayedIncomingQueue.empty, DelayedIncomingQueue.size, DelayedIncomingQueue.top,
    PQueue.top.
  cbn.
  destruct (tasks_ dwq), (queue_ diq), (tasks_ iwq), inc; cbn;
    do 3 eexists; repeat split; try reflexivity; try discriminate; try lia.
  all: try (intros; destruct (_ <=? _)%Z; easy).
Qed.

(** What an immediate post writes. *)
Lemma PostImmediateTaskImpl_effect (w : World) (posted : PostedTask)
      (current_thread : CurrentThread)
      (Hcallback : closure_is_null (callback posted) = false)
      (Hreg : registered (this w)) :
  let a := any_thread_ (this w) in
  let n := next_order w in
  let both_empty :=
    match immediate_incoming_queue a with [] => true | _ => false end
    && immediate_work_queue_empty a in
  exists w',
    TaskQueueImpl.PostImmediateTaskImpl posted current_thread w = Some (tt, w')
    /\ exists t,
    this w'
       = set_reload_handle
           (if both_empty then Some true else empty_queues_to_reload_handle_ (this w))
           (set_any (set_immediate_incoming_queue (immediate_incoming_queue a ++ [t]) a)
                    (this w))
    /\ task t = callback posted
    /\ enqueue_order t = n /\ sequence_num t = n
    /\ delayed_run_time t = 0%Z
    /\ the_time_domain w' = the_time_domain w
    /\ next_order w' = (n + 1)%N
    /\ add_queue_time_to_tasks (sequence_manager_ w')
       = add_queue_time_to_tasks (sequence_manager_ w)
    /\ OS_WIN w' = OS_WIN w
    /\ (In EvScheduleWork (skipn (length (calls w)) (calls w'))
        <-> both_empty && post_immediate_task_should_schedule_work a = true)
    /\ firstn (length (calls w)) (calls w') = calls w.
Proof.
  cbv zeta. unfold next_order.
  start_registered w Hreg.
  unfold TaskQueueImpl.PostImmediateTaskImpl, TaskQueueImpl.SetActive.
  rewrite Hcallback.
  mfinish_hidden.
  all: eexists; cbn; (split; [reflexivity|]).
  all: rewrite <- ?app_assoc, ?firstn_app, ?skipn_app, ?firstn_all, ?skipn_all,
         ?Nat.sub_diag, ?app_nil_r; cbn.
  all: repeat match goal with
              | |- context [if ?b then set_posted_queue_time _ _ else _] =>
                  destruct b
              end; cbn.
  all: repeat (split; [reflexivity|]).
  all: split; [|reflexivity].
  all: split; intro H; try reflexivity; try discriminate;
    repeat (destruct H as [H|H]; try discriminate H); auto 10.
Qed.

(** What [InsertFence] writes. *)
Lemma InsertFence_effect (w : World) (pos : InsertFencePosition)
      (Hreg : registered (this w)) :
  let fence :=
    match pos with
    | kNow => next_order w
    | kBeginningOfTime => EnqueueOrder.blocking_fence
    end in
  exists w',
    TaskQueueImpl.InsertFence pos w = Some (tt, w')
    /\ registered (this w')
    /\ current_fence (main_thread_only (this w')) = fence
    /\ delayed_fence (main_thread_only (this w')) = None
    /\ (next_order w <= next_order w')%N
    /\ (pos = kNow -> (next_order w < next_order w')%N)
    /\ steady w w'
    /\ same_tasks (this w) (this w')
    /\ same_settings (this w) (this w')
    /\ cross_thread_state_ok (this w')
    /\ fences_in_sync (this w').
Proof.
  cbv zeta. unfold next_order.
  start_registered w Hreg.
  unfold TaskQueueImpl.InsertFence, TaskQueueImpl.OnQueueUnblocked,
    TaskQueueImpl.UpdateCrossThreadQueueStateLocked_,
    TaskQueueImpl.UpdateCrossThreadQueueStateLocked, TaskQueueImpl.GetQueuePriority,
    TaskQueueImpl.IsQueueEnabled.
  destruct pos; mfinish_hidden.
  all: unfold_frames; frame_solve.
Qed.

Lemma firstn_calls (cs es : list Event) : firstn (length cs) (cs ++ es) = cs.
Proof.
  rewrite firstn_app, firstn_all, Nat.sub_diag. cbn. apply app_nil_r.
Qed.

Ltac not_called :=
  let Hin := fresh "Hin" in
  intro Hin; cbn in Hin;
  repeat (destruct Hin as [Hin|Hin]; try discriminate Hin); exact Hin.

(** The calls appended to a trace are the new calls. *)
Lemma skipn_calls (cs es : list Event) : skipn (length cs) (cs ++ es) = es.
Proof.
  rewrite skipn_app, skipn_all, Nat.sub_diag. reflexivity.
Qed.

(** What [RemoveFence] writes, and when it wakes the main thread. *)
Lemma RemoveFence_effect (w : World) (Hreg : registered (this w)) :
  let m := main_thread_only (this w) in
  let unblocked_in (wq : option WorkQueue) :=
    match wq with
    | Some wq => negb (WorkQueue.Empty wq) && WorkQueue.BlockedByFence wq
    | None => false
    end in
  let front_task_unblocked :=
    unblocked_in (immediate_work_queue m) || unblocked_in (delayed_work_queue m)
    || (EnqueueOrder.is_set (current_fence m)
        && TaskQueueImpl.front_above (current_fence m)
                       (immediate_incoming_queue (any_thread_ (this w)))) in
  exists w',
    TaskQueueImpl.RemoveFence w = Some (tt, w')
    /\ registered (this w')
    /\ current_fence (main_thread_only (this w')) = EnqueueOrder.none
    /\ delayed_fence (main_thread_only (this w')) = None
    /\ (next_order w <= next_order w')%N
    /\ steady w w'
    /\ same_tasks (this w) (this w')
    /\ same_settings (this w) (this w')
    /\ cross_thread_state_ok (this w')
    /\ fences_in_sync (this w')
    /\ (if is_enabled m && front_task_unblocked
        then new_calls w w' = [EvLock; EvUnlock; EvGetNextSequenceNumber (next_order w);
                               EvScheduleWork]
             /\ enqueue_order_at_which_we_became_unblocked (main_thread_only (this w'))
                = next_order w
             /\ enqueue_order_at_which_we_became_unblocked_with_normal_priority
                  (main_thread_only (this w'))
                = (if match TaskQueueImpl.GetQueuePriority (this w) with
                      | Some priority => (priority <=? kNormalPriority)%nat
                      | None => false
                      end
                   then next_order w
                   else enqueue_order_at_which_we_became_unblocked_with_normal_priority m)
             /\ next_order w' = (next_order w + 1)%N
        else new_calls w w' = [EvLock; EvUnlock]
             /\ next_order w' = next_order w).
Proof.
  cbv zeta.
  start_registered w Hreg.
  unfold TaskQueueImpl.RemoveFence, TaskQueueImpl.OnQueueUnblocked,
    TaskQueueImpl.UpdateCrossThreadQueueStateLocked_,
    TaskQueueImpl.UpdateCrossThreadQueueStateLocked, TaskQueueImpl.GetQueuePriority,
    TaskQueueImpl.IsQueueEnabled.
  mfinish_hidden.
  all: unfold_frames; rewrite <- ?app_assoc, ?skipn_calls; cbn.
  all: unfold WorkQueue.Empty, WorkQueue.set_fence in *; cbn in *.
  all: frame_solve.
  all: repeat match goal with
         | H : context [if ?b then _ else _] |- _ => destruct b eqn:?
         | H : context [?a && ?b] |- _ => destruct a eqn:?; cbn in H
         | H : context [?a || ?b] |- _ => destruct a eqn:?; cbn in H
         | H : context [negb ?a] |- _ => destruct a eqn:?; cbn in H
         end; cbn in *; try discriminate.
  all: unfold TaskQueueImpl.GetQueuePriority; cbn; bool_rewrite; cbn; frame_solve.
Qed.

Lemma same_tasks_pending (q q' : TaskQueueImpl) :
  same_tasks q q' ->
  TaskQueueImpl.GetNumberOfPendingTasks q' = TaskQueueImpl.GetNumberOfPendingTasks q.
Proof.
  intros (Hd & Hi & Hiw & Hdw).
  unfold TaskQueueImpl.GetNumberOfPendingTasks, WorkQueue.Size.
  rewrite Hd, Hi.
  destruct (delayed_work_queue (main_thread_only q')),
    (delayed_work_queue (main_thread_only q)); try discriminate; [|reflexivity].
  destruct (immediate_work_queue (main_thread_only q')),
    (immediate_work_queue (main_thread_only q)); try discriminate; [|reflexivity].
  cbn in Hiw, Hdw. injection Hiw as ->. injection Hdw as ->. reflexivity.
Qed.

Lemma InsertFenceAt_effect (w : World) (time : TimeTicks)
      (Hreg : registered (this w)) :
  exists w',
    TaskQueueImpl.InsertFenceAt time w = Some (tt, w')
    /\ registered (this w')
    /\ current_fence (main_thread_only (this w')) = EnqueueOrder.none
    /\ delayed_fence (main_thread_only (this w')) = Some time
    /\ (next_order w <= next_order w')%N
    /\ steady w w'
    /\ same_tasks (this w) (this w')
    /\ same_settings (this w) (this w')
    /\ cross_thread_state_ok (this w')
    /\ fences_in_sync (this w').
Proof.
  destruct (@RemoveFence_effect w Hreg)
    as (w1 & E & R & Hc & Hd & Hn & Htd & Ht & Hs & Hx & Hf & _).
  unfold TaskQueueImpl.InsertFenceAt, bind. rewrite E.
  eexists. split; [reflexivity|].
  clear E.
  destruct w1 as [sm td [[] a ? ? ? ?] cs os]. cbn in *.
  unfold steady, registered, same_tasks, same_settings, cross_thread_state_ok,
    fences_in_sync in *.
  cbn in *. tauto.
Qed.

(** X2: the fence operations do not add, drop or reorder tasks, and do not
    touch the time domain. *)
Theorem fence_operations_keep_tasks (w : World) (Hreg : registered (this w)) :
  let kept (w' : World) :=
    same_tasks (this w) (this w')
    /\ TaskQueueImpl.GetNumberOfPendingTasks (this w')
       = TaskQueueImpl.GetNumberOfPendingTasks (this w)
    /\ the_time_domain w' = the_time_domain w
    /\ scheduled_wake_up (main_thread_only (this w'))
       = scheduled_wake_up (main_thread_only (this w)) in
  (forall pos, exists w', TaskQueueImpl.InsertFence pos w = Some (tt, w') /\ kept w')
  /\ (exists w', TaskQueueImpl.RemoveFence w = Some (tt, w') /\ kept w')
  /\ (forall time,
        exists w', TaskQueueImpl.InsertFenceAt time w = Some (tt, w') /\ kept w').
Proof.
  cbv zeta. split; [|split].
  - intro pos.
    destruct (@InsertFence_effect w pos Hreg)
      as (w' & E & _ & _ & _ & _ & _ & Htd & Ht & Hs & _).
    exists w'. split; [exact E|]. repeat split; try apply Ht; auto using same_tasks_pending.
    + apply Htd.
    + apply Hs.
  - destruct (@RemoveFence_effect w Hreg)
      as (w' & E & _ & _ & _ & _ & Htd & Ht & Hs & _).
    exists w'. split; [exact E|]. repeat split; try apply Ht; auto using same_tasks_pending.
    + apply Htd.
    + apply Hs.
  - intro time.
    destruct (@InsertFenceAt_effect w time Hreg)
      as (w' & E & _ & _ & _ & _ & Htd & Ht & Hs & _).
    exists w'. split; [exact E|]. repeat split; try apply Ht; auto using same_tasks_pending.
    + apply Htd.
    + apply Hs.
Qed.


(** X4: [RemoveFence] on an enabled queue that was blocked by its fence and
    has immediate work wakes the main thread; afterwards nothing is blocked,
    no task was lost, and with normal priority or better every task queued
    before counts as having been blocked. *)
Theorem RemoveFence_unblocks (w : World) (Hreg : registered (this w))
        (Henabled : is_enabled (main_thread_only (this w)) = true)
        (Hblocked : TaskQueueImpl.BlockedByFence (this w) = Some true)
        (Hpending : TaskQueueImpl.HasPendingImmediateWork (this w) = Some true) :
  exists w',
    TaskQueueImpl.RemoveFence w = Some (tt, w')
    /\ new_calls w w'
       = [EvLock; EvUnlock; EvGetNextSequenceNumber (next_order w); EvScheduleWork]
    /\ TaskQueueImpl.BlockedByFence (this w') = Some false
    /\ (forall order, TaskQueueImpl.CouldTaskRun (this w') order = true)
    /\ same_tasks (this w) (this w')
    /\ (forall priority order,
          TaskQueueImpl.GetQueuePriority (this w) = Some priority ->
          (priority <= kNormalPriority)%nat ->
          (order < next_order w)%N ->
          TaskQueueImpl.WasBlockedOrLowPriority (this w') order = true).
Proof.
  destruct (@RemoveFence_effect w Hreg)
    as (w' & E & _ & Hc & _ & _ & _ & Ht & Hs & _ & _ & Hif).
  cbv zeta in Hif.
  assert (Hunblocked :
    (match immediate_work_queue (main_thread_only (this w)) with
     | Some wq => negb (WorkQueue.Empty wq) && WorkQueue.BlockedByFence wq
     | None => false
     end
     || match delayed_work_queue (main_thread_only (this w)) with
        | Some wq => negb (WorkQueue.Empty wq) && WorkQueue.BlockedByFence wq
        | None => false
        end
     || EnqueueOrder.is_set (current_fence (main_thread_only (this w)))
        && TaskQueueImpl.front_above
             (current_fence (main_thread_only (this w)))
             (immediate_incoming_queue (any_thread_ (this w)))) = true).
  { revert Hblocked Hpending.
    unfold TaskQueueImpl.BlockedByFence, TaskQueueImpl.HasPendingImmediateWork,
      TaskQueueImpl.front_above.
    destruct (EnqueueOrder.is_set _); cbn; [|discriminate].
    destruct (immediate_work_queue _) as [iwq|]; [|discriminate].
    destruct (WorkQueue.BlockedByFence iwq); cbn; [|discriminate].
    destruct (delayed_work_queue _) as [dwq|]; [|discriminate].
    destruct (WorkQueue.BlockedByFence dwq); cbn; [|discriminate].
    destruct (WorkQueue.Empty dwq), (WorkQueue.Empty iwq); cbn; try reflexivity.
    destruct (immediate_incoming_queue _); cbn; congruence. }
  rewrite Henabled, Hunblocked in Hif. cbn in Hif.
  destruct Hif as (Hcalls & _ & Hnormal & _).
  exists w'. split; [exact E|]. split; [exact Hcalls|].
  assert (Hnone : EnqueueOrder.is_set (current_fence (main_thread_only (this w'))) = false)
    by (rewrite Hc; reflexivity).
  repeat split.
  - unfold TaskQueueImpl.BlockedByFence. rewrite Hnone. reflexivity.
  - intro order. unfold TaskQueueImpl.CouldTaskRun, TaskQueueImpl.IsQueueEnabled.
    destruct Hs as (-> & _). rewrite Henabled, Hnone. reflexivity.
  - apply Ht.
  - apply Ht.
  - apply Ht.
  - apply Ht.
  - intros priority order Hp Hle Hlt.
    unfold TaskQueueImpl.WasBlockedOrLowPriority.
    rewrite Hnormal, Hp.
    apply Nat.leb_le in Hle. rewrite Hle. apply N.ltb_lt. exact Hlt.
Qed.

Lemma GetNextScheduledWakeUpImpl_returns (q : TaskQueueImpl) :
  registered q -> exists s, TaskQueueImpl.GetNextScheduledWakeUpImpl q = Some s.
Proof.
  intro Hreg. destruct q as [[] a ? ? ? ?]. use_registered Hreg. simpl in *. subst.
  unfold TaskQueueImpl.GetNextScheduledWakeUpImpl, TaskQueueImpl.GetQueuePriority. cbn.
  repeat match goal with
         | |- context [match ?x with _ => _ end] => destruct x
         end; eauto.
Qed.

Lemma UpdateDelayedWakeUp_effect (lazy_now : TimeTicks) (w : World)
      (Hreg : registered (this w)) :
  exists w',
    TaskQueueImpl.UpdateDelayedWakeUp lazy_now w = Some (tt, w')
    /\ wake_up_rescheduled lazy_now w w'.
Proof.
  destruct (GetNextScheduledWakeUpImpl_returns Hreg) as [s Hs].
  start_registered w Hreg.
  unfold TaskQueueImpl.UpdateDelayedWakeUp, TaskQueueImpl.UpdateDelayedWakeUpImpl.
  cbn in Hs.
  hide_post Q HQ. mrun. rewrite Hs. mrun.
  match goal with
  | |- context [option_eqb DelayedWakeUp_eqb ?old s] =>
      destruct (option_eqb DelayedWakeUp_eqb old s) eqn:Heq
  end.
  - pose proof (option_DelayedWakeUp_eqb_eq _ _ Heq) as <-.
    eexists. split; [reflexivity|]. subst Q. cbn.
    unfold wake_up_rescheduled. cbn. eexists. split; [exact Hs|].
    rewrite Heq. cbn. repeat split; reflexivity.
  - unfold TaskQueueImpl.HasPendingImmediateWork_. cbn.
    repeat mfinish_step.
    all: match goal with
         | |- context [TimeDomain.SetNextWakeUpForQueue ?a ?b ?c ?d] =>
             destruct (TimeDomain.SetNextWakeUpForQueue a b c d) as [td' es] eqn:Hset
         end.
    all: eexists; (split; [reflexivity|]); subst Q; cbn;
      unfold wake_up_rescheduled, TaskQueueImpl.HasPendingImmediateWork,
        work_queues_empty; cbn;
      eexists; (split; [exact Hs|]);
      rewrite Heq, ?Hset; bool_rewrite;
      repeat match goal with
             | H : context [WorkQueue.Empty ?x] |- _ =>
                 destruct (WorkQueue.Empty x); cbn in H; try discriminate H
             end;
      cbn; rewrite <- ?app_assoc; cbn;
      repeat split; reflexivity.
Qed.

(** * The heap of the time domain *)

Lemma SetNextWakeUpForQueue_heap (q : QueueId) (wake : option DelayedWakeUp)
      (lazy_now : TimeTicks) (td : TimeDomain) :
  delayed_wake_up_queue_ (fst (TimeDomain.SetNextWakeUpForQueue q wake lazy_now td))
  = match wake with
    | Some w =>
        match IntrusiveHeap.heap_handle q (delayed_wake_up_queue_ td) with
        | Some handle =>
            IntrusiveHeap.ChangeKey handle (mkScheduledDelayedWakeUp w q)
                                    (delayed_wake_up_queue_ td)
        | None =>
            IntrusiveHeap.insert (mkScheduledDelayedWakeUp w q)
                                 (delayed_wake_up_queue_ td)
        end
    | None =>
        match IntrusiveHeap.heap_handle q (delayed_wake_up_queue_ td) with
        | Some handle => IntrusiveHeap.erase handle (delayed_wake_up_queue_ td)
        | None => delayed_wake_up_queue_ td
        end
    end.
Proof.
  unfold TimeDomain.SetNextWakeUpForQueue.
  destruct (option_eqb Z.eqb _ _); [reflexivity|].
  destruct (_ <=? _)%Z; reflexivity.
Qed.

Lemma heap_handle_at (q : QueueId) (h : IntrusiveHeap.t) (i : nat) :
  IntrusiveHeap.heap_handle q h = Some i ->
  exists e, IntrusiveHeap.at_ i h = Some e /\ queue e = q /\ In e h.
Proof.
  revert i. induction h as [|x h IH]; intros i H; [discriminate|].
  simpl in H. destruct (Nat.eqb (queue x) q) eqn:Hq.
  - injection H as <-. exists x. apply Nat.eqb_eq in Hq. simpl. auto.
  - destruct (IntrusiveHeap.heap_handle q h) as [j|]; [|discriminate].
    injection H as <-. destruct (IH j eq_refl) as (e & He & Hqe & Hin).
    exists e. simpl. auto.
Qed.

Lemma wake_up_of_In (q : QueueId) (h : IntrusiveHeap.t) (s : DelayedWakeUp) :
  NoDup (map queue h) ->
  (wake_up_of q h = Some s <-> In (mkScheduledDelayedWakeUp s q) h).
Proof.
  intro Hnd. unfold wake_up_of. split.
  - destruct (IntrusiveHeap.heap_handle q h) as [i|] eqn:Hh; [|discriminate].
    destruct (heap_handle_at _ _ Hh) as (e & -> & Hq & Hin). cbn.
    intro H. injection H as Hs. destruct e as [we qe]. cbn in *. subst. exact Hin.
  - intro Hin.
    destruct (IntrusiveHeap.heap_handle q h) as [i|] eqn:Hh.
    + destruct (heap_handle_at _ _ Hh) as (e & -> & Hq & Hine). cbn. f_equal.
      clear Hh i. induction h as [|x h IH]; [contradiction|].
      cbn in Hnd. apply NoDup_cons_iff in Hnd. destruct Hnd as [Hx Hnd].
      destruct Hin as [Hin|Hin], Hine as [Hine|Hine].
      * rewrite <- Hine, Hin. reflexivity.
      * exfalso. apply Hx. rewrite Hin. cbn. rewrite <- Hq. now apply in_map.
      * exfalso. apply Hx. rewrite Hine, Hq.
        change q with (queue (mkScheduledDelayedWakeUp s q)). now apply in_map.
      * now apply IH.
    + exfalso. apply heap_handle_None in Hh. apply Hh.
      change q with (queue (mkScheduledDelayedWakeUp s q)). now apply in_map.
Qed.

(** The entries of the heap after [SetNextWakeUpForQueue]. *)
Lemma SetNextWakeUpForQueue_entries (q : QueueId) (wake : option DelayedWakeUp)
      (lazy_now : TimeTicks) (td : TimeDomain)
      (Hunique : NoDup (map queue (delayed_wake_up_queue_ td))) :
  let heap := delayed_wake_up_queue_ td in
  let heap' :=
    delayed_wake_up_queue_ (fst (TimeDomain.SetNextWakeUpForQueue q wake lazy_now td)) in
  NoDup (map queue heap')
  /\ wake_up_of q heap' = wake
  /\ forall q', q' <> q -> wake_up_of q' heap' = wake_up_of q' heap.
Proof.
  cbv zeta. rewrite SetNextWakeUpForQueue_heap.
  set (heap := delayed_wake_up_queue_ td) in *.
  assert (Hentries :
    forall heap',
      NoDup (map queue heap') ->
      (forall e, In e heap'
                 <-> (In e heap /\ queue e <> q)
                     \/ e = mkScheduledDelayedWakeUp (wake_up e) q
                        /\ wake = Some (wake_up e)) ->
      NoDup (map queue heap')
      /\ wake_up_of q heap' = wake
      /\ forall q', q' <> q -> wake_up_of q' heap' = wake_up_of q' heap).
  { intros heap' Hnd Hin. split; [exact Hnd|]. split.
    - destruct wake as [s|].
      + apply wake_up_of_In; [exact Hnd|]. apply Hin. right. cbn. auto.
      + destruct (wake_up_of q heap') as [s|] eqn:Hs; [|reflexivity].
        apply wake_up_of_In in Hs; [|exact Hnd]. apply Hin in Hs.
        destruct Hs as [[_ Hs]|[_ Hs]]; [cbn in Hs; congruence | discriminate].
    - intros q' Hq'.
      destruct (wake_up_of q' heap) as [s|] eqn:Hs.
      + apply wake_up_of_In in Hs; [|exact Hunique].
        apply wake_up_of_In; [exact Hnd|]. apply Hin. left. cbn. auto.
      + destruct (wake_up_of q' heap') as [s'|] eqn:Hs'; [|reflexivity].
        apply wake_up_of_In in Hs'; [|exact Hnd]. apply Hin in Hs'.
        destruct Hs' as [[Hs' _]|[Hs' _]].
        * apply wake_up_of_In in Hs'; [congruence | exact Hunique].
        * cbn in Hs'. congruence. }
  destruct wake as [s|];
    destruct (IntrusiveHeap.heap_handle q heap) as [i|] eqn:Hh; apply Hentries.
  - apply (@ChangeKey_In q heap i (mkScheduledDelayedWakeUp s q) Hh Hunique eq_refl).
  - intro e.
    destruct (@ChangeKey_In q heap i (mkScheduledDelayedWakeUp s q) Hh Hunique eq_refl)
      as [_ H2].
    rewrite H2. split.
    + intros [H| ->]; [now left | right; split; reflexivity].
    + intros [H|[H1' H2']]; [now left|]. right. injection H2' as ->. exact H1'.
  - apply (@insert_In q heap (mkScheduledDelayedWakeUp s q) Hh Hunique eq_refl).
  - intro e.
    destruct (@insert_In q heap (mkScheduledDelayedWakeUp s q) Hh Hunique eq_refl)
      as [_ H2].
    rewrite H2. split.
    + intros [H| ->]; [now left | right; split; reflexivity].
    + intros [H|[H1' H2']]; [now left|]. right. injection H2' as ->. exact H1'.
  - apply (@erase_In q heap i Hh Hunique).
  - intro e. destruct (@erase_In q heap i Hh Hunique) as [_ H2]. rewrite H2. split.
    + intro H. now left.
    + intros [H|[_ H]]; [assumption | discriminate].
  - exact Hunique.
  - apply heap_handle_None in Hh. intro e. split.
    + intro H. left. split; [assumption|]. intro Hc. apply Hh.
      rewrite <- Hc. now apply in_map.
    + intros [[H _]|[_ H]]; [assumption | discriminate].
Qed.

Lemma SetNextWakeUpForQueue_count (q : QueueId) (wake : option DelayedWakeUp)
      (lazy_now : TimeTicks) (td : TimeDomain) :
  pending_high_res_wake_up_count_
    (fst (TimeDomain.SetNextWakeUpForQueue q wake lazy_now td))
  = (pending_high_res_wake_up_count_ td
     - match wake_up_of q (delayed_wake_up_queue_ td) with
       | Some old => match resolution old with kHigh => 1 | kLow => 0 end
       | None => 0
       end
     + match wake with
       | Some new => match resolution new with kHigh => 1 | kLow => 0 end
       | None => 0
       end)%Z.
Proof.
  unfold TimeDomain.SetNextWakeUpForQueue, wake_up_of.
  set (previous := match IntrusiveHeap.heap_handle q (delayed_wake_up_queue_ td) with
                   | Some handle =>
                       option_map wake_up
                         (IntrusiveHeap.at_ handle (delayed_wake_up_queue_ td))
                   | None => None
                   end).
  assert (Hprev :
    match IntrusiveHeap.heap_handle q (delayed_wake_up_queue_ td) with
    | Some handle =>
        option_map (fun e => resolution (wake_up e))
          (IntrusiveHeap.at_ handle (delayed_wake_up_queue_ td))
    | None => None
    end = option_map resolution previous).
  { subst previous. destruct (IntrusiveHeap.heap_handle _ _); [|reflexivity].
    destruct (IntrusiveHeap.at_ _ _); reflexivity. }
  rewrite Hprev. clear Hprev.
  destruct (option_eqb Z.eqb _ _); [|destruct (_ <=? _)%Z]; cbn;
    destruct previous as [[? ? []]|], wake as [[? ? []]|]; cbn; lia.
Qed.

Lemma high_res_wake_ups_cons (e : ScheduledDelayedWakeUp) (h : IntrusiveHeap.t) :
  high_res_wake_ups (e :: h)
  = ((if is_high_resolution e then 1 else 0) + high_res_wake_ups h)%nat.
Proof. unfold high_res_wake_ups. simpl. destruct (is_high_resolution e); reflexivity. Qed.

Lemma high_res_wake_ups_ChangeKey (q : QueueId) (h : IntrusiveHeap.t) (i : nat)
      (e' : ScheduledDelayedWakeUp) :
  IntrusiveHeap.heap_handle q h = Some i ->
  exists old,
    IntrusiveHeap.at_ i h = Some old
    /\ (high_res_wake_ups (IntrusiveHeap.ChangeKey i e' h)
        + (if is_high_resolution old then 1 else 0)
        = high_res_wake_ups h + (if is_high_resolution e' then 1 else 0))%nat
    /\ (high_res_wake_ups (IntrusiveHeap.erase i h)
        + (if is_high_resolution old then 1 else 0)
        = high_res_wake_ups h)%nat.
Proof.
  revert i. induction h as [|x h IH]; intros i H; [discriminate|].
  simpl in H. destruct (Nat.eqb (queue x) q).
  - injection H as <-. exists x. simpl. rewrite !high_res_wake_ups_cons.
    split; [reflexivity|]. split; lia.
  - destruct (IntrusiveHeap.heap_handle q h) as [j|]; [|discriminate].
    injection H as <-. destruct (IH j eq_refl) as (old & Hat & H1 & H2).
    exists old. simpl. rewrite !high_res_wake_ups_cons.
    split; [exact Hat|]. split; lia.
Qed.

Lemma high_res_wake_ups_insert (e : ScheduledDelayedWakeUp) (h : IntrusiveHeap.t) :
  high_res_wake_ups (IntrusiveHeap.insert e h)
  = (high_res_wake_ups h + (if is_high_resolution e then 1 else 0))%nat.
Proof.
  unfold high_res_wake_ups, IntrusiveHeap.insert.
  rewrite filter_app, length_app. simpl.
  destruct (is_high_resolution e); reflexivity.
Qed.

Lemma SetNextWakeUpForQueue_count_ok (q : QueueId) (wake : option DelayedWakeUp)
      (lazy_now : TimeTicks) (td : TimeDomain) :
  wake_up_count_ok td ->
  wake_up_count_ok (fst (TimeDomain.SetNextWakeUpForQueue q wake lazy_now td)).
Proof.
  unfold wake_up_count_ok. intro Hok.
  rewrite SetNextWakeUpForQueue_count, SetNextWakeUpForQueue_heap, Hok.
  unfold wake_up_of.
  destruct (IntrusiveHeap.heap_handle q (delayed_wake_up_queue_ td)) as [i|] eqn:Hh.
  - destruct (@high_res_wake_ups_ChangeKey q (delayed_wake_up_queue_ td) i
                (mkScheduledDelayedWakeUp
                   (match wake with Some s => s | None => mkDelayedWakeUp 0%Z 0%N kLow end) q)
                Hh) as (old & -> & H1 & H2).
    cbn. unfold is_high_resolution in *. cbn in *.
    destruct wake as [[? ? []]|], (resolution (wake_up old)); cbn in *; lia.
  - destruct wake as [s|]; [|lia].
    rewrite high_res_wake_ups_insert. unfold is_high_resolution. cbn.
    destruct (resolution s); lia.
Qed.

(** X5: the counter of pending high resolution wake-ups of a time domain is
    the number of wake-ups in its heap that ask for high resolution, and so
    never negative: [SetNextWakeUpForQueue] and [UnregisterQueue] keep it so,
    starting from an empty time domain. *)
Theorem pending_high_res_wake_up_count_preserved (td : TimeDomain)
        (Hok : wake_up_count_ok td) :
  (forall q wake lazy_now,
      let td' := fst (TimeDomain.SetNextWakeUpForQueue q wake lazy_now td) in
      wake_up_count_ok td' /\ (0 <= pending_high_res_wake_up_count_ td')%Z)
  /\ (forall q,
        let td' := fst (TimeDomain.UnregisterQueue q td) in
        wake_up_count_ok td' /\ (0 <= pending_high_res_wake_up_count_ td')%Z)
  /\ (forall now, wake_up_count_ok (mkTimeDomain [] 0%Z now)).
Proof.
  assert (H : forall q wake lazy_now,
             let td' := fst (TimeDomain.SetNextWakeUpForQueue q wake lazy_now td) in
             wake_up_count_ok td' /\ (0 <= pending_high_res_wake_up_count_ td')%Z).
  { intros q wake lazy_now td'.
    assert (Hok' : wake_up_count_ok td') by now apply SetNextWakeUpForQueue_count_ok.
    split; [exact Hok'|]. rewrite Hok'. lia. }
  split; [exact H|]. split.
  - intro q. apply H.
  - intro now. reflexivity.
Qed.

(** * Steps that stay away from the time domain *)

Lemma same_settings_refl (q : TaskQueueImpl) : same_settings q q.
Proof. unfold same_settings. tauto. Qed.

Lemma same_settings_trans (q1 q2 q3 : TaskQueueImpl) :
  same_settings q1 q2 -> same_settings q2 q3 -> same_settings q1 q3.
Proof.
  unfold same_settings.
  intros (A1 & A2 & A3 & A4 & A5 & A6 & A7 & A8 & A9)
         (B1 & B2 & B3 & B4 & B5 & B6 & B7 & B8 & B9).
  repeat split; congruence.
Qed.

Lemma steady_refl (w : World) : steady w w.
Proof. unfold steady, same_settings. tauto. Qed.

Lemma steady_trans (w1 w2 w3 : World) : steady w1 w2 -> steady w2 w3 -> steady w1 w3.
Proof.
  intros (A0 & A1 & A2 & A3 & A4 & A5 & A6) (B0 & B1 & B2 & B3 & B4 & B5 & B6).
  unfold steady.
  split; [auto|]. split; [congruence|].
  split; [eapply same_settings_trans; eassumption|].
  repeat split; congruence.
Qed.

Lemma pop_delayed_incoming_queue_steady (w w' : World) :
  TaskQueueImpl.pop_delayed_incoming_queue w = Some (tt, w') -> steady w w'.
Proof.
  unfold TaskQueueImpl.pop_delayed_incoming_queue. intro H.
  destruct w as [sm td [[] a ? ? ? ?] cs os]. mrun_in H.
  destruct (DelayedIncomingQueue.pop _) as [d|]; mrun_in H; [|discriminate].
  injection H as <-. unfold steady, same_settings, registered. cbn. tauto.
Qed.

Lemma delayed_work_queue_Push_steady (t : Task) (w w' : World) :
  TaskQueueImpl.delayed_work_queue_Push t w = Some (tt, w') -> steady w w'.
Proof.
  unfold TaskQueueImpl.delayed_work_queue_Push. intro H.
  destruct w as [sm td [[? dwq ? ? ? ? ? ? ? ? ? ?] a ? ? ? ?] cs os]. mrun_in H.
  destruct dwq as [dwq|]; mrun_in H; [|discriminate].
  injection H as <-. unfold steady, same_settings, registered. cbn.
  repeat split; try tauto. eauto.
Qed.

Lemma GetNextSequenceNumber_steady (n : EnqueueOrder.t) (w w' : World) :
  GetNextSequenceNumber w = Some (n, w') -> steady w w'.
Proof.
  unfold GetNextSequenceNumber. intro H. injection H as <- <-.
  unfold steady, same_settings. cbn. tauto.
Qed.

Lemma ActivateDelayedFenceIfNeeded_steady (now : TimeTicks) (w w' : World) :
  registered (this w) ->
  TaskQueueImpl.ActivateDelayedFenceIfNeeded now w = Some (tt, w') -> steady w w'.
Proof.
  intros Hreg H.
  cbv [TaskQueueImpl.ActivateDelayedFenceIfNeeded bind main get_queue ret] in H.
  cbv beta iota in H.
  destruct (delayed_fence (main_thread_only (this w))) as [ft|];
    [|injection H as <-; apply steady_refl].
  destruct (now <? ft)%Z; [injection H as <-; apply steady_refl|].
  destruct (@InsertFence_effect w kNow Hreg)
    as (w1 & E & _ & _ & _ & _ & _ & Hst & _).
  rewrite E in H. cbv [update_main bind get_queue put_queue] in H.
  cbv beta iota in H. injection H as <-. clear E.
  apply (steady_trans Hst).
  destruct w1 as [sm td [[] a ? ? ? ?] cs os].
  unfold steady, same_settings, registered. cbn. tauto.
Qed.

Lemma MoveReadyDelayedTasksToWorkQueue_loop_steady (now : TimeTicks) (fuel : nat) :
  forall w w',
    registered (this w) ->
    TaskQueueImpl.MoveReadyDelayedTasksToWorkQueue_loop fuel now w = Some (tt, w') ->
    steady w w'.
Proof.
  induction fuel as [|fuel IH]; intros w w' Hreg H;
    cbn [TaskQueueImpl.MoveReadyDelayedTasksToWorkQueue_loop] in H;
    cbv [bind main get_queue ret crash] in H; cbv beta iota in H;
    destruct (DelayedIncomingQueue.top _) as [t|];
    try discriminate; try (injection H as <-; apply steady_refl).
  destruct (closure_is_null (task t) || IsCancelled (task t)).
  - destruct (TaskQueueImpl.pop_delayed_incoming_queue w) as [[[] w1]|] eqn:Hpop;
      [|discriminate].
    apply pop_delayed_incoming_queue_steady in Hpop.
    apply (steady_trans Hpop). apply IH; [apply Hpop, Hreg | exact H].
  - destruct (now <? delayed_run_time t)%Z; [injection H as <-; apply steady_refl|].
    destruct (TaskQueueImpl.ActivateDelayedFenceIfNeeded _ w) as [[[] w1]|] eqn:H1;
      [|discriminate].
    apply (@ActivateDelayedFenceIfNeeded_steady _ w w1 Hreg) in H1.
    destruct (GetNextSequenceNumber w1) as [[n w2]|] eqn:H2; [|discriminate].
    apply GetNextSequenceNumber_steady in H2.
    destruct (TaskQueueImpl.delayed_work_queue_Push _ w2) as [[[] w3]|] eqn:H3;
      [|discriminate].
    apply delayed_work_queue_Push_steady in H3.
    destruct (TaskQueueImpl.pop_delayed_incoming_queue w3) as [[[] w4]|] eqn:H4;
      [|discriminate].
    apply pop_delayed_incoming_queue_steady in H4.
    pose proof (steady_trans (steady_trans (steady_trans H1 H2) H3) H4) as Hst.
    apply (steady_trans Hst). apply IH; [apply Hst, Hreg | exact H].
Qed.

(** * The wake-up of the queue in the time domain *)

Lemma wake_up_rescheduled_updated (lazy_now : TimeTicks) (w w' : World) :
  wake_up_rescheduled lazy_now w w' -> wake_up_updated w w'.
Proof.
  intros (s & Hs & Hthis & Hsm & Hos & Hif).
  unfold wake_up_updated. split; [exact Hsm|]. split; [exact Hos|]. split.
  - destruct (option_eqb _ _ _).
    + destruct Hif as [-> _]. reflexivity.
    + destruct Hif as [-> _]. apply SetNextWakeUpForQueue_clock.
  - exists s. auto.
Qed.

Lemma wake_up_rescheduled_consistent (lazy_now : TimeTicks) (w w' : World) :
  heap_agrees w -> wake_up_rescheduled lazy_now w w' ->
  wake_up_consistent w'
  /\ (forall q', q' <> this_queue (this w) ->
                 wake_up_of q' (delayed_wake_up_queue_ (the_time_domain w'))
                 = wake_up_of q' (delayed_wake_up_queue_ (the_time_domain w)))
  /\ (wake_up_count_ok (the_time_domain w) -> wake_up_count_ok (the_time_domain w')).
Proof.
  intros [Hnd Hagree] (s & Hs & Hthis & Hsm & Hos & Hif).
  unfold wake_up_consistent, heap_agrees. rewrite Hthis. cbn.
  rewrite GetNextScheduledWakeUpImpl_frame.
  destruct (option_eqb DelayedWakeUp_eqb _ s) eqn:Heq.
  - apply option_DelayedWakeUp_eqb_eq in Heq. destruct Hif as [-> _].
    repeat split; auto; congruence.
  - destruct Hif as [-> _].
    destruct (@SetNextWakeUpForQueue_entries (this_queue (this w)) s lazy_now
                (the_time_domain w) Hnd) as (H1 & H2 & H3).
    repeat split; auto. apply SetNextWakeUpForQueue_count_ok.
Qed.

Lemma MoveReadyDelayedTasksToWorkQueue_effect (w : World) (now : TimeTicks)
      (Hreg : registered (this w)) (Hheap : is_heap (queue_of w)) :
  exists w1 w',
    TaskQueueImpl.MoveReadyDelayedTasksToWorkQueue now w = Some (tt, w')
    /\ ready_tasks_moved now w w1
    /\ steady w w1
    /\ wake_up_rescheduled now w1 w'.
Proof.
  destruct (@MoveReadyDelayedTasksToWorkQueue_loop_spec now (queue_of w) w Hreg
              eq_refl Hheap) as (w1 & E1 & Hmoved).
  pose proof (@MoveReadyDelayedTasksToWorkQueue_loop_steady now _ w w1 Hreg E1) as Hst.
  destruct (@UpdateDelayedWakeUp_effect now w1 (proj1 Hst Hreg)) as (w' & E2 & Hre).
  exists w1, w'. split; [|auto].
  destruct Hreg as (_ & _ & _ & (dwq & Hdwq) & _).
  cbv [TaskQueueImpl.MoveReadyDelayedTasksToWorkQueue bind main get_queue ret deref].
  cbv beta iota. rewrite Hdwq. cbv beta iota.
  unfold queue_of in E1. unfold DelayedIncomingQueue.size. rewrite E1. exact E2.
Qed.

Lemma heap_agrees_frame (w w1 : World) :
  the_time_domain w1 = the_time_domain w ->
  scheduled_wake_up (main_thread_only (this w1))
  = scheduled_wake_up (main_thread_only (this w)) ->
  this_queue (this w1) = this_queue (this w) ->
  heap_agrees w -> heap_agrees w1.
Proof. unfold heap_agrees. intros -> -> ->. tauto. Qed.

(** What a delayed post from the main thread writes. *)
Lemma PostDelayedTaskImpl_main_effect (w : World) (posted : PostedTask)
      (Hcallback : closure_is_null (callback posted) = false)
      (Hreg : registered (this w)) :
  exists w',
    TaskQueueImpl.PostDelayedTaskImpl posted kMainThread w = Some (tt, w')
    /\ exists t w1,
         task t = callback posted
         /\ delayed_run_time t
            = TimeTicks_plus (TimeDomain.Now (the_time_domain w)) (delay posted)
         /\ sequence_num t = next_order w
         /\ enqueue_order t = EnqueueOrder.none
         /\ this w1
            = set_main (set_delayed_incoming_queue
                          (DelayedIncomingQueue.push
                             t (delayed_incoming_queue (main_thread_only (this w))))
                          (main_thread_only (this w)))
                       (this w)
         /\ the_time_domain w1 = the_time_domain w
         /\ next_order w1 = (next_order w + 1)%N
         /\ add_queue_time_to_tasks (sequence_manager_ w1)
            = add_queue_time_to_tasks (sequence_manager_ w)
         /\ OS_WIN w1 = OS_WIN w
         /\ wake_up_rescheduled (TimeDomain.Now (the_time_domain w)) w1 w'.
Proof.
  unfold TaskQueueImpl.PostDelayedTaskImpl. rewrite Hcallback.
  start_registered w Hreg.
  unfold TaskQueueImpl.PushOntoDelayedIncomingQueueFromMainThread,
    TaskQueueImpl.push_delayed_incoming_queue.
  hide_post Q HQ. mrun.
  match goal with
  | |- context [TaskQueueImpl.UpdateDelayedWakeUp ?n ?W] =>
      destruct (@UpdateDelayedWakeUp_effect n W) as (w' & E & U);
      [unfold registered; cbn; eauto 10 | rewrite E]
  end.
  eexists. split; [reflexivity|]. subst Q. cbn beta.
  eexists. eexists. 
  repeat match goal with
         | |- _ /\ _ => split
         end; [| | | | | | | | | exact U]; try reflexivity.
  all: cbn; repeat match goal with
                   | |- context [if ?b then set_posted_queue_time _ _ else _] =>
                       destruct b
                   end; reflexivity.
Qed.

(** What a delayed post from another thread writes: a helper task on the
    immediate incoming queue that carries the delayed task. *)
Lemma PostDelayedTaskImpl_cross_effect (w : World) (posted : PostedTask)
      (Hcallback : closure_is_null (callback posted) = false)
      (Hreg : registered (this w)) :
  let a := any_thread_ (this w) in
  let both_empty :=
    match immediate_incoming_queue a with [] => true | _ => false end
    && immediate_work_queue_empty a in
  exists w',
    TaskQueueImpl.PostDelayedTaskImpl posted kNotMainThread w = Some (tt, w')
    /\ exists pending helper,
         this w'
         = set_reload_handle
             (if both_empty then Some true else empty_queues_to_reload_handle_ (this w))
             (set_any (set_immediate_incoming_queue
                         (immediate_incoming_queue a ++ [helper]) a)
                      (this w))
         /\ task helper = ScheduleDelayedWorkTask_closure pending
         /\ enqueue_order helper = (next_order w + 1)%N
         /\ task pending = callback posted
         /\ delayed_run_time pending
            = TimeTicks_plus (TimeDomain.Now (the_time_domain w)) (delay posted)
         /\ sequence_num pending = next_order w
         /\ enqueue_order pending = EnqueueOrder.none
         /\ the_time_domain w' = the_time_domain w
         /\ next_order w' = (next_order w + 2)%N
         /\ add_queue_time_to_tasks (sequence_manager_ w')
            = add_queue_time_to_tasks (sequence_manager_ w)
         /\ OS_WIN w' = OS_WIN w.
Proof.
  cbv zeta. unfold TaskQueueImpl.PostDelayedTaskImpl. rewrite Hcallback.
  unfold next_order.
  start_registered w Hreg.
  unfold TaskQueueImpl.PushOntoDelayedIncomingQueue,
    TaskQueueImpl.PostImmediateTaskImpl, TaskQueueImpl.SetActive.
  cbn [closure_is_null callback].
  mfinish_hidden.
  all: cbn; repeat match goal with
                   | |- context [if ?b then set_posted_queue_time _ _ else _] =>
                       destruct b
                   end; cbn.
  all: eexists; eexists; cbn; (split; [reflexivity|]).
  all: repeat split; try reflexivity; try lia.
Qed.

Lemma push_size (t : Task) (d : DelayedIncomingQueue) :
  DelayedIncomingQueue.size (DelayedIncomingQueue.push t d)
  = S (DelayedIncomingQueue.size d).
Proof.
  unfold DelayedIncomingQueue.size, DelayedIncomingQueue.push, PQueue.push. cbn.
  rewrite (Permutation_length (push_heap_perm t _)). reflexivity.
Qed.

Lemma GetNumberOfPendingTasks_returns (q : TaskQueueImpl) :
  registered q -> exists n, TaskQueueImpl.GetNumberOfPendingTasks q = Some n.
Proof.
  intros (_ & _ & (iwq & Hi) & (dwq & Hd) & _).
  unfold TaskQueueImpl.GetNumberOfPendingTasks. rewrite Hi, Hd. eauto.
Qed.

(** X6: a post, immediate or delayed, from the main thread or from another
    one, adds exactly one task to the queues of the task queue; the work
    queues and the fences are not touched, and a sequence number is used
    up. *)
Theorem PostTask_one_more_pending (w : World) (posted : PostedTask)
        (current_thread : CurrentThread)
        (Hcallback : closure_is_null (callback posted) = false)
        (Hreg : registered (this w)) :
  exists w' n,
    TaskQueueImpl.PostTask posted current_thread w = Some (tt, w')
    /\ TaskQueueImpl.GetNumberOfPendingTasks (this w) = Some n
    /\ TaskQueueImpl.GetNumberOfPendingTasks (this w') = Some (S n)
    /\ work_queues_untouched (this w) (this w')
    /\ (next_order w < next_order w')%N.
Proof.
  destruct (GetNumberOfPendingTasks_returns Hreg) as [n Hn].
  unfold TaskQueueImpl.PostTask.
  destruct (delay posted =? 0)%Z; [|destruct current_thread].
  - destruct (@PostImmediateTaskImpl_effect w posted current_thread Hcallback Hreg)
      as (w' & E & t & Hthis & _ & _ & _ & _ & _ & Hnext & _).
    exists w', n. split; [exact E|]. split; [exact Hn|].
    rewrite Hthis, Hnext. unfold work_queues_untouched. cbn.
    repeat split; try lia.
    revert Hn. unfold TaskQueueImpl.GetNumberOfPendingTasks. cbn.
    destruct (delayed_work_queue _); [|discriminate].
    destruct (immediate_work_queue _); [|discriminate].
    intro H. injection H as <-. rewrite length_app. cbn. f_equal. lia.
  - destruct (@PostDelayedTaskImpl_main_effect w posted Hcallback Hreg)
      as (w' & E & t & w1 & _ & _ & _ & _ & Hw1 & _ & Hnext & _ & _ & Hre).
    exists w', n. split; [exact E|]. split; [exact Hn|].
    destruct Hre as (s & _ & Hthis & Hsm & _).
    unfold next_order in *. rewrite Hthis, Hw1, Hsm, Hnext.
    unfold work_queues_untouched. cbn.
    repeat split; try lia.
    revert Hn. unfold TaskQueueImpl.GetNumberOfPendingTasks.
    cbn -[DelayedIncomingQueue.push DelayedIncomingQueue.size].
    destruct (delayed_work_queue _); [|discriminate].
    destruct (immediate_work_queue _); [|discriminate].
    intro H. injection H as <-. rewrite push_size. f_equal. lia.
  - destruct (@PostDelayedTaskImpl_cross_effect w posted Hcallback Hreg)
      as (w' & E & pending & helper & Hthis & _ & _ & _ & _ & _ & _ & _ & Hnext & _).
    exists w', n. split; [exact E|]. split; [exact Hn|].
    rewrite Hthis, Hnext. unfold work_queues_untouched. cbn.
    repeat split; try lia.
    revert Hn. unfold TaskQueueImpl.GetNumberOfPendingTasks. cbn.
    destruct (delayed_work_queue _); [|discriminate].
    destruct (immediate_work_queue _); [|discriminate].
    intro H. injection H as <-. rewrite length_app. cbn. f_equal. lia.
Qed.

(** What [SetQueueEnabled] writes when the setting changes. *)
Lemma SetQueueEnabled_effect (w : World) (enabled : bool)
      (Hreg : registered (this w))
      (Hchange : is_enabled (main_thread_only (this w)) = negb enabled) :
  exists r w',
    TaskQueueImpl.SetQueueEnabled enabled w = Some (r, w')
    /\ r = (if enabled then [EnableQueue] else [DisableQueue])
    /\ exists w1 w2,
         this w1 = set_main (set_is_enabled enabled (main_thread_only (this w))) (this w)
         /\ the_time_domain w1 = the_time_domain w
         /\ sequence_manager_ w1 = sequence_manager_ w
         /\ calls w1 = calls w
         /\ wake_up_rescheduled (TimeDomain.Now (the_time_domain w)) w1 w2
         /\ registered (this w')
         /\ the_time_domain w' = the_time_domain w2
         /\ same_tasks (this w2) (this w')
         /\ work_queues_untouched (this w2) (this w')
         /\ same_settings (this w2) (this w')
         /\ cross_thread_state_ok (this w')
         /\ (next_order w <= next_order w')%N
         /\ firstn (length (calls w2)) (calls w') = calls w2
         /\ ~ In EvScheduleWork (new_calls w2 w').
Proof.
  pose proof Hreg as Hreg0.
  start_registered w Hreg.
  unfold TaskQueueImpl.SetQueueEnabled.
  hide_value_post Q HQ.
  mrun. rewrite Bool.eqb_negb1. destruct enabled; mrun.
  all: match goal with
       | |- context [TaskQueueImpl.UpdateDelayedWakeUp ?n ?W] =>
           destruct (@UpdateDelayedWakeUp_effect n W) as (w2 & E & U);
           [unfold registered; cbn; eauto 10 | rewrite E]
       end.
  all: pose proof U as (s & _ & Hthis & Hsm & Hos & _).
  all: destruct w2 as [sm2 td2 q2 cs2 os2]; cbn in Hthis, Hsm, Hos; subst q2 sm2 os2.
  all: unfold TaskQueueImpl.UpdateCrossThreadQueueStateLocked_,
         TaskQueueImpl.UpdateCrossThreadQueueStateLocked,
         TaskQueueImpl.HasPendingImmediateWorkLocked, TaskQueueImpl.BlockedByFence_,
         TaskQueueImpl.OnQueueUnblocked, TaskQueueImpl.GetQueuePriority; mrun.
  all: repeat mvalue_step.
  all: eexists; (split; [reflexivity|]); subst Q; cbn beta; cbn [fst snd].
  all: (split; [reflexivity|]).
  all: eexists; eexists; (split; [|split; [|split; [|split; [|split; [exact U|]]]]]);
    try reflexivity.
  all: unfold_frames; rewrite <- ?app_assoc, ?skipn_calls, ?firstn_calls;
    rewrite ?(skipn_calls cs2 []), ?(firstn_calls cs2 []); cbn.
  all: unfold work_queues_untouched; cbn.
  all: repeat match goal with
         | |- _ /\ _ => split
         | |- exists _, Some _ = Some _ => eexists; reflexivity
         | |- exists _, Some _ = Some _ /\ _ => eexists; split; [reflexivity|]
         | |- _ = _ => reflexivity
         | |- (_ <= _)%N => lia
         | |- ~ _ => not_called
         | |- _ = _ => bool_rewrite; reflexivity
         | |- _ = (if is_bound ?o then _ else _) => destruct o; reflexivity
         | |- _ = is_bound ?o || _ => destruct o; cbn; bool_rewrite; reflexivity
         | |- (if is_bound ?o then _ else _) = _ => destruct o; reflexivity
         end.
Qed.

(** What [ReclaimMemory] writes. *)
Lemma ReclaimMemory_effect (w : World) (now : TimeTicks)
      (Hreg : registered (this w)) :
  exists w',
    TaskQueueImpl.ReclaimMemory now w = Some (tt, w')
    /\ if DelayedIncomingQueue.empty (delayed_incoming_queue (main_thread_only (this w)))
       then w' = w
       else exists w1,
           this w1
           = set_main (set_delayed_incoming_queue
                         (DelayedIncomingQueue.SweepCancelledTasks
                            (delayed_incoming_queue (main_thread_only (this w))))
                         (main_thread_only (this w)))
                      (this w)
           /\ the_time_domain w1 = the_time_domain w
           /\ sequence_manager_ w1 = sequence_manager_ w
           /\ wake_up_rescheduled now w1 w'.
Proof.
  start_registered w Hreg.
  unfold TaskQueueImpl.ReclaimMemory.
  hide_post Q HQ. mrun.
  destruct (DelayedIncomingQueue.empty _) eqn:Hempty.
  - eexists. split; [reflexivity|]. subst Q. cbn -[DelayedIncomingQueue.empty].
    reflexivity.
  - mrun.
    match goal with
    | |- context [TaskQueueImpl.UpdateDelayedWakeUp ?n ?W] =>
        destruct (@UpdateDelayedWakeUp_effect n W) as (w' & E & U);
        [unfold registered; cbn; eauto 10 | rewrite E]
    end.
    eexists. split; [reflexivity|]. subst Q. cbn -[DelayedIncomingQueue.empty].
    eexists. split; [|split; [|split; [|exact U]]]; reflexivity.
Qed.

Lemma GetNextScheduledWakeUpImpl_same (q q' : TaskQueueImpl) :
  same_tasks q q' -> same_settings q q' ->
  TaskQueueImpl.GetNextScheduledWakeUpImpl q'
  = TaskQueueImpl.GetNextScheduledWakeUpImpl q.
Proof.
  intros (Hd & _) (He & _ & _ & Hp & _).
  unfold TaskQueueImpl.GetNextScheduledWakeUpImpl, TaskQueueImpl.GetQueuePriority,
    TaskQueueImpl.IsQueueEnabled.
  rewrite Hd, He, Hp. reflexivity.
Qed.

Lemma wake_up_consistent_agrees (w : World) : wake_up_consistent w -> heap_agrees w.
Proof. intros [H _]. exact H. Qed.

(** X7: the wake-up of the queue in the heap of its time domain, the
    scheduled wake-up that the queue records and the wake-up that
    [GetNextScheduledWakeUpImpl] computes from the delayed incoming queue are
    one and the same, and the heap holds at most one wake-up per queue.
    Posting, moving the ready delayed tasks, reclaiming memory, enabling or
    disabling the queue and the fence operations all keep this, and leave the
    wake-ups of the other queues alone. *)
Theorem wake_up_consistent_preserved (w : World)
        (Hreg : registered (this w))
        (Hheap : is_heap (queue_of w))
        (Hok : wake_up_consistent w) :
  let kept (w' : World) :=
    wake_up_consistent w'
    /\ forall q',
         q' <> this_queue (this w) ->
         wake_up_of q' (delayed_wake_up_queue_ (the_time_domain w'))
         = wake_up_of q' (delayed_wake_up_queue_ (the_time_domain w)) in
  (forall posted current_thread,
      closure_is_null (callback posted) = false ->
      exists w', TaskQueueImpl.PostTask posted current_thread w = Some (tt, w') /\ kept w')
  /\ (forall now,
        exists w',
          TaskQueueImpl.MoveReadyDelayedTasksToWorkQueue now w = Some (tt, w')
          /\ kept w')
  /\ (forall now,
        exists w', TaskQueueImpl.ReclaimMemory now w = Some (tt, w') /\ kept w')
  /\ (forall enabled,
        exists r w', TaskQueueImpl.SetQueueEnabled enabled w = Some (r, w') /\ kept w')
  /\ (forall pos,
        exists w', TaskQueueImpl.InsertFence pos w = Some (tt, w') /\ kept w')
  /\ (exists w', TaskQueueImpl.RemoveFence w = Some (tt, w') /\ kept w').
Proof.
  cbv zeta. pose proof (wake_up_consistent_agrees Hok) as Hagree.
  assert (Hsame : forall w',
             the_time_domain w' = the_time_domain w ->
             scheduled_wake_up (main_thread_only (this w'))
             = scheduled_wake_up (main_thread_only (this w)) ->
             this_queue (this w') = this_queue (this w) ->
             TaskQueueImpl.GetNextScheduledWakeUpImpl (this w')
             = TaskQueueImpl.GetNextScheduledWakeUpImpl (this w) ->
             wake_up_consistent w'
             /\ forall q',
                  q' <> this_queue (this w) ->
                  wake_up_of q' (delayed_wake_up_queue_ (the_time_domain w'))
                  = wake_up_of q' (delayed_wake_up_queue_ (the_time_domain w))).
  { intros w' Htd Hs Hq Hg. split.
    - split; [exact (@heap_agrees_frame w w' Htd Hs Hq Hagree)|].
      rewrite Hg, Hs. apply Hok.
    - intros q' _. rewrite Htd. reflexivity. }
  assert (Hupdate : forall now w1 w',
             the_time_domain w1 = the_time_domain w ->
             scheduled_wake_up (main_thread_only (this w1))
             = scheduled_wake_up (main_thread_only (this w)) ->
             this_queue (this w1) = this_queue (this w) ->
             wake_up_rescheduled now w1 w' ->
             wake_up_consistent w'
             /\ forall q',
                  q' <> this_queue (this w) ->
                  wake_up_of q' (delayed_wake_up_queue_ (the_time_domain w'))
                  = wake_up_of q' (delayed_wake_up_queue_ (the_time_domain w))).
  { intros now w1 w' Htd Hs Hq Hre.
    destruct (@wake_up_rescheduled_consistent now w1 w'
                (@heap_agrees_frame w w1 Htd Hs Hq Hagree) Hre)
      as (H1 & H2 & _).
    split; [exact H1|]. intros q' Hq'. rewrite H2 by congruence.
    rewrite Htd. reflexivity. }
  repeat split.
  - intros posted current_thread Hcallback. unfold TaskQueueImpl.PostTask.
    destruct (delay posted =? 0)%Z; [|destruct current_thread].
    + destruct (@PostImmediateTaskImpl_effect w posted current_thread Hcallback Hreg)
        as (w' & E & t & Hthis & _ & _ & _ & _ & Htd & _).
      exists w'. split; [exact E|]. apply Hsame; rewrite ?Hthis; auto.
    + destruct (@PostDelayedTaskImpl_main_effect w posted Hcallback Hreg)
        as (w' & E & t & w1 & _ & _ & _ & _ & Hw1 & Htd & _ & _ & _ & Hre).
      exists w'. split; [exact E|].
      refine (Hupdate _ w1 w' _ _ _ Hre); rewrite ?Hw1; auto.
    + destruct (@PostDelayedTaskImpl_cross_effect w posted Hcallback Hreg)
        as (w' & E & pending & helper & Hthis & _ & _ & _ & _ & _ & _ & Htd & _).
      exists w'. split; [exact E|]. apply Hsame; rewrite ?Hthis; auto.
  - intro now.
    destruct (@MoveReadyDelayedTasksToWorkQueue_effect w now Hreg Hheap)
      as (w1 & w' & E & _ & Hst & Hre).
    exists w'. split; [exact E|].
    destruct Hst as (_ & Htd & Hs & _).
    apply (Hupdate now w1 w'); auto; apply Hs.
  - intro now.
    destruct (@ReclaimMemory_effect w now Hreg) as (w' & E & Hif).
    exists w'. split; [exact E|].
    destruct (DelayedIncomingQueue.empty _).
    + subst w'. apply Hsame; auto.
    + destruct Hif as (w1 & Hw1 & Htd & _ & Hre).
      apply (Hupdate now w1 w'); rewrite ?Hw1; auto.
  - intro enabled.
    destruct (Bool.eqb (is_enabled (main_thread_only (this w))) enabled) eqn:Heq.
    + exists [], w. split.
      * cbv [TaskQueueImpl.SetQueueEnabled bind main get_queue ret]. cbv beta iota.
        rewrite Heq. reflexivity.
      * apply Hsame; auto.
    + assert (Hchange : is_enabled (main_thread_only (this w)) = negb enabled).
      { destruct (is_enabled _), enabled; try discriminate; reflexivity. }
      destruct (@SetQueueEnabled_effect w enabled Hreg Hchange)
        as (r & w' & E & _ & w1 & w2 & Hw1 & Htd1 & _ & _ & Hre & _ & Htd' & Ht2 & _
            & Hs & _).
      exists r, w'. split; [exact E|].
      destruct (Hupdate (TimeDomain.Now (the_time_domain w)) w1 w2 Htd1)
        as [[Hag Hg] Hothers]; rewrite ?Hw1; auto.
      split.
      * split.
        -- apply (@heap_agrees_frame w2 w' Htd'); [apply Hs | apply Hs | exact Hag].
        -- rewrite (GetNextScheduledWakeUpImpl_same Ht2 Hs), Hg. f_equal.
           symmetry. apply Hs.
      * intros q' Hq'. rewrite Htd'. auto.
  - intro pos.
    destruct (@InsertFence_effect w pos Hreg)
      as (w' & E & _ & _ & _ & _ & _ & Hst & Ht & _).
    exists w'. split; [exact E|].
    destruct Hst as (_ & Htd & Hs & _).
    apply Hsame; auto; try apply Hs. apply (GetNextScheduledWakeUpImpl_same Ht Hs).
  - destruct (@RemoveFence_effect w Hreg)
      as (w' & E & _ & _ & _ & _ & Hst & Ht & _).
    exists w'. split; [exact E|].
    destruct Hst as (_ & Htd & Hs & _).
    apply Hsame; auto; try apply Hs. apply (GetNextScheduledWakeUpImpl_same Ht Hs).
Qed.

Lemma Min_nonempty (e : ScheduledDelayedWakeUp) (h : IntrusiveHeap.t) :
  In e h -> exists m, IntrusiveHeap.Min h = Some m.
Proof.
  destruct h as [|x h]; [contradiction|]. intros _. simpl.
  destruct (IntrusiveHeap.Min h) as [m|]; [|eauto].
  destruct (IntrusiveHeap.le x m); eauto.
Qed.

Lemma GetNextScheduledWakeUpImpl_top (q : TaskQueueImpl) (s : option DelayedWakeUp) :
  TaskQueueImpl.GetNextScheduledWakeUpImpl q = Some s ->
  match DelayedIncomingQueue.top (delayed_incoming_queue (main_thread_only q)) with
  | Some t =>
      if is_enabled (main_thread_only q)
      then exists res,
          s = Some (mkDelayedWakeUp (delayed_run_time t) (sequence_num t) res)
      else s = None
  | None => s = None
  end.
Proof.
  unfold TaskQueueImpl.GetNextScheduledWakeUpImpl, TaskQueueImpl.IsQueueEnabled.
  destruct (DelayedIncomingQueue.top _) as [t|]; [|congruence].
  destruct (is_enabled _); cbn; [|congruence].
  destruct (DelayedIncomingQueue.has_pending_high_resolution_tasks _).
  - destruct (TaskQueueImpl.GetQueuePriority q); [|discriminate].
    intro H. injection H as <-. eauto.
  - intro H. injection H as <-. eauto.
Qed.

(** X8: for a queue that agrees with its time domain, the wake-up of the queue
    in the heap is that of the task at the top of its delayed incoming queue
    when the queue is enabled, and the queue has no wake-up when it is
    disabled or has no delayed task.  The next scheduled run time of the time
    domain is then no later than any delayed task of the enabled queue. *)
Theorem heap_wake_up_is_top_of_queue (w : World)
        (Hheap : is_heap (queue_of w))
        (Hok : wake_up_consistent w) :
  let m := main_thread_only (this w) in
  let heap := delayed_wake_up_queue_ (the_time_domain w) in
  match DelayedIncomingQueue.top (delayed_incoming_queue m) with
  | Some top_task =>
      if is_enabled m
      then (exists res,
               wake_up_of (this_queue (this w)) heap
               = Some (mkDelayedWakeUp (delayed_run_time top_task)
                                       (sequence_num top_task) res))
           /\ exists next,
               TimeDomain.NextScheduledRunTime (the_time_domain w) = Some next
               /\ forall t, In t (queue_of w) -> (next <= delayed_run_time t)%Z
      else wake_up_of (this_queue (this w)) heap = None
  | None => wake_up_of (this_queue (this w)) heap = None
  end.
Proof.
  cbv zeta. destruct Hok as [[Hnd Hagree] Hcomputed].
  apply GetNextScheduledWakeUpImpl_top in Hcomputed. rewrite Hagree.
  destruct (DelayedIncomingQueue.top _) as [top_task|] eqn:Htop; [|exact Hcomputed].
  destruct (is_enabled _); [|exact Hcomputed].
  destruct Hcomputed as [res Hs]. split; [eauto|].
  rewrite Hs in Hagree. apply wake_up_of_In in Hagree; [|exact Hnd].
  destruct (Min_nonempty _ _ Hagree) as [m Hm].
  exists (wake_up_time (wake_up m)). split.
  - unfold TimeDomain.NextScheduledRunTime, TimeDomain.min_wake_up_time.
    rewrite Hm. reflexivity.
  - intros t Ht. destruct (Min_least _ Hm) as [_ Hleast].
    specialize (Hleast _ Hagree). cbn in Hleast.
    unfold queue_of in *. unfold DelayedIncomingQueue.top, PQueue.top in Htop.
    destruct (queue_ _) as [|x c] eqn:Hc; [discriminate|].
    injection Htop as ->.
    destruct Ht as [<-|Ht]; [exact Hleast|].
    destruct (is_heap_top_first Hheap) as [_ Hfirst]. specialize (Hfirst _ Ht). lia.
Qed.

Lemma GetNextScheduledWakeUpImpl_disabled (q : TaskQueueImpl) :
  is_enabled (main_thread_only q) = false ->
  TaskQueueImpl.GetNextScheduledWakeUpImpl q = Some None.
Proof.
  intro H. unfold TaskQueueImpl.GetNextScheduledWakeUpImpl, TaskQueueImpl.IsQueueEnabled.
  rewrite H. destruct (DelayedIncomingQueue.top _); reflexivity.
Qed.

(** X9: disabling a queue takes its wake-up out of the time domain and tells
    the selector; no task is dropped.  While the queue is disabled no task
    could run, and an immediate post does not wake the main thread. *)
Theorem SetQueueEnabled_false_cancels_wake_up (w : World)
        (Hreg : registered (this w))
        (Henabled : is_enabled (main_thread_only (this w)) = true)
        (Hagree : heap_agrees w) :
  exists r w',
    TaskQueueImpl.SetQueueEnabled false w = Some (r, w')
    /\ r = [DisableQueue]
    /\ is_enabled (main_thread_only (this w')) = false
    /\ scheduled_wake_up (main_thread_only (this w')) = None
    /\ wake_up_of (this_queue (this w'))
                  (delayed_wake_up_queue_ (the_time_domain w')) = None
    /\ same_tasks (this w) (this w')
    /\ (forall order, TaskQueueImpl.CouldTaskRun (this w') order = false)
    /\ forall posted current_thread,
         closure_is_null (callback posted) = false ->
         exists w'',
           TaskQueueImpl.PostImmediateTaskImpl posted current_thread w' = Some (tt, w'')
           /\ ~ In EvScheduleWork (new_calls w' w'').
Proof.
  destruct (@SetQueueEnabled_effect w false Hreg Henabled)
    as (r & w' & E & Hr & w1 & w2 & Hw1 & Htd1 & _ & _ & Hre & Hreg' & Htd' & Ht2 & _
        & Hs & Hx & _).
  exists r, w'. split; [exact E|]. split; [exact Hr|].
  assert (Hagree1 : heap_agrees w1)
    by (apply (@heap_agrees_frame w w1 Htd1); rewrite ?Hw1; auto).
  destruct (@wake_up_rescheduled_consistent _ w1 w2 Hagree1 Hre)
    as ([[Hnd2 Hag2] _] & _ & _).
  destruct Hre as (s & Hcomputed & Hw2 & _).
  rewrite GetNextScheduledWakeUpImpl_disabled in Hcomputed by (rewrite Hw1; reflexivity).
  injection Hcomputed as <-.
  destruct Hs as (Hen & _ & Hsw & _ & Hq & _).
  assert (Hdisabled : is_enabled (main_thread_only (this w')) = false)
    by (rewrite Hen, Hw2, Hw1; reflexivity).
  split; [exact Hdisabled|].
  split; [rewrite Hsw, Hw2; reflexivity|].
  split; [rewrite Htd', Hq, Hag2, Hw2; reflexivity|].
  split.
  - destruct Ht2 as (A & B & C & D). rewrite Hw2, Hw1 in A, B, C, D.
    unfold same_tasks. cbn in *. auto.
  - split.
    + intro order. unfold TaskQueueImpl.CouldTaskRun, TaskQueueImpl.IsQueueEnabled.
      rewrite Hdisabled. reflexivity.
    + intros posted current_thread Hcallback.
      destruct (@PostImmediateTaskImpl_effect w' posted current_thread Hcallback Hreg')
        as (w'' & E' & t & _ & _ & _ & _ & _ & _ & _ & _ & _ & Hcalls & _).
      exists w''. split; [exact E'|]. unfold new_calls. rewrite Hcalls.
      destruct Hx as [-> _]. rewrite Hdisabled. cbn.
      rewrite andb_false_r. discriminate.
Qed.

(** X10: disabling and then enabling a queue brings back its wake-up: the
    tasks, the scheduled wake-up and the heap entry of the queue are as
    before, and so are the wake-ups of the other queues. *)
Theorem SetQueueEnabled_round_trip (w : World)
        (Hreg : registered (this w))
        (Henabled : is_enabled (main_thread_only (this w)) = true)
        (Hok : wake_up_consistent w) :
  exists r1 w1 r2 w2,
    TaskQueueImpl.SetQueueEnabled false w = Some (r1, w1)
    /\ TaskQueueImpl.SetQueueEnabled true w1 = Some (r2, w2)
    /\ r1 ++ r2 = [DisableQueue; EnableQueue]
    /\ is_enabled (main_thread_only (this w2)) = true
    /\ same_tasks (this w) (this w2)
    /\ work_queues_untouched (this w) (this w2)
    /\ scheduled_wake_up (main_thread_only (this w2))
       = scheduled_wake_up (main_thread_only (this w))
    /\ forall q,
         wake_up_of q (delayed_wake_up_queue_ (the_time_domain w2))
         = wake_up_of q (delayed_wake_up_queue_ (the_time_domain w)).
Proof.
  pose proof Hok as [Hagree Hcomputed].
  destruct (@SetQueueEnabled_effect w false Hreg Henabled)
    as (r1 & v & E1 & Hr1 & v1 & v2 & Hv1 & Htd1 & _ & _ & Hre1 & Hregv & Htdv & Ht1 & Hu1
        & Hs1 & _).
  assert (Hag1 : heap_agrees v1)
    by (apply (@heap_agrees_frame w v1 Htd1); rewrite ?Hv1; auto).
  destruct (@wake_up_rescheduled_consistent _ v1 v2 Hag1 Hre1)
    as ([Hag2 _] & Hothers1 & _).
  pose proof Hre1 as (s1 & _ & Hv2 & _).
  assert (Hagv : heap_agrees v)
    by (apply (@heap_agrees_frame v2 v Htdv); try apply Hs1; exact Hag2).
  assert (Hdis : is_enabled (main_thread_only (this v)) = negb true).
  { destruct Hs1 as (-> & _). rewrite Hv2, Hv1. reflexivity. }
  destruct (@SetQueueEnabled_effect v true Hregv Hdis)
    as (r2 & w2 & E2 & Hr2 & u1 & u2 & Hu1' & Htdu1 & _ & _ & Hre2 & _ & Htd2 & Ht2 & Hu2
        & Hs2 & _).
  assert (Hagu1 : heap_agrees u1)
    by (apply (@heap_agrees_frame v u1 Htdu1); rewrite ?Hu1'; auto).
  destruct (@wake_up_rescheduled_consistent _ u1 u2 Hagu1 Hre2)
    as ([[Hnd3 Hag3] _] & Hothers2 & _).
  destruct Hre2 as (s2 & Hc2 & Hu2' & _).
  assert (Htasks : same_tasks (this w) (this w2)).
  { destruct Ht1 as (A1 & B1 & C1 & D1), Ht2 as (A2 & B2 & C2 & D2).
    rewrite Hu2', Hu1' in A2, B2, C2, D2. rewrite Hv2, Hv1 in A1, B1, C1, D1.
    unfold same_tasks. cbn in *. repeat split; congruence. }
  assert (Hq : this_queue (this w2) = this_queue (this w)).
  { destruct Hs1 as (_ & _ & _ & _ & Q1 & _), Hs2 as (_ & _ & _ & _ & Q2 & _).
    rewrite Q2, Hu2', Hu1'. cbn. rewrite Q1, Hv2, Hv1. reflexivity. }
  assert (Hs2eq : s2 = scheduled_wake_up (main_thread_only (this w))).
  { assert (Hg : TaskQueueImpl.GetNextScheduledWakeUpImpl (this u1)
                 = TaskQueueImpl.GetNextScheduledWakeUpImpl (this w)).
    { unfold TaskQueueImpl.GetNextScheduledWakeUpImpl, TaskQueueImpl.GetQueuePriority,
        TaskQueueImpl.IsQueueEnabled.
      rewrite Hu1'. cbn.
      destruct Ht1 as (A1 & _), Hs1 as (_ & _ & _ & P1 & _).
      rewrite Hv2, Hv1 in A1, P1. cbn in A1, P1. rewrite A1, P1, Henabled.
      reflexivity. }
    rewrite Hg, Hcomputed in Hc2. congruence. }
  assert (Hsched : scheduled_wake_up (main_thread_only (this w2))
                   = scheduled_wake_up (main_thread_only (this w))).
  { destruct Hs2 as (_ & _ & -> & _). rewrite Hu2'. cbn. exact Hs2eq. }
  exists r1, v, r2, w2. split; [exact E1|]. split; [exact E2|].
  split; [subst r1 r2; reflexivity|].
  split; [destruct Hs2 as (-> & _); rewrite Hu2', Hu1'; reflexivity|].
  split; [exact Htasks|]. split.
  - destruct Hu1 as (A1 & B1 & C1 & D1), Hu2 as (A2 & B2 & C2 & D2).
    rewrite Hu2', Hu1' in A2, B2, C2, D2. rewrite Hv2, Hv1 in A1, B1, C1, D1.
    unfold work_queues_untouched. cbn in *. repeat split; congruence.
  - split; [exact Hsched|]. intro q.
    destruct (Nat.eq_dec q (this_queue (this w))) as [->|Hne].
    + destruct Hagree as [_ ->]. rewrite <- Hsched, <- Hq, Htd2.
      assert (Hqu : this_queue (this w2) = this_queue (this u2))
        by (destruct Hs2 as (_ & _ & _ & _ & -> & _); reflexivity).
      rewrite Hqu, Hag3.
      destruct Hs2 as (_ & _ & -> & _). reflexivity.
    + rewrite Htd2, Hothers2, Htdu1, Htdv, Hothers1, Htd1; auto.
      * rewrite Hv1. exact Hne.
      * rewrite Hu1'. cbn. destruct Hs1 as (_ & _ & _ & _ & -> & _).
        rewrite Hv2, Hv1. exact Hne.
Qed.

(** * Reloading the immediate work queue *)

(** What [TakeImmediateIncomingQueueTasks] writes. *)
Lemma TakeImmediateIncomingQueueTasks_effect (w : World)
      (Hreg : registered (this w)) :
  let m := main_thread_only (this w) in
  let incoming := immediate_incoming_queue (any_thread_ (this w)) in
  let activated :=
    match delayed_fence m with
    | Some fence_time => TaskQueueImpl.first_task_at_or_after fence_time incoming
    | None => None
    end in
  exists w',
    TaskQueueImpl.TakeImmediateIncomingQueueTasks w = Some (tt, w')
    /\ registered (this w')
    /\ immediate_incoming_queue (any_thread_ (this w'))
       = match immediate_work_queue m with Some iwq => tasks_ iwq | None => [] end
    /\ option_map tasks_ (immediate_work_queue (main_thread_only (this w')))
       = Some incoming
    /\ delayed_incoming_queue (main_thread_only (this w')) = delayed_incoming_queue m
    /\ option_map tasks_ (delayed_work_queue (main_thread_only (this w')))
       = option_map tasks_ (delayed_work_queue m)
    /\ same_settings (this w) (this w')
    /\ the_time_domain w' = the_time_domain w
    /\ sequence_manager_ w' = sequence_manager_ w
    /\ calls w' = calls w ++ [EvLock; EvUnlock]
    /\ cross_thread_state_ok (this w')
    /\ match activated with
       | Some t =>
           current_fence (main_thread_only (this w')) = enqueue_order t
           /\ delayed_fence (main_thread_only (this w')) = None
           /\ fences_in_sync (this w')
       | None =>
           current_fence (main_thread_only (this w')) = current_fence m
           /\ delayed_fence (main_thread_only (this w')) = delayed_fence m
       end.
Proof.
  cbv zeta.
  start_registered w Hreg.
  unfold TaskQueueImpl.TakeImmediateIncomingQueueTasks,
    TaskQueueImpl.UpdateCrossThreadQueueStateLocked_,
    TaskQueueImpl.UpdateCrossThreadQueueStateLocked, TaskQueueImpl.IsQueueEnabled.
  mfinish_hidden.
  all: unfold_frames; rewrite <- ?app_assoc; cbn; bool_rewrite.
  all: repeat match goal with
         | H : ?x = Some _ |- context [?x] => rewrite H
         | H : ?x = None |- context [?x] => rewrite H
         end.
  all: frame_solve.
Qed.

(** X11: reloading an empty immediate work queue moves every task of the
    immediate incoming queue onto it, in the order in which they were posted,
    and leaves the incoming queue empty; no task is lost.  The observer is
    told when the queue is enabled.  A post made while the work queue still
    holds the tasks asks for no reload and does not wake the main thread. *)
Theorem ReloadEmptyImmediateWorkQueue_moves_all (w : World) (iwq : WorkQueue)
        (Hreg : registered (this w))
        (Hiwq : immediate_work_queue (main_thread_only (this w)) = Some iwq)
        (Hempty : WorkQueue.Empty iwq = true) :
  let incoming := immediate_incoming_queue (any_thread_ (this w)) in
  exists w',
    TaskQueueImpl.ReloadEmptyImmediateWorkQueue w = Some (tt, w')
    /\ immediate_incoming_queue (any_thread_ (this w')) = []
    /\ option_map tasks_ (immediate_work_queue (main_thread_only (this w')))
       = Some incoming
    /\ TaskQueueImpl.GetNumberOfPendingTasks (this w')
       = TaskQueueImpl.GetNumberOfPendingTasks (this w)
    /\ new_calls w w'
       = [EvLock; EvUnlock]
         ++ (if is_bound (task_queue_observer (main_thread_only (this w)))
                && is_enabled (main_thread_only (this w))
             then [EvOnQueueNextWakeUpChanged 0%Z] else [])
    /\ (incoming <> [] ->
        forall posted current_thread,
          closure_is_null (callback posted) = false ->
          exists w'',
            TaskQueueImpl.PostImmediateTaskImpl posted current_thread w' = Some (tt, w'')
            /\ empty_queues_to_reload_handle_ (this w'')
               = empty_queues_to_reload_handle_ (this w')
            /\ ~ In EvScheduleWork (new_calls w' w'')).
Proof.
  cbv zeta.
  destruct (@TakeImmediateIncomingQueueTasks_effect w Hreg)
    as (w1 & E & Hreg1 & Hinc & Htasks & Hdiq & Hdwq & Hs & Htd & Hsm & Hcalls & Hx & _).
  rewrite Hiwq in Hinc.
  assert (Hnil : tasks_ iwq = [])
    by (unfold WorkQueue.Empty in Hempty; destruct (tasks_ iwq); [reflexivity|discriminate]).
  rewrite Hnil in Hinc.
  set (notify := is_bound (task_queue_observer (main_thread_only (this w)))
                 && is_enabled (main_thread_only (this w))).
  assert (Hnotify : is_bound (task_queue_observer (main_thread_only (this w1)))
                    && TaskQueueImpl.IsQueueEnabled (this w1) = notify).
  { unfold TaskQueueImpl.IsQueueEnabled, notify.
    destruct Hs as (-> & -> & _). reflexivity. }
  exists (if notify then add_calls [EvOnQueueNextWakeUpChanged 0%Z] w1 else w1).
  split.
  { cbv [TaskQueueImpl.ReloadEmptyImmediateWorkQueue bind get_queue ret call].
    rewrite E. cbv beta iota. rewrite Hnotify. destruct notify; reflexivity. }
  assert (Hthis : this (if notify then add_calls [EvOnQueueNextWakeUpChanged 0%Z] w1
                        else w1) = this w1) by (destruct notify; reflexivity).
  rewrite Hthis. split; [exact Hinc|]. split; [exact Htasks|]. split.
  { unfold TaskQueueImpl.GetNumberOfPendingTasks, WorkQueue.Size.
    rewrite Hdiq, Hinc, Hiwq, Hnil.
    destruct (immediate_work_queue (main_thread_only (this w1))) as [iwq1|];
      [|discriminate].
    cbn in Htasks. injection Htasks as ->.
    destruct (delayed_work_queue (main_thread_only (this w1))) as [dwq1|],
      (delayed_work_queue (main_thread_only (this w))) as [dwq|]; try discriminate;
      [|reflexivity].
    cbn in Hdwq. injection Hdwq as ->. cbn. f_equal. lia. }
  split.
  { unfold new_calls. destruct notify; cbn; rewrite Hcalls, <- ?app_assoc;
      apply skipn_calls. }
  intros Hne posted current_thread Hcallback.
  assert (Hflag : immediate_work_queue_empty (any_thread_ (this w1)) = false).
  { destruct Hx as (_ & iwq1 & Hi1 & ->). rewrite Hi1 in Htasks. cbn in Htasks.
    injection Htasks as Ht. unfold WorkQueue.Empty. rewrite Ht.
    destruct (immediate_incoming_queue (any_thread_ (this w))); [congruence|reflexivity]. }
  assert (Hreg2 : registered (this (if notify
                                    then add_calls [EvOnQueueNextWakeUpChanged 0%Z] w1
                                    else w1))) by (rewrite Hthis; exact Hreg1).
  destruct (@PostImmediateTaskImpl_effect _ posted current_thread Hcallback Hreg2)
    as (w'' & E' & t & Ht & _ & _ & _ & _ & _ & _ & _ & _ & Hsched & _).
  exists w''. split; [exact E'|].
  rewrite Hthis, Hflag, andb_false_r in Ht, Hsched. cbn in Hsched.
  split; [rewrite Ht; reflexivity|].
  unfold new_calls. rewrite Hsched. discriminate.
Qed.

Lemma first_task_at_or_after_split (fence_time : TimeTicks) (queue : list Task) (t : Task) :
  TaskQueueImpl.first_task_at_or_after fence_time queue = Some t ->
  exists before after,
    queue = before ++ t :: after
    /\ Forall (fun u => (queue_time u < fence_time)%Z) before
    /\ (fence_time <= queue_time t)%Z.
Proof.
  induction queue as [|x queue IH]; [discriminate|]. simpl.
  destruct (fence_time <=? queue_time x)%Z eqn:Hx.
  - intro H. injection H as <-. exists [], queue. repeat split; [constructor|lia].
  - intro H. destruct (IH H) as (before & after & -> & Hb & Ht).
    exists (x :: before), after. repeat split; [|exact Ht].
    constructor; [lia | exact Hb].
Qed.

Lemma first_task_at_or_after_none (fence_time : TimeTicks) (queue : list Task) :
  TaskQueueImpl.first_task_at_or_after fence_time queue = None ->
  Forall (fun u => (queue_time u < fence_time)%Z) queue.
Proof.
  induction queue as [|x queue IH]; [constructor|]. simpl.
  destruct (fence_time <=? queue_time x)%Z eqn:Hx; [discriminate|].
  intro H. constructor; [lia | auto].
Qed.

(** X12: when the immediate incoming queue is taken while a delayed fence is
    pending, the fence is put at the first task that was queued at or after
    the time of the fence: the tasks queued before that time can still run,
    that task and all later ones are blocked, and the delayed fence is used
    up.  When every task was queued before the time of the fence, the delayed
    fence stays pending. *)
Theorem TakeImmediateIncomingQueueTasks_activates_fence (w : World)
        (fence_time : TimeTicks)
        (Hreg : registered (this w))
        (Hfence : delayed_fence (main_thread_only (this w)) = Some fence_time)
        (Horder : in_enqueue_order (immediate_incoming_queue (any_thread_ (this w))))
        (Hset : Forall (fun t => enqueue_order_set t = true)
                       (immediate_incoming_queue (any_thread_ (this w)))) :
  let incoming := immediate_incoming_queue (any_thread_ (this w)) in
  exists w',
    TaskQueueImpl.TakeImmediateIncomingQueueTasks w = Some (tt, w')
    /\ ((exists before t after,
            incoming = before ++ t :: after
            /\ Forall (fun u => (queue_time u < fence_time)%Z) before
            /\ (fence_time <= queue_time t)%Z
            /\ current_fence (main_thread_only (this w')) = enqueue_order t
            /\ delayed_fence (main_thread_only (this w')) = None
            /\ fences_in_sync (this w')
            /\ (forall u, In u before ->
                          TaskQueueImpl.CouldTaskRun (this w') (enqueue_order u)
                          = is_enabled (main_thread_only (this w)))
            /\ (forall u, In u (t :: after) ->
                          TaskQueueImpl.CouldTaskRun (this w') (enqueue_order u) = false))
        \/ (Forall (fun u => (queue_time u < fence_time)%Z) incoming
            /\ current_fence (main_thread_only (this w'))
               = current_fence (main_thread_only (this w))
            /\ delayed_fence (main_thread_only (this w')) = Some fence_time)).
Proof.
  cbv zeta.
  destruct (@TakeImmediateIncomingQueueTasks_effect w Hreg)
    as (w' & E & _ & _ & _ & _ & _ & Hs & _ & _ & _ & _ & Hact).
  cbv zeta in Hact. rewrite Hfence in Hact.
  exists w'. split; [exact E|].
  destruct (TaskQueueImpl.first_task_at_or_after fence_time _) as [t|] eqn:Hfirst.
  - left. destruct Hact as (Hc & Hd & Hsync).
    destruct (first_task_at_or_after_split _ _ Hfirst)
      as (before & after & Hsplit & Hbefore & Ht).
    exists before, t, after. repeat split; auto; try apply Hsync.
    + intros u Hu. unfold TaskQueueImpl.CouldTaskRun, TaskQueueImpl.IsQueueEnabled.
      destruct Hs as (-> & _). rewrite Hc.
      destruct (is_enabled _); cbn; [|reflexivity].
      rewrite Hsplit in Horder, Hset.
      assert (Htset : EnqueueOrder.is_set (enqueue_order t) = true).
      { rewrite Forall_forall in Hset. apply (Hset t). apply in_or_app. right. now left. }
      rewrite Htset. cbn. apply N.ltb_lt.
      unfold in_enqueue_order in Horder.
      clear - Horder Hu. induction before as [|x before IH]; [contradiction|].
      cbn in Horder. apply StronglySorted_inv in Horder. destruct Horder as [Hs Hall].
      destruct Hu as [<-|Hu]; [|auto].
      rewrite Forall_forall in Hall. apply Hall. apply in_or_app. right. now left.
    + intros u Hu. unfold TaskQueueImpl.CouldTaskRun, TaskQueueImpl.IsQueueEnabled.
      rewrite Hc.
      destruct (is_enabled _); cbn; [|reflexivity].
      rewrite Hsplit in Horder, Hset.
      assert (Htset : EnqueueOrder.is_set (enqueue_order t) = true).
      { rewrite Forall_forall in Hset. apply (Hset t). apply in_or_app. right. now left. }
      rewrite Htset. cbn. apply N.ltb_ge.
      destruct Hu as [<-|Hu]; [lia|].
      unfold in_enqueue_order in Horder.
      clear - Horder Hu. induction before as [|x before IH].
      * cbn in Horder. apply StronglySorted_inv in Horder. destruct Horder as [_ Hall].
        rewrite Forall_forall in Hall. specialize (Hall _ Hu). cbn in Hall. lia.
      * cbn in Horder. apply StronglySorted_inv in Horder. tauto.
  - right. destruct Hact as (Hc & Hd).
    split; [now apply first_task_at_or_after_none|]. split; [exact Hc | exact Hd].
Qed.

(** * Enqueue orders and the fence *)

Lemma orders_ok_blocked (w : World) :
  orders_ok w -> blocked_iff_none_below (this w).
Proof.
  intros (_ & _ & _ & _ & Hne) iwq dwq (Hi & Hd & Hiok & Hdok) Hset.
  pose proof (WorkQueue_BlockedByFence_iff Hiok Hset) as Bi.
  pose proof (WorkQueue_BlockedByFence_iff Hdok Hset) as Bd.
  unfold TaskQueueImpl.BlockedByFence. rewrite Hset, Hi, Hd. cbn [negb].
  destruct (WorkQueue.BlockedByFence iwq); cbn [negb].
  2:{ exists false. split; [reflexivity|]. split; [discriminate|].
      intros (H & _). apply Bi in H. discriminate. }
  destruct (WorkQueue.BlockedByFence dwq); cbn [negb].
  2:{ exists false. split; [reflexivity|]. split; [discriminate|].
      intros (_ & H & _). apply Bd in H. discriminate. }
  assert (Ti : none_below (current_fence (main_thread_only (this w))) (tasks_ iwq))
    by now apply Bi.
  assert (Td : none_below (current_fence (main_thread_only (this w))) (tasks_ dwq))
    by now apply Bd.
  unfold none_below, front_of in *.
  destruct (immediate_incoming_queue (any_thread_ (this w))) as [|t ts]; simpl.
  - exists true. split; [reflexivity|]. split; [|reflexivity].
    intros _. split; [exact Ti|]. split; [exact Td|]. intros ? [].
  - apply Forall_inv in Hne.
    eexists. split; [reflexivity|]. rewrite N.ltb_lt. split.
    + intro H. split; [exact Ti|]. split; [exact Td|]. intros t' [<- |[]]. lia.
    + intros (_ & _ & H). specialize (H t (or_introl eq_refl)). lia.
Qed.

Lemma orders_ok_append (w : World) (incoming : list Task) (t : Task)
      (fence next next' : EnqueueOrder.t) :
  in_enqueue_order incoming ->
  Forall (fun u => (EnqueueOrder.blocking_fence < enqueue_order u < next)%N) incoming ->
  (fence < next)%N -> (EnqueueOrder.blocking_fence < next)%N ->
  Forall (fun u => enqueue_order u <> fence) incoming ->
  (next <= enqueue_order t < next')%N ->
  in_enqueue_order (incoming ++ [t])
  /\ Forall (fun u => (EnqueueOrder.blocking_fence < enqueue_order u < next')%N)
            (incoming ++ [t])
  /\ (fence < next')%N /\ (EnqueueOrder.blocking_fence < next')%N
  /\ Forall (fun u => enqueue_order u <> fence) (incoming ++ [t]).
Proof.
  intros Hs Hb Hf Hn Hne Ht. repeat split; try lia.
  - unfold in_enqueue_order in *. induction Hs as [|x l Hs IH Hall]; cbn.
    + repeat constructor.
    + apply Forall_inv in Hb as Hx. apply Forall_inv_tail in Hb.
      apply Forall_inv_tail in Hne.
      constructor; [auto|]. apply Forall_app. split; [exact Hall|].
      constructor; [lia|constructor].
  - apply Forall_app. split.
    + eapply Forall_impl; [|exact Hb]. cbn. intros; lia.
    + constructor; [lia|constructor].
  - apply Forall_app. split; [exact Hne|]. constructor; [lia|constructor].
Qed.

Lemma orders_ok_frame (w w' : World) :
  immediate_incoming_queue (any_thread_ (this w'))
  = immediate_incoming_queue (any_thread_ (this w)) ->
  (next_order w <= next_order w')%N ->
  (current_fence (main_thread_only (this w')) = current_fence (main_thread_only (this w))
   \/ current_fence (main_thread_only (this w')) = EnqueueOrder.none
   \/ current_fence (main_thread_only (this w')) = EnqueueOrder.blocking_fence
   \/ (next_order w <= current_fence (main_thread_only (this w')) < next_order w')%N) ->
  orders_ok w -> orders_ok w'.
Proof.
  intros Hinc Hnext Hfence (Hs & Hb & Hf & Hn & Hne).
  unfold orders_ok. rewrite Hinc.
  assert (Hb' : Forall (fun t => (EnqueueOrder.blocking_fence < enqueue_order t
                                  < next_order w')%N)
                       (immediate_incoming_queue (any_thread_ (this w)))).
  { eapply Forall_impl; [|exact Hb]. cbn. intros; lia. }
  unfold EnqueueOrder.blocking_fence, EnqueueOrder.none in *.
  split; [exact Hs|]. split; [exact Hb'|].
  split; [destruct Hfence as [->|[->|[->|H]]]; lia|]. split; [lia|].
  apply Forall_forall. intros t Ht. rewrite Forall_forall in Hb, Hne.
  specialize (Hb t Ht). specialize (Hne t Ht).
  destruct Hfence as [->|[->|[->|H]]]; lia.
Qed.

(** * A delayed task posted from another thread *)

Lemma Forall2_In_r (A B : Type) (R : A -> B -> Prop) (l1 : list A) (l2 : list B) (y : B) :
  Forall2 R l1 l2 -> In y l2 -> exists x, In x l1 /\ R x y.
Proof.
  induction 1 as [|a b l1 l2 Hab _ IH]; [contradiction|].
  intros [<-|Hin].
  - exists a. split; [now left | exact Hab].
  - destruct (IH Hin) as (x & Hx & HR). exists x. split; [now right | exact HR].
Qed.

(** What the helper task does when it runs on the main thread. *)
Lemma ScheduleDelayedWorkTask_effect (w : World) (pending : Task)
      (Hreg : registered (this w)) (Hheap : is_heap (queue_of w)) :
  let now := TimeDomain.Now (the_time_domain w) in
  let pushed (t : Task) (w0 : World) :=
    this w0
    = set_main (set_delayed_incoming_queue
                  (DelayedIncomingQueue.push
                     t (delayed_incoming_queue (main_thread_only (this w))))
                  (main_thread_only (this w)))
               (this w)
    /\ the_time_domain w0 = the_time_domain w
    /\ sequence_manager_ w0 = sequence_manager_ w in
  exists w',
    TaskQueueImpl.ScheduleDelayedWorkTask pending w = Some (tt, w')
    /\ if (delayed_run_time pending <=? now)%Z
       then exists w0 w1,
           pushed (set_delayed_run_time now pending) w0
           /\ ready_tasks_moved now w0 w1
           /\ steady w0 w1
           /\ wake_up_rescheduled now w1 w'
       else exists w0, pushed pending w0 /\ wake_up_rescheduled now w0 w'.
Proof.
  cbv zeta.
  cbv [TaskQueueImpl.ScheduleDelayedWorkTask bind main get_queue ret time_domain_Now
       deref_ptr].
  cbv beta iota.
  pose proof Hreg as (Htd & _). rewrite Htd. cbv beta iota.
  destruct (delayed_run_time pending <=? TimeDomain.Now (the_time_domain w))%Z.
  - set (w0 := set_this
                 (set_main (set_delayed_incoming_queue
                              (DelayedIncomingQueue.push
                                 (set_delayed_run_time (TimeDomain.Now (the_time_domain w))
                                                       pending)
                                 (delayed_incoming_queue (main_thread_only (this w))))
                              (main_thread_only (this w)))
                           (this w)) w).
    assert (Hreg0 : registered (this w0)).
    { destruct Hreg as (A & B & C & D & F). unfold registered. cbn. auto. }
    assert (Hheap0 : is_heap (queue_of w0)).
    { unfold queue_of. cbn. apply push_heap_is_heap. exact Hheap. }
    destruct (@MoveReadyDelayedTasksToWorkQueue_effect
                w0 (TimeDomain.Now (the_time_domain w)) Hreg0 Hheap0)
      as (w1 & w' & E & Hmoved & Hst & Hre).
    exists w'. split.
    + cbv [TaskQueueImpl.push_delayed_incoming_queue update_main bind get_queue put_queue].
      cbv beta iota. exact E.
    + exists w0, w1. split; [repeat split; reflexivity|].
      split; [exact Hmoved|]. split; [exact Hst | exact Hre].
  - set (w0 := set_this
                 (set_main (set_delayed_incoming_queue
                              (DelayedIncomingQueue.push
                                 pending
                                 (delayed_incoming_queue (main_thread_only (this w))))
                              (main_thread_only (this w)))
                           (this w)) w).
    assert (Hreg0 : registered (this w0)).
    { destruct Hreg as (A & B & C & D & F). unfold registered. cbn. auto. }
    destruct (@UpdateDelayedWakeUp_effect (TimeDomain.Now (the_time_domain w)) w0 Hreg0)
      as (w' & E & Hre).
    exists w'. split.
    + cbv [TaskQueueImpl.PushOntoDelayedIncomingQueueFromMainThread
             TaskQueueImpl.push_delayed_incoming_queue update_main bind get_queue
             put_queue ret].
      cbv beta iota. exact E.
    + exists w0. split; [repeat split; reflexivity | exact Hre].
Qed.

(** X13: a delayed task posted from another thread first travels as a helper
    task on the immediate incoming queue.  When the helper runs on the main
    thread, the delayed task is put on the delayed incoming queue with the
    run time it was given at the post, as a post from the main thread would
    have done; when that run time has already passed it is due at once and
    goes onto the delayed work queue with a fresh enqueue order. *)
Theorem cross_thread_delayed_post_lands (w : World) (posted : PostedTask)
        (Hcallback : closure_is_null (callback posted) = false)
        (Hreg : registered (this w)) :
  exists w1 helper pending,
    TaskQueueImpl.PostDelayedTaskImpl posted kNotMainThread w = Some (tt, w1)
    /\ immediate_incoming_queue (any_thread_ (this w1))
       = immediate_incoming_queue (any_thread_ (this w)) ++ [helper]
    /\ delayed_incoming_queue (main_thread_only (this w1))
       = delayed_incoming_queue (main_thread_only (this w))
    /\ task helper = ScheduleDelayedWorkTask_closure pending
    /\ task pending = callback posted
    /\ delayed_run_time pending
       = TimeTicks_plus (TimeDomain.Now (the_time_domain w)) (delay posted)
    /\ forall w2,
         registered (this w2) -> is_heap (queue_of w2) ->
         let now2 := TimeDomain.Now (the_time_domain w2) in
         exists w3,
           TaskQueueImpl.ScheduleDelayedWorkTask pending w2 = Some (tt, w3)
           /\ ((now2 < delayed_run_time pending)%Z ->
               delayed_incoming_queue (main_thread_only (this w3))
               = DelayedIncomingQueue.push
                   pending (delayed_incoming_queue (main_thread_only (this w2)))
               /\ delayed_work_queue_tasks w3 = delayed_work_queue_tasks w2)
           /\ ((delayed_run_time pending <= now2)%Z ->
               IsCancelled (callback posted) = false ->
               exists moved m,
                 delayed_work_queue_tasks w3 = delayed_work_queue_tasks w2 ++ moved
                 /\ In m moved
                 /\ task m = callback posted
                 /\ delayed_run_time m = now2
                 /\ (next_order w2 <= enqueue_order m < next_order w3)%N).
Proof.
  destruct (@PostDelayedTaskImpl_cross_effect w posted Hcallback Hreg)
    as (w1 & E & pending & helper & Hthis & Hhelper & _ & Hpending & Hrun & _).
  exists w1, helper, pending. split; [exact E|].
  split; [rewrite Hthis; reflexivity|]. split; [rewrite Hthis; reflexivity|].
  split; [exact Hhelper|]. split; [exact Hpending|]. split; [exact Hrun|].
  intros w2 Hreg2 Hheap2 now2.
  destruct (@ScheduleDelayedWorkTask_effect w2 pending Hreg2 Hheap2) as (w3 & E3 & Hif).
  cbv zeta in Hif. fold now2 in Hif.
  exists w3. split; [exact E3|].
  destruct (delayed_run_time pending <=? now2)%Z eqn:Hcmp.
  - apply Z.leb_le in Hcmp. split; [intro; lia|]. intros _ Hlive.
    destruct Hif as (w0 & w1' & (Hw0 & _ & Hsm0) & Hmoved & _ & Hre).
    destruct Hre as (s & _ & Hw3 & Hsm3 & _).
    destruct Hmoved as (_ & _ & _ & moved & Hdwq & Hfrom & Hbounds & _).
    set (p := set_delayed_run_time now2 pending) in *.
    assert (Hin : In p (filter (ready now2)
                          (queue_ (delayed_incoming_queue (main_thread_only (this w0)))))).
    { apply filter_In. split.
      - rewrite Hw0. cbn. unfold PQueue.push.
        apply (Permutation_in _ (Permutation_sym (push_heap_perm p _))). now left.
      - unfold ready, dropped_at_top, due, p. cbn. rewrite Hpending, Hcallback, Hlive.
        cbn. apply Z.leb_le. lia. }
    destruct (Forall2_In_r _ Hfrom Hin) as (m & Hm & [order Hfromp]).
    exists moved, m.
    unfold delayed_work_queue_tasks, next_order in *.
    rewrite Hw3, Hsm3. cbn. rewrite Hdwq, Hw0. cbn.
    split; [reflexivity|]. split; [exact Hm|].
    rewrite Forall_forall in Hbounds. specialize (Hbounds m Hm).
    rewrite Hsm0 in Hbounds.
    subst m. cbn in *. repeat split; auto; lia.
  - apply Z.leb_gt in Hcmp. split; [|intro; lia]. intros _.
    destruct Hif as (w0 & (Hw0 & _) & Hre).
    destruct Hre as (s & _ & Hw3 & _).
    unfold delayed_work_queue_tasks. rewrite Hw3, Hw0. cbn. auto.
Qed.

(** * What the observers of the queue count *)

Lemma HasPendingImmediateWork_same (q q' : TaskQueueImpl) :
  same_tasks q q' ->
  TaskQueueImpl.HasPendingImmediateWork q' = TaskQueueImpl.HasPendingImmediateWork q.
Proof.
  intros (_ & Hi & Hiw & Hdw).
  unfold TaskQueueImpl.HasPendingImmediateWork, WorkQueue.Empty. rewrite Hi.
  destruct (delayed_work_queue (main_thread_only q')),
    (delayed_work_queue (main_thread_only q)); try discriminate; [|reflexivity].
  cbn in Hdw. injection Hdw as ->.
  destruct (immediate_work_queue (main_thread_only q')),
    (immediate_work_queue (main_thread_only q)); try discriminate.
  - cbn in Hiw. injection Hiw as ->. reflexivity.
  - reflexivity.
Qed.

Lemma pending_has_task_to_run (q : TaskQueueImpl) (td : TimeDomain) :
  time_domain (main_thread_only q) = bound ->
  TaskQueueImpl.HasPendingImmediateWork q = Some true ->
  TaskQueueImpl.HasTaskToRunImmediately q td = Some true.
Proof.
  intro Htd.
  unfold TaskQueueImpl.HasPendingImmediateWork, TaskQueueImpl.HasTaskToRunImmediately.
  rewrite Htd.
  destruct (delayed_work_queue _) as [dwq|]; [|discriminate].
  destruct (WorkQueue.Empty dwq); cbn; [|reflexivity].
  destruct (immediate_work_queue _) as [iwq|]; [|discriminate].
  destruct (WorkQueue.Empty iwq); cbn; [|reflexivity].
  destruct (immediate_incoming_queue _); [discriminate|]. intros _.
  destruct (DelayedIncomingQueue.top _); [|reflexivity].
  destruct (_ <=? _)%Z; reflexivity.
Qed.

(** X14: [HasTaskToRunImmediately] does not look at the fence: with a task in a
    work queue or in the immediate incoming queue it answers true also after
    [InsertFence(kBeginningOfTime)], when no task with an enqueue order of
    the sequence manager could run. *)
Theorem HasTaskToRunImmediately_ignores_fence (w : World)
        (Hreg : registered (this w))
        (Hpending : TaskQueueImpl.HasPendingImmediateWork (this w) = Some true) :
  exists w',
    TaskQueueImpl.InsertFence kBeginningOfTime w = Some (tt, w')
    /\ TaskQueueImpl.HasTaskToRunImmediately (this w') (the_time_domain w') = Some true
    /\ current_fence (main_thread_only (this w')) = EnqueueOrder.blocking_fence
    /\ forall order,
         (EnqueueOrder.blocking_fence <= order)%N ->
         TaskQueueImpl.CouldTaskRun (this w') order = false.
Proof.
  destruct (@InsertFence_effect w kBeginningOfTime Hreg)
    as (w' & E & Hreg' & Hc & _ & _ & _ & _ & Ht & _).
  cbv zeta in Hc.
  exists w'. split; [exact E|]. split; [|split; [exact Hc|]].
  - apply pending_has_task_to_run; [apply Hreg'|].
    rewrite (HasPendingImmediateWork_same Ht). exact Hpending.
  - intros order Hle. unfold TaskQueueImpl.CouldTaskRun. rewrite Hc. cbn.
    destruct (TaskQueueImpl.IsQueueEnabled _); cbn; [|reflexivity].
    apply N.ltb_ge. exact Hle.
Qed.

(** * Unregistering *)

Lemma InsertFence_released (w : World) (pos : InsertFencePosition) :
  immediate_work_queue (main_thread_only (this w)) = None ->
  TaskQueueImpl.InsertFence pos w = None.
Proof.
  intro H. destruct w as [sm td [[] a ? ? ? ?] cs os]. cbn in H. subst.
  unfold TaskQueueImpl.InsertFence. destruct pos; reflexivity.
Qed.

Lemma RemoveFence_released (w : World) :
  immediate_work_queue (main_thread_only (this w)) = None ->
  TaskQueueImpl.RemoveFence w = None.
Proof.
  intro H. destruct w as [sm td [[] a ? ? ? ?] cs os]. cbn in H. subst.
  reflexivity.
Qed.

(** X15: [UnregisterTaskQueue] takes the wake-up of the queue out of the time
    domain, leaving those of the other queues and keeping the counter of high
    resolution wake-ups right, and releases the queues with all their tasks.
    Afterwards the queue is unregistered for good; what reads the released
    work queues, such as [IsEmpty], [GetNumberOfPendingTasks],
    [HasTaskToRunImmediately] or the fence operations, must not be called any
    more. *)
Theorem UnregisterTaskQueue_releases (w : World)
        (Htd : time_domain (main_thread_only (this w)) = bound)
        (Hunique : NoDup (map queue (delayed_wake_up_queue_ (the_time_domain w)))) :
  exists w',
    TaskQueueImpl.UnregisterTaskQueue w = Some (tt, w')
    /\ TaskQueueImpl.IsUnregistered (this w') = true
    /\ wake_up_of (this_queue (this w)) (delayed_wake_up_queue_ (the_time_domain w'))
       = None
    /\ (forall q, q <> this_queue (this w) ->
                  wake_up_of q (delayed_wake_up_queue_ (the_time_domain w'))
                  = wake_up_of q (delayed_wake_up_queue_ (the_time_domain w)))
    /\ (wake_up_count_ok (the_time_domain w) -> wake_up_count_ok (the_time_domain w'))
    /\ immediate_incoming_queue (any_thread_ (this w')) = []
    /\ delayed_incoming_queue (main_thread_only (this w'))
       = DelayedIncomingQueue.empty_queue
    /\ immediate_work_queue (main_thread_only (this w')) = None
    /\ delayed_work_queue (main_thread_only (this w')) = None
    /\ TaskQueueImpl.IsEmpty (this w') = None
    /\ TaskQueueImpl.GetNumberOfPendingTasks (this w') = None
    /\ TaskQueueImpl.HasTaskToRunImmediately (this w') (the_time_domain w') = None
    /\ (forall pos, TaskQueueImpl.InsertFence pos w' = None)
    /\ TaskQueueImpl.RemoveFence w' = None.
Proof.
  destruct (@SetNextWakeUpForQueue_entries
              (this_queue (this w)) None
              (TimeDomain.CreateLazyNow (the_time_domain w)) (the_time_domain w) Hunique)
    as (_ & Hmine & Hothers).
  pose proof (@SetNextWakeUpForQueue_count_ok
                (this_queue (this w)) None
                (TimeDomain.CreateLazyNow (the_time_domain w)) (the_time_domain w))
    as Hcount.
  destruct w as [sm td [[tdp dwq iwq diq cf df en obs h sw u un] a oc rh dfa qid] cs os].
  cbn in Htd. subst tdp. cbn in Hmine, Hothers, Hcount.
  unfold TaskQueueImpl.UnregisterTaskQueue, TimeDomain.UnregisterQueue.
  lazymatch goal with
  | |- exists w', ?lhs = Some (tt, w') /\ @?P w' =>
      pose (Q := P); assert (HQ : Q = P) by reflexivity;
      change (exists w', lhs = Some (tt, w') /\ Q w'); clearbody Q
  end.
  mrun.
  destruct (TimeDomain.SetNextWakeUpForQueue qid None (TimeDomain.CreateLazyNow td) td)
    as [td' es] eqn:Hset.
  eexists. split; [reflexivity|]. subst Q. cbv beta.
  match goal with
  | |- context [TaskQueueImpl.RemoveFence ?W = None] =>
      assert (Hnull : immediate_work_queue (main_thread_only (this W)) = None)
        by reflexivity;
      pose proof (fun pos => @InsertFence_released W pos Hnull) as HI;
      pose proof (@RemoveFence_released W Hnull) as HR
  end.
  split; [reflexivity|]. split; [exact Hmine|]. split; [exact Hothers|].
  split; [exact Hcount|].
  do 7 (split; [reflexivity|]).
  split; [exact HI | exact HR].
Qed.

(** * The three timers *)

Lemma Disable_other (ds : list bool) (id d : nat) :
  d <> id -> nth_error (TimerBase.Disable id ds) d = nth_error ds d.
Proof.
  revert id d. induction ds as [|b ds IH]; intros [|id] [|d] H; simpl; auto; try lia.
Qed.

Lemma Disable_true (ds : list bool) (id d : nat) :
  nth_error (TimerBase.Disable id ds) d = Some true ->
  d <> id /\ nth_error ds d = Some true.
Proof.
  intro H. destruct (Nat.eq_dec d id) as [->|Hne].
  - destruct (Nat.lt_ge_cases id (length ds)) as [Hlt|Hge].
    + rewrite Disable_nth in H by exact Hlt. discriminate.
    + assert (Hnone : nth_error (TimerBase.Disable id ds) id = None)
        by (apply nth_error_None; rewrite Disable_length; exact Hge).
      rewrite Hnone in H. discriminate.
  - rewrite Disable_other in H by exact Hne. auto.
Qed.

Lemma detectors_ok_bound (t : TimerBase) (d : nat) :
  detectors_ok t -> task_destruction_detector_ t = Some d -> d < length (detectors t).
Proof.
  intros Hok Hd. apply Hok in Hd. apply nth_error_Some. rewrite Hd. discriminate.
Qed.

Lemma ScheduleNewTask_detectors_ok (delay : TimeDelta) (t : TimerBase) :
  detectors_ok t -> task_destruction_detector_ t = None ->
  detectors_ok (TimerBase.ScheduleNewTask delay t).
Proof.
  intros Hok Hnone d. unfold TimerBase.ScheduleNewTask. cbn.
  destruct (Nat.lt_trichotomy d (length (detectors t))) as [Hlt|[->|Hgt]].
  - rewrite nth_error_app1 by exact Hlt. split.
    + intro H. apply Hok in H. congruence.
    + intro H. injection H as H. lia.
  - rewrite nth_error_app2 by lia. rewrite Nat.sub_diag. cbn. tauto.
  - rewrite nth_error_app2 by lia.
    destruct (d - length (detectors t)) as [|k] eqn:Hk; [lia|].
    cbn. destruct k; cbn; (split; intro H; [discriminate|]); injection H as H; lia.
Qed.

Lemma release_detector_ok (d : nat) (t : TimerBase) :
  detectors_ok t -> task_destruction_detector_ t = Some d ->
  detectors_ok (Timer.release_detector d t)
  /\ task_destruction_detector_ (Timer.release_detector d t) = None.
Proof.
  intros Hok Hd. split; [|reflexivity].
  intro d'. cbn. split; [|discriminate].
  intro H. apply Disable_true in H as [Hne H]. apply Hok in H. congruence.
Qed.

Lemma AbandonScheduledTask_detectors_ok (t : TimerBase) :
  detectors_ok t ->
  detectors_ok (TimerBase.AbandonScheduledTask t)
  /\ task_destruction_detector_ (TimerBase.AbandonScheduledTask t) = None.
Proof.
  intro Hok. unfold TimerBase.AbandonScheduledTask.
  destruct (task_destruction_detector_ t) as [d|] eqn:Hd.
  - split; [|reflexivity]. intro d'. cbn. split; [|discriminate].
    intro H. apply Disable_true in H as [Hne H]. apply Hok in H. congruence.
  - split; [exact Hok | exact Hd].
Qed.

Lemma detectors_ok_frame (t t' : TimerBase) :
  detectors t' = detectors t ->
  task_destruction_detector_ t' = task_destruction_detector_ t ->
  detectors_ok t -> detectors_ok t'.
Proof.
  intros Hd Hp Hok d. rewrite Hd, Hp. apply Hok.
Qed.

Lemma Reset_detectors_ok (t : TimerBase) :
  detectors_ok t -> detectors_ok (TimerBase.Reset t).
Proof.
  intro Hok. unfold TimerBase.Reset.
  destruct (task_destruction_detector_ t) as [d|] eqn:Hd.
  - match goal with
    | |- context [if ?b then TimerBase.set_is_running true ?t1 else _] =>
        assert (Hok1 : detectors_ok t1)
          by (destruct (0 <? delay_ t)%Z;
              apply (@detectors_ok_frame t); auto);
        destruct b
    end.
    + revert Hok1. apply detectors_ok_frame; reflexivity.
    + destruct (AbandonScheduledTask_detectors_ok Hok1) as [Hok2 Hnone].
      apply ScheduleNewTask_detectors_ok; assumption.
  - apply ScheduleNewTask_detectors_ok; assumption.
Qed.

Lemma Stop_base (t : Timer) :
  timer_base (Timer.Stop t) = TimerBase.set_is_running false (timer_base t).
Proof.
  unfold Timer.Stop, Timer.OnStop. destruct t as [[] b u r]; reflexivity.
Qed.

Lemma RunUserTask_detectors_ok (t t' : Timer) :
  detectors_ok (timer_base t) -> task_destruction_detector_ (timer_base t) = None ->
  Timer.RunUserTask t = Some t' -> detectors_ok (timer_base t').
Proof.
  intros Hok Hnone Hrun. unfold Timer.RunUserTask, Timer.Run in Hrun.
  destruct t as [k b [c|] r]; cbn in *.
  - destruct k; injection Hrun as <-; cbn.
    + revert Hok. apply detectors_ok_frame; reflexivity.
    + apply ScheduleNewTask_detectors_ok; assumption.
    + revert Hok. apply detectors_ok_frame; reflexivity.
  - destruct k; discriminate.
Qed.

Lemma timer_step_detectors_ok (c : TimerCall) (t t' : Timer) :
  detectors_ok (timer_base t) -> timer_step c t = Some t' ->
  detectors_ok (timer_base t').
Proof.
  intros Hok Hstep. destruct c as [delay task| | | |d|now]; cbn in Hstep.
  - injection Hstep as <-. cbn. apply Reset_detectors_ok.
    revert Hok. apply detectors_ok_frame; reflexivity.
  - injection Hstep as <-. cbn. apply Reset_detectors_ok. exact Hok.
  - injection Hstep as <-. rewrite Stop_base.
    revert Hok. apply detectors_ok_frame; reflexivity.
  - destruct (task_destruction_detector_ (timer_base t)) as [d|] eqn:Hd.
    + destruct (release_detector_ok Hok Hd) as [Hok1 Hnone].
      unfold Timer.OnScheduledTaskInvoked in Hstep.
      cbn [Timer.update_base timer_base] in Hstep.
      destruct (negb _).
      * injection Hstep as <-. exact Hok1.
      * destruct (_ && _).
        -- injection Hstep as <-. cbn [Timer.update_base timer_base].
           apply ScheduleNewTask_detectors_ok; assumption.
        -- revert Hstep. apply RunUserTask_detectors_ok; assumption.
    + injection Hstep as <-. exact Hok.
  - injection Hstep as <-. unfold Timer.destroy_detector.
    destruct (nth_error _ d) as [[|]|]; try exact Hok.
    unfold Timer.AbandonAndStop. rewrite Stop_base.
    destruct (AbandonScheduledTask_detectors_ok Hok) as [Hok1 _].
    revert Hok1. apply detectors_ok_frame; reflexivity.
  - injection Hstep as <-. revert Hok. apply detectors_ok_frame; reflexivity.
Qed.

(** X16: the timer and its detectors stay in step.  In every state reached
    from a timer in which the only detector still pointing to the timer is
    the one of the pending task, by calls of [Start], [Reset] and [Stop], by
    the clock moving and by the scheduled task being invoked or any task
    being destroyed, that is so again; the timer as constructed is such a
    state. *)
Theorem detectors_ok_invariant (cs : list TimerCall) (t t' : Timer)
        (Hok : detectors_ok (timer_base t))
        (Hrun : timer_run cs t = Some t') :
  detectors_ok (timer_base t')
  /\ forall kind now, detectors_ok (timer_base (new_timer kind now)).
Proof.
  split.
  - revert t Hok Hrun. induction cs as [|c cs IH]; intros t Hok Hrun; cbn in Hrun.
    + injection Hrun as <-. exact Hok.
    + destruct (timer_step c t) as [t1|] eqn:Hstep; [|discriminate].
      apply (IH t1); [|exact Hrun].
      revert Hstep. apply timer_step_detectors_ok. exact Hok.
  - intros kind now d. cbn. split; [|discriminate].
    destruct d; discriminate.
Qed.

(** X17: a scheduled task that is destroyed without having run stops the
    timer: the timer is no longer running, no task is pending, the weak
    pointers are invalidated and a [OneShotTimer] has released its user task;
    nothing is run and nothing is posted.  The destruction of any other task,
    one that was abandoned or has run, changes nothing. *)
Theorem destroyed_task_stops_timer (d : nat) (t : Timer)
        (Hok : detectors_ok (timer_base t)) :
  (task_destruction_detector_ (timer_base t) = Some d ->
   let t' := Timer.destroy_detector d t in
   Timer.IsRunning t' = false
   /\ task_destruction_detector_ (timer_base t') = None
   /\ weak_ptr_factory_ (timer_base t') = S (weak_ptr_factory_ (timer_base t))
   /\ nth_error (detectors (timer_base t')) d = Some false
   /\ user_task_ t'
      = match timer_kind t with OneShotTimer => None | _ => user_task_ t end
   /\ user_task_runs t' = user_task_runs t
   /\ posted_tasks (timer_base t') = posted_tasks (timer_base t))
  /\ (task_destruction_detector_ (timer_base t) <> Some d ->
      Timer.destroy_detector d t = t).
Proof.
  split.
  - intros Hd t'. subst t'. pose proof (detectors_ok_bound Hok Hd) as Hlt.
    apply Hok in Hd as Hnth. unfold Timer.destroy_detector. rewrite Hnth.
    unfold Timer.AbandonAndStop, Timer.IsRunning. rewrite Stop_base.
    destruct t as [k b u r]. cbn in Hd. cbn [Timer.update_base timer_base].
    unfold TimerBase.AbandonScheduledTask. rewrite Hd. cbn.
    repeat split; try (destruct k; reflexivity).
    apply Disable_nth. exact Hlt.
  - intro Hne. unfold Timer.destroy_detector.
    destruct (nth_error _ d) as [[|]|] eqn:Hnth; try reflexivity.
    apply Hok in Hnth. contradiction.
Qed.

(** The delay a task is posted with: [PostTask] for a delay that is not
    positive. *)
Lemma ScheduleNewTask_posts (delay : TimeDelta) (t : TimerBase) :
  posted_tasks (TimerBase.ScheduleNewTask delay t)
  = posted_tasks t
      ++ [mkScheduledTask (weak_ptr_factory_ t) (length (detectors t))
            (if (0 <? delay)%Z then delay else 0%Z)].
Proof. reflexivity. Qed.

(** X18: a [OneShotTimer] or [RetainingOneShotTimer] with no pending task that
    is started posts one task, with the delay, and when this task is invoked,
    at whatever time, the user task is run once: the timer is stopped, with
    no pending task, already when the user task runs, nothing more is
    posted, and the [OneShotTimer] has released the user task while the
    [RetainingOneShotTimer] keeps it. *)
Theorem one_shot_timers_run_once (t : Timer) (delay : TimeDelta) (c : nat)
        (now : TimeTicks)
        (Hkind : timer_kind t <> RepeatingTimer)
        (Hidle : task_destruction_detector_ (timer_base t) = None) :
  exists t',
    timer_run [CallStart delay c; CallTick now; CallInvokeScheduledTask] t = Some t'
    /\ user_task_runs t' = user_task_runs t ++ [mkUserTaskRun c (timer_base t')]
    /\ Timer.IsRunning t' = false
    /\ task_destruction_detector_ (timer_base t') = None
    /\ posted_tasks (timer_base t')
       = posted_tasks (timer_base t)
           ++ [mkScheduledTask (weak_ptr_factory_ (timer_base t))
                 (length (detectors (timer_base t)))
                 (if (0 <? delay)%Z then delay else 0%Z)]
    /\ user_task_ t'
       = match timer_kind t with OneShotTimer => None | _ => Some c end.
Proof.
  destruct t as [k [p dl s ds r g dets posts clk] u runs].
  cbn in Hkind, Hidle. subst p.
  cbn. unfold Timer.OnScheduledTaskInvoked. cbn.
  rewrite Z.ltb_irrefl. cbn.
  destruct k; [| contradiction |]; cbn; eexists; repeat split.
Qed.

(** X19: a [RetainingOneShotTimer] that has fired runs the same user task
    again after [Reset], while a [OneShotTimer] has released it: its [Reset]
    posts a task as well, but when that is invoked there is no user task to
    run and the run fails. *)
Theorem Reset_after_firing (t : Timer) (delay : TimeDelta) (c : nat)
        (now now' : TimeTicks)
        (Hkind : timer_kind t <> RepeatingTimer)
        (Hidle : task_destruction_detector_ (timer_base t) = None) :
  match timer_kind t with
  | OneShotTimer =>
      timer_run [CallStart delay c; CallTick now; CallInvokeScheduledTask;
                 CallTimerReset; CallTick now'; CallInvokeScheduledTask] t = None
  | _ =>
      exists t',
        timer_run [CallStart delay c; CallTick now; CallInvokeScheduledTask;
                   CallTimerReset; CallTick now'; CallInvokeScheduledTask] t = Some t'
        /\ map run_task (user_task_runs t') = map run_task (user_task_runs t) ++ [c; c]
        /\ Timer.IsRunning t' = false
        /\ length (posted_tasks (timer_base t')) = 2 + length (posted_tasks (timer_base t))
  end.
Proof.
  destruct t as [k [p dl s ds r g dets posts clk] u runs].
  cbn in Hkind, Hidle. subst p.
  cbn. unfold Timer.OnScheduledTaskInvoked. cbn.
  rewrite Z.ltb_irrefl. cbn.
  destruct k; [| contradiction |]; cbn;
    unfold Timer.OnScheduledTaskInvoked; cbn; rewrite Z.ltb_irrefl; cbn.
  - reflexivity.
  - eexists. split; [reflexivity|]. cbn.
    rewrite !map_app, !length_app, <- !app_assoc. cbn. repeat split. lia.
Qed.

Lemma RepeatingTimer_fires (t : Timer) (c : nat) (now : TimeTicks) :
  timer_kind t = RepeatingTimer ->
  user_task_ t = Some c ->
  Timer.IsRunning t = true ->
  task_destruction_detector_ (timer_base t) <> None ->
  scheduled_run_time_ (timer_base t) = desired_run_time_ (timer_base t) ->
  exists t',
    timer_run (fire now) t = Some t'
    /\ timer_kind t' = RepeatingTimer
    /\ user_task_ t' = Some c
    /\ Timer.IsRunning t' = true
    /\ task_destruction_detector_ (timer_base t') <> None
    /\ scheduled_run_time_ (timer_base t') = desired_run_time_ (timer_base t')
    /\ delay_ (timer_base t') = delay_ (timer_base t)
    /\ user_task_runs t' = user_task_runs t ++ [mkUserTaskRun c (timer_base t')]
    /\ posted_tasks (timer_base t')
       = posted_tasks (timer_base t)
           ++ [mkScheduledTask (weak_ptr_factory_ (timer_base t))
                 (length (detectors (timer_base t)))
                 (if (0 <? delay_ (timer_base t))%Z then delay_ (timer_base t) else 0%Z)]
    /\ scheduled_run_time_ (timer_base t')
       = (if (0 <? delay_ (timer_base t))%Z
          then TimeTicks_plus now (delay_ (timer_base t)) else 0%Z).
Proof.
  destruct t as [k [[d|] dl s ds r g dets posts clk] u runs];
    unfold Timer.IsRunning; cbn; intros -> -> -> Hp <-; [|contradiction].
  unfold Timer.OnScheduledTaskInvoked. cbn. rewrite Z.ltb_irrefl. cbn.
  rewrite ?Disable_length.
  eexists. split; [reflexivity|]. cbn. rewrite ?Disable_length.
  repeat split. discriminate.
Qed.

(** X20: a [RepeatingTimer] with no pending task that is started with a
    positive delay runs the user task once each time its scheduled task is
    invoked, and stays running: after [n] firings the user task was run [n]
    times and [n + 1] tasks were posted, each with the delay.  It posts the
    next task before it runs the user task: each run finds the timer running
    with a task pending. *)
Theorem RepeatingTimer_fires_repeatedly (t : Timer) (delay : TimeDelta) (c : nat)
        (clock : list TimeTicks)
        (Hkind : timer_kind t = RepeatingTimer)
        (Hidle : task_destruction_detector_ (timer_base t) = None)
        (Hdelay : (0 < delay)%Z) :
  exists t',
    timer_run (CallStart delay c :: concat (map fire clock)) t = Some t'
    /\ Timer.IsRunning t' = true
    /\ user_task_ t' = Some c
    /\ Timer.GetCurrentDelay t' = delay
    /\ (exists runs,
          user_task_runs t' = user_task_runs t ++ runs
          /\ map run_task runs = repeat c (length clock)
          /\ Forall (fun r => is_running_ (run_timer r) = true
                              /\ task_destruction_detector_ (run_timer r) <> None)
                    runs)
    /\ (exists posts,
          posted_tasks (timer_base t') = posted_tasks (timer_base t) ++ posts
          /\ length posts = S (length clock)
          /\ Forall (fun p => post_delay p = delay) posts).
Proof.
  cbn [timer_run timer_step].
  set (t1 := Timer.Start delay (Some c) t).
  assert (H1 : timer_kind t1 = RepeatingTimer
               /\ user_task_ t1 = Some c
               /\ Timer.IsRunning t1 = true
               /\ task_destruction_detector_ (timer_base t1) <> None
               /\ scheduled_run_time_ (timer_base t1) = desired_run_time_ (timer_base t1)
               /\ delay_ (timer_base t1) = delay
               /\ user_task_runs t1 = user_task_runs t ++ []
               /\ exists posts,
                    posted_tasks (timer_base t1) = posted_tasks (timer_base t) ++ posts
                    /\ length posts = 1
                    /\ Forall (fun p => post_delay p = delay) posts).
  { subst t1. destruct t as [k [p dl s ds r g dets posts clk] u runs].
    cbn in Hkind, Hidle. subst k p. unfold Timer.IsRunning. cbn.
    apply Z.ltb_lt in Hdelay. rewrite Hdelay.
    repeat split; try discriminate; try (rewrite app_nil_r; reflexivity).
    eexists. split; [reflexivity|]. split; [reflexivity|].
    constructor; [reflexivity | constructor]. }
  clearbody t1.
  assert (Hgen : forall n runs0,
             map run_task runs0 = repeat c n ->
             Forall (fun r => is_running_ (run_timer r) = true
                              /\ task_destruction_detector_ (run_timer r) <> None) runs0 ->
             user_task_runs t1 = user_task_runs t ++ runs0 ->
             (exists posts,
                 posted_tasks (timer_base t1) = posted_tasks (timer_base t) ++ posts
                 /\ length posts = S n
                 /\ Forall (fun p => post_delay p = delay) posts) ->
             exists t',
               timer_run (concat (map fire clock)) t1 = Some t'
               /\ Timer.IsRunning t' = true
               /\ user_task_ t' = Some c
               /\ Timer.GetCurrentDelay t' = delay
               /\ (exists runs,
                      user_task_runs t' = user_task_runs t ++ runs
                      /\ map run_task runs = repeat c (length clock + n)
                      /\ Forall (fun r => is_running_ (run_timer r) = true
                                          /\ task_destruction_detector_ (run_timer r) <> None)
                                runs)
               /\ (exists posts,
                      posted_tasks (timer_base t') = posted_tasks (timer_base t) ++ posts
                      /\ length posts = S (length clock + n)
                      /\ Forall (fun p => post_delay p = delay) posts)).
  { destruct H1 as (Hk & Hu & Hr & Hp & Hs & Hd & _ & _).
    revert t1 Hk Hu Hr Hp Hs Hd.
    induction clock as [|now clock IH];
      intros t1 Hk Hu Hr Hp Hs Hd n runs0 Hmap Hall Hruns (posts & Hposts & Hlen & Hdel).
    - exists t1. cbn. repeat split; auto.
      + exists runs0. auto.
      + exists posts. auto.
    - destruct (@RepeatingTimer_fires t1 c now Hk Hu Hr Hp Hs)
        as (t2 & Hrun & Hk2 & Hu2 & Hr2 & Hp2 & Hs2 & Hd2 & Hruns2 & Hposts2 & _).
      change (concat (map fire (now :: clock)))
        with (CallTick now :: CallInvokeScheduledTask :: concat (map fire clock)).
      unfold fire in Hrun. cbn [timer_run] in Hrun |- *.
      destruct (timer_step (CallTick now) t1) as [ta|]; [|discriminate].
      destruct (timer_step CallInvokeScheduledTask ta) as [tb|]; [|discriminate].
      injection Hrun as ->.
      destruct (IH t2 Hk2 Hu2 Hr2 Hp2 Hs2 (eq_trans Hd2 Hd) (S n)
                   (runs0 ++ [mkUserTaskRun c (timer_base t2)])) as (t' & Hfin & Hrest).
      + rewrite map_app, Hmap. cbn. rewrite <- repeat_cons. reflexivity.
      + apply Forall_app. split; [exact Hall|].
        constructor; [|constructor]. split; [exact Hr2 | exact Hp2].
      + rewrite Hruns2, Hruns, <- app_assoc. reflexivity.
      + eexists. split; [rewrite Hposts2, Hposts, <- app_assoc; reflexivity|].
        split.
        * rewrite length_app. cbn. lia.
        * apply Forall_app. split; [exact Hdel|].
          constructor; [|constructor]. cbn. rewrite Hd.
          apply Z.ltb_lt in Hdelay. rewrite Hdelay. reflexivity.
      + exists t'. split; [exact Hfin|].
        assert (Heq : length (now :: clock) + n = length clock + S n) by (cbn; lia).
        rewrite Heq. exact Hrest. }
  destruct H1 as (Hk & Hu & Hr & Hp & Hs & Hd & Hruns & Hposts).
  destruct (Hgen 0 [] eq_refl (Forall_nil _) Hruns Hposts) as (t' & Hfin & Hrest).
  exists t'. split; [exact Hfin|].
  rewrite !Nat.add_0_r in Hrest. exact Hrest.
Qed.

(** Running a timer on a state given by its fields, with the comparisons of
    times that are among the hypotheses. *)
Ltac timer_eval :=
  repeat (progress
            (cbv [timer_run timer_step Timer.Start Timer.Reset Timer.Stop Timer.OnStop
                  Timer.at_time Timer.update_base Timer.set_user_task
                  Timer.set_tick_clock_now Timer.OnScheduledTaskInvoked
                  Timer.release_detector Timer.RunUserTask Timer.Run Timer.FireNow
                  Timer.IsRunning Timer.GetCurrentDelay
                  TimerBase.StartInternal TimerBase.Reset TimerBase.ScheduleNewTask
                  TimerBase.AbandonScheduledTask TimerBase.set_desired_run_time
                  TimerBase.set_is_running TimerBase.set_delay TimerBase.Now
                  TimeTicks_plus TimeTicks_minus negb andb
                  timer_kind timer_base user_task_ user_task_runs
                  task_destruction_detector_ delay_ scheduled_run_time_
                  desired_run_time_ is_running_ weak_ptr_factory_ detectors
                  posted_tasks tick_clock_now];
             repeat match goal with
                    | H : _ = true |- _ => rewrite H
                    | H : _ = false |- _ => rewrite H
                    | |- context [if ?a then false else false] => destruct a
                    end;
             rewrite ?Z.ltb_irrefl, ?Disable_length)).

(** X21: [Reset] postpones the user task.  A timer started with a positive
    delay and reset later has its desired run time moved to the time of the
    reset plus the delay, with the task already posted left alone.  When that
    task is invoked before the desired run time, the user task is not run and
    a second task is posted for the remaining time; when the second task is
    invoked, the user task is run.  When the first task is invoked at or
    after the desired run time, it runs the user task itself. *)
Theorem Reset_postpones_user_task (t : Timer) (delay : TimeDelta) (c : nat)
        (n1 n2 n3 : TimeTicks)
        (Hidle : task_destruction_detector_ (timer_base t) = None)
        (Hdelay : (0 < delay)%Z)
        (Hn1 : (tick_clock_now (timer_base t) < n1)%Z) :
  let desired := TimeTicks_plus n1 delay in
  let g := weak_ptr_factory_ (timer_base t) in
  let d := length (detectors (timer_base t)) in
  ((n2 < desired)%Z ->
   exists t1 t2,
     timer_run [CallStart delay c; CallTick n1; CallTimerReset; CallTick n2;
                CallInvokeScheduledTask] t = Some t1
     /\ user_task_runs t1 = user_task_runs t
     /\ Timer.IsRunning t1 = true
     /\ posted_tasks (timer_base t1)
        = posted_tasks (timer_base t)
            ++ [mkScheduledTask g d delay;
                mkScheduledTask g (S d) (TimeTicks_minus desired n2)]
     /\ desired_run_time_ (timer_base t1) = desired
     /\ timer_run [CallTick n3; CallInvokeScheduledTask] t1 = Some t2
     /\ map run_task (user_task_runs t2) = map run_task (user_task_runs t) ++ [c])
  /\ ((desired <= n2)%Z ->
      exists t1,
        timer_run [CallStart delay c; CallTick n1; CallTimerReset; CallTick n2;
                   CallInvokeScheduledTask] t = Some t1
        /\ map run_task (user_task_runs t1) = map run_task (user_task_runs t) ++ [c]
        /\ exists more,
             posted_tasks (timer_base t1)
             = posted_tasks (timer_base t) ++ mkScheduledTask g d delay :: more).
Proof.
  destruct t as [k [p dl s ds r g0 dets posts clk] u runs].
  cbn in Hidle, Hn1. subst p. unfold TimeTicks_plus, TimeTicks_minus.
  assert (Hpos : (0 <? delay)%Z = true) by (apply Z.ltb_lt; exact Hdelay).
  assert (Hkeep : (clk + delay <=? n1 + delay)%Z = true) by (apply Z.leb_le; lia).
  assert (Hlater : (clk + delay <? n1 + delay)%Z = true) by (apply Z.ltb_lt; lia).
  cbn zeta. split; intro Hn2.
  - assert (Hearly : (n2 <? n1 + delay)%Z = true) by (apply Z.ltb_lt; exact Hn2).
    assert (Hrem : (0 <? n1 + delay - n2)%Z = true) by (apply Z.ltb_lt; lia).
    clear Hdelay Hn1 Hn2.
    destruct k; timer_eval; do 2 eexists; (split; [reflexivity|]); timer_eval;
      rewrite ?length_app, ?map_app, <- ?app_assoc; cbn; rewrite ?Nat.add_1_r;
      timer_eval; repeat split; cbn; rewrite ?map_app; cbn; try reflexivity; lia.
  - assert (Hlate : (n2 <? n1 + delay)%Z = false) by (apply Z.ltb_ge; exact Hn2).
    clear Hdelay Hn1 Hn2.
    destruct k; timer_eval; eexists; (split; [reflexivity|]); timer_eval;
      rewrite ?map_app, <- ?app_assoc; cbn; (split; [reflexivity|]);
      eexists; reflexivity.
Qed.

(** X22: once a timer is stopped, its pending scheduled task runs nothing: when
    the task is invoked, at whatever time, no user task is run and nothing is
    posted, and the timer is left not running with no pending task. *)
Theorem Stop_cancels_scheduled_task (t : Timer) (now : TimeTicks) :
  exists t',
    timer_run [CallStop; CallTick now; CallInvokeScheduledTask] t = Some t'
    /\ user_task_runs t' = user_task_runs t
    /\ posted_tasks (timer_base t') = posted_tasks (timer_base t)
    /\ Timer.IsRunning t' = false
    /\ task_destruction_detector_ (timer_base t') = None.
Proof.
  destruct t as [k [[d|] dl s ds r g dets posts clk] u runs];
    destruct k; cbn; eexists; repeat split.
Qed.

(** X23: [Stop] leaves the posted task with the task runner, and a timer
    started again uses it when the new desired run time is not earlier: the
    second [Start] posts nothing, and when the task is invoked at or after
    the desired run time the user task given last is run, once, and not the
    one of the first [Start]. *)
Theorem restart_reuses_pending_task (t : Timer) (delay : TimeDelta) (c c' : nat)
        (n1 n2 : TimeTicks)
        (Hidle : task_destruction_detector_ (timer_base t) = None)
        (Hdelay : (0 < delay)%Z)
        (Hn1 : (tick_clock_now (timer_base t) <= n1)%Z)
        (Hn2 : (TimeTicks_plus n1 delay <= n2)%Z) :
  exists t1 t2,
    timer_run [CallStart delay c; CallStop; CallTick n1; CallStart delay c';
               CallTick n2] t = Some t1
    /\ Timer.IsRunning t1 = true
    /\ posted_tasks (timer_base t1)
       = posted_tasks (timer_base t)
           ++ [mkScheduledTask (weak_ptr_factory_ (timer_base t))
                 (length (detectors (timer_base t))) delay]
    /\ timer_run [CallInvokeScheduledTask] t1 = Some t2
    /\ map run_task (user_task_runs t2) = map run_task (user_task_runs t) ++ [c'].
Proof.
  destruct t as [k [p dl s ds r g0 dets posts clk] u runs].
  cbn in Hidle, Hn1. subst p. unfold TimeTicks_plus in *.
  assert (Hpos : (0 <? delay)%Z = true) by (apply Z.ltb_lt; exact Hdelay).
  assert (Hkeep : (clk + delay <=? n1 + delay)%Z = true) by (apply Z.leb_le; lia).
  assert (Hlate : (n2 <? n1 + delay)%Z = false) by (apply Z.ltb_ge; exact Hn2).
  clear Hdelay Hn1 Hn2.
  destruct k; timer_eval; do 2 eexists; (split; [reflexivity|]); timer_eval;
    repeat split; timer_eval; rewrite ?map_app; reflexivity.
Qed.

(** X24: [FireNow] on a running [OneShotTimer] runs the user task at once and
    stops the timer; the task that is still posted runs nothing when it is
    invoked later, so the user task is run once; a second [FireNow] fails,
    the user task having been released. *)
Theorem FireNow_runs_once (t : Timer) (c d : nat) (now : TimeTicks)
        (Hkind : timer_kind t = OneShotTimer)
        (Htask : user_task_ t = Some c)
        (Hpending : task_destruction_detector_ (timer_base t) = Some d) :
  exists t1 t2,
    Timer.FireNow t = Some t1
    /\ user_task_runs t1 = user_task_runs t ++ [mkUserTaskRun c (timer_base t1)]
    /\ Timer.IsRunning t1 = false
    /\ user_task_ t1 = None
    /\ timer_run [CallTick now; CallInvokeScheduledTask] t1 = Some t2
    /\ user_task_runs t2 = user_task_runs t1
    /\ posted_tasks (timer_base t2) = posted_tasks (timer_base t)
    /\ Timer.FireNow t1 = None
    /\ Timer.FireNow t2 = None.
Proof.
  destruct t as [k [p dl s ds r g0 dets posts clk] u runs].
  cbn in Hkind, Htask, Hpending. subst k u p.
  cbn. do 2 eexists. repeat split.
Qed.

(** * Examples *)

Lemma scheduled_world_registered : registered (this scheduled_world).
Proof. unfold registered. vm_compute. eauto 10. Qed.

Lemma scheduled_world_is_heap : is_heap (queue_of scheduled_world).
Proof. vm_compute. repeat constructor. Qed.

Lemma scheduled_world_consistent : wake_up_consistent scheduled_world.
Proof.
  unfold wake_up_consistent, heap_agrees. repeat split; try (vm_compute; reflexivity).
  vm_compute. repeat constructor. intros [].
Qed.

Lemma new_timer_detectors_ok (kind : TimerKind) (now : TimeTicks) :
  detectors_ok (timer_base (new_timer kind now)).
Proof.
  intro d. cbn. split; [|discriminate]. destruct d; discriminate.
Qed.

Lemma started_timer_detectors_ok : detectors_ok (timer_base started_timer).
Proof.
  apply (@timer_step_detectors_ok (CallStart 10%Z 1) (new_timer OneShotTimer 0%Z));
    [apply new_timer_detectors_ok | reflexivity].
Qed.

Lemma observers_agree_witness :
  exists n,
    TaskQueueImpl.GetNumberOfPendingTasks blocked_sample_queue = Some n
    /\ exists empty,
         TaskQueueImpl.IsEmpty blocked_sample_queue = Some empty
         /\ (empty = true <-> n = 0).
Proof.
  destruct (@observers_agree blocked_sample_queue (mkTimeDomain [] 0%Z 0%Z)
              (sample_queue_registered _ _ _ _ _ _))
    as (empty & n & pending & He & Hn & _ & _ & Hiff & _).
  exists n. split; [exact Hn|]. exists empty. split; [exact He | exact Hiff].
Defined.

Lemma fence_operations_keep_tasks_witness :
  exists w',
    TaskQueueImpl.RemoveFence blocked_sample_world = Some (tt, w')
    /\ same_tasks blocked_sample_queue (this w').
Proof.
  destruct (@fence_operations_keep_tasks blocked_sample_world
              (sample_queue_registered _ _ _ _ _ _))
    as (_ & (w' & E & Hs & _) & _).
  exists w'. split; [exact E | exact Hs].
Defined.


Lemma RemoveFence_unblocks_witness :
  exists w',
    TaskQueueImpl.RemoveFence blocked_sample_world = Some (tt, w')
    /\ TaskQueueImpl.BlockedByFence (this w') = Some false.
Proof.
  destruct (@RemoveFence_unblocks blocked_sample_world
              (sample_queue_registered _ _ _ _ _ _) eq_refl eq_refl eq_refl)
    as (w' & E & _ & Hb & _).
  exists w'. split; [exact E | exact Hb].
Defined.

Lemma pending_high_res_wake_up_count_preserved_witness :
  wake_up_count_ok
    (fst (TimeDomain.SetNextWakeUpForQueue
            7 (Some (mkDelayedWakeUp 20%Z 10%N kHigh)) 0%Z (mkTimeDomain [] 0%Z 0%Z))).
Proof.
  exact (proj1 (proj1 (@pending_high_res_wake_up_count_preserved
                         (mkTimeDomain [] 0%Z 0%Z) eq_refl)
                      7 (Some (mkDelayedWakeUp 20%Z 10%N kHigh)) 0%Z)).
Defined.

Lemma PostTask_one_more_pending_witness :
  exists w',
    TaskQueueImpl.PostTask
      (mkPostedTask (user_closure 9 false) 20%Z kNestable 0 0%Z) kNotMainThread
      blocked_sample_world = Some (tt, w')
    /\ TaskQueueImpl.GetNumberOfPendingTasks (this w') = Some 3.
Proof.
  destruct (@PostTask_one_more_pending blocked_sample_world
              (mkPostedTask (user_closure 9 false) 20%Z kNestable 0 0%Z) kNotMainThread
              eq_refl (sample_queue_registered _ _ _ _ _ _))
    as (w' & n & E & Hn & Hn' & _).
  exists w'. split; [exact E|].
  vm_compute in Hn. injection Hn as <-. exact Hn'.
Defined.

Lemma wake_up_consistent_preserved_witness :
  exists w',
    TaskQueueImpl.MoveReadyDelayedTasksToWorkQueue 25%Z scheduled_world = Some (tt, w')
    /\ wake_up_consistent w'.
Proof.
  destruct (@wake_up_consistent_preserved scheduled_world
              scheduled_world_registered scheduled_world_is_heap
              scheduled_world_consistent)
    as (_ & Hmove & _).
  destruct (Hmove 25%Z) as (w' & E & Hok & _).
  exists w'. split; [exact E | exact Hok].
Defined.

Lemma heap_wake_up_is_top_of_queue_witness :
  exists res,
    wake_up_of (this_queue (this scheduled_world))
               (delayed_wake_up_queue_ (the_time_domain scheduled_world))
    = Some (mkDelayedWakeUp 20%Z 10%N res).
Proof.
  exact (proj1 (@heap_wake_up_is_top_of_queue scheduled_world
                  scheduled_world_is_heap scheduled_world_consistent)).
Defined.

Lemma SetQueueEnabled_false_cancels_wake_up_witness :
  exists r w',
    TaskQueueImpl.SetQueueEnabled false scheduled_world = Some (r, w')
    /\ wake_up_of (this_queue (this w')) (delayed_wake_up_queue_ (the_time_domain w'))
       = None.
Proof.
  destruct (@SetQueueEnabled_false_cancels_wake_up scheduled_world
              scheduled_world_registered eq_refl (proj1 scheduled_world_consistent))
    as (r & w' & E & _ & _ & _ & Hw & _).
  exists r, w'. split; [exact E | exact Hw].
Defined.

Lemma SetQueueEnabled_round_trip_witness :
  exists r1 w1 r2 w2,
    TaskQueueImpl.SetQueueEnabled false scheduled_world = Some (r1, w1)
    /\ TaskQueueImpl.SetQueueEnabled true w1 = Some (r2, w2)
    /\ same_tasks (this scheduled_world) (this w2).
Proof.
  destruct (@SetQueueEnabled_round_trip scheduled_world
              scheduled_world_registered eq_refl scheduled_world_consistent)
    as (r1 & w1 & r2 & w2 & E1 & E2 & _ & _ & Hs & _).
  exists r1, w1, r2, w2. split; [exact E1|]. split; [exact E2 | exact Hs].
Defined.

Lemma ReloadEmptyImmediateWorkQueue_moves_all_witness :
  exists w',
    TaskQueueImpl.ReloadEmptyImmediateWorkQueue delayed_fence_world = Some (tt, w')
    /\ immediate_incoming_queue (any_thread_ (this w')) = [].
Proof.
  destruct (@ReloadEmptyImmediateWorkQueue_moves_all delayed_fence_world
              (sample_work_queue 0%N [])
              (sample_queue_registered _ _ _ _ _ _) eq_refl eq_refl)
    as (w' & E & Hin & _).
  exists w'. split; [exact E | exact Hin].
Defined.

Lemma TakeImmediateIncomingQueueTasks_activates_fence_witness :
  exists w',
    TaskQueueImpl.TakeImmediateIncomingQueueTasks delayed_fence_world = Some (tt, w').
Proof.
  assert (Horder : in_enqueue_order
                     (immediate_incoming_queue (any_thread_ (this delayed_fence_world)))).
  { repeat constructor. }
  assert (Hset : Forall (fun t => enqueue_order_set t = true)
                        (immediate_incoming_queue (any_thread_ (this delayed_fence_world)))).
  { repeat constructor. }
  destruct (@TakeImmediateIncomingQueueTasks_activates_fence delayed_fence_world 50%Z
              (sample_queue_registered _ _ _ _ _ _) eq_refl Horder Hset)
    as (w' & E & _).
  exists w'. exact E.
Defined.

Lemma cross_thread_delayed_post_lands_witness :
  exists w1 helper pending,
    TaskQueueImpl.PostDelayedTaskImpl
      (mkPostedTask (user_closure 9 false) 20%Z kNestable 0 0%Z) kNotMainThread
      empty_sample_world = Some (tt, w1)
    /\ immediate_incoming_queue (any_thread_ (this w1)) = [helper]
    /\ task helper = ScheduleDelayedWorkTask_closure pending
    /\ delayed_run_time pending = 20%Z.
Proof.
  destruct (@cross_thread_delayed_post_lands empty_sample_world
              (mkPostedTask (user_closure 9 false) 20%Z kNestable 0 0%Z)
              eq_refl (sample_queue_registered _ _ _ _ _ _))
    as (w1 & helper & pending & E & Hin & _ & Hh & _ & Hrun & _).
  exists w1, helper, pending. split; [exact E|]. split; [exact Hin|].
  split; [exact Hh | exact Hrun].
Defined.

Lemma HasTaskToRunImmediately_ignores_fence_witness :
  exists w',
    TaskQueueImpl.InsertFence kBeginningOfTime blocked_sample_world = Some (tt, w')
    /\ TaskQueueImpl.HasTaskToRunImmediately (this w') (the_time_domain w') = Some true.
Proof.
  destruct (@HasTaskToRunImmediately_ignores_fence blocked_sample_world
              (sample_queue_registered _ _ _ _ _ _) eq_refl)
    as (w' & E & Hrun & _).
  exists w'. split; [exact E | exact Hrun].
Defined.

Lemma UnregisterTaskQueue_releases_witness :
  exists w',
    TaskQueueImpl.UnregisterTaskQueue scheduled_world = Some (tt, w')
    /\ TaskQueueImpl.IsUnregistered (this w') = true
    /\ wake_up_of (this_queue (this scheduled_world))
                  (delayed_wake_up_queue_ (the_time_domain w')) = None.
Proof.
  destruct (@UnregisterTaskQueue_releases scheduled_world
              (proj1 scheduled_world_registered)
              (proj1 (proj1 scheduled_world_consistent)))
    as (w' & E & Hu & Hw & _).
  exists w'. split; [exact E|]. split; [exact Hu | exact Hw].
Defined.

Lemma detectors_ok_invariant_witness :
  exists t',
    timer_run [CallTick 5%Z; CallTimerReset; CallStop; CallDestroyTask 0] started_timer
    = Some t'
    /\ detectors_ok (timer_base t').
Proof.
  destruct (timer_run [CallTick 5%Z; CallTimerReset; CallStop; CallDestroyTask 0]
                      started_timer) as [t'|] eqn:E; [|vm_compute in E; discriminate].
  exists t'. split; [reflexivity|].
  exact (proj1 (@detectors_ok_invariant _ started_timer t'
                  started_timer_detectors_ok E)).
Defined.

Lemma destroyed_task_stops_timer_witness :
  Timer.IsRunning (Timer.destroy_detector 0 started_timer) = false.
Proof.
  exact (proj1 (proj1 (@destroyed_task_stops_timer 0 started_timer
                         started_timer_detectors_ok) eq_refl)).
Defined.

Lemma one_shot_timers_run_once_witness :
  exists t',
    timer_run [CallStart 10%Z 1; CallTick 25%Z; CallInvokeScheduledTask]
              (new_timer OneShotTimer 0%Z) = Some t'
    /\ map run_task (user_task_runs t') = [1]
    /\ Timer.IsRunning t' = false.
Proof.
  assert (Hkind : timer_kind (new_timer OneShotTimer 0%Z) <> RepeatingTimer)
    by discriminate.
  destruct (@one_shot_timers_run_once (new_timer OneShotTimer 0%Z) 10%Z 1 25%Z
              Hkind eq_refl)
    as (t' & E & Hruns & Hstopped & _).
  exists t'. split; [exact E|]. split; [|exact Hstopped].
  rewrite Hruns. reflexivity.
Defined.

Lemma Reset_after_firing_witness :
  exists t',
    timer_run [CallStart 10%Z 1; CallTick 25%Z; CallInvokeScheduledTask;
               CallTimerReset; CallTick 40%Z; CallInvokeScheduledTask]
              (new_timer RetainingOneShotTimer 0%Z) = Some t'
    /\ map run_task (user_task_runs t') = [1; 1].
Proof.
  assert (Hkind : timer_kind (new_timer RetainingOneShotTimer 0%Z) <> RepeatingTimer)
    by discriminate.
  destruct (@Reset_after_firing (new_timer RetainingOneShotTimer 0%Z) 10%Z 1 25%Z 40%Z
              Hkind eq_refl)
    as (t' & E & Hruns & _).
  exists t'. split; [exact E | exact Hruns].
Defined.

Lemma RepeatingTimer_fires_repeatedly_witness :
  exists t',
    timer_run (CallStart 10%Z 1 :: concat (map fire [10%Z; 20%Z; 31%Z]))
              (new_timer RepeatingTimer 0%Z) = Some t'
    /\ Timer.IsRunning t' = true
    /\ exists runs, user_task_runs t' = runs /\ map run_task runs = [1; 1; 1].
Proof.
  destruct (@RepeatingTimer_fires_repeatedly (new_timer RepeatingTimer 0%Z) 10%Z 1
              [10%Z; 20%Z; 31%Z] eq_refl eq_refl eq_refl)
    as (t' & E & Hrunning & _ & _ & (runs & Hruns & Hmap & _) & _).
  exists t'. split; [exact E|]. split; [exact Hrunning|].
  exists runs. split; [exact Hruns | exact Hmap].
Defined.

Lemma Reset_postpones_user_task_witness :
  exists t1 t2,
    timer_run [CallStart 10%Z 1; CallTick 5%Z; CallTimerReset; CallTick 12%Z;
               CallInvokeScheduledTask] (new_timer OneShotTimer 0%Z) = Some t1
    /\ user_task_runs t1 = []
    /\ timer_run [CallTick 15%Z; CallInvokeScheduledTask] t1 = Some t2
    /\ map run_task (user_task_runs t2) = [1].
Proof.
  destruct (proj1 (@Reset_postpones_user_task (new_timer OneShotTimer 0%Z) 10%Z 1
                     5%Z 12%Z 15%Z eq_refl eq_refl eq_refl) eq_refl)
    as (t1 & t2 & E1 & Hruns & _ & _ & _ & E2 & Hran).
  exists t1, t2. split; [exact E1|]. split; [exact Hruns|].
  split; [exact E2 | exact Hran].
Defined.

Lemma restart_reuses_pending_task_witness :
  exists t1 t2,
    timer_run [CallStart 10%Z 1; CallStop; CallTick 5%Z; CallStart 10%Z 2;
               CallTick 20%Z] (new_timer OneShotTimer 0%Z) = Some t1
    /\ length (posted_tasks (timer_base t1)) = 1
    /\ timer_run [CallInvokeScheduledTask] t1 = Some t2
    /\ map run_task (user_task_runs t2) = [2].
Proof.
  assert (Hn1 : (tick_clock_now (timer_base (new_timer OneShotTimer 0%Z)) <= 5)%Z)
    by (cbn; lia).
  assert (Hn2 : (TimeTicks_plus 5 10 <= 20)%Z) by (cbn; lia).
  destruct (@restart_reuses_pending_task (new_timer OneShotTimer 0%Z) 10%Z 1 2
              5%Z 20%Z eq_refl eq_refl Hn1 Hn2)
    as (t1 & t2 & E1 & _ & Hposts & E2 & Hran).
  exists t1, t2. split; [exact E1|]. split; [rewrite Hposts; reflexivity|].
  split; [exact E2 | exact Hran].
Defined.

Lemma FireNow_runs_once_witness :
  exists t1 t2,
    Timer.FireNow started_timer = Some t1
    /\ map run_task (user_task_runs t1) = [1]
    /\ timer_run [CallTick 10%Z; CallInvokeScheduledTask] t1 = Some t2
    /\ user_task_runs t2 = user_task_runs t1.
Proof.
  destruct (@FireNow_runs_once started_timer 1 0 10%Z eq_refl eq_refl eq_refl)
    as (t1 & t2 & E1 & Hruns & _ & _ & E2 & Hsame & _).
  exists t1, t2. split; [exact E1|]. split; [rewrite Hruns; reflexivity|].
  split; [exact E2 | exact Hsame].
Defined.

(** * The cached flag of the posting threads *)






(** * The enqueue orders on the states that posting reaches *)

(** As long as every enqueue order comes from the sequence manager, the
    current fence is never the enqueue order of a task that waits in the
    immediate incoming queue, and the enqueue orders increase along that
    queue.  Posting, the fence operations, reloading the empty immediate work
    queue and moving the ready delayed tasks keep this. *)
Lemma orders_ok_preserved (w : World)
        (Hreg : registered (this w))
        (Hheap : is_heap (queue_of w))
        (Hok : orders_ok w) :
  blocked_iff_none_below (this w)
  /\ (forall posted current_thread,
        closure_is_null (callback posted) = false ->
        exists w',
          TaskQueueImpl.PostTask posted current_thread w = Some (tt, w') /\ orders_ok w')
  /\ (forall pos,
        exists w', TaskQueueImpl.InsertFence pos w = Some (tt, w') /\ orders_ok w')
  /\ (exists w', TaskQueueImpl.RemoveFence w = Some (tt, w') /\ orders_ok w')
  /\ (forall time,
        exists w', TaskQueueImpl.InsertFenceAt time w = Some (tt, w') /\ orders_ok w')
  /\ (forall iwq,
        immediate_work_queue (main_thread_only (this w)) = Some iwq ->
        WorkQueue.Empty iwq = true ->
        exists w',
          TaskQueueImpl.ReloadEmptyImmediateWorkQueue w = Some (tt, w') /\ orders_ok w')
  /\ (forall now,
        exists w',
          TaskQueueImpl.MoveReadyDelayedTasksToWorkQueue now w = Some (tt, w')
          /\ orders_ok w').
Proof.
  split; [exact (orders_ok_blocked Hok)|].
  pose proof Hok as (Hs & Hb & Hf & Hn & Hne).
  split; [|split; [|split; [|split; [|split]]]].
  - intros posted current_thread Hcallback. unfold TaskQueueImpl.PostTask.
    destruct (delay posted =? 0)%Z; [|destruct current_thread].
    + destruct (@PostImmediateTaskImpl_effect w posted current_thread Hcallback Hreg)
        as (w' & E & t & Hthis & _ & Ho & _ & _ & _ & Hnext & _).
      exists w'. split; [exact E|]. unfold orders_ok. rewrite Hthis, Hnext. cbn.
      apply (@orders_ok_append w _ t _ (next_order w)); auto. lia.
    + destruct (@PostDelayedTaskImpl_main_effect w posted Hcallback Hreg)
        as (w' & E & t & w1 & _ & _ & _ & _ & Hw1 & _ & Hnext & _ & _ & Hre).
      exists w'. split; [exact E|].
      destruct Hre as (s & _ & Hthis & Hsm & _).
      refine (@orders_ok_frame w w' _ _ _ Hok).
      * rewrite Hthis, Hw1. reflexivity.
      * unfold next_order in *. rewrite Hsm, Hnext. lia.
      * left. rewrite Hthis, Hw1. reflexivity.
    + destruct (@PostDelayedTaskImpl_cross_effect w posted Hcallback Hreg)
        as (w' & E & pending & helper & Hthis & _ & Ho & _ & _ & _ & _ & _ & Hnext & _).
      exists w'. split; [exact E|]. unfold orders_ok. rewrite Hthis, Hnext. cbn.
      apply (@orders_ok_append w _ helper _ (next_order w)); auto. lia.
  - intro pos.
    destruct (@InsertFence_effect w pos Hreg)
      as (w' & E & _ & Hc & _ & Hle & Hlt & Hst & Ht & _).
    exists w'. split; [exact E|].
    refine (@orders_ok_frame w w' _ Hle _ Hok); [apply Ht|].
    cbv zeta in Hc. rewrite Hc. destruct pos; [|auto].
    right. right. right. specialize (Hlt eq_refl). lia.
  - destruct (@RemoveFence_effect w Hreg)
      as (w' & E & _ & Hc & _ & Hle & Hst & Ht & _).
    exists w'. split; [exact E|].
    refine (@orders_ok_frame w w' _ Hle _ Hok); [apply Ht | auto].
  - intro time.
    destruct (@InsertFenceAt_effect w time Hreg)
      as (w' & E & _ & Hc & _ & Hle & Hst & Ht & _).
    exists w'. split; [exact E|].
    refine (@orders_ok_frame w w' _ Hle _ Hok); [apply Ht | auto].
  - intros iwq Hiwq Hempty.
    destruct (@TakeImmediateIncomingQueueTasks_effect w Hreg)
      as (w1 & E & _ & Hinc & _ & _ & _ & Hset & _ & Hsm & _ & _ & Hact).
    rewrite Hiwq in Hinc.
    assert (Hnil : tasks_ iwq = [])
      by (unfold WorkQueue.Empty in Hempty; destruct (tasks_ iwq);
          [reflexivity|discriminate]).
    rewrite Hnil in Hinc.
    assert (Hok1 : orders_ok w1).
    { unfold orders_ok, next_order. rewrite Hinc, Hsm. fold (next_order w).
      repeat split; try constructor; auto.
      cbv zeta in Hact.
      destruct (delayed_fence (main_thread_only (this w))) as [ft|];
        [|destruct Hact as [-> _]; exact Hf].
      destruct (TaskQueueImpl.first_task_at_or_after ft _) as [t|] eqn:Hfirst;
        [|destruct Hact as [-> _]; exact Hf].
      destruct Hact as (-> & _).
      destruct (first_task_at_or_after_split _ _ Hfirst) as (before & after & Hsplit & _).
      rewrite Forall_forall in Hb. apply Hb. rewrite Hsplit.
      apply in_or_app. right. now left. }
    set (notify := is_bound (task_queue_observer (main_thread_only (this w1)))
                   && TaskQueueImpl.IsQueueEnabled (this w1)).
    exists (if notify then add_calls [EvOnQueueNextWakeUpChanged 0%Z] w1 else w1).
    split.
    + cbv [TaskQueueImpl.ReloadEmptyImmediateWorkQueue bind get_queue ret call].
      rewrite E. cbv beta iota. fold notify. destruct notify; reflexivity.
    + destruct notify; exact Hok1.
  - intro now.
    destruct (@MoveReadyDelayedTasksToWorkQueue_effect w now Hreg Hheap)
      as (w1 & w' & E & Hmoved & Hst & Hre).
    exists w'. split; [exact E|].
    destruct Hre as (s & _ & Hthis & Hsm & _).
    destruct Hmoved as (_ & _ & Hle & moved & _ & _ & _ & _ & Hfences).
    destruct Hst as (_ & _ & _ & Hinc & _).
    refine (@orders_ok_frame w w' _ _ _ Hok).
    + rewrite Hthis. exact Hinc.
    + unfold next_order in *. rewrite Hsm. exact Hle.
    + rewrite Hthis. cbn [this main_thread_only set_main set_scheduled_wake_up current_fence].
      unfold fences_after_move in Hfences.
      assert (Hn' : next_order w' = next_order w1)
        by (unfold next_order; rewrite Hsm; reflexivity).
      rewrite Hn'.
      destruct (delayed_fence (main_thread_only (this w))) as [ft|];
        [|left; apply Hfences].
      match type of Hfences with
      | if ?b then _ else _ => destruct b
      end; [|left; apply Hfences].
      right. right. right. destruct Hfences as (_ & H1 & H2 & _). lia.
Qed.

(** ** The work queues *)

Lemma in_enqueue_order_app (l1 l2 : list Task) (n : EnqueueOrder.t) :
  in_enqueue_order l1 -> in_enqueue_order l2 ->
  Forall (fun t => (enqueue_order t < n)%N) l1 ->
  Forall (fun t => (n <= enqueue_order t)%N) l2 ->
  in_enqueue_order (l1 ++ l2).
Proof.
  unfold in_enqueue_order. intros H1 H2 Hlt Hge.
  induction H1 as [|x l Hs IH Hall]; cbn; [exact H2|].
  pose proof (Forall_inv Hlt) as Hx. cbv beta in Hx. apply Forall_inv_tail in Hlt.
  constructor; [auto|]. apply Forall_app. split; [exact Hall|].
  eapply Forall_impl; [|exact Hge]. cbn. intros; lia.
Qed.

Lemma work_queues_in_order_intro (w : World) (ti td : list Task) :
  fences_in_sync (this w) ->
  option_map tasks_ (immediate_work_queue (main_thread_only (this w))) = Some ti ->
  option_map tasks_ (delayed_work_queue (main_thread_only (this w))) = Some td ->
  in_enqueue_order ti -> in_enqueue_order td ->
  Forall (fun t => (enqueue_order t < next_order w)%N) td ->
  work_queues_in_order w.
Proof.
  intros [Fi Fd] Ti Td Oi Od Hb.
  destruct (immediate_work_queue (main_thread_only (this w))) as [iwq|] eqn:Ei;
    [|discriminate].
  destruct (delayed_work_queue (main_thread_only (this w))) as [dwq|] eqn:Ed;
    [|discriminate].
  cbn in Fi, Fd, Ti, Td.
  injection Fi as Fi. injection Fd as Fd. injection Ti as Ti. injection Td as Td.
  exists iwq, dwq. unfold work_queues_ok, work_queue_ok. rewrite Ei, Ed, Ti, Td.
  auto 10.
Qed.

Lemma work_queues_in_order_elim (w : World) :
  work_queues_in_order w ->
  fences_in_sync (this w)
  /\ exists ti td,
       option_map tasks_ (immediate_work_queue (main_thread_only (this w))) = Some ti
       /\ option_map tasks_ (delayed_work_queue (main_thread_only (this w))) = Some td
       /\ in_enqueue_order ti /\ in_enqueue_order td
       /\ Forall (fun t => (enqueue_order t < next_order w)%N) td.
Proof.
  intros (iwq & dwq & (Ei & Ed & [Fi Oi] & [Fd Od]) & Hb).
  unfold fences_in_sync. rewrite Ei, Ed. cbn. rewrite Fi, Fd.
  split; [split; reflexivity|]. exists (tasks_ iwq), (tasks_ dwq). auto.
Qed.

Lemma work_queues_in_order_same (w w' : World) :
  immediate_work_queue (main_thread_only (this w'))
  = immediate_work_queue (main_thread_only (this w)) ->
  delayed_work_queue (main_thread_only (this w'))
  = delayed_work_queue (main_thread_only (this w)) ->
  current_fence (main_thread_only (this w'))
  = current_fence (main_thread_only (this w)) ->
  (next_order w <= next_order w')%N ->
  work_queues_in_order w -> work_queues_in_order w'.
Proof.
  intros Hi Hd Hf Hn (iwq & dwq & Hok & Hb).
  exists iwq, dwq. split.
  - unfold work_queues_ok in *. rewrite Hi, Hd, Hf. exact Hok.
  - eapply Forall_impl; [|exact Hb]. cbn. intros; lia.
Qed.

Lemma work_queues_in_order_fenced (w w' : World) :
  same_tasks (this w) (this w') -> fences_in_sync (this w') ->
  (next_order w <= next_order w')%N ->
  work_queues_in_order w -> work_queues_in_order w'.
Proof.
  intros (_ & _ & Ti & Td) Hsync Hn Hwq.
  destruct (@work_queues_in_order_elim w Hwq) as (_ & ti & td & Hi & Hd & Oi & Od & Hb).
  apply (@work_queues_in_order_intro w' ti td); auto; try congruence.
  eapply Forall_impl; [|exact Hb]. cbn. intros; lia.
Qed.

(** The steps of the move of the ready tasks keep the fences of the work
    queues in step with the current fence. *)
Lemma pop_delayed_incoming_queue_sync (w w' : World) :
  TaskQueueImpl.pop_delayed_incoming_queue w = Some (tt, w') ->
  fences_in_sync (this w) -> fences_in_sync (this w').
Proof.
  unfold TaskQueueImpl.pop_delayed_incoming_queue. intro H.
  destruct w as [sm td [[] a ? ? ? ?] cs os]. mrun_in H.
  destruct (DelayedIncomingQueue.pop _) as [d|]; mrun_in H; [|discriminate].
  injection H as <-. unfold fences_in_sync. cbn. tauto.
Qed.

Lemma delayed_work_queue_Push_sync (t : Task) (w w' : World) :
  TaskQueueImpl.delayed_work_queue_Push t w = Some (tt, w') ->
  fences_in_sync (this w) -> fences_in_sync (this w').
Proof.
  unfold TaskQueueImpl.delayed_work_queue_Push. intro H.
  destruct w as [sm td [[? dwq ? ? ? ? ? ? ? ? ? ?] a ? ? ? ?] cs os]. mrun_in H.
  destruct dwq as [dwq|]; mrun_in H; [|discriminate].
  injection H as <-. unfold fences_in_sync. cbn. tauto.
Qed.

Lemma GetNextSequenceNumber_this (n : EnqueueOrder.t) (w w' : World) :
  GetNextSequenceNumber w = Some (n, w') -> this w' = this w.
Proof.
  unfold GetNextSequenceNumber. intro H. injection H as <- <-. reflexivity.
Qed.

Lemma ActivateDelayedFenceIfNeeded_sync (now : TimeTicks) (w w' : World) :
  registered (this w) ->
  TaskQueueImpl.ActivateDelayedFenceIfNeeded now w = Some (tt, w') ->
  fences_in_sync (this w) -> fences_in_sync (this w').
Proof.
  intros Hreg H Hsync.
  cbv [TaskQueueImpl.ActivateDelayedFenceIfNeeded bind main get_queue ret] in H.
  cbv beta iota in H.
  destruct (delayed_fence (main_thread_only (this w))) as [ft|];
    [|injection H as <-; exact Hsync].
  destruct (now <? ft)%Z; [injection H as <-; exact Hsync|].
  destruct (@InsertFence_effect w kNow Hreg)
    as (w1 & E & _ & _ & _ & _ & _ & _ & _ & _ & _ & Hsync1).
  rewrite E in H. cbv [update_main bind get_queue put_queue] in H.
  cbv beta iota in H. injection H as <-. clear E.
  destruct w1 as [sm td [[] a ? ? ? ?] cs os].
  unfold fences_in_sync in *. cbn in *. exact Hsync1.
Qed.

Lemma MoveReadyDelayedTasksToWorkQueue_loop_sync (now : TimeTicks) (fuel : nat) :
  forall w w',
    registered (this w) ->
    TaskQueueImpl.MoveReadyDelayedTasksToWorkQueue_loop fuel now w = Some (tt, w') ->
    fences_in_sync (this w) -> fences_in_sync (this w').
Proof.
  induction fuel as [|fuel IH]; intros w w' Hreg H Hsync;
    cbn [TaskQueueImpl.MoveReadyDelayedTasksToWorkQueue_loop] in H;
    cbv [bind main get_queue ret crash] in H; cbv beta iota in H;
    destruct (DelayedIncomingQueue.top _) as [t|];
    try discriminate; try (injection H as <-; exact Hsync).
  destruct (closure_is_null (task t) || IsCancelled (task t)).
  - destruct (TaskQueueImpl.pop_delayed_incoming_queue w) as [[[] w1]|] eqn:Hpop;
      [|discriminate].
    pose proof (@pop_delayed_incoming_queue_sync w w1 Hpop Hsync) as Hsync1.
    apply pop_delayed_incoming_queue_steady in Hpop.
    apply (IH w1 w'); [apply Hpop, Hreg | exact H | exact Hsync1].
  - destruct (now <? delayed_run_time t)%Z; [injection H as <-; exact Hsync|].
    destruct (TaskQueueImpl.ActivateDelayedFenceIfNeeded _ w) as [[[] w1]|] eqn:H1;
      [|discriminate].
    pose proof (@ActivateDelayedFenceIfNeeded_sync _ w w1 Hreg H1 Hsync) as Hsync1.
    apply (@ActivateDelayedFenceIfNeeded_steady _ w w1 Hreg) in H1.
    destruct (GetNextSequenceNumber w1) as [[n w2]|] eqn:H2; [|discriminate].
    pose proof (@GetNextSequenceNumber_this n w1 w2 H2) as Hthis2.
    apply GetNextSequenceNumber_steady in H2.
    destruct (TaskQueueImpl.delayed_work_queue_Push _ w2) as [[[] w3]|] eqn:H3;
      [|discriminate].
    assert (Hsync2 : fences_in_sync (this w2)) by (rewrite Hthis2; exact Hsync1).
    pose proof (@delayed_work_queue_Push_sync _ w2 w3 H3 Hsync2) as Hsync3.
    apply delayed_work_queue_Push_steady in H3.
    destruct (TaskQueueImpl.pop_delayed_incoming_queue w3) as [[[] w4]|] eqn:H4;
      [|discriminate].
    pose proof (@pop_delayed_incoming_queue_sync w3 w4 H4 Hsync3) as Hsync4.
    apply pop_delayed_incoming_queue_steady in H4.
    pose proof (steady_trans (steady_trans (steady_trans H1 H2) H3) H4) as Hst.
    apply (IH w4 w'); [apply Hst, Hreg | exact H | exact Hsync4].
Qed.

(** Taking the tasks of the immediate incoming queue keeps them too. *)
Lemma TakeImmediateIncomingQueueTasks_sync (w : World)
      (Hreg : registered (this w)) (Hsync : fences_in_sync (this w)) :
  exists w',
    TaskQueueImpl.TakeImmediateIncomingQueueTasks w = Some (tt, w')
    /\ fences_in_sync (this w').
Proof.
  unfold fences_in_sync in Hsync.
  start_registered w Hreg.
  unfold TaskQueueImpl.TakeImmediateIncomingQueueTasks,
    TaskQueueImpl.UpdateCrossThreadQueueStateLocked_,
    TaskQueueImpl.UpdateCrossThreadQueueStateLocked, TaskQueueImpl.IsQueueEnabled.
  mfinish_hidden.
  all: unfold fences_in_sync; cbn; auto.
Qed.

Lemma delayed_queue_ok_same (w w' : World) :
  delayed_incoming_queue (main_thread_only (this w'))
  = delayed_incoming_queue (main_thread_only (this w)) ->
  delayed_queue_ok w -> delayed_queue_ok w'.
Proof.
  unfold delayed_queue_ok, queue_of. intros ->. tauto.
Qed.

Lemma ReclaimMemory_orders_ok (w w' : World) (now : TimeTicks) :
  registered (this w) -> orders_ok w ->
  TaskQueueImpl.ReclaimMemory now w = Some (tt, w') -> orders_ok w'.
Proof.
  intros Hreg Hok E.
  destruct (@ReclaimMemory_effect w now Hreg) as (w'' & E' & H).
  rewrite E in E'. injection E' as <-.
  destruct (DelayedIncomingQueue.empty _); [subst w'; exact Hok|].
  destruct H as (w1 & Hthis1 & _ & Hsm1 & s & _ & Hthis & Hsm & _).
  refine (@orders_ok_frame w w' _ _ _ Hok).
  - rewrite Hthis, Hthis1. reflexivity.
  - unfold next_order. rewrite Hsm, Hsm1. lia.
  - left. rewrite Hthis, Hthis1. reflexivity.
Qed.

Lemma MoveReadyDelayedTasksToWorkQueue_invariant (w w' : World) (now : TimeTicks) :
  live w -> orders_ok w ->
  TaskQueueImpl.MoveReadyDelayedTasksToWorkQueue now w = Some (tt, w') ->
  live w' /\ orders_ok w'.
Proof.
  intros [Hreg Hq] Hok E.
  pose proof (@orders_ok_preserved w Hreg (proj1 Hq) Hok)
    as (_ & _ & _ & _ & _ & _ & Hmove).
  pose proof (@delayed_queue_ok_preserved w Hreg Hq) as (_ & Lmove & _).
  destruct (Hmove now) as (w1 & E1 & Hok1).
  destruct (Lmove now) as (w2 & E2 & Hreg2 & Hq2).
  rewrite E in E1, E2. injection E1 as <-. injection E2 as <-.
  split; [split; assumption | assumption].
Qed.

Lemma pushed_world_invariant (t : Task) (w : World) :
  closure_is_null (task t) = false ->
  live w -> orders_ok w -> live (pushed_world t w) /\ orders_ok (pushed_world t w).
Proof.
  intros Ht [Hreg [Hheap Hcb]] Hok. split; [split; [|split]|].
  - destruct Hreg as (A & B & C & D & F). unfold registered. cbn. auto.
  - unfold queue_of. cbn. apply push_heap_is_heap. exact Hheap.
  - unfold queue_of. cbn.
    apply (Permutation_Forall (Permutation_sym (push_heap_perm t _))).
    constructor; assumption.
  - refine (@orders_ok_frame w (pushed_world t w) eq_refl _ _ Hok).
    + apply N.le_refl.
    + left. reflexivity.
Qed.

Lemma set_delayed_run_time_task (now : TimeTicks) (t : Task) :
  task (set_delayed_run_time now t) = task t.
Proof. reflexivity. Qed.

Lemma UpdateDelayedWakeUp_invariant (w w' : World) (now : TimeTicks) :
  live w -> orders_ok w ->
  TaskQueueImpl.UpdateDelayedWakeUp now w = Some (tt, w') ->
  live w' /\ orders_ok w'.
Proof.
  intros [Hreg Hq] Hok E.
  destruct (@UpdateDelayedWakeUp_effect now w Hreg) as (w'' & E' & s & _ & Hthis & Hsm & _).
  rewrite E in E'. injection E' as <-.
  split; [split|].
  - destruct Hreg as (A & B & C & D & F). unfold registered. rewrite Hthis. cbn. auto.
  - refine (@delayed_queue_ok_same w w' _ Hq). rewrite Hthis. reflexivity.
  - refine (@orders_ok_frame w w' _ _ _ Hok).
    + rewrite Hthis. reflexivity.
    + unfold next_order. rewrite Hsm. apply N.le_refl.
    + left. rewrite Hthis. reflexivity.
Qed.

Lemma ScheduleDelayedWorkTask_invariant (w w' : World) (pending : Task) :
  closure_is_null (task pending) = false ->
  live w -> orders_ok w ->
  TaskQueueImpl.ScheduleDelayedWorkTask pending w = Some (tt, w') ->
  live w' /\ orders_ok w'.
Proof.
  intros Hcb Hlive Hok.
  cbv [TaskQueueImpl.ScheduleDelayedWorkTask bind main get_queue ret time_domain_Now
       deref_ptr].
  cbv beta iota.
  pose proof (proj1 Hlive) as (Htd & _). rewrite Htd. cbv beta iota.
  destruct (delayed_run_time pending <=? TimeDomain.Now (the_time_domain w))%Z.
  - cbv [TaskQueueImpl.push_delayed_incoming_queue update_main bind get_queue put_queue].
    cbv beta iota.
    fold (pushed_world (set_delayed_run_time (TimeDomain.Now (the_time_domain w)) pending) w).
    destruct (@pushed_world_invariant
                (set_delayed_run_time (TimeDomain.Now (the_time_domain w)) pending) w
                Hcb Hlive Hok) as [Hlive0 Hok0].
    apply MoveReadyDelayedTasksToWorkQueue_invariant; assumption.
  - cbv [TaskQueueImpl.PushOntoDelayedIncomingQueueFromMainThread
           TaskQueueImpl.push_delayed_incoming_queue update_main bind get_queue
           put_queue ret].
    cbv beta iota. fold (pushed_world pending w).
    destruct (@pushed_world_invariant pending w Hcb Hlive Hok) as [Hlive0 Hok0].
    apply UpdateDelayedWakeUp_invariant; assumption.
Qed.

(** ** The work queues along the steps *)

Lemma wake_up_rescheduled_work_queues (now : TimeTicks) (w w' : World) :
  wake_up_rescheduled now w w' -> work_queues_in_order w -> work_queues_in_order w'.
Proof.
  intros (s & _ & Hthis & Hsm & _).
  apply work_queues_in_order_same; try (rewrite Hthis; reflexivity).
  unfold next_order. rewrite Hsm. apply N.le_refl.
Qed.

Lemma PostTask_work_queues (w w' : World) (posted : PostedTask)
      (current_thread : CurrentThread) :
  closure_is_null (callback posted) = false ->
  registered (this w) -> work_queues_in_order w ->
  TaskQueueImpl.PostTask posted current_thread w = Some (tt, w') ->
  work_queues_in_order w'.
Proof.
  intros Hcallback Hreg Hwq. unfold TaskQueueImpl.PostTask.
  destruct (delay posted =? 0)%Z; [|destruct current_thread].
  - destruct (@PostImmediateTaskImpl_effect w posted current_thread Hcallback Hreg)
      as (w1 & E & t & Hthis & _ & _ & _ & _ & _ & Hnext & _).
    intro E'. rewrite E' in E. injection E as <-.
    refine (@work_queues_in_order_same w w' _ _ _ _ Hwq);
      try (rewrite Hthis; reflexivity).
    rewrite Hnext. lia.
  - destruct (@PostDelayedTaskImpl_main_effect w posted Hcallback Hreg)
      as (w2 & E & t & w1 & _ & _ & _ & _ & Hw1 & _ & Hnext & _ & _ & Hre).
    intro E'. rewrite E' in E. injection E as <-.
    apply (@wake_up_rescheduled_work_queues _ w1 w' Hre).
    refine (@work_queues_in_order_same w w1 _ _ _ _ Hwq);
      try (rewrite Hw1; reflexivity).
    rewrite Hnext. lia.
  - destruct (@PostDelayedTaskImpl_cross_effect w posted Hcallback Hreg)
      as (w1 & E & pending & helper & Hthis & _ & _ & _ & _ & _ & _ & _ & Hnext & _).
    intro E'. rewrite E' in E. injection E as <-.
    refine (@work_queues_in_order_same w w' _ _ _ _ Hwq);
      try (rewrite Hthis; reflexivity).
    rewrite Hnext. lia.
Qed.

Lemma ReclaimMemory_work_queues (w w' : World) (now : TimeTicks) :
  registered (this w) -> work_queues_in_order w ->
  TaskQueueImpl.ReclaimMemory now w = Some (tt, w') -> work_queues_in_order w'.
Proof.
  intros Hreg Hwq E.
  destruct (@ReclaimMemory_effect w now Hreg) as (w'' & E' & H).
  rewrite E in E'. injection E' as <-.
  destruct (DelayedIncomingQueue.empty _); [subst w'; exact Hwq|].
  destruct H as (w1 & Hthis1 & _ & Hsm1 & Hre).
  apply (@wake_up_rescheduled_work_queues _ w1 w' Hre).
  refine (@work_queues_in_order_same w w1 _ _ _ _ Hwq);
    try (rewrite Hthis1; reflexivity).
  unfold next_order. rewrite Hsm1. apply N.le_refl.
Qed.

Lemma pushed_world_work_queues (t : Task) (w : World) :
  work_queues_in_order w -> work_queues_in_order (pushed_world t w).
Proof.
  apply work_queues_in_order_same; reflexivity.
Qed.

Lemma UpdateDelayedWakeUp_work_queues (w w' : World) (now : TimeTicks) :
  registered (this w) -> work_queues_in_order w ->
  TaskQueueImpl.UpdateDelayedWakeUp now w = Some (tt, w') -> work_queues_in_order w'.
Proof.
  intros Hreg Hwq E.
  destruct (@UpdateDelayedWakeUp_effect now w Hreg) as (w'' & E' & Hre).
  rewrite E in E'. injection E' as <-.
  exact (@wake_up_rescheduled_work_queues _ w w' Hre Hwq).
Qed.

(** The tasks that the move appends to the delayed work queue carry enqueue
    orders that the sequence manager gives out during the move, above every
    order of the tasks already there. *)
Lemma MoveReadyDelayedTasksToWorkQueue_work_queues (w w' : World) (now : TimeTicks) :
  live w -> work_queues_in_order w ->
  TaskQueueImpl.MoveReadyDelayedTasksToWorkQueue now w = Some (tt, w') ->
  work_queues_in_order w'.
Proof.
  intros [Hreg [Hheap _]] Hwq E.
  destruct (@MoveReadyDelayedTasksToWorkQueue_loop_spec now (queue_of w) w Hreg
              eq_refl Hheap) as (w1 & E1 & Hmoved).
  pose proof (@MoveReadyDelayedTasksToWorkQueue_loop_steady now _ w w1 Hreg E1) as Hst.
  destruct (@UpdateDelayedWakeUp_effect now w1 (proj1 Hst Hreg)) as (w2 & E2 & Hre).
  assert (E' : TaskQueueImpl.MoveReadyDelayedTasksToWorkQueue now w = Some (tt, w2)).
  { destruct Hreg as (_ & _ & _ & (dwq & Hdwq) & _).
    cbv [TaskQueueImpl.MoveReadyDelayedTasksToWorkQueue bind main get_queue ret deref].
    cbv beta iota. rewrite Hdwq. cbv beta iota.
    unfold queue_of in E1. unfold DelayedIncomingQueue.size. rewrite E1. exact E2. }
  rewrite E in E'. injection E' as <-.
  apply (@wake_up_rescheduled_work_queues _ w1 w' Hre).
  destruct (@work_queues_in_order_elim w Hwq)
    as (Hsync & ti & td & Hi & Hd & Oi & Od & Hb).
  pose proof (@MoveReadyDelayedTasksToWorkQueue_loop_sync now _ w w1 Hreg E1 Hsync)
    as Hsync1.
  destruct Hmoved as (Hreg1 & _ & Hle & moved & Htasks & _ & Hrange & Omoved & _).
  destruct Hst as (_ & _ & _ & _ & Hiwq & _).
  unfold delayed_work_queue_tasks in Htasks.
  destruct Hreg1 as (_ & _ & _ & (dwq1 & Hdwq1) & _).
  destruct (delayed_work_queue (main_thread_only (this w))) as [dwq|];
    [|discriminate].
  cbn in Hd. injection Hd as Hd. rewrite Hdwq1, Hd in Htasks.
  apply (@work_queues_in_order_intro w1 ti (td ++ moved)); auto.
  - congruence.
  - rewrite Hdwq1. cbn. rewrite Htasks. reflexivity.
  - apply (@in_enqueue_order_app td moved (next_order w)); auto.
    eapply Forall_impl; [|exact Hrange]. cbn. intros; lia.
  - apply Forall_app. split.
    + eapply Forall_impl; [|exact Hb]. cbn. intros; lia.
    + eapply Forall_impl; [|exact Hrange]. cbn. intros; lia.
Qed.

Lemma ScheduleDelayedWorkTask_work_queues (w w' : World) (pending : Task) :
  closure_is_null (task pending) = false ->
  live w -> orders_ok w -> work_queues_in_order w ->
  TaskQueueImpl.ScheduleDelayedWorkTask pending w = Some (tt, w') ->
  work_queues_in_order w'.
Proof.
  intros Hcb Hlive Hok Hwq.
  cbv [TaskQueueImpl.ScheduleDelayedWorkTask bind main get_queue ret time_domain_Now
       deref_ptr].
  cbv beta iota.
  pose proof (proj1 Hlive) as (Htd & _). rewrite Htd. cbv beta iota.
  destruct (delayed_run_time pending <=? TimeDomain.Now (the_time_domain w))%Z.
  - cbv [TaskQueueImpl.push_delayed_incoming_queue update_main bind get_queue put_queue].
    cbv beta iota.
    fold (pushed_world (set_delayed_run_time (TimeDomain.Now (the_time_domain w)) pending) w).
    destruct (@pushed_world_invariant
                (set_delayed_run_time (TimeDomain.Now (the_time_domain w)) pending) w
                Hcb Hlive Hok) as [Hlive0 _].
    apply MoveReadyDelayedTasksToWorkQueue_work_queues;
      [exact Hlive0 | apply pushed_world_work_queues; exact Hwq].
  - cbv [TaskQueueImpl.PushOntoDelayedIncomingQueueFromMainThread
           TaskQueueImpl.push_delayed_incoming_queue update_main bind get_queue
           put_queue ret].
    cbv beta iota. fold (pushed_world pending w).
    destruct (@pushed_world_invariant pending w Hcb Hlive Hok) as [Hlive0 _].
    apply UpdateDelayedWakeUp_work_queues;
      [exact (proj1 Hlive0) | apply pushed_world_work_queues; exact Hwq].
Qed.

(** The reload hands the immediate work queue the tasks of the incoming
    queue, which are in enqueue order. *)
Lemma ReloadEmptyImmediateWorkQueue_work_queues (w w' : World) :
  registered (this w) -> orders_ok w -> work_queues_in_order w ->
  TaskQueueImpl.ReloadEmptyImmediateWorkQueue w = Some (tt, w') ->
  work_queues_in_order w'.
Proof.
  intros Hreg Hok Hwq.
  destruct (@work_queues_in_order_elim w Hwq)
    as (Hsync & ti & td & Hi & Hd & Oi & Od & Hb).
  destruct (@TakeImmediateIncomingQueueTasks_effect w Hreg)
    as (w1 & E & _ & _ & Htasks & _ & Hdwq & _ & _ & Hsm & _).
  destruct (@TakeImmediateIncomingQueueTasks_sync w Hreg Hsync) as (w2 & E2 & Hsync1).
  rewrite E in E2. injection E2 as <-.
  assert (Hwq1 : work_queues_in_order w1).
  { apply (@work_queues_in_order_intro
             w1 (immediate_incoming_queue (any_thread_ (this w))) td); auto.
    - congruence.
    - apply Hok.
    - unfold next_order. rewrite Hsm. exact Hb. }
  cbv [TaskQueueImpl.ReloadEmptyImmediateWorkQueue bind get_queue ret call].
  rewrite E. cbv beta iota.
  destruct (_ && _); intro E'; injection E' as <-; [|exact Hwq1].
  refine (@work_queues_in_order_same w1 _ _ _ _ _ Hwq1); reflexivity.
Qed.

(** Every step keeps the queue live, its enqueue orders in order and its
    work queues in order. *)
Lemma queue_step_invariant (w w' : World) :
  live w -> orders_ok w -> work_queues_in_order w -> queue_step w w' ->
  live w' /\ orders_ok w' /\ work_queues_in_order w'.
Proof.
  intros [Hreg Hq] Hok Hwq Hstep.
  pose proof (@orders_ok_preserved w Hreg (proj1 Hq) Hok)
    as (_ & Hpost & Hins & Hrem & Hat & Hreload & Hmove).
  pose proof (@delayed_queue_ok_preserved w Hreg Hq) as (Lpost & Lmove & Lreclaim).
  destruct Hstep as [posted ct w w' Hcb E|pos w w' E|time w w' E|w w' E
                    |iwq w w' Hiwq Hempty E|now w w' E|pending w w' Hcb E|now w w' E
                    |w w' Hlive Hwq' Hinc Hfence Hnext].
  - destruct (Hpost posted ct Hcb) as (w1 & E1 & Hok1).
    destruct (Lpost posted ct Hcb) as (w2 & E2 & Hreg2 & Hq2).
    rewrite E in E1, E2. injection E1 as <-. injection E2 as <-.
    split; [split; assumption | split; [assumption|]].
    exact (@PostTask_work_queues w w' posted ct Hcb Hreg Hwq E).
  - destruct (Hins pos) as (w1 & E1 & Hok1).
    destruct (@InsertFence_effect w pos Hreg)
      as (w2 & E2 & Hreg2 & _ & _ & Hle & _ & _ & Ht & _ & _ & Hsync).
    rewrite E in E1, E2. injection E1 as <-. injection E2 as <-.
    split; [split; [exact Hreg2|]|split; [exact Hok1|]].
    + exact (@delayed_queue_ok_same w w' (proj1 Ht) Hq).
    + exact (@work_queues_in_order_fenced w w' Ht Hsync Hle Hwq).
  - destruct (Hat time) as (w1 & E1 & Hok1).
    destruct (@InsertFenceAt_effect w time Hreg)
      as (w2 & E2 & Hreg2 & _ & _ & Hle & _ & Ht & _ & _ & Hsync).
    rewrite E in E1, E2. injection E1 as <-. injection E2 as <-.
    split; [split; [exact Hreg2|]|split; [exact Hok1|]].
    + exact (@delayed_queue_ok_same w w' (proj1 Ht) Hq).
    + exact (@work_queues_in_order_fenced w w' Ht Hsync Hle Hwq).
  - destruct Hrem as (w1 & E1 & Hok1).
    destruct (@RemoveFence_effect w Hreg)
      as (w2 & E2 & Hreg2 & _ & _ & Hle & _ & Ht & _ & _ & Hsync & _).
    rewrite E in E1, E2. injection E1 as <-. injection E2 as <-.
    split; [split; [exact Hreg2|]|split; [exact Hok1|]].
    + exact (@delayed_queue_ok_same w w' (proj1 Ht) Hq).
    + exact (@work_queues_in_order_fenced w w' Ht Hsync Hle Hwq).
  - destruct (Hreload iwq Hiwq Hempty) as (w1 & E1 & Hok1).
    rewrite E in E1. injection E1 as <-.
    split; [|split; [exact Hok1|]].
    + destruct (@TakeImmediateIncomingQueueTasks_effect w Hreg)
        as (w2 & E2 & Hreg2 & _ & _ & Hd & _).
      revert E.
      cbv [TaskQueueImpl.ReloadEmptyImmediateWorkQueue bind get_queue ret call].
      rewrite E2. cbv beta iota.
      destruct (_ && _); intro E; injection E as <-;
        (split; [exact Hreg2 | refine (@delayed_queue_ok_same w _ Hd Hq)]).
    + exact (@ReloadEmptyImmediateWorkQueue_work_queues w w' Hreg Hok Hwq E).
  - destruct (@MoveReadyDelayedTasksToWorkQueue_invariant w w' now (conj Hreg Hq) Hok E)
      as [Hlive' Hok'].
    split; [exact Hlive'|split; [exact Hok'|]].
    exact (@MoveReadyDelayedTasksToWorkQueue_work_queues w w' now (conj Hreg Hq) Hwq E).
  - destruct (@ScheduleDelayedWorkTask_invariant w w' pending Hcb (conj Hreg Hq) Hok E)
      as [Hlive' Hok'].
    split; [exact Hlive'|split; [exact Hok'|]].
    exact (@ScheduleDelayedWorkTask_work_queues w w' pending Hcb (conj Hreg Hq) Hok Hwq E).
  - destruct (Lreclaim now) as (w2 & E2 & Hreg2 & Hq2).
    rewrite E in E2. injection E2 as <-.
    split; [split; assumption|split].
    + exact (@ReclaimMemory_orders_ok w w' now Hreg Hok E).
    + exact (@ReclaimMemory_work_queues w w' now Hreg Hwq E).
  - split; [exact Hlive|split; [|exact Hwq']].
    refine (@orders_ok_frame w w' Hinc Hnext _ Hok). left. exact Hfence.
Qed.

(** Enabling or disabling the queue and setting its observer are steps of
    the last kind. *)
Lemma SetQueueEnabled_step (w w' : World) (enabled : bool) (r : list SelectorCall) :
  live w -> work_queues_in_order w ->
  is_enabled (main_thread_only (this w)) = negb enabled ->
  TaskQueueImpl.SetQueueEnabled enabled w = Some (r, w') ->
  queue_step w w'.
Proof.
  intros [Hreg Hq] Hwq Hchange E.
  destruct (@SetQueueEnabled_effect w enabled Hreg Hchange)
    as (r' & w'' & E' & _ & w1 & w2 & Hw1 & _ & _ & _ & Hre & Hreg' & _ & Ht & Huntouched
        & _ & _ & Hnext & _).
  rewrite E in E'. injection E' as <- <-.
  destruct Hre as (s & _ & Hw2 & _).
  destruct Ht as (Hd & Hinc & _). destruct Huntouched as (Hi & Hdw & Hfence & _).
  apply qstep_other.
  - split; [exact Hreg'|].
    refine (@delayed_queue_ok_same w w' _ Hq). rewrite Hd, Hw2, Hw1. reflexivity.
  - refine (@work_queues_in_order_same w w' _ _ _ Hnext Hwq).
    + rewrite Hi, Hw2, Hw1. reflexivity.
    + rewrite Hdw, Hw2, Hw1. reflexivity.
    + rewrite Hfence, Hw2, Hw1. reflexivity.
  - rewrite Hinc, Hw2, Hw1. reflexivity.
  - rewrite Hfence, Hw2, Hw1. reflexivity.
  - exact Hnext.
Qed.

Lemma SetObserver_step (w w' : World) (observer : Ptr) :
  live w -> work_queues_in_order w ->
  TaskQueueImpl.SetObserver observer w = Some (tt, w') -> queue_step w w'.
Proof.
  intros [Hreg Hq] Hwq E.
  destruct w as [sm td [[] [] ? ? ? ?] cs os].
  cbn in E. injection E as <-.
  apply qstep_other.
  - split; [exact Hreg | exact Hq].
  - exact Hwq.
  - reflexivity.
  - reflexivity.
  - apply N.le_refl.
Qed.

Lemma in_enqueue_order_tl (ts : list Task) :
  in_enqueue_order ts -> in_enqueue_order (tl ts).
Proof.
  unfold in_enqueue_order. intros [|x l Hs _]; [constructor | exact Hs].
Qed.

(** Running the task at the front of a work queue is such a step as well. *)
Lemma task_taken_step (w : World) :
  live w -> work_queues_in_order w ->
  queue_step w (immediate_task_taken w) /\ queue_step w (delayed_task_taken w).
Proof.
  intros [Hreg Hq] Hwq.
  destruct (@work_queues_in_order_elim w Hwq)
    as ([Fi Fd] & ti & td & Hi & Hd & Oi & Od & Hb).
  pose proof Hreg as (A & B & (iwq & Ei) & (dwq & Ed) & F).
  rewrite Ei in Hi, Fi. rewrite Ed in Hd, Fd. cbn in Hi, Hd, Fi, Fd.
  injection Hi as Hi. injection Hd as Hd.
  split; apply qstep_other; try reflexivity; try apply N.le_refl.
  - split; [|exact Hq]. unfold registered. cbn. rewrite Ei. cbn. eauto 10.
  - apply (@work_queues_in_order_intro (immediate_task_taken w) (tl ti) td).
    + unfold fences_in_sync. cbn. rewrite Ei, Ed. cbn. split; assumption.
    + cbn. rewrite Ei. cbn. rewrite Hi. reflexivity.
    + cbn. rewrite Ed. cbn. rewrite Hd. reflexivity.
    + apply in_enqueue_order_tl, Oi.
    + exact Od.
    + exact Hb.
  - split; [|exact Hq]. unfold registered. cbn. rewrite Ed. cbn. eauto 10.
  - apply (@work_queues_in_order_intro (delayed_task_taken w) ti (tl td)).
    + unfold fences_in_sync. cbn. rewrite Ei, Ed. cbn. split; assumption.
    + cbn. rewrite Ei. cbn. rewrite Hi. reflexivity.
    + cbn. rewrite Ed. cbn. rewrite Hd. reflexivity.
    + exact Oi.
    + apply in_enqueue_order_tl, Od.
    + destruct td; [constructor | exact (Forall_inv_tail Hb)].
Qed.

Lemma fresh_queue_orders_ok (w : World) : fresh_queue w -> orders_ok w.
Proof.
  intros (_ & Hinc & Hfence & Hnext & _). unfold orders_ok. rewrite Hinc, Hfence.
  unfold EnqueueOrder.none, EnqueueOrder.blocking_fence in *.
  repeat split; try constructor; lia.
Qed.

Lemma fresh_queue_work_queues (w : World) : fresh_queue w -> work_queues_in_order w.
Proof.
  intros (_ & _ & _ & _ & Hi & Hd & Hsync).
  apply (@work_queues_in_order_intro w [] []); auto; constructor.
Qed.

Lemma posting_reachable_invariant (w : World) :
  posting_reachable w -> live w /\ orders_ok w /\ work_queues_in_order w.
Proof.
  induction 1 as [w Hfresh|w w' _ (Hlive & Hok & Hwq) Hstep].
  - split; [apply Hfresh|].
    split; [exact (@fresh_queue_orders_ok w Hfresh)
           | exact (@fresh_queue_work_queues w Hfresh)].
  - exact (@queue_step_invariant w w' Hlive Hok Hwq Hstep).
Qed.

(** C1: in every state that a queue reaches from its construction by posts,
    fence operations, reloads of the empty immediate work queue, moves of the
    ready delayed tasks and steps that leave the incoming queue and the fence
    alone, the enqueue orders of the incoming queue increase and none of them
    is the current fence, the two work queues carry the current fence and
    hold their tasks in enqueue order; and when the current fence is set,
    [BlockedByFence] returns true exactly when no task of the immediate work
    queue, of the delayed work queue or at the front of the immediate
    incoming queue has an enqueue order strictly below the fence. *)
Theorem BlockedByFence_iff_none_below (w : World) (Hreach : posting_reachable w) :
  orders_ok w
  /\ exists iwq dwq,
       work_queues_ok (this w) iwq dwq
       /\ (EnqueueOrder.is_set (current_fence (main_thread_only (this w))) = true ->
           exists b,
             TaskQueueImpl.BlockedByFence (this w) = Some b
             /\ (b = true <->
                 none_below (current_fence (main_thread_only (this w))) (tasks_ iwq)
                 /\ none_below (current_fence (main_thread_only (this w))) (tasks_ dwq)
                 /\ none_below (current_fence (main_thread_only (this w)))
                               (front_of (immediate_incoming_queue
                                            (any_thread_ (this w)))))).
Proof.
  destruct (@posting_reachable_invariant w Hreach)
    as (_ & Hok & iwq & dwq & Hwq & _).
  split; [exact Hok|]. exists iwq, dwq. split; [exact Hwq|].
  exact (@orders_ok_blocked w Hok iwq dwq Hwq).
Qed.

Lemma posted_after_fence_world_reachable : posting_reachable posted_after_fence_world.
Proof.
  apply (@reachable_queue_step fenced_world).
  - apply (@reachable_queue_step empty_sample_world).
    + apply reachable_fresh. unfold fresh_queue, live, delayed_queue_ok.
      split; [split; [apply sample_queue_registered|]|].
      * split; constructor.
      * unfold fences_in_sync. repeat split.
    + apply (@qstep_InsertFence kNow). vm_compute. reflexivity.
  - apply (@qstep_PostTask
             (mkPostedTask (user_closure 9 false) 0%Z kNestable 0 0%Z) kNotMainThread).
    + reflexivity.
    + vm_compute. reflexivity.
Qed.

Lemma BlockedByFence_iff_none_below_witness :
  current_fence (main_thread_only (this posted_after_fence_world)) = 10%N
  /\ map (fun t : Task => enqueue_order t)
         (immediate_incoming_queue (any_thread_ (this posted_after_fence_world)))
     = [11%N]
  /\ orders_ok posted_after_fence_world
  /\ exists iwq dwq,
       work_queues_ok (this posted_after_fence_world) iwq dwq
       /\ (EnqueueOrder.is_set
             (current_fence (main_thread_only (this posted_after_fence_world))) = true ->
           exists b,
             TaskQueueImpl.BlockedByFence (this posted_after_fence_world) = Some b
             /\ (b = true <->
                 none_below
                   (current_fence (main_thread_only (this posted_after_fence_world)))
                   (tasks_ iwq)
                 /\ none_below
                      (current_fence (main_thread_only (this posted_after_fence_world)))
                      (tasks_ dwq)
                 /\ none_below
                      (current_fence (main_thread_only (this posted_after_fence_world)))
                      (front_of (immediate_incoming_queue
                                   (any_thread_ (this posted_after_fence_world)))))).
Proof.
  split; [vm_compute; reflexivity|]. split; [vm_compute; reflexivity|].
  exact (@BlockedByFence_iff_none_below posted_after_fence_world
           posted_after_fence_world_reachable).
Defined.
